(** * TFNetworkLayer: the layer construction protocol of the network graph

    A shallow embedding of the parts of [TFNetworkLayer.py] that decide the
    properties of its specification: source concatenation with its
    per-network cache and optional dropout, the slice and reduce layers'
    bookkeeping of dynamic sequence lengths, the recurrent layer's cell
    set-up, the regularisation penalty, target defaulting, and the CTC loss.

    Python objects with identity (tensor descriptors, their
    [size_placeholder] dicts, networks) live in an explicit store; functions
    that read or mutate them are written in a state-and-exception monad in
    which, as in Python, the mutations made before an exception persist.
    Tensors of the numeric engine are symbolic graph nodes. *)

From Stdlib Require Import ZArith QArith Qcanon Lia Ascii.
From Stdlib Require DecimalString.
From stdpp Require Import gmap strings list fin_maps sorting.
#[local] Set Warnings "-register-all".
Local Open Scope Z_scope.

(** ** Python scalars and exceptions *)

Inductive Exception :=
| AssertionError (msg : string)
| AttributeError (msg : string)
| TypeError (msg : string)
| KeyError (msg : string)
| IndexError (msg : string)
| ValueError (msg : string)
| ZeroDivisionError
| PyException (msg : string).

Inductive Result (A : Type) :=
| Ok (a : A)
| Raise (e : Exception).
Arguments Ok {A} a.
Arguments Raise {A} e.

Definition is_ok {A} (r : Result A) : bool :=
  match r with Ok _ => true | Raise _ => false end.

(** Truthiness ([if x:] / [not x]) of the option types the layers take. *)
Definition truthy_str (s : option string) : bool :=
  match s with Some s => negb (String.eqb s "") | None => false end.

Definition truthy_int (z : option Z) : bool :=
  match z with Some z => negb (z =? 0) | None => false end.

(** [str.lower()] on ASCII letters. *)
Definition lower_ascii (c : ascii) : ascii :=
  let n := nat_of_ascii c in
  if ((65 <=? n)%nat && (n <=? 90)%nat)%bool then ascii_of_nat (n + 32) else c.

Fixpoint lower (s : string) : string :=
  match s with
  | EmptyString => EmptyString
  | String c s' => String (lower_ascii c) (lower s')
  end.

(** ** Symbolic tensors

    A tensor handle is a node of the graph the numeric engine will run. The
    nodes the layers build directly have constructors of their own; every
    other engine or helper call is a [TCall] by name. *)

Inductive PySlice := Slice (start stop step : option Z).

Inductive Tensor :=
| TVar (id : nat)
| TInt (z : Z)
| TFloat (q : Qc)
| TAdd (a b : Tensor)
| TSub (a b : Tensor)
| TMul (a b : Tensor)
| TFloorDiv (a b : Tensor)
| TMaximum (a b : Tensor)
| TMinimum (a b : Tensor)
| TShapeAt (x : Tensor) (axis : Z)
| TGetItem (x : Tensor) (slices : list PySlice)
| TConcat (axis : Z) (values : list Tensor)
| TDropout (x : Tensor) (keep_prob : Qc) (noise_shape : list Z) (seed : nat)
| TCond (pred fn1 fn2 : Tensor)
| TReduce (mode : string) (x : Tensor) (axis : list Z) (keep_dims : bool)
| TCall (fn : string) (args : list Tensor).

Definition is_dropout (t : Tensor) : bool :=
  match t with TDropout _ _ _ _ => true | _ => false end.

(** ** The object store *)

Definition addr := nat.

Module Data.
Record t := mk {
  name : string;
  shape : list (option Z);
  dtype : string;
  sparse : bool;
  dim : option Z;
  batch_dim_axis : option Z;
  time_dim_axis : option Z;
  placeholder : option Tensor;
  size_placeholder : option addr
}.

Definition with_placeholder (p : option Tensor) (d : t) : t :=
  mk (name d) (shape d) (dtype d) (sparse d) (dim d) (batch_dim_axis d)
     (time_dim_axis d) p (size_placeholder d).

Definition with_size_placeholder (s : option addr) (d : t) : t :=
  mk (name d) (shape d) (dtype d) (sparse d) (dim d) (batch_dim_axis d)
     (time_dim_axis d) (placeholder d) s.

Definition with_axes (b tm : option Z) (d : t) : t :=
  mk (name d) (shape d) (dtype d) (sparse d) (dim d) b tm
     (placeholder d) (size_placeholder d).
End Data.

(** [d.setdefault(key, v)] on one key of a dict of keyword arguments. *)
Definition setdefault {A} (o : option A) (v : A) : option A :=
  match o with Some x => Some x | None => Some v end.

(** The keyword arguments of [Data(...)]: [None] is an omitted keyword. *)
Module OutType.
Record t := mk {
  name : option string;
  shape : option (list (option Z));
  dtype : option string;
  sparse : option bool;
  dim : option Z;
  batch_dim_axis : option (option Z);
  time_dim_axis : option (option Z)
}.

Definition of_dim (n : Z) : t := mk None None None None (Some n) None None.

Definition setdefault_name (v : string) (d : t) : t :=
  mk (setdefault (name d) v) (shape d) (dtype d) (sparse d) (dim d)
     (batch_dim_axis d) (time_dim_axis d).

Definition setdefault_shape (v : list (option Z)) (d : t) : t :=
  mk (name d) (setdefault (shape d) v) (dtype d) (sparse d) (dim d)
     (batch_dim_axis d) (time_dim_axis d).

Definition setdefault_dtype (v : string) (d : t) : t :=
  mk (name d) (shape d) (setdefault (dtype d) v) (sparse d) (dim d)
     (batch_dim_axis d) (time_dim_axis d).

Definition setdefault_dim (v : Z) (d : t) : t :=
  mk (name d) (shape d) (dtype d) (sparse d) (setdefault (dim d) v)
     (batch_dim_axis d) (time_dim_axis d).

Definition setdefault_batch_dim_axis (v : option Z) (d : t) : t :=
  mk (name d) (shape d) (dtype d) (sparse d) (dim d)
     (setdefault (batch_dim_axis d) v) (time_dim_axis d).

Definition setdefault_time_dim_axis (v : option Z) (d : t) : t :=
  mk (name d) (shape d) (dtype d) (sparse d) (dim d)
     (batch_dim_axis d) (setdefault (time_dim_axis d) v).
End OutType.

(** A Python number or tensor, as [get_constraints_value] accumulates it. *)
Inductive PyVal :=
| PInt (z : Z)
| PFloat (q : Qc)
| PTensor (t : Tensor).

Inductive TrainFlag :=
| TrainTrue
| TrainFalse
| TrainCond (t : Tensor).

(** A Python number given as an option of a layer ([L2],
    [spatial_smoothing]): an int or a float. *)
Inductive Number :=
| IntNum (z : Z)
| FloatNum (q : Qc).

Definition number_val (n : Number) : PyVal :=
  match n with
  | IntNum z => PInt z
  | FloatNum q => PFloat q
  end.

(** The truth value of an optional number: [None], [0] and [0.0] are false. *)
Definition truthy_number (n : option Number) : bool :=
  match n with
  | None => false
  | Some (IntNum z) => negb (z =? 0)
  | Some (FloatNum q) => negb (bool_decide (q = 0%Qc))
  end.

Inductive LossClass := CrossEntropyLoss | GenericCELoss | CtcLoss.

(** The classes for which [issubclass(v, LayerBase)] holds, in the order of
    their definition, with the class each one extends. *)
Inductive LayerType :=
| LayerBase_ | SourceLayer_ | _ConcatInputLayer_ | CopyLayer_ | ActivationLayer_
| BatchNormLayer_ | SliceLayer_ | LinearLayer_ | SoftmaxLayer_ | ConvLayer_ | PoolLayer_
| ReduceLayer_ | GetLastHiddenStateLayer_ | RnnCellLayer_ | RecLayer_ | FsaLayer_
| CombineLayer_ | SubnetworkLayer_ | FramewiseStatisticsLayer_.

#[global] Instance LayerType_eq_dec : EqDecision LayerType.
Proof. solve_decision. Defined.

Definition layer_globals : list LayerType :=
  [LayerBase_; SourceLayer_; _ConcatInputLayer_; CopyLayer_; ActivationLayer_;
   BatchNormLayer_; SliceLayer_; LinearLayer_; SoftmaxLayer_; ConvLayer_; PoolLayer_;
   ReduceLayer_; GetLastHiddenStateLayer_; RnnCellLayer_; RecLayer_; FsaLayer_;
   CombineLayer_; SubnetworkLayer_; FramewiseStatisticsLayer_].

Definition layer_base (v : LayerType) : option LayerType :=
  match v with
  | LayerBase_ => None
  | SourceLayer_ | _ConcatInputLayer_ | GetLastHiddenStateLayer_ | FsaLayer_
  | CombineLayer_ | SubnetworkLayer_ | FramewiseStatisticsLayer_ => Some LayerBase_
  | CopyLayer_ | SliceLayer_ | LinearLayer_ | ConvLayer_ | PoolLayer_ | ReduceLayer_
  | RnnCellLayer_ | RecLayer_ => Some _ConcatInputLayer_
  | ActivationLayer_ | BatchNormLayer_ => Some CopyLayer_
  | SoftmaxLayer_ => Some LinearLayer_
  end.

(** The [layer_class] a class body assigns, if it assigns one. *)
Definition own_layer_class (v : LayerType) : option (option string) :=
  match v with
  | LayerBase_ => Some None
  | SourceLayer_ => Some (Some "source")
  | _ConcatInputLayer_ => None
  | CopyLayer_ => Some (Some "copy")
  | ActivationLayer_ => Some (Some "activation")
  | BatchNormLayer_ => Some (Some "batch_norm")
  | SliceLayer_ => Some (Some "slice")
  | LinearLayer_ => Some (Some "linear")
  | SoftmaxLayer_ => Some (Some "softmax")
  | ConvLayer_ => Some (Some "conv")
  | PoolLayer_ => Some (Some "pool")
  | ReduceLayer_ => Some (Some "reduce")
  | GetLastHiddenStateLayer_ => Some (Some "get_last_hidden_state")
  | RnnCellLayer_ => Some (Some "rnn_cell")
  | RecLayer_ => Some (Some "rec")
  | FsaLayer_ => Some (Some "fsa")
  | CombineLayer_ => Some (Some "combine")
  | SubnetworkLayer_ => Some (Some "subnetwork")
  | FramewiseStatisticsLayer_ => Some (Some "framewise_statistics")
  end.

(** [v.layer_class]: the attribute of the class or of the nearest class it
    extends; the chains here are at most four classes long. *)
Fixpoint class_attr (depth : nat) (v : LayerType) : option string :=
  match own_layer_class v with
  | Some a => a
  | None =>
      match depth, layer_base v with
      | S depth', Some b => class_attr depth' b
      | _, _ => None
      end
  end.

Definition LayerType_layer_class (v : LayerType) : option string := class_attr 4 v.




Module LayerBase.
Record t := mk {
  id : nat;
  cls : LayerType;
  name : string;
  network : nat;
  output : addr;
  target : option string;
  loss : option LossClass;
  recurrent : bool;
  sources : list nat;
  L2 : option Number;
  _is_output_layer : option bool;
  spatial_smoothing : option Number;
  trainable : bool;
  params : list (string * Tensor);
  subnetwork : option nat
}.
End LayerBase.

Module ExternData.
Record t := mk {
  default_input : string;
  default_target : string;
  data : gmap string addr;
  used : gset string
}.
End ExternData.

Module Network.
Record t := mk {
  train_flag : TrainFlag;
  random_draws : nat;
  concat_sources_dropout_cache : gmap (list nat * Qc) addr;
  extern_data : ExternData.t;
  layers : gmap string LayerBase.t;
  total_constraints : PyVal
}.

Definition with_cache (c : gmap (list nat * Qc) addr) (n : t) : t :=
  mk (train_flag n) (random_draws n) c (extern_data n) (layers n) (total_constraints n).

Definition with_random_draws (k : nat) (n : t) : t :=
  mk (train_flag n) k (concat_sources_dropout_cache n) (extern_data n) (layers n) (total_constraints n).

Definition with_extern_data (e : ExternData.t) (n : t) : t :=
  mk (train_flag n) (random_draws n) (concat_sources_dropout_cache n) e (layers n) (total_constraints n).
End Network.

Record State := mkState {
  datas : gmap addr Data.t;
  dicts : gmap addr (gmap Z Tensor);
  networks : gmap nat Network.t;
  graph : list Tensor;
  cells : list (string * option Z)
}.

Definition with_datas (h : gmap addr Data.t) (st : State) : State :=
  mkState h (dicts st) (networks st) (graph st) (cells st).

Definition with_dicts (h : gmap addr (gmap Z Tensor)) (st : State) : State :=
  mkState (datas st) h (networks st) (graph st) (cells st).

Definition with_networks (n : gmap nat Network.t) (st : State) : State :=
  mkState (datas st) (dicts st) n (graph st) (cells st).

Definition with_graph (g : list Tensor) (st : State) : State :=
  mkState (datas st) (dicts st) (networks st) g (cells st).

Definition with_cells (c : list (string * option Z)) (st : State) : State :=
  mkState (datas st) (dicts st) (networks st) (graph st) c.

(** ** The state-and-exception monad *)

Definition M (A : Type) : Type := State → Result A * State.

#[global] Instance M_ret : MRet M := λ A a st, (Ok a, st).

#[global] Instance M_bind : MBind M := λ A B f m st,
  match m st with
  | (Ok a, st') => f a st'
  | (Raise e, st') => (Raise e, st')
  end.

Definition raise {A} (e : Exception) : M A := λ st, (Raise e, st).

Definition py_assert (b : bool) (msg : string) : M unit :=
  if b then mret tt else raise (AssertionError msg).

Definition lift_result {A} (r : Result A) : M A :=
  match r with Ok a => mret a | Raise e => raise e end.

Definition from_option {A} (o : option A) (e : Exception) : M A :=
  match o with Some a => mret a | None => raise e end.

Fixpoint for_each {A} (l : list A) (body : A → M unit) : M unit :=
  match l with
  | [] => mret tt
  | x :: l' => _ ← body x; for_each l' body
  end.

Fixpoint map_m {A B} (f : A → M B) (l : list A) : M (list B) :=
  match l with
  | [] => mret []
  | x :: l' => y ← f x; ys ← map_m f l'; mret (y :: ys)
  end.

(** A computation that neither reads nor changes the state. *)
Definition stateless {A} (m : M A) : Prop := ∃ r, ∀ st, m st = (r, st).

(** A computation that leaves the state as it is. *)
Definition readonly {A} (m : M A) : Prop := ∀ st r st', m st = (r, st') → st' = st.

(** Reading and writing objects. A reference that is not in the store
    cannot arise in Python; reading one is reported as an error. *)
Definition read_data (a : addr) : M Data.t := λ st,
  match datas st !! a with
  | Some d => (Ok d, st)
  | None => (Raise (PyException "dangling descriptor"), st)
  end.

Definition write_data (a : addr) (d : Data.t) : M unit := λ st,
  (Ok tt, with_datas (<[a := d]> (datas st)) st).

Definition new_data (d : Data.t) : M addr := λ st,
  let a := fresh (dom (datas st)) in
  (Ok a, with_datas (<[a := d]> (datas st)) st).

Definition read_dict (r : addr) : M (gmap Z Tensor) := λ st,
  match dicts st !! r with
  | Some m => (Ok m, st)
  | None => (Raise (PyException "dangling dict"), st)
  end.

Definition write_dict (r : addr) (m : gmap Z Tensor) : M unit := λ st,
  (Ok tt, with_dicts (<[r := m]> (dicts st)) st).

Definition new_dict (m : gmap Z Tensor) : M addr := λ st,
  let r := fresh (dom (dicts st)) in
  (Ok r, with_dicts (<[r := m]> (dicts st)) st).

Definition get_network (n : nat) : M Network.t := λ st,
  match networks st !! n with
  | Some net => (Ok net, st)
  | None => (Raise (PyException "dangling network"), st)
  end.

Definition put_network (n : nat) (net : Network.t) : M unit := λ st,
  (Ok tt, with_networks (<[n := net]> (networks st)) st).

(** Every engine call adds its node to the default graph. *)
Definition build (t : Tensor) : M Tensor := λ st,
  (Ok t, with_graph (graph st ++ [t]) st).

(** [data.placeholder = t] and [data.size_placeholder = r]. *)
Definition set_placeholder (a : addr) (p : Tensor) : M unit :=
  d ← read_data a; write_data a (Data.with_placeholder (Some p) d).

Definition set_size_placeholder (a : addr) (r : option addr) : M unit :=
  d ← read_data a; write_data a (Data.with_size_placeholder r d).

(** [d.copy()] of a dict: a new dict object with the same items.
    [None.copy()] is an AttributeError. *)
Definition dict_copy (r : option addr) : M addr :=
  match r with
  | Some r => m ← read_dict r; new_dict m
  | None => raise (AttributeError "'NoneType' object has no attribute 'copy'")
  end.

(** [network.random.randint(2 ** 31)]: the value drawn is identified by its
    position in the network's random stream. *)
Definition randint (n : nat) : M nat :=
  net ← get_network n;
  _ ← put_network n (Network.with_random_draws (S (Network.random_draws net)) net);
  mret (Network.random_draws net).

(** ** The interface to [TFUtil] and the numeric engine

    [TFUtil.Data], the helpers of [TFUtil] and the engine are consumed
    through this interface. Of [Data]'s constructor it is only required that
    it stores the attributes it is given and attaches no tensor. *)

Inductive CellKind := RNNCell | FusedRNNCell | RecSeqCellOp.

Class TFUtil := {
  Data_init : OutType.t → Data.t;
  Data_init_name : ∀ kw v, OutType.name kw = Some v → Data.name (Data_init kw) = v;
  Data_init_shape : ∀ kw v, OutType.shape kw = Some v → Data.shape (Data_init kw) = v;
  Data_init_dtype : ∀ kw v, OutType.dtype kw = Some v → Data.dtype (Data_init kw) = v;
  Data_init_sparse : ∀ kw v, OutType.sparse kw = Some v → Data.sparse (Data_init kw) = v;
  Data_init_dim : ∀ kw v, OutType.dim kw = Some v → Data.dim (Data_init kw) = Some v;
  Data_init_batch_dim_axis :
    ∀ kw v, OutType.batch_dim_axis kw = Some v → Data.batch_dim_axis (Data_init kw) = v;
  Data_init_time_dim_axis :
    ∀ kw v, OutType.time_dim_axis kw = Some v → Data.time_dim_axis (Data_init kw) = v;
  Data_init_placeholder : ∀ kw, Data.placeholder (Data_init kw) = None;
  Data_init_size_placeholder : ∀ kw, Data.size_placeholder (Data_init kw) = None;
  time_dim_axis_excluding_batch : Data.t → option Z;
  get_batch_axis_excluding_batch : Data.t → Z → option Z;
  batch_shape : Data.t → list (option Z);
  non_dynamic_batch_shape : Data.t → list Z;
  matches_dim_pattern : Data.t → Data.t → bool;
  get_placeholder_with_specific_batch_dim_axis : Data.t → option Z → Result Tensor;
  get_dynamic_batch_axes : Data.t → list Z;
  get_non_dynamic_axes : Data.t → list Z;
  get_axes : Data.t → bool → bool → list Z;
  is_time_major : Data.t → bool;
  have_tim_axis : Data.t → bool;
  batch_ndim : Data.t → Z;
  ndims : Tensor → option Z;
  static_dim : Tensor → Z → option Z;
  _rnn_cells_dict : gmap string (string * CellKind)
}.

(** Modelled from the spec: [Data.copy] of TFUtil, which is not part of the
    sources. A copy is a new descriptor object with the attributes and the
    tensor handle of the original and a dict of its own for the dynamic
    lengths, so that neither descriptor is affected by a later change of the
    other ("derive a copy, never mutate a shared descriptor in place"). *)
Definition Data_copy (a : addr) : M addr :=
  d ← read_data a;
  match Data.size_placeholder d with
  | Some r =>
      r' ← dict_copy (Some r);
      new_data (Data.with_size_placeholder (Some r') d)
  | None => new_data d
  end.

(** Modelled from the spec: [TFNetwork.cond_on_train], which is not part of
    the sources: "dropout is applied only when train_flag is statically or
    dynamically true". With a static flag only the chosen branch is built;
    with a run-time condition both are, under a conditional node. *)
Definition cond_on_train (network : nat) (fn_train fn_eval : M Tensor) : M Tensor :=
  net ← get_network network;
  match Network.train_flag net with
  | TrainTrue => fn_train
  | TrainFalse => fn_eval
  | TrainCond c => x ← fn_train; y ← fn_eval; build (TCond c x y)
  end.

(** ** Concatenation of sources *)

Section Concat.
Context `{!TFUtil}.

(** [tuple(src_layers)] as a dict key: layers hash and compare by identity. *)
Definition layer_tuple (src_layers : list LayerBase.t) : list nat :=
  LayerBase.id <$> src_layers.

(** [t[-1]] and [t[:-1]] of a tuple. *)
Definition last_item {A} (l : list A) : M A :=
  from_option (last l) (IndexError "tuple index out of range").

Definition all_but_last {A} (l : list A) : list A := removelast l.

(** [get_concat_sources_data_template]: data with no placeholders set. *)
Definition template_dim_step (acc : Z) (layer : LayerBase.t) : M Z :=
  o ← read_data (LayerBase.output layer);
  let shape := Data.shape o in
  last_dim ← last_item shape;
  _ ← py_assert (truthy_int last_dim) "source last-dim must be specified";
  match last_dim with
  | Some n => mret (acc + n)
  | None => raise (TypeError "unsupported operand type(s) for +=")
  end.

Fixpoint template_dim (acc : Z) (src_layers : list LayerBase.t) : M Z :=
  match src_layers with
  | [] => mret acc
  | layer :: rest => acc' ← template_dim_step acc layer; template_dim acc' rest
  end.

(** The [Data(...)] call of the template: the attributes of the first
    source, with the summed feature dimension. *)
Definition concat_template (o0 : Data.t) (dim : Z) : Data.t :=
  Data_init (OutType.mk
    (Some "concat_sources")
    (Some (all_but_last (Data.shape o0) ++ [Some dim]))
    (Some (Data.dtype o0))
    (Some false)
    (Some dim)
    (Some (Data.batch_dim_axis o0))
    (Some (Data.time_dim_axis o0))).

Definition get_concat_sources_data_template (src_layers : list LayerBase.t) : M addr :=
  _ ← py_assert (bool_decide (src_layers ≠ [])) "need source layers";
  dim ← template_dim 0 src_layers;
  src0 ← from_option (head src_layers) (IndexError "list index out of range");
  o0 ← read_data (LayerBase.output src0);
  new_data (concat_template o0 dim).

(** The checks [concat_sources] makes on one source. *)
Definition concat_check (data : Data.t) (prefix_shape : list (option Z))
    (layer : LayerBase.t) : M unit :=
  o ← read_data (LayerBase.output layer);
  _ ← py_assert (negb (Data.sparse o)) "sparse concat not supported";
  _ ← py_assert (bool_decide (Data.dtype o = Data.dtype data)) "incompatible dtype with layer";
  _ ← py_assert (bool_decide (time_dim_axis_excluding_batch o = time_dim_axis_excluding_batch data)) "";
  let shape := Data.shape o in
  p ← from_option (Data.placeholder o) (AttributeError "'NoneType' object has no attribute 'get_shape'");
  _ ← py_assert (bool_decide (ndims p = Some (Z.of_nat (length shape) + 1))) "";
  _ ← py_assert (bool_decide (shape ≠ [])) "source must not be a scalar of layer";
  _ ← py_assert (bool_decide (all_but_last shape = prefix_shape)) "incompatible concat with layer";
  last_dim ← last_item shape;
  py_assert (truthy_int last_dim) "source last-dim must be specified of layer".

Definition concat_value (batch_dim_axis : option Z) (layer : LayerBase.t) : M Tensor :=
  o ← read_data (LayerBase.output layer);
  lift_result (get_placeholder_with_specific_batch_dim_axis o batch_dim_axis).

Definition cache_store (network : nat) (key : list nat * Qc) (c : addr) : M unit :=
  net ← get_network network;
  put_network network
    (Network.with_cache (<[key := c]> (Network.concat_sources_dropout_cache net)) net).

(** [concat_sources]: data with placeholders set. *)
Definition concat_sources (src_layers : list LayerBase.t) : M addr :=
  _ ← py_assert (bool_decide (src_layers ≠ [])) "need source layers";
  src0 ← from_option (head src_layers) (IndexError "list index out of range");
  if bool_decide (length src_layers = 1%nat) then mret (LayerBase.output src0)
  else
    let network := LayerBase.network src0 in
    net ← get_network network;
    match Network.concat_sources_dropout_cache net !! (layer_tuple src_layers, 0%Qc) with
    | Some c => Data_copy c
    | None =>
        data ← get_concat_sources_data_template src_layers;
        d ← read_data data;
        let prefix_shape := all_but_last (Data.shape d) in
        _ ← for_each src_layers (concat_check d prefix_shape);
        values ← map_m (concat_value (Data.batch_dim_axis d)) src_layers;
        y ← build (TConcat (Z.of_nat (length prefix_shape) + 1) values);
        _ ← set_placeholder data y;
        o0 ← read_data (LayerBase.output src0);
        r ← dict_copy (Data.size_placeholder o0);
        _ ← set_size_placeholder data (Some r);
        c ← Data_copy data;
        _ ← cache_store network (layer_tuple src_layers, 0%Qc) c;
        mret data
    end.

(** The train branch of the dropout: [tf.nn.dropout] with a seed drawn from
    the network's random stream. *)
Definition fn_train (network : nat) (data : addr) (dropout : Qc) : M Tensor :=
  d ← read_data data;
  seed ← randint network;
  x ← from_option (Data.placeholder d) (ValueError "None values not supported");
  build (TDropout x (1 - dropout)%Qc (non_dynamic_batch_shape d) seed).

Definition fn_eval (data : addr) : M Tensor :=
  d ← read_data data;
  from_option (Data.placeholder d) (ValueError "None values not supported").

(** [concat_sources_with_opt_dropout]: the dropout is applied if the
    train flag is set. *)
Definition concat_sources_with_opt_dropout (src_layers : list LayerBase.t)
    (dropout : Qc) : M addr :=
  _ ← py_assert (bool_decide (src_layers ≠ [])) "need source layers";
  data ← concat_sources src_layers;
  src0 ← from_option (head src_layers) (IndexError "list index out of range");
  let network := LayerBase.network src0 in
  net ← get_network network;
  let dropout :=
    match Network.train_flag net with
    | TrainFalse => 0%Qc
    | _ => dropout
    end in
  if bool_decide (dropout = 0%Qc) then mret data
  else
    match Network.concat_sources_dropout_cache net !! (layer_tuple src_layers, dropout) with
    | Some c => Data_copy c
    | None =>
        _ ← py_assert (bool_decide (0 < dropout)%Qc && bool_decide (dropout < 1)%Qc) "";
        y ← cond_on_train network (fn_train network data dropout) (fn_eval data);
        _ ← set_placeholder data y;
        c ← Data_copy data;
        _ ← cache_store network (layer_tuple src_layers, dropout) c;
        mret data
    end.

(** The feature dimension of a descriptor: the last entry of its shape,
    when that entry is static. *)
Definition feature_dim (d : Data.t) : option Z := mjoin (last (Data.shape d)).

Definition layer_output (st : State) (layer : LayerBase.t) : option Data.t :=
  datas st !! LayerBase.output layer.

(** The sum of the sources' feature dimensions. *)
Definition sum_feature_dims (st : State) (src_layers : list LayerBase.t) : Z :=
  foldr (λ layer acc, default 0 (layer_output st layer ≫= feature_dim) + acc) 0 src_layers.

(** The descriptor [concat_sources] builds for the sources. *)
Definition template_of (st : State) (src_layers : list LayerBase.t) : option Data.t :=
  src0 ← head src_layers; o0 ← layer_output st src0;
  Some (concat_template o0 (sum_feature_dims st src_layers)).

(** A source's descriptor [o] disagrees with the descriptor [tmpl] being
    built in dtype, in the time axis (counted without the batch axis), or
    in the shape without the feature axis. *)
Definition mismatch (tmpl o : Data.t) : Prop :=
  Data.dtype o ≠ Data.dtype tmpl ∨
  time_dim_axis_excluding_batch o ≠ time_dim_axis_excluding_batch tmpl ∨
  all_but_last (Data.shape o) ≠ all_but_last (Data.shape tmpl).

(** A source that [concat_sources] can take next to the descriptor [tmpl]
    being built: it is dense, has a tensor of the rank of its shape with
    the batch axis, a static feature dimension other than zero, and a
    tensor in the batch-axis convention of [tmpl]. *)
Definition concat_ready (tmpl o : Data.t) : Prop :=
  Data.sparse o = false ∧
  (∃ p, Data.placeholder o = Some p ∧
        ndims p = Some (Z.of_nat (length (Data.shape o)) + 1)) ∧
  (∃ n, feature_dim o = Some n ∧ n ≠ 0) ∧
  is_ok (get_placeholder_with_specific_batch_dim_axis o (Data.batch_dim_axis tmpl)) = true.

(** The cache entry of the plain concatenation of these sources, if there
    is one, was stored by [concat_sources] for them: the sources agree and
    the entry has the summed feature dimension. *)
Definition cache_sound_for (st : State) (src_layers : list LayerBase.t) : Prop :=
  ∀ src0 net c,
    head src_layers = Some src0 → networks st !! LayerBase.network src0 = Some net →
    Network.concat_sources_dropout_cache net !! (layer_tuple src_layers, 0%Qc) = Some c →
    ∃ dc tmpl,
      datas st !! c = Some dc ∧ template_of st src_layers = Some tmpl ∧
      Data.dim dc = Some (sum_feature_dims st src_layers) ∧
      feature_dim dc = Some (sum_feature_dims st src_layers) ∧
      Forall (λ layer, ∃ o, layer_output st layer = Some o ∧ ¬ mismatch tmpl o) src_layers.

End Concat.

(** ** The cache and the descriptors handed out *)

(** A descriptor object is cached when some network's cache refers to it. *)
Definition cached (st : State) (c : addr) : Prop :=
  ∃ n net key, networks st !! n = Some net ∧
               Network.concat_sources_dropout_cache net !! key = Some c.

(** What can be observed of the descriptor object at [a]: its attributes,
    with the identity and the items of its [size_placeholder] dict. *)
Definition view (st : State) (a : addr) : option (Data.t * option (gmap Z Tensor)) :=
  d ← datas st !! a;
  Some (d, Data.size_placeholder d ≫= λ r, dicts st !! r).

(** The value of the descriptor at [a], whichever dict object holds its
    dynamic lengths. *)
Definition content (st : State) (a : addr) : option (Data.t * option (gmap Z Tensor)) :=
  d ← datas st !! a;
  Some (Data.with_size_placeholder None d, Data.size_placeholder d ≫= λ r, dicts st !! r).

(** The ways a holder of a descriptor can change it: assigning attributes
    ([data.placeholder = ...], [data.size_placeholder = ...], ...) and
    changing its [size_placeholder] dict in place. *)
Inductive Mutation :=
| SetAttrs (f : Data.t → Data.t)
| SetSizeItem (k : Z) (v : Tensor)
| DelSizeItem (k : Z).

Definition mutate (a : addr) (mu : Mutation) (st : State) : State :=
  match datas st !! a with
  | None => st
  | Some d =>
      match mu with
      | SetAttrs f => with_datas (<[a := f d]> (datas st)) st
      | SetSizeItem k v =>
          match Data.size_placeholder d ≫= λ r, (r,.) <$> dicts st !! r with
          | Some (r, m) => with_dicts (<[r := <[k := v]> m]> (dicts st)) st
          | None => st
          end
      | DelSizeItem k =>
          match Data.size_placeholder d ≫= λ r, (r,.) <$> dicts st !! r with
          | Some (r, m) => with_dicts (<[r := delete k m]> (dicts st)) st
          | None => st
          end
      end
  end.

(** A dict that a descriptor refers to exists. *)
Definition live_dicts (st : State) : Prop :=
  ∀ a d r, datas st !! a = Some d → Data.size_placeholder d = Some r →
           is_Some (dicts st !! r).

(** The descriptor at [c] shares its dict with no other descriptor. *)
Definition unshared (st : State) (c : addr) : Prop :=
  ∀ dc r a d, datas st !! c = Some dc → Data.size_placeholder dc = Some r →
              datas st !! a = Some d → Data.size_placeholder d = Some r → a = c.

(** The cache owns its descriptors: each exists and shares its dict with
    no other descriptor. *)
Definition cache_private (st : State) : Prop :=
  (∀ c, cached st c → is_Some (datas st !! c)) ∧
  (∀ c, cached st c → unshared st c) ∧
  live_dicts st.

(** The key of the plain concatenation in the cache. *)
Definition concat_key (src_layers : list LayerBase.t) : list nat * Qc :=
  (layer_tuple src_layers, 0%Qc).

(** The state a first concatenation of the sources leaves. *)
Definition concat_miss_state (st : State) (n : nat) (net : Network.t)
    (key : list nat * Qc) (da : Data.t) (m0 : gmap Z Tensor) (y : Tensor) : State :=
  let a := fresh (dom (datas st)) in
  let r := fresh (dom (dicts st)) in
  let da := Data.with_size_placeholder (Some r) da in
  let dicts1 := <[r := m0]> (dicts st) in
  let r2 := fresh (dom dicts1) in
  let datas1 := <[a := da]> (datas st) in
  let c := fresh (dom datas1) in
  mkState (<[c := Data.with_size_placeholder (Some r2) da]> datas1)
          (<[r2 := m0]> dicts1)
          (<[n := Network.with_cache
                    (<[key := c]> (Network.concat_sources_dropout_cache net)) net]>
             (networks st))
          (graph st ++ [y]) (cells st).

(** The dropout rate in effect: 0 when the network is known not to train. *)
Definition effective_dropout (net : Network.t) (dropout : Qc) : Qc :=
  match Network.train_flag net with
  | TrainFalse => 0%Qc
  | _ => dropout
  end.

(** ** Losses *)

Definition loss_recurrent (l : LossClass) : bool :=
  match l with CtcLoss => true | _ => false end.

(** [Loss.get_auto_output_layer_dim], overridden by [CtcLoss]: one added
    for the blank label. *)
Definition get_auto_output_layer_dim (l : LossClass) (target_dim : Z) : Z :=
  match l with
  | CtcLoss => target_dim + 1
  | _ => target_dim
  end.

(** The same call on a dimension that may be [None]. *)
Definition get_auto_output_layer_dim_opt (l : LossClass) (target_dim : option Z)
    : M (option Z) :=
  match target_dim, l with
  | Some n, _ => mret (Some (get_auto_output_layer_dim l n))
  | None, CtcLoss => raise (TypeError "unsupported operand type(s) for +")
  | None, _ => mret None
  end.

(** ** LayerBase *)

(** Modelled from the spec: [ExternData.has_data] and
    [TFNetwork.get_extern_data], which are not part of the sources: "a
    mapping from input key to a TensorDescriptor; each access must be
    markable as used". *)
Definition has_data (e : ExternData.t) (key : string) : bool :=
  bool_decide (is_Some (ExternData.data e !! key)).

Definition get_extern_data (network : nat) (key : string)
    (mark_data_key_as_used : bool) : M addr :=
  net ← get_network network;
  let e := Network.extern_data net in
  _ ← (if mark_data_key_as_used
       then put_network network (Network.with_extern_data
              (ExternData.mk (ExternData.default_input e) (ExternData.default_target e)
                 (ExternData.data e) ({[key]} ∪ ExternData.used e)) net)
       else mret tt);
  from_option (ExternData.data e !! key) (KeyError key).

Definition _static_get_target_value (target : option string) (network : nat)
    (mark_data_key_as_used : bool) : M (option addr) :=
  match target with
  | None => mret None
  | Some tg =>
      if (negb (truthy_str target) || String.eqb tg "none")%bool then mret None
      else
        net ← get_network network;
        if has_data (Network.extern_data net) tg
        then a ← get_extern_data network tg mark_data_key_as_used; mret (Some a)
        else
          match Network.layers net !! tg with
          | Some layer => mret (Some (LayerBase.output layer))
          | None => raise (PyException "target unknown")
          end
  end.

Section Layer.
Context `{!TFUtil}.

(** The default target of a layer that has a loss but no target. *)
Definition default_target_for (network : nat) (target : option string)
    (loss : option LossClass) : M (option string) :=
  if (bool_decide (is_Some loss) && negb (truthy_str target))%bool
  then net ← get_network network;
       mret (Some (ExternData.default_target (Network.extern_data net)))
  else mret target.

(** [LayerBase.get_out_data_from_opts] *)
Definition get_out_data_from_opts (network : nat) (name : string)
    (out_type : option OutType.t) (n_out : option Z) (target : option string)
    (sources : list LayerBase.t) (loss : option LossClass) : M addr :=
  target ← default_target_for network target loss;
  n_out ←
    (if (bool_decide (out_type = None :> option OutType.t) && bool_decide (n_out = None)
         && truthy_str target)%bool
     then
       tv ← _static_get_target_value target network false;
       tv ← from_option tv (AttributeError "'NoneType' object has no attribute 'dim'");
       td ← read_data tv;
       match loss with
       | Some l => get_auto_output_layer_dim_opt l (Data.dim td)
       | None => mret (Data.dim td)
       end
     else mret n_out);
  out_type ←
    match out_type with
    | None =>
        _ ← py_assert (truthy_int n_out) "";
        match n_out with
        | Some n => mret (OutType.of_dim n)
        | None => raise (AssertionError "")
        end
    | Some ot => mret ot
    end;
  let out_type := OutType.setdefault_name (name +:+ "_output") out_type in
  src0 ← match head sources with
         | Some s => o ← read_data (LayerBase.output s); mret (Some o)
         | None => mret None
         end;
  let out_type :=
    match src0 with
    | Some o => OutType.setdefault_dtype (Data.dtype o) out_type
    | None => out_type
    end in
  out_type ←
    match n_out with
    | Some n =>
        let out_type := OutType.setdefault_dim n out_type in
        _ ← py_assert (bool_decide (OutType.dim out_type = Some n)) "";
        mret out_type
    | None => mret out_type
    end;
  let out_type :=
    match src0 with
    | Some o =>
        let feat := match OutType.dim out_type with
                    | Some n => Some n
                    | None => Data.dim o
                    end in
        OutType.setdefault_shape (all_but_last (Data.shape o) ++ [feat]) out_type
    | None => out_type
    end in
  let out_type :=
    match src0, OutType.batch_dim_axis out_type with
    | Some o, None =>
        OutType.setdefault_time_dim_axis (Data.time_dim_axis o)
          (OutType.setdefault_batch_dim_axis (Data.batch_dim_axis o) out_type)
    | _, _ => out_type
    end in
  let output := Data_init out_type in
  a ← new_data output;
  match src0 with
  | Some o =>
      if matches_dim_pattern o output
      then r ← dict_copy (Data.size_placeholder o);
           _ ← set_size_placeholder a (Some r);
           mret a
      else mret a
  | None => mret a
  end.

(** [LayerBase.is_output_layer] *)
Definition is_output_layer (self : LayerBase.t) : bool :=
  match LayerBase._is_output_layer self with
  | Some b => b
  | None =>
      if truthy_str (LayerBase.target self) then true
      else if String.eqb (LayerBase.name self) "output" then true
      else false
  end.

End Layer.

(** A target is set when the attribute holds a non-empty string, which is
    what [if self.target:] tests here and in [LayerBase.__init__]. *)
Definition target_set (self : LayerBase.t) : Prop :=
  truthy_str (LayerBase.target self) = true.

(** ** Regularisation penalties *)

(** Python's [a + b] and [a * b] on numbers and tensors. An operation with
    a tensor operand builds a node; the number operand is converted. *)
Definition to_tensor (v : PyVal) : Tensor :=
  match v with PInt z => TInt z | PFloat q => TFloat q | PTensor t => t end.

Definition add_val (a b : PyVal) : PyVal :=
  match a, b with
  | PInt x, PInt y => PInt (x + y)
  | PInt x, PFloat y => PFloat (Q2Qc (inject_Z x) + y)%Qc
  | PFloat x, PInt y => PFloat (x + Q2Qc (inject_Z y))%Qc
  | PFloat x, PFloat y => PFloat (x + y)%Qc
  | _, _ => PTensor (TAdd (to_tensor a) (to_tensor b))
  end.

Definition mul_val (a b : PyVal) : PyVal :=
  match a, b with
  | PInt x, PInt y => PInt (x * y)
  | PInt x, PFloat y => PFloat (Q2Qc (inject_Z x) * y)%Qc
  | PFloat x, PInt y => PFloat (x * Q2Qc (inject_Z y))%Qc
  | PFloat x, PFloat y => PFloat (x * y)%Qc
  | _, _ => PTensor (TMul (to_tensor a) (to_tensor b))
  end.

(** A tensor result is a node added to the graph. *)
Definition py_result (v : PyVal) : M PyVal :=
  match v with
  | PTensor t => t ← build t; mret (PTensor t)
  | _ => mret v
  end.

Definition py_add (a b : PyVal) : M PyVal := py_result (add_val a b).

Definition py_mul (a b : PyVal) : M PyVal := py_result (mul_val a b).

(** [c is 0]: identity with the int object [0]. CPython keeps one object
    per small int, so an int result equal to 0 is that object; a float
    [0.0] and a tensor never are. *)
Definition is_int_zero_object (c : PyVal) : bool :=
  match c with PInt z => z =? 0 | _ => false end.

(** [c == 0] on numbers, for comparison with the identity test. *)
Definition py_eq_zero (c : PyVal) : bool :=
  match c with
  | PInt z => z =? 0
  | PFloat q => bool_decide (q = 0%Qc)
  | PTensor _ => false
  end.

(** [sorted(self.params.items())]: by parameter name. *)
Definition param_le (a b : string * Tensor) : Prop := String.leb a.1 b.1 = true.

#[global] Instance param_le_dec : RelDecision param_le.
Proof. intros a b. unfold param_le. apply _. Defined.

Fixpoint py_sum (acc : PyVal) (l : list Tensor) : M PyVal :=
  match l with
  | [] => mret acc
  | t :: l' => acc' ← py_add acc (PTensor t); py_sum acc' l'
  end.

Section Constraints.
Context `{!TFUtil}.

(** [LayerBase.get_params_l2_norm] *)
Definition get_params_l2_norm (self : LayerBase.t) : M PyVal :=
  losses ← map_m (λ p : string * Tensor, build (TCall "tf.nn.l2_loss" [p.2]))
                 (merge_sort param_le (LayerBase.params self));
  s ← py_sum (PInt 0) losses;
  py_mul (PInt 2) s.

Definition opt_int_tensor (z : option Z) : Tensor :=
  match z with Some n => TInt n | None => TCall "None" [] end.

Definition bool_tensor (b : bool) : Tensor := TInt (if b then 1 else 0).

(** [d[key]] on a [size_placeholder] that may be [None]. *)
Definition size_getitem (r : option addr) (key : option Z) : M Tensor :=
  r ← from_option r (TypeError "'NoneType' object is not subscriptable");
  m ← read_dict r;
  match key with
  | Some k => from_option (m !! k) (KeyError "size_placeholder")
  | None => raise (KeyError "None")
  end.

(** [LayerBase.get_output_spatial_smoothing_energy] *)
Definition get_output_spatial_smoothing_energy (self : LayerBase.t) : M Tensor :=
  o ← read_data (LayerBase.output self);
  x ← from_option (Data.placeholder o) (ValueError "None values not supported");
  energy ← build (TCall "spatial_smoothing_energy" [x; opt_int_tensor (Data.dim o)]);
  _ ← py_assert (have_tim_axis o) "";
  seq_lens ← size_getitem (Data.size_placeholder o) (time_dim_axis_excluding_batch o);
  energy ← build (TCall "flatten_with_seq_len_mask"
                    [energy; seq_lens; bool_tensor (is_time_major o)]);
  build (TCall "tf.reduce_sum" [energy]).

(** [LayerBase.get_constraints_value] *)
Definition LayerBase_get_constraints_value (self : LayerBase.t) : M (option PyVal) :=
  let c := PInt 0 in
  c ← (match LayerBase.L2 self with
       | Some l2 =>
           if truthy_number (Some l2)
           then n ← get_params_l2_norm self; x ← py_mul (number_val l2) n; py_add c x
           else mret c
       | None => mret c
       end);
  c ← (match LayerBase.spatial_smoothing self with
       | Some ss =>
           if truthy_number (Some ss)
           then e ← get_output_spatial_smoothing_energy self;
                x ← py_mul (number_val ss) (PTensor e); py_add c x
           else mret c
       | None => mret c
       end);
  if is_int_zero_object c then mret None else mret (Some c).

(** [SubnetworkLayer.get_constraints_value]. The subnetwork's
    [maybe_construct_objective] belongs to [TFNetwork], which is not part
    of the sources; it is a parameter here, and [total_constraints] is the
    attribute it leaves on the subnetwork. *)
Definition SubnetworkLayer_get_constraints_value
    (maybe_construct_objective : nat → M unit) (subnetwork : nat) : M (option PyVal) :=
  _ ← maybe_construct_objective subnetwork;
  net ← get_network subnetwork;
  let v := Network.total_constraints net in
  if is_int_zero_object v then mret None else mret (Some v).

(** Method resolution of [get_constraints_value]: [SubnetworkLayer] is the
    one class that overrides it and no class extends [SubnetworkLayer];
    every other layer uses the method of [LayerBase]. *)
Definition get_constraints_value (maybe_construct_objective : nat → M unit)
    (self : LayerBase.t) : M (option PyVal) :=
  if bool_decide (LayerBase.cls self = SubnetworkLayer_)
  then match LayerBase.subnetwork self with
       | Some n => SubnetworkLayer_get_constraints_value maybe_construct_objective n
       | None => raise (AttributeError "subnetwork")
       end
  else LayerBase_get_constraints_value self.

End Constraints.

(** No regularisation is configured: [self.L2] and [self.spatial_smoothing]
    are both false in Python's sense, that is [None] or zero. *)
Definition no_regularization_configured (self : LayerBase.t) : bool :=
  negb (truthy_number (LayerBase.L2 self)) &&
  negb (truthy_number (LayerBase.spatial_smoothing self)).

(** [self.L2] is a non-zero int and the layer has no parameter: the norm
    of the parameters is then the int [2 * 0] and the penalty the int
    [L2 * 0]. *)
Definition int_L2_without_params (self : LayerBase.t) : bool :=
  match LayerBase.L2 self with
  | Some (IntNum z) => negb (z =? 0) && bool_decide (LayerBase.params self = [])
  | _ => false
  end.


(** ** SliceLayer *)

Definition upper_ascii (c : ascii) : ascii :=
  let n := nat_of_ascii c in
  if ((97 <=? n)%nat && (n <=? 122)%nat)%bool then ascii_of_nat (n - 32) else c.

Fixpoint upper (s : string) : string :=
  match s with
  | EmptyString => EmptyString
  | String c s' => String (upper_ascii c) (upper s')
  end.

(** [d[key] = v] and [key in d] on a [size_placeholder] that may be [None]. *)
Definition size_setitem (r : option addr) (key : option Z) (v : Tensor) : M unit :=
  r ← from_option r (TypeError "'NoneType' object does not support item assignment");
  m ← read_dict r;
  match key with
  | Some k => write_dict r (<[k := v]> m)
  | None => raise (TypeError "size_placeholder key None")
  end.

Definition size_contains (r : option addr) (key : Z) : M bool :=
  r ← from_option r (TypeError "argument of type 'NoneType' is not iterable");
  m ← read_dict r;
  mret (bool_decide (is_Some (m !! key))).

Section Slice.
Context `{!TFUtil}.

(** [SliceLayer._get_axis] *)
Definition SliceLayer__get_axis (axis : option Z) (axis_kind : option string)
    (input_data : Data.t) : M (option Z) :=
  match axis with
  | Some ax =>
      _ ← py_assert (negb (truthy_str axis_kind)) "";
      _ ← py_assert ((0 <=? ax) && (ax <? Z.of_nat (length (batch_shape input_data)))) "";
      mret (Some ax)
  | None =>
      _ ← py_assert (truthy_str axis_kind) "";
      let axis_kind := upper (default "" axis_kind) in
      if String.eqb axis_kind "T" then
        _ ← py_assert (bool_decide (is_Some (Data.time_dim_axis input_data))) "";
        mret (Data.time_dim_axis input_data)
      else if String.eqb axis_kind "B" then
        _ ← py_assert (bool_decide (is_Some (Data.batch_dim_axis input_data))) "";
        mret (Data.batch_dim_axis input_data)
      else if String.eqb axis_kind "F" then
        let axes := get_axes input_data true true in
        _ ← py_assert (bool_decide (length axes = 1%nat)) "";
        mret (head axes)
      else mret None
  end.

(** The body of [SliceLayer.__init__] after the base-class constructor has
    set [self.input_data] and [self.output]. *)
Definition SliceLayer___init__ (input_data output : addr) (axis : option Z)
    (axis_kind : option string) (slice_start slice_end slice_step : option Z) : M unit :=
  inp ← read_data input_data;
  axis ← SliceLayer__get_axis axis axis_kind inp;
  axis ← from_option axis (TypeError "can't multiply sequence by non-int of type 'NoneType'");
  let dim_slice := Slice slice_start slice_end slice_step in
  let slices := replicate (Z.to_nat axis) (Slice None None None) ++ [dim_slice] in
  let axis_wo_batch := get_batch_axis_excluding_batch inp axis in
  _ ← set_size_placeholder output (Data.size_placeholder inp);
  let sizes := Data.size_placeholder inp in
  let t := time_dim_axis_excluding_batch inp in
  _ ← (if bool_decide (Some axis = Data.time_dim_axis inp) then
         _ ← (if truthy_int slice_start then
                let k := default 0 slice_start in
                _ ← py_assert (0 <? k) "";
                len ← size_getitem sizes t;
                d ← build (TSub len (TInt k));
                v ← build (TMaximum (TInt 0) d);
                size_setitem sizes t v
              else mret tt);
         _ ← (if truthy_int slice_end then
                let e := default 0 slice_end in
                _ ← py_assert (0 <? e) "";
                x ← from_option (Data.placeholder inp) (ValueError "None values not supported");
                s ← build (TShapeAt x (default 0 (Data.time_dim_axis inp)));
                d ← build (TSub s (TInt e));
                len ← size_getitem sizes t;
                v ← build (TMinimum d len);
                size_setitem sizes t v
              else mret tt);
         (if truthy_int slice_step then
            let s := default 0 slice_step in
            len ← size_getitem sizes t;
            v ← build (TFloorDiv len (TInt s));
            size_setitem sizes t v
          else mret tt)
       else
         match axis_wo_batch with
         | Some a => b ← size_contains sizes a; py_assert (negb b) ""
         | None => mret tt
         end);
  x ← from_option (Data.placeholder inp) (TypeError "'NoneType' object is not subscriptable");
  y ← build (TGetItem x slices);
  set_placeholder output y.

End Slice.

(** The meaning of the integer nodes on sequence lengths: the value of a
    tensor for the example at one batch index, a scalar being the same for
    every example. [tf.maximum], [tf.minimum], [-] and [//] act
    element-wise, [//] as floor division; values are taken as unbounded
    integers. Every other node is read from the environment. *)
Fixpoint eval_int (env : Tensor → nat → Z) (t : Tensor) (b : nat) : Z :=
  match t with
  | TInt z => z
  | TSub x y => eval_int env x b - eval_int env y b
  | TMaximum x y => Z.max (eval_int env x b) (eval_int env y b)
  | TMinimum x y => Z.min (eval_int env x b) (eval_int env y b)
  | TFloorDiv x y => eval_int env x b `div` eval_int env y b
  | _ => env t b
  end.

(** ** ReduceLayer *)

Inductive AxisArg :=
| AxisStr (s : string)
| AxisInt (i : Z)
| AxisList (l : list Z).

(** [list.remove(x)]: the first occurrence, or a ValueError. *)
Fixpoint list_remove (x : Z) (l : list Z) : option (list Z) :=
  match l with
  | [] => None
  | y :: l' => if bool_decide (x = y) then Some l' else (y ::.) <$> list_remove x l'
  end.

Definition py_list_remove (x : option Z) (l : list Z) : M (list Z) :=
  match x with
  | Some x => from_option (list_remove x l) (ValueError "list.remove(x): x not in list")
  | None => raise (ValueError "list.remove(x): x not in list")
  end.

(** One round of the loop without [keep_dims]: the entry of axis [i] is
    deleted and the keys are renumbered. *)
Definition renumber (i j : Z) : Z := if j <? i then j else j - 1.

Definition remove_axis (y_dyn_sizes : gmap Z Tensor) (i : Z) : gmap Z Tensor :=
  let y := if bool_decide (is_Some (y_dyn_sizes !! i))
           then delete i y_dyn_sizes else y_dyn_sizes in
  list_to_map ((λ js : Z * Tensor, (renumber i js.1, js.2)) <$> map_to_list y).

(** One round of the loop with [keep_dims]. *)
Definition keep_axis (y_dyn_sizes : gmap Z Tensor) (i : Z) : gmap Z Tensor :=
  if bool_decide (is_Some (y_dyn_sizes !! i))
  then <[i := TInt 1]> y_dyn_sizes else y_dyn_sizes.

(** The dynamic sizes of the output of a [ReduceLayer]. *)
Definition reduce_dyn_sizes (keep_dims : bool) (axis : list Z)
    (y_dyn_sizes : gmap Z Tensor) : gmap Z Tensor :=
  if keep_dims then foldl keep_axis y_dyn_sizes axis
  else foldl remove_axis y_dyn_sizes (reverse (merge_sort Z.le axis)).

(** The key of the mapping before a round that ends at key [j] after it. *)
Definition skip (i j : Z) : Z := if j <? i then j else j + 1.

(** The key of the input's mapping whose entry ends at key [j] of the
    output's mapping, when the axes [axes] are reduced without [keep_dims]. *)
Definition key_before (axes : list Z) (j : Z) : Z :=
  foldr skip j (reverse (merge_sort Z.le axes)).

Section Reduce.
Context `{!TFUtil}.

(** [ReduceLayer._get_axis]: the list of axes. *)
Definition ReduceLayer__get_axis (axis : AxisArg) (input_data : Data.t) : M (list Z) :=
  axis ←
    match axis with
    | AxisStr s =>
        let s := lower s in
        if (String.eqb s "b" || String.eqb s "batch")%bool then mret [0]
        else if String.eqb s "spatial" then
          py_list_remove (Data.batch_dim_axis input_data) (get_dynamic_batch_axes input_data)
        else if String.eqb s "spatial_except_time" then
          l ← py_list_remove (Data.batch_dim_axis input_data)
                             (get_dynamic_batch_axes input_data);
          py_list_remove (Data.time_dim_axis input_data) l
        else if (String.eqb s "f" || String.eqb s "feature")%bool then
          mret (get_non_dynamic_axes input_data)
        else raise (PyException "invalid axis mode")
    | AxisInt i => mret [i]
    | AxisList l => mret l
    end;
  _ ← py_assert (bool_decide (0 < length axis)%nat) "no axis to reduce";
  if bool_decide (batch_ndim input_data = 0) then raise ZeroDivisionError
  else mret ((λ i, i `mod` batch_ndim input_data) <$> axis).

(** The body of [ReduceLayer.__init__] after the base-class constructor. *)
Definition ReduceLayer___init__ (input_data output : addr) (mode : string)
    (axis : AxisArg) (keep_dims : bool) (enforce_batch_dim_axis : Z) : M unit :=
  let mode := lower mode in
  _ ← py_assert (bool_decide (mode ∈ ["max"; "sum"; "avg"; "mean"])) "";
  inp ← read_data input_data;
  _ ← py_assert (negb (Data.sparse inp)) "";
  let x := Data.placeholder inp in
  x ← (if bool_decide (Data.batch_dim_axis inp ≠ Some enforce_batch_dim_axis)
       then x ← from_option x (ValueError "None values not supported");
            x ← build (TCall "swapaxes" [x; opt_int_tensor (Data.batch_dim_axis inp);
                                         TInt enforce_batch_dim_axis]);
            mret (Some x)
       else mret x);
  axis ← ReduceLayer__get_axis axis inp;
  let f := if String.eqb mode "max" then "tf.reduce_max"
           else if String.eqb mode "sum" then "tf.reduce_sum"
           else "tf.reduce_mean" in
  x ← from_option x (ValueError "None values not supported");
  y ← build (TReduce f x axis keep_dims);
  r ← dict_copy (Data.size_placeholder inp);
  y_dyn_sizes ← read_dict r;
  r ← (if keep_dims
       then _ ← write_dict r (reduce_dyn_sizes true axis y_dyn_sizes); mret r
       else new_dict (reduce_dyn_sizes false axis y_dyn_sizes));
  _ ← set_placeholder output y;
  set_size_placeholder output (Some r).

End Reduce.

(** ** Construction of a layer *)

Section LayerInit.
Context `{!TFUtil}.

(** [SourceLayer.get_out_data_from_opts] *)
Definition SourceLayer_get_out_data_from_opts (network : nat) (data_key : option string)
    : M addr :=
  net ← get_network network;
  let data_key :=
    match data_key with
    | Some k => k
    | None => ExternData.default_input (Network.extern_data net)
    end in
  get_extern_data network data_key false.

(** The classmethods [get_out_data_from_opts] of [SliceLayer], [ConvLayer],
    [PoolLayer], [ReduceLayer], [GetLastHiddenStateLayer], [CombineLayer]
    and [FramewiseStatisticsLayer], as [LayerBase.__init__] calls them: on
    the keyword arguments [network], [name], [out_type], [n_out], [target],
    [sources] and [loss] alone. They are not embedded; what the
    constructor does is stated for whatever they do. *)
Variable overridden_get_out_data_from_opts :
  LayerType → nat → string → option OutType.t → option Z → option string →
  list LayerBase.t → option LossClass → M addr.



End LayerInit.

(** ** RecLayer: the cells *)

Module Cell.
Record t := mk {
  class_name : string;
  kind : CellKind;
  n_hidden : option Z
}.
End Cell.

(** [rnn_cell_class(n_hidden)]: a new cell object. *)
Definition new_cell (cls : string * CellKind) (n_hidden : option Z) : M Cell.t := λ st,
  (Ok (Cell.mk cls.1 cls.2 n_hidden), with_cells (cells st ++ [(cls.1, n_hidden)]) st).

Section Rec.
Context `{!TFUtil}.

(** [RecLayer.get_rnn_cell_class] *)
Definition get_rnn_cell_class (name : string) : M (string * CellKind) :=
  from_option (_rnn_cells_dict !! lower name) (KeyError name).

(** The part of [RecLayer.__init__] that chooses the unit and creates the
    cells, after the base-class constructor has set [self.output]. It
    returns [cell_fw] and [cell_bw]. *)
Definition RecLayer___init___cells (network : nat) (output : addr) (unit : string)
    (bidirectional : bool) (direction : option Z) (output_feedback attention : bool)
    : M (Cell.t * option Cell.t) :=
  let unit :=
    if bool_decide (lower unit ∈ ["lstmp"; "lstm"]) then
      if (negb output_feedback && negb attention)%bool then "nativelstm" else "lstmblock"
    else unit in
  _ ← (match direction with
       | Some dir =>
           _ ← py_assert (negb bidirectional) "";
           py_assert (bool_decide (dir ∈ [-1; 1])) ""
       | None => mret tt
       end);
  rnn_cell_class ← get_rnn_cell_class unit;
  seed ← randint network;
  out ← read_data output;
  let n_hidden := Data.dim out in
  n_hidden ←
    (if bidirectional then
       match n_hidden with
       | Some n =>
           _ ← py_assert (n `mod` 2 =? 0) "";
           mret (Some (n `div` 2))
       | None => raise (TypeError "unsupported operand type(s) for %")
       end
     else mret n_hidden);
  cell_fw ← new_cell rnn_cell_class n_hidden;
  cell_bw ← (if bidirectional
             then c ← new_cell rnn_cell_class n_hidden; mret (Some c)
             else mret None);
  mret (cell_fw, cell_bw).

End Rec.

(** ** The CTC loss *)

Module OutputWithActivation.
Record t := mk {
  x : Tensor;
  act_func : option string;
  y : Tensor
}.
End OutputWithActivation.

Module Loss.
Record t := mk {
  class : LossClass;
  output : option addr;
  output_with_activation : option OutputWithActivation.t;
  output_seq_lens : option Tensor;
  target : option addr;
  target_seq_lens : option Tensor;
  target_collapse_repeated : bool;
  auto_clip_target_len : bool;
  _target_sparse_labels : option Tensor
}.

Definition with_target_sparse_labels (l : option Tensor) (s : t) : t :=
  mk (class s) (output s) (output_with_activation s) (output_seq_lens s) (target s)
     (target_seq_lens s) (target_collapse_repeated s) (auto_clip_target_len s) l.
End Loss.

Definition opt_tensor (t : option Tensor) : Tensor :=
  match t with Some t => t | None => TCall "None" [] end.

Section Ctc.
Context `{!TFUtil}.

(** [OutputWithActivation.get_logits] belongs to TFUtil; it is a parameter
    of the loss functions. *)
Variable get_logits : OutputWithActivation.t → option Tensor.

(** [self.target.sparse] *)
Definition loss_target (self : Loss.t) : M Data.t :=
  a ← from_option (Loss.target self)
         (AttributeError "'NoneType' object has no attribute 'sparse'");
  read_data a.

Definition loss_output (self : Loss.t) : M Data.t :=
  a ← from_option (Loss.output self)
         (AttributeError "'NoneType' object has no attribute 'placeholder'");
  read_data a.

(** [CtcLoss._get_target_sparse_labels]: the labels and the loss object
    with the labels remembered. *)
Definition _get_target_sparse_labels (self : Loss.t) : M (Tensor * Loss.t) :=
  match Loss._target_sparse_labels self with
  | Some labels => mret (labels, self)
  | None =>
      let target_seq_lens := opt_tensor (Loss.target_seq_lens self) in
      target_seq_lens ←
        (if Loss.auto_clip_target_len self then
           d ← build (TSub (opt_tensor (Loss.output_seq_lens self)) (TInt 1));
           m ← build (TMaximum d (TInt 0));
           build (TMinimum target_seq_lens m)
         else mret target_seq_lens);
      target ← loss_target self;
      labels ← build (TCall "sparse_labels"
                        [opt_tensor (Data.placeholder target); target_seq_lens;
                         bool_tensor (Loss.target_collapse_repeated self)]);
      mret (labels, Loss.with_target_sparse_labels (Some labels) self)
  end.

(** The logits both methods start from. *)
Definition ctc_logits (self : Loss.t) : M Tensor :=
  let logits :=
    match Loss.output_with_activation self with
    | Some owa => get_logits owa
    | None => None
    end in
  match logits with
  | Some l => mret l
  | None =>
      out ← loss_output self;
      x ← from_option (Data.placeholder out) (ValueError "None values not supported");
      build (TCall "tf.log" [x])
  end.

(** [CtcLoss.get_value] *)
Definition CtcLoss_get_value (self : Loss.t) : M (Tensor * Loss.t) :=
  target ← loss_target self;
  if negb (Data.sparse target)
  then raise (PyException "CTC target expected to be sparse (symbols)")
  else
    logits ← ctc_logits self;
    _ ← py_assert (bool_decide (ndims logits = Some 3)) "";
    n ← from_option (Data.dim target) (TypeError "unsupported operand type(s) for +");
    _ ← py_assert (bool_decide (static_dim logits 2 = Some (n + 1))) "";
    let seq_lens := opt_tensor (Loss.output_seq_lens self) in
    '(labels, self) ← _get_target_sparse_labels self;
    out ← loss_output self;
    loss ← build (TCall "tf.nn.ctc_loss"
                    [logits; labels; seq_lens; bool_tensor (is_time_major out)]);
    v ← build (TCall "tf.reduce_sum" [loss]);
    mret (v, self).

(** [CtcLoss.get_error] *)
Definition CtcLoss_get_error (self : Loss.t) : M (Tensor * Loss.t) :=
  target ← loss_target self;
  if negb (Data.sparse target)
  then raise (PyException "CTC target expected to be sparse (symbols)")
  else
    logits ← ctc_logits self;
    out ← loss_output self;
    logits ← (if negb (is_time_major out)
              then build (TCall "tf.transpose" [logits; TInt 1; TInt 0; TInt 2])
              else mret logits);
    let seq_lens := opt_tensor (Loss.output_seq_lens self) in
    decoded ← build (TCall "tf.nn.ctc_greedy_decoder" [logits; seq_lens]);
    '(labels, self) ← _get_target_sparse_labels self;
    hyp ← build (TCall "tf.cast" [decoded]);
    error ← build (TCall "tf.edit_distance" [hyp; labels]);
    v ← build (TCall "tf.reduce_sum" [error]);
    mret (v, self).

End Ctc.

(** ** A concrete engine and network, for the examples *)

Definition ex_Data_init (kw : OutType.t) : Data.t :=
  Data.mk (default "" (OutType.name kw))
    (default (match OutType.dim kw with Some n => [None; Some n] | None => [] end)
             (OutType.shape kw))
    (default "float32" (OutType.dtype kw))
    (default false (OutType.sparse kw))
    (match OutType.dim kw with
     | Some n => Some n
     | None => mjoin (last (default [] (OutType.shape kw)))
     end)
    (default (Some 0) (OutType.batch_dim_axis kw))
    (default (Some 1) (OutType.time_dim_axis kw))
    None None.

Definition ex_excluding_batch (d : Data.t) (axis : Z) : option Z :=
  match Data.batch_dim_axis d with
  | None => Some axis
  | Some b => if axis =? b then None else if axis <? b then Some axis else Some (axis - 1)
  end.

Definition ex_batch_shape (d : Data.t) : list (option Z) :=
  match Data.batch_dim_axis d with
  | Some b => take (Z.to_nat b) (Data.shape d) ++ [None] ++ drop (Z.to_nat b) (Data.shape d)
  | None => Data.shape d
  end.

Fixpoint ex_ndims (t : Tensor) : option Z :=
  match t with
  | TVar _ => Some 3
  | TConcat _ (x :: _) => ex_ndims x
  | TDropout x _ _ _ => ex_ndims x
  | TCond _ x _ => ex_ndims x
  | _ => None
  end.

Definition ex_time_excluding_batch (d : Data.t) : option Z :=
  t ← Data.time_dim_axis d; ex_excluding_batch d t.

Definition ex_matches_dim_pattern (d1 d2 : Data.t) : bool :=
  bool_decide (Data.batch_dim_axis d1 = Data.batch_dim_axis d2
               ∧ Data.time_dim_axis d1 = Data.time_dim_axis d2
               ∧ removelast (Data.shape d1) = removelast (Data.shape d2)).

Definition ex_get_placeholder (d : Data.t) (b : option Z) : Result Tensor :=
  match Data.placeholder d with
  | Some p => if bool_decide (Data.batch_dim_axis d = b) then Ok p
              else Ok (TCall "swapaxes" [p])
  | None => Raise (ValueError "None values not supported")
  end.

Definition ex_cells : gmap string (string * CellKind) :=
  {[ "basiclstm" := ("BasicLSTMCell", RNNCell);
     "lstmblock" := ("LSTMBlockCell", RNNCell);
     "lstmblockfused" := ("LSTMBlockFusedCell", FusedRNNCell);
     "nativelstm" := ("NativeLstmCell", RecSeqCellOp) ]}.

Definition ex_TFUtil : TFUtil.
Proof.
  refine {|
    Data_init := ex_Data_init;
    time_dim_axis_excluding_batch := ex_time_excluding_batch;
    get_batch_axis_excluding_batch := ex_excluding_batch;
    batch_shape := ex_batch_shape;
    non_dynamic_batch_shape := λ d, (λ s, default 1 s) <$> ex_batch_shape d;
    matches_dim_pattern := ex_matches_dim_pattern;
    get_placeholder_with_specific_batch_dim_axis := ex_get_placeholder;
    get_dynamic_batch_axes := λ _, [0; 1];
    get_non_dynamic_axes := λ _, [2];
    get_axes := λ _ _ _, [2];
    is_time_major := λ d, bool_decide (Data.time_dim_axis d = Some 0);
    have_tim_axis := λ d, bool_decide (is_Some (Data.time_dim_axis d));
    batch_ndim := λ d, Z.of_nat (length (ex_batch_shape d));
    ndims := ex_ndims;
    static_dim := λ _ _, None;
    _rnn_cells_dict := ex_cells
  |}; first [ by intros [] ? E; simpl in *; rewrite ?E | by intros [] ].
Defined.

(** Two layers over a (time, feature) input of widths 5 and 3. *)
Definition ex_data (n : string) (dim : Z) (p : nat) (r : addr) : Data.t :=
  Data.mk n [None; Some dim] "float32" false (Some dim) (Some 0) (Some 1)
          (Some (TVar p)) (Some r).

Definition ex_layer (i : nat) (n : string) (out : addr) : LayerBase.t :=
  LayerBase.mk i SourceLayer_ n 0%nat out None None false [] None None None true [] None.

Definition ex_network (flag : TrainFlag) : Network.t :=
  Network.mk flag 0 ∅ (ExternData.mk "data" "classes" ∅ ∅) ∅ (PInt 0).

Definition ex_state (flag : TrainFlag) : State :=
  mkState {[ 0%nat := ex_data "a_output" 5 0 0%nat; 1%nat := ex_data "b_output" 3 1 1%nat ]}
          {[ 0%nat := {[ 0 := TVar 10 ]}; 1%nat := {[ 0 := TVar 11 ]} ]}
          {[ 0%nat := ex_network flag ]} [] [].

Definition ex_a : LayerBase.t := ex_layer 0 "a" 0%nat.
Definition ex_b : LayerBase.t := ex_layer 1 "b" 1%nat.

(** A recurrent layer's output descriptor of width [n_out], not yet built. *)
Definition ex_rec_state (n_out : Z) : State :=
  mkState {[ 0%nat := Data.mk "rec_output" [None; Some n_out] "float32" false
                        (Some n_out) (Some 0) (Some 1) None None ]}
          ∅ {[ 0%nat := ex_network TrainTrue ]} [] [].

(** A reduce layer over an input with two dynamic axes. *)
Definition ex_reduce_state : State :=
  mkState {[ 0%nat := Data.mk "in" [None; None; Some 4] "float32" false (Some 4)
                        (Some 0) (Some 1) (Some (TVar 0)) (Some 0%nat);
             1%nat := Data.mk "reduce_output" [None; Some 4] "float32" false (Some 4)
                        (Some 0) (Some 1) None None ]}
          {[ 0%nat := {[ 0 := TVar 20; 1 := TVar 21 ]} ]}
          {[ 0%nat := ex_network TrainTrue ]} [] [].

Definition ex_reduce_run : Result unit * State :=
  ReduceLayer___init__ (H:=ex_TFUtil) 0%nat 1%nat "sum" (AxisInt 0) false 0 ex_reduce_state.

(** The mapping of dynamic lengths of the descriptor at [a]. *)
Definition size_placeholder_of (a : addr) (st : State) : option (gmap Z Tensor) :=
  d ← datas st !! a; r ← Data.size_placeholder d; dicts st !! r.

(** A reduce layer over an input of axes (batch, time, feature): the batch
    axis is axis 0 and the time axis is axis 1, whose lengths [TVar 20] the
    mapping holds under the key 0, the time axis counted without the batch
    axis. *)
Definition ex_reduce_time_state : State :=
  mkState {[ 0%nat := Data.mk "in" [None; Some 4] "float32" false (Some 4)
                        (Some 0) (Some 1) (Some (TVar 0)) (Some 0%nat);
             1%nat := Data.mk "reduce_output" [Some 4] "float32" false (Some 4)
                        (Some 0) None None None ]}
          {[ 0%nat := {[ 0 := TVar 20 ]} ]}
          {[ 0%nat := ex_network TrainTrue ]} [] [].

Definition ex_reduce_time_run (axis : AxisArg) (keep_dims : bool) : Result unit * State :=
  ReduceLayer___init__ (H:=ex_TFUtil) 0%nat 1%nat "sum" axis keep_dims 0
    ex_reduce_time_state.

(** A slice layer over a source with one dynamic axis. *)
Definition ex_slice_state : State :=
  mkState {[ 0%nat := ex_data "a_output" 5 0 0%nat;
             2%nat := Data.mk "slice_output" [None; Some 5] "float32" false (Some 5)
                        (Some 0) (Some 1) None None ]}
          {[ 0%nat := {[ 0 := TVar 10 ]} ]}
          {[ 0%nat := ex_network TrainTrue ]} [] [].

Definition ex_slice_run : Result unit * State :=
  SliceLayer___init__ (H:=ex_TFUtil) 0%nat 2%nat None (Some "T") (Some 7) None None
    ex_slice_state.

(** A layer with [L2 = 0.01] and the given parameters. *)
Definition ex_l2_layer (params : list (string * Tensor)) : LayerBase.t :=
  LayerBase.mk 5 LinearLayer_ "hidden" 0%nat 0%nat None None false []
    (Some (FloatNum (Q2Qc (1 # 100)))) None None true params None.

(** A layer without parameters whose [L2] is the int 1; one whose [L2] and
    [spatial_smoothing] are set to [0.0]; and one where both are None. *)
Definition ex_int_l2_layer : LayerBase.t :=
  LayerBase.mk 5 LinearLayer_ "hidden" 0%nat 0%nat None None false []
    (Some (IntNum 1)) None None true [] None.

Definition ex_zero_l2_layer : LayerBase.t :=
  LayerBase.mk 5 LinearLayer_ "hidden" 0%nat 0%nat None None false []
    (Some (FloatNum 0%Qc)) None (Some (FloatNum 0%Qc)) true [] None.

Definition ex_unset_layer : LayerBase.t :=
  LayerBase.mk 5 LinearLayer_ "hidden" 0%nat 0%nat None None false []
    None None None true [] None.

Definition ex_l2_run : Result (option PyVal) * State :=
  get_constraints_value (H:=ex_TFUtil) (λ _, mret tt)
    (ex_l2_layer [("b", TVar 6); ("W", TVar 5)]) (ex_state TrainTrue).

Definition ex_l2_value : PyVal :=
  PTensor (TAdd (TInt 0)
    (TMul (TFloat (Q2Qc (1 # 100)))
       (TMul (TInt 2)
          (TAdd (TAdd (TInt 0) (TCall "tf.nn.l2_loss" [TVar 5]))
                (TCall "tf.nn.l2_loss" [TVar 6]))))).

(** A subnetwork layer that is given [L2 = 0.01], over a subnetwork (network
    1) whose objective has been constructed with no constraints. *)
Definition ex_subnetwork_layer : LayerBase.t :=
  LayerBase.mk 7 SubnetworkLayer_ "sub" 0%nat 0%nat None None true []
               (Some (FloatNum (Q2Qc (1 # 100))))
               None None true [] (Some 1%nat).

Definition ex_subnetwork_state : State :=
  mkState {[ 0%nat := ex_data "a_output" 5 0 0%nat ]} {[ 0%nat := {[ 0 := TVar 10 ]} ]}
          {[ 0%nat := ex_network TrainTrue; 1%nat := ex_network TrainTrue ]} [] [].

(** A subnetwork layer with nothing configured, over a subnetwork whose
    objective has constraints. *)
Definition ex_subnetwork_plain_layer : LayerBase.t :=
  LayerBase.mk 8 SubnetworkLayer_ "sub" 0%nat 0%nat None None true [] None
               None None true [] (Some 1%nat).

Definition ex_subnetwork_constrained_state : State :=
  mkState {[ 0%nat := ex_data "a_output" 5 0 0%nat ]} {[ 0%nat := {[ 0 := TVar 10 ]} ]}
          {[ 0%nat := ex_network TrainTrue;
             1%nat := Network.mk TrainTrue 0 ∅ (ExternData.mk "data" "classes" ∅ ∅) ∅
                        (PTensor (TVar 9)) ]} [] [].

(** A network whose default target "classes" has dimension 5. *)
Definition ex_target_network : Network.t :=
  Network.mk TrainTrue 0 ∅
    (ExternData.mk "data" "classes" {[ "data" := 0%nat; "classes" := 3%nat ]} ∅)
    ∅ (PInt 0).

Definition ex_target_state : State :=
  mkState {[ 0%nat := ex_data "data" 5 0 0%nat;
             3%nat := Data.mk "classes" [None] "int32" true (Some 5) (Some 0) (Some 1)
                        (Some (TVar 3)) (Some 0%nat) ]}
          {[ 0%nat := {[ 0 := TVar 10 ]} ]}
          {[ 0%nat := ex_target_network ]} [] [].






(** Two sources concatenated on a training network, without and with
    dropout, and concatenated a second time. *)
Definition ex_concat_run : Result addr * State :=
  concat_sources (H:=ex_TFUtil) [ex_a; ex_b] (ex_state TrainTrue).

Definition ex_concat_hit_run : Result addr * State :=
  concat_sources (H:=ex_TFUtil) [ex_a; ex_b] ex_concat_run.2.

Definition ex_dropout_run : Result addr * State :=
  concat_sources_with_opt_dropout (H:=ex_TFUtil) [ex_a; ex_b] (Q2Qc (1 # 10))
    (ex_state TrainTrue).

Definition ex_network_after (st : State) : Network.t :=
  default (ex_network TrainTrue) (networks st !! 0%nat).

(** One source concatenated with dropout on a training network. *)
Definition ex_dropout_one_run : Result addr * State :=
  concat_sources_with_opt_dropout (H:=ex_TFUtil) [ex_a] (Q2Qc (1 # 10)) (ex_state TrainTrue).

(** A computation that leaves every descriptor as it is. *)
Definition keeps_datas {A} (m : M A) : Prop :=
  ∀ st r st', m st = (r, st') → datas st' = datas st.

(** A node that is the call of the engine or helper function [fn]. *)
Definition is_call (fn : string) (t : Tensor) : bool :=
  match t with TCall f _ => String.eqb f fn | _ => false end.

(** From [st] to [st'] the graph has grown, by nodes that satisfy [P] only. *)
Definition adds (P : Tensor → Prop) (st st' : State) : Prop :=
  ∃ new, graph st' = graph st ++ new ∧ Forall P new.

(** An engine whose tensors have a static last dimension of 6, and a CTC
    loss over an output of width 6 and a sparse target of 5 classes. *)
Definition ex_TFUtil6 : TFUtil.
Proof.
  refine {|
    Data_init := ex_Data_init;
    time_dim_axis_excluding_batch := ex_time_excluding_batch;
    get_batch_axis_excluding_batch := ex_excluding_batch;
    batch_shape := ex_batch_shape;
    non_dynamic_batch_shape := λ d, (λ s, default 1 s) <$> ex_batch_shape d;
    matches_dim_pattern := ex_matches_dim_pattern;
    get_placeholder_with_specific_batch_dim_axis := ex_get_placeholder;
    get_dynamic_batch_axes := λ _, [0; 1];
    get_non_dynamic_axes := λ _, [2];
    get_axes := λ _ _ _, [2];
    is_time_major := λ d, bool_decide (Data.time_dim_axis d = Some 0);
    have_tim_axis := λ d, bool_decide (is_Some (Data.time_dim_axis d));
    batch_ndim := λ d, Z.of_nat (length (ex_batch_shape d));
    ndims := ex_ndims;
    static_dim := λ _ _, Some 6;
    _rnn_cells_dict := ex_cells
  |}; first [ by intros [] ? E; simpl in *; rewrite ?E | by intros [] ].
Defined.

Definition ex_ctc_loss : Loss.t :=
  Loss.mk CtcLoss (Some 0%nat) (Some (OutputWithActivation.mk (TVar 0) None (TVar 0)))
          (Some (TVar 10)) (Some 1%nat) (Some (TVar 11)) false false None.

Definition ex_ctc_loss_state : State :=
  mkState {[ 0%nat := Data.mk "output" [None; Some 6] "float32" false (Some 6) (Some 0)
                        (Some 1) (Some (TVar 0)) (Some 0%nat);
             1%nat := Data.mk "classes" [None] "int32" true (Some 5) (Some 0) (Some 1)
                        (Some (TVar 1)) (Some 1%nat) ]}
          ∅ ∅ [] [].

(** * Further parts of [TFNetworkLayer.py] *)

(** ** Scope names *)

(** [s.replace(old, new)] for a one-character [old]. *)
Fixpoint str_replace_char (old : ascii) (new : string) (s : string) : string :=
  match s with
  | EmptyString => EmptyString
  | String c s' =>
      if Ascii.eqb c old then new +:+ str_replace_char old new s'
      else String c (str_replace_char old new s')
  end.

(** [c in s] for a character [c]. *)
Fixpoint has_char (c : ascii) (s : string) : bool :=
  match s with
  | EmptyString => false
  | String c' s' => Ascii.eqb c' c || has_char c s'
  end.

(** [LayerBase.cls_get_tf_scope_name] and the property [tf_scope_name]. *)
Definition cls_get_tf_scope_name (name : string) : string :=
  str_replace_char ":" "__" name.

Definition tf_scope_name (self : LayerBase.t) : string :=
  cls_get_tf_scope_name (LayerBase.name self).

(** ** The registries of loss and layer classes *)

(** The classes of the module for which [issubclass(v, Loss)] holds, in the
    order of their definition. *)
Inductive LossType :=
| Loss_
| CrossEntropyLoss_
| GenericCELoss_
| CtcLoss_.

Definition Loss_class_name (v : LossType) : option string :=
  match v with
  | Loss_ => None
  | CrossEntropyLoss_ => Some "ce"
  | GenericCELoss_ => Some "generic_ce"
  | CtcLoss_ => Some "ctc"
  end.

Definition loss_globals : list LossType :=
  [Loss_; CrossEntropyLoss_; GenericCELoss_; CtcLoss_].

(** The loop that fills a registry: every class with a name is entered
    under it, and a name met twice fails the assertion. The dict filled so
    far is returned with the result. *)
Fixpoint fill_class_dict {C} (class_name : C → option string) (vs : list C)
    (d : gmap string C) : Result unit * gmap string C :=
  match vs with
  | [] => (Ok tt, d)
  | v :: vs' =>
      if truthy_str (class_name v) then
        let n := default "" (class_name v) in
        if bool_decide (is_Some (d !! n)) then (Raise (AssertionError ""), d)
        else fill_class_dict class_name vs' (<[n := v]> d)
      else fill_class_dict class_name vs' d
  end.

(** [get_loss_class], on the module's dict [_LossClassDict]. *)
Definition get_loss_class (loss : string) (_LossClassDict : gmap string LossType)
    : Result LossType * gmap string LossType :=
  let '(r, d) :=
    if bool_decide (_LossClassDict = ∅)
    then fill_class_dict Loss_class_name loss_globals _LossClassDict
    else (Ok tt, _LossClassDict) in
  match r with
  | Raise e => (Raise e, d)
  | Ok _ =>
      match d !! loss with
      | Some v => (Ok v, d)
      | None => (Raise (KeyError loss), d)
      end
  end.

(** [_init_layer_class_dict], on the module's dict [_LayerClassDict]. *)
Definition _init_layer_class_dict (_LayerClassDict : gmap string LayerType)
    : Result unit * gmap string LayerType :=
  match fill_class_dict LayerType_layer_class layer_globals _LayerClassDict with
  | (Raise e, d) => (Raise e, d)
  | (Ok _, d) =>
      if bool_decide (is_Some (d !! "forward")) then (Raise (AssertionError ""), d)
      else (Ok tt, <["forward" := LinearLayer_]> d)
  end.

(** [get_layer_class] *)
Definition get_layer_class (name : string) (_LayerClassDict : gmap string LayerType)
    : Result LayerType * gmap string LayerType :=
  let '(r, d) :=
    if bool_decide (_LayerClassDict = ∅)
    then _init_layer_class_dict _LayerClassDict
    else (Ok tt, _LayerClassDict) in
  match r with
  | Raise e => (Raise e, d)
  | Ok _ =>
      match d !! name with
      | Some v => (Ok v, d)
      | None => (Raise (PyException "unknown layer class"), d)
      end
  end.

(** The classes a registry loop enters, each with its name. *)
Definition named_classes {C} (class_name : C → option string) (vs : list C)
    : list (string * C) :=
  omap (λ v, if truthy_str (class_name v) then (λ n, (n, v)) <$> class_name v else None) vs.

(** ** The error value of a subnetwork layer *)

(** [sorted(d.items())] of a dict with string keys: by key. *)
Definition item_le {A} (a b : string * A) : Prop := String.leb a.1 b.1 = true.

#[global] Instance item_le_dec {A} : RelDecision (@item_le A).
Proof. intros a b. unfold item_le. apply _. Defined.

Definition sorted_items {A} (d : gmap string A) : list (string * A) :=
  merge_sort item_le (map_to_list d).

Section SubnetworkErrors.

(** [maybe_construct_objective], [get_all_errors] and
    [get_default_output_layer_name] belong to [TFNetwork], which is not
    part of the sources; they are parameters here. *)
Variable maybe_construct_objective : nat → M unit.
Variable get_all_errors : nat → M (gmap string Tensor).
Variable get_default_output_layer_name : nat → M (option string).

(** [SubnetworkLayer.get_error_value] *)
Definition SubnetworkLayer_get_error_value (subnetwork : nat) : M (option Tensor) :=
  _ ← maybe_construct_objective subnetwork;
  errors ← get_all_errors subnetwork;
  if bool_decide (errors = ∅) then mret None
  else if bool_decide (size errors = 1%nat) then
    v ← from_option (head (map_to_list errors).*2) (IndexError "list index out of range");
    mret (Some v)
  else
    name ← get_default_output_layer_name subnetwork;
    match name ≫= (errors !!.) with
    | Some v => mret (Some v)
    | None =>
        item ← from_option (head (sorted_items errors)) (IndexError "list index out of range");
        mret (Some item.2)
    end.

End SubnetworkErrors.

(** ** Layers over the concatenation of their sources *)

Section ConcatInput.
Context `{!TFUtil}.

(** [_ConcatInputLayer.__init__] after the base-class constructor: the
    value of [self.input_data]. *)
Definition _ConcatInputLayer___init__ (sources : list LayerBase.t) (dropout : Qc)
    (mask : option string) : M (option addr) :=
  _ ← py_assert (bool_decide (mask ∈ [Some "dropout"; Some "unity"; None])) "invalid mask";
  _ ← (if bool_decide (mask = Some "unity")
       then py_assert (bool_decide (dropout = 0%Qc)) ""
       else if bool_decide (mask = Some "dropout")
            then py_assert (bool_decide (0 < dropout)%Qc) ""
            else mret tt);
  if bool_decide (sources = []) then mret None
  else a ← concat_sources_with_opt_dropout sources dropout; mret (Some a).

(** [CopyLayer.__init__]: [self.output = self.input_data]. The values of
    [self.input_data] and [self.output]. *)
Definition CopyLayer___init__ (sources : list LayerBase.t) (dropout : Qc)
    (mask : option string) : M (option addr * option addr) :=
  input_data ← _ConcatInputLayer___init__ sources dropout mask;
  mret (input_data, input_data).

(** [get_activation_function] and [OutputWithActivation] belong to TFUtil;
    what [OutputWithActivation(x, act_func=...).y] is for an input [x] and
    the name of an activation is a parameter here. *)
Variable output_with_activation_y : option Tensor → option string → M (option Tensor).

(** [x.placeholder] on a descriptor that may be [None]. *)
Definition placeholder_of (a : option addr) : M (option Tensor) :=
  a ← from_option a (AttributeError "'NoneType' object has no attribute 'placeholder'");
  d ← read_data a;
  mret (Data.placeholder d).

(** [x.placeholder = y] on a descriptor that may be [None]. *)
Definition assign_placeholder (a : option addr) (y : option Tensor) : M unit :=
  a ← from_option a (AttributeError "'NoneType' object has no attribute 'placeholder'");
  d ← read_data a;
  write_data a (Data.with_placeholder y d).

(** [ActivationLayer.__init__] *)
Definition ActivationLayer___init__ (activation : option string)
    (sources : list LayerBase.t) (dropout : Qc) (mask : option string)
    : M (option addr * option addr) :=
  '(input_data, output) ← CopyLayer___init__ sources dropout mask;
  x ← placeholder_of input_data;
  y ← output_with_activation_y x (if truthy_str activation then activation else None);
  _ ← assign_placeholder output y;
  mret (input_data, output).

End ConcatInput.

(** An activation that builds one node named after it, and an activation
    layer over the source [a]. *)
Definition ex_activation_y (x : option Tensor) (act : option string) : M (option Tensor) :=
  match x, act with
  | Some x, Some f => y ← build (TCall f [x]); mret (Some y)
  | _, _ => mret x
  end.

Definition ex_activation_run : Result (option addr * option addr) * State :=
  ActivationLayer___init__ (H:=ex_TFUtil) ex_activation_y (Some "tanh") [ex_a] 0%Qc None
    (ex_state TrainTrue).

(** From [st] to [st'] every descriptor and every dict of [st] is as it
    was: what has changed has been added. *)
Definition extends (st st' : State) : Prop :=
  (∀ x, is_Some (datas st !! x) → datas st' !! x = datas st !! x) ∧
  (∀ r, is_Some (dicts st !! r) → dicts st' !! r = dicts st !! r).

Definition ex_activation_two_run : Result (option addr * option addr) * State :=
  ActivationLayer___init__ (H:=ex_TFUtil) ex_activation_y (Some "tanh") [ex_a; ex_b] 0%Qc
    None (ex_state TrainTrue).

(** ** CombineLayer *)

(** [d[k] = v] on a dict kept in the order of insertion: the value of a key
    that is there is replaced where it stands, a new key comes last. *)
Fixpoint alist_set {A} (k : string) (v : A) (d : list (string * A)) : list (string * A) :=
  match d with
  | [] => [(k, v)]
  | (k', v') :: d' => if String.eqb k' k then (k, v) :: d' else (k', v') :: alist_set k v d'
  end.

(** [d[k]] and [k in d]. *)
Fixpoint alist_get {A} (k : string) (d : list (string * A)) : option A :=
  match d with
  | [] => None
  | (k', v') :: d' => if String.eqb k' k then Some v' else alist_get k d'
  end.

(** [x += x2] on tensor handles either of which may be [None]. *)
Definition tensor_iadd (x x2 : option Tensor) : M (option Tensor) :=
  match x, x2 with
  | Some a, Some b => t ← build (TAdd a b); mret (Some t)
  | _, _ => raise (TypeError "unsupported operand type(s) for +=")
  end.

Section Combine.
Context `{!TFUtil}.

(** [CombineLayer._check_same_dense_dim] *)
Definition CombineLayer__check_same_dense_dim (output : addr) (sources : list LayerBase.t)
    : M unit :=
  out ← read_data output;
  _ ← py_assert (negb (Data.sparse out)) "";
  for_each sources (λ source,
    o ← read_data (LayerBase.output source);
    _ ← py_assert (negb (Data.sparse o)) "";
    py_assert (bool_decide (Data.dim o = Data.dim out)) "").

(** One round of the loop of [_op_kind_add]. *)
Definition CombineLayer__op_kind_add_step (batch_axis : option Z) (x : option Tensor)
    (source : LayerBase.t) : M (option Tensor) :=
  o ← read_data (LayerBase.output source);
  let x2 := Data.placeholder o in
  x2 ← (if bool_decide (Data.batch_dim_axis o ≠ batch_axis)
        then x2 ← from_option x2 (ValueError "None values not supported");
             t ← build (TCall "swapaxes" [x2; opt_int_tensor batch_axis;
                                          opt_int_tensor (Data.batch_dim_axis o)]);
             mret (Some t)
        else mret x2);
  tensor_iadd x x2.

Fixpoint CombineLayer__op_kind_add_loop (batch_axis : option Z) (x : option Tensor)
    (sources : list LayerBase.t) : M (option Tensor) :=
  match sources with
  | [] => mret x
  | source :: rest =>
      x ← CombineLayer__op_kind_add_step batch_axis x source;
      CombineLayer__op_kind_add_loop batch_axis x rest
  end.

(** [CombineLayer._op_kind_add] *)
Definition CombineLayer__op_kind_add (output : addr) (sources : list LayerBase.t)
    : M (option Tensor) :=
  _ ← CombineLayer__check_same_dense_dim output sources;
  src0 ← from_option (head sources) (IndexError "list index out of range");
  o0 ← read_data (LayerBase.output src0);
  CombineLayer__op_kind_add_loop (Data.batch_dim_axis o0) (Data.placeholder o0)
    (tail sources).

(** [CombineLayer._op_kind_average] *)
Definition CombineLayer__op_kind_average (output : addr) (sources : list LayerBase.t)
    : M (option Tensor) :=
  x ← CombineLayer__op_kind_add output sources;
  x ← from_option x (TypeError "unsupported operand type(s) for /=");
  t ← build (TCall "/" [x; TInt (Z.of_nat (length sources))]);
  mret (Some t).

(** [getattr(self, "_op_kind_%s" % kind)] and the call of the method. *)
Definition CombineLayer_op (kind : string) (output : addr) (sources : list LayerBase.t)
    : M (option Tensor) :=
  if String.eqb kind "add" then CombineLayer__op_kind_add output sources
  else if String.eqb kind "average" then CombineLayer__op_kind_average output sources
  else raise (AttributeError ("_op_kind_" +:+ kind)).

(** [tf.Variable(...)], the [name] of a variable and
    [OutputWithActivation(...).y] belong to the engine and to TFUtil; they
    are parameters. *)
Variable new_variable : string → option Z → M Tensor.
Variable param_name : Tensor → string.
Variable output_with_activation_y : option Tensor → option string → M (option Tensor).

(** [LayerBase.add_param], on the dict [self.params]. *)
Definition add_param (params : list (string * Tensor)) (param : Tensor)
    : M (list (string * Tensor) * Tensor) :=
  _ ← py_assert (negb (String.eqb (param_name param) "")) "";
  mret (alist_set (param_name param) param params, param).

(** [CombineLayer.__init__], with [self.output] and [self.params] as the
    base-class constructor, called after [assert sources], has set them.
    It returns [self.params]. *)
Definition CombineLayer___init__ (output : addr) (params : list (string * Tensor))
    (kind : string) (sources : list LayerBase.t) (activation : option string)
    (with_bias : bool) : M (list (string * Tensor)) :=
  _ ← py_assert (bool_decide (sources ≠ [])) "";
  x ← CombineLayer_op kind output sources;
  '(x, params) ←
    (if with_bias then
       out ← read_data output;
       b ← new_variable "b" (Data.dim out);
       '(params, b) ← add_param params b;
       x ← tensor_iadd x (Some b);
       mret (x, params)
     else mret (x, params));
  y ← output_with_activation_y x (if truthy_str activation then activation else None);
  _ ← assign_placeholder (Some output) y;
  mret params.

End Combine.

(** ** The checks of a loss on its output *)

Section LossCheck.

(** [Data.ndim_dense] of TFUtil. *)
Variable ndim_dense : Data.t → Z.

(** [Loss._check_init], on the loss object's [target] and [output]. *)
Definition Loss__check_init (l : LossClass) (target output : addr) : M unit :=
  t ← read_data target;
  o ← read_data output;
  _ ← py_assert (bool_decide (ndim_dense t = ndim_dense o))
        "Number of dimensions missmatch. Target: %s, output: %s";
  expected_output_dim ← get_auto_output_layer_dim_opt l (Data.dim t);
  py_assert (bool_decide (expected_output_dim = Data.dim o))
    "Expected output dim is %i but the output has dim %i. Target: %s, output: %s".

End LossCheck.

Definition ex_ndim_dense (d : Data.t) : Z :=
  Z.of_nat (length (Data.shape d)) + (if Data.sparse d then 1 else 0).

(** The output of a layer with the CTC loss over the default target, with
    the width inferred and with [n_out = 5]. *)
Definition ex_inferred_run : Result addr * State :=
  get_out_data_from_opts (H:=ex_TFUtil) 0%nat "output" None None None []
    (Some CtcLoss) ex_target_state.

Definition ex_explicit_run : Result addr * State :=
  get_out_data_from_opts (H:=ex_TFUtil) 0%nat "output" None (Some 5) None []
    (Some CtcLoss) ex_target_state.

(** The output of a layer with the cross-entropy loss and its own target
    "data", with the width inferred. *)
Definition ex_own_target_run : Result addr * State :=
  get_out_data_from_opts (H:=ex_TFUtil) 0%nat "output" None None (Some "data") []
    (Some CrossEntropyLoss) ex_target_state.

(** The output declared for a layer of width 7 over the layer [a]. *)
Definition ex_declared_run : Result addr * State :=
  get_out_data_from_opts (H:=ex_TFUtil) 0%nat "hidden" None (Some 7) None [ex_a] None
    (ex_state TrainTrue).

(** ** PoolLayer *)

(** [range(start, stop)]. *)
Definition py_range (start stop : Z) : list Z := seqZ start (stop - start).

(** An argument that is an int or a sequence of ints. *)
Inductive IntOrList :=
| AnInt (z : Z)
| AList (l : list Z).

Definition int_list_tensor (name : string) (l : list Z) : Tensor :=
  TCall name (TInt <$> l).

Section Pool.

(** [Data.get_placeholder_as_batch_major] of TFUtil. *)
Variable get_placeholder_as_batch_major : Data.t → Result Tensor.

(** One item of the dict comprehension of the output's lengths. *)
Definition PoolLayer_size_item (input_data : addr) (y : Tensor) (i : Z) : M (Z * Tensor) :=
  inp ← read_data input_data;
  b ← size_contains (Data.size_placeholder inp) i;
  s ← (if (b : bool) then size_getitem (Data.size_placeholder inp) (Some i)
       else build (TShapeAt y (i + 1)));
  mret (i, s).

(** One round of the loop for the padding "VALID". *)
Definition PoolLayer_valid_item (output : addr) (pool_size : list Z)
    (item : Z * Tensor) : M unit :=
  let '(i, s) := item in
  out ← read_data output;
  k ← from_option (pool_size !! Z.to_nat i) (IndexError "list index out of range");
  d ← build (TSub s (TInt k));
  v ← build (TAdd d (TInt 1));
  size_setitem (Data.size_placeholder out) (Some i) v.

(** [PoolLayer.__init__]; [super_init] is the base-class constructor, which
    gives [self.input_data] and [self.output], and [kwargs] are the names of
    the other keyword arguments. *)
Definition PoolLayer___init__ (super_init : M (addr * addr)) (kwargs : list string)
    (mode : string) (pool_size : list Z) (padding : string)
    (dilation_rate : IntOrList) (strides : option IntOrList) : M (addr * addr) :=
  _ ← py_assert (bool_decide ("n_out" ∉ kwargs)) "";
  _ ← py_assert (bool_decide ("out_type" ∉ kwargs)) "";
  let mode := upper mode in
  _ ← py_assert (bool_decide (mode ∈ ["MAX"; "AVG"])) "";
  let padding := upper padding in
  _ ← py_assert (bool_decide (padding ∈ ["VALID"; "SAME"])) "";
  let dilation_rate :=
    match dilation_rate with
    | AnInt z => replicate (length pool_size) z
    | AList l => l
    end in
  _ ← py_assert (bool_decide (length dilation_rate = length pool_size)) "";
  let strides :=
    match strides with
    | None => pool_size
    | Some (AnInt z) => replicate (length pool_size) z
    | Some (AList l) => l
    end in
  _ ← py_assert (bool_decide (length strides = length pool_size)) "";
  '(input_data, output) ← super_init;
  inp ← read_data input_data;
  x ← lift_result (get_placeholder_as_batch_major inp);
  x ← build (TCall "check_input_dim" [x; TInt (-1); opt_int_tensor (Data.dim inp)]);
  y ← build (TCall "tf.nn.pool"
               [x; int_list_tensor "window_shape" pool_size; TCall mode [];
                TCall padding []; int_list_tensor "dilation_rate" dilation_rate;
                int_list_tensor "strides" strides]);
  _ ← set_placeholder output y;
  items ← map_m (PoolLayer_size_item input_data y)
            (py_range 0 (Z.of_nat (length pool_size)));
  r ← new_dict (list_to_map items);
  _ ← set_size_placeholder output (Some r);
  _ ← (if String.eqb padding "SAME" then mret tt
       else if String.eqb padding "VALID" then
         for_each items (PoolLayer_valid_item output pool_size)
       else py_assert false "");
  mret (input_data, output).

End Pool.

(** The length the input has at key [i], or the extent of [y] there. *)
Definition pool_input_length (st : State) (input_data : addr) (y : Tensor) (i : Z) : Tensor :=
  default (TShapeAt y (i + 1))
    (inp ← datas st !! input_data;
     r ← Data.size_placeholder inp;
     m ← dicts st !! r;
     m !! i).

(** A pooling layer of window 3 over the layer [a], whose input has the
    length [TVar 10] at key 0, with a stride of 2. *)
Definition ex_pool_super_init : M (addr * addr) :=
  out ← new_data (Data.mk "pool_output" [None; Some 5] "float32" false (Some 5) (Some 0)
                    (Some 1) None None);
  mret (0%nat, out).

Definition ex_pool_run : Result (addr * addr) * State :=
  PoolLayer___init__ (λ d, ex_get_placeholder d (Some 0)) ex_pool_super_init
    [] "max" [3] "valid" (AnInt 1) (Some (AnInt 2)) (ex_state TrainTrue).

(** ** SourceLayer *)

(** [SourceLayer.__init__]: the new layer object, whose identity is [id].
    The constructor of the base class, which is given neither the sources
    nor the data key, asks the class for the output it declares unless an
    [output] is among the keyword arguments. *)
Definition SourceLayer___init__ (id : nat) (name : string) (network : nat)
    (data_key : option string) (sources : list LayerBase.t) (output : option addr)
    (target : option string) (loss : option LossClass) (L2 : option Number)
    (is_output_layer : option bool) (spatial_smoothing : option Number)
    (trainable : bool) : M LayerBase.t :=
  net ← get_network network;
  let data_key :=
    match data_key with
    | Some k => k
    | None => ExternData.default_input (Network.extern_data net)
    end in
  _ ← py_assert (bool_decide (sources = [])) "source layer does not expect sources";
  data ← get_extern_data network data_key true;
  target ← default_target_for network target loss;
  let recurrent := match loss with Some l => loss_recurrent l | None => false end in
  _ ← match output with
      | Some o => mret o
      | None => SourceLayer_get_out_data_from_opts network None
      end;
  mret (LayerBase.mk id SourceLayer_ name network data target loss recurrent
          [] L2 is_output_layer spatial_smoothing trainable [] None).

(** The state in which the key [key] of the network's external data has
    been marked as used. *)
Definition mark_used (network : nat) (key : string) (st : State) : State :=
  match networks st !! network with
  | Some net =>
      let e := Network.extern_data net in
      with_networks
        (<[network := Network.with_extern_data
                        (ExternData.mk (ExternData.default_input e)
                           (ExternData.default_target e) (ExternData.data e)
                           ({[key]} ∪ ExternData.used e)) net]> (networks st)) st
  | None => st
  end.

(** ** RecLayer: the dict of the cell classes *)

(** [s.endswith(suffix)] and [s[:-k]]. *)
Definition str_endswith (suffix s : string) : bool :=
  let n := String.length s in
  let k := String.length suffix in
  (k <=? n)%nat && String.eqb (String.substring (n - k) k s) suffix.

Definition str_drop_last (k : nat) (s : string) : string :=
  String.substring 0 (String.length s - k) s.

(** The name [maybe_add] enters the class of the module attribute [key]
    under. *)
Definition cell_name (key : string) : string :=
  lower (if str_endswith "Cell" key then str_drop_last (String.length "Cell") key else key).

(** [maybe_add(key, v)] in [RecLayer._create_rnn_cells_dict]; [v] is [None]
    for an attribute that is not a class of cells. *)
Definition maybe_add {C} `{EqDecision C} (d : gmap string C) (key : string)
    (v : option C) : Result unit * gmap string C :=
  match v with
  | None => (Ok tt, d)
  | Some v =>
      let name := cell_name key in
      if bool_decide (d !! name = Some v ∨ d !! name = None)
      then (Ok tt, <[name := v]> d)
      else (Raise (AssertionError ""), d)
  end.

Fixpoint maybe_add_all {C} `{EqDecision C} (d : gmap string C)
    (items : list (string * option C)) : Result unit * gmap string C :=
  match items with
  | [] => (Ok tt, d)
  | (key, v) :: items' =>
      match maybe_add d key v with
      | (Ok _, d') => maybe_add_all d' items'
      | (Raise e, d') => (Raise e, d')
      end
  end.

(** [RecLayer._create_rnn_cells_dict], on the attributes of the two modules
    of cells. *)
Definition _create_rnn_cells_dict {C} `{EqDecision C} (d : gmap string C)
    (rnn_contrib TFNativeOp : list (string * option C)) : Result unit * gmap string C :=
  match maybe_add_all d rnn_contrib with
  | (Ok _, d') => maybe_add_all d' TFNativeOp
  | (Raise e, d') => (Raise e, d')
  end.

(** [RecLayer.get_rnn_cell_class], with the dict it fills when it is
    empty. *)
Definition get_rnn_cell_class_in {C} `{EqDecision C} (d : gmap string C)
    (rnn_contrib TFNativeOp : list (string * option C)) (name : string)
    : Result C * gmap string C :=
  let '(r, d) :=
    if bool_decide (d = ∅) then _create_rnn_cells_dict d rnn_contrib TFNativeOp
    else (Ok tt, d) in
  match r with
  | Raise e => (Raise e, d)
  | Ok _ =>
      match d !! lower name with
      | Some v => (Ok v, d)
      | None => (Raise (KeyError name), d)
      end
  end.

(** What a dict holds after the class attributes [items] have been
    entered: each entry is the class of an attribute with that name, and the
    classes of the attributes are found. *)
Definition cells_dict_holds {C} (d : gmap string C) (items : list (string * option C))
    : Prop :=
  (∀ key v, (key, Some v) ∈ items → d !! cell_name key = Some v) ∧
  (∀ n v, d !! n = Some v → ∃ key, (key, Some v) ∈ items ∧ n = cell_name key).

#[global] Instance CellKind_eq_dec : EqDecision CellKind.
Proof. solve_decision. Defined.

Definition ex_rnn_contrib : list (string * option (string * CellKind)) :=
  [("BasicLSTMCell", Some ("BasicLSTMCell", RNNCell)); ("static_rnn", None);
   ("LSTMBlockFusedCell", Some ("LSTMBlockFusedCell", FusedRNNCell))].

Definition ex_TFNativeOp : list (string * option (string * CellKind)) :=
  [("NativeLstmCell", Some ("NativeLstmCell", RecSeqCellOp))].

Definition ex_cells_dict : gmap string (string * CellKind) :=
  (_create_rnn_cells_dict ∅ ex_rnn_contrib ex_TFNativeOp).2.

(** * [GeneratingDataset.py]

    A dataset whose sequences are generated on demand and kept in a buffer
    for as long as the reader may still ask for them. *)

(** [num_seqs]: an int, or [float("inf")], the default. *)
Inductive NumSeqs :=
| Finite (n : Z)
| Infinite.

Section GeneratingDataset.

(** [Dataset.DatasetSeq], of which this file reads [seq_idx] and
    [num_frames]. *)
Variable DatasetSeq : Type.
Variable seq_idx : DatasetSeq → Z.
Variable num_frames : DatasetSeq → Z.

(** [generate_seq] is left to the subclass; what it reads and changes besides
    its argument (the random generator, for [Task12AXDataset]) is the
    [World]. *)
Variable World : Type.
Variable generate_seq : Z → World → Result DatasetSeq * World.

Record GeneratingDataset := mkGeneratingDataset {
  _num_seqs : NumSeqs;
  _num_timesteps : Z;
  reached_final_seq : bool;
  expected_load_seq_start : Z;
  added_data : list DatasetSeq;
}.

(** [init_seq_order], the fields it sets after the base class's part. *)
Definition init_seq_order (self : GeneratingDataset) : GeneratingDataset :=
  mkGeneratingDataset (_num_seqs self) 0 false 0 [].

(** The [while] loop of [_cleanup_old_seqs]: the index [i] it stops at,
    counted from the position it is at. *)
Fixpoint _cleanup_old_seqs_loop (data : list DatasetSeq) (seq_idx_end : Z) : nat :=
  match data with
  | [] => 0%nat
  | d :: data' =>
      if seq_idx_end <=? seq_idx d then 0%nat
      else S (_cleanup_old_seqs_loop data' seq_idx_end)
  end.

Definition _cleanup_old_seqs (self : GeneratingDataset) (seq_idx_end : Z) : GeneratingDataset :=
  let i := _cleanup_old_seqs_loop (added_data self) seq_idx_end in
  mkGeneratingDataset (_num_seqs self) (_num_timesteps self) (reached_final_seq self)
    (expected_load_seq_start self) (drop i (added_data self)).

Fixpoint _get_seq_loop (data : list DatasetSeq) (i : Z) : option DatasetSeq :=
  match data with
  | [] => None
  | d :: data' => if seq_idx d =? i then Some d else _get_seq_loop data' i
  end.

Definition _get_seq (self : GeneratingDataset) (i : Z) : option DatasetSeq :=
  _get_seq_loop (added_data self) i.

Definition is_cached (self : GeneratingDataset) (start end_ : Z) : bool := false.

(** [[self.generate_seq(seq_idx=seq_idx) for seq_idx in ...]]: the first
    exception ends the comprehension. *)
Fixpoint generate_seqs (idxs : list Z) (w : World) : Result (list DatasetSeq) * World :=
  match idxs with
  | [] => (Ok [], w)
  | i :: idxs' =>
      match generate_seq i w with
      | (Raise e, w1) => (Raise e, w1)
      | (Ok d, w1) =>
          match generate_seqs idxs' w1 with
          | (Raise e, w2) => (Raise e, w2)
          | (Ok ds, w2) => (Ok (d :: ds), w2)
          end
      end
  end.

(** [end > self.num_seqs] and [end >= self.num_seqs]. *)
Definition gt_num_seqs (end_ : Z) (n : NumSeqs) : bool :=
  match n with Finite n => n <? end_ | Infinite => false end.

Definition ge_num_seqs (end_ : Z) (n : NumSeqs) : bool :=
  match n with Finite n => n <=? end_ | Infinite => false end.

Definition _load_seqs (self : GeneratingDataset) (start end_ : Z) (w : World)
  : Result unit * GeneratingDataset * World :=
  if negb (expected_load_seq_start self <=? start) then
    (Raise (AssertionError ""), self, w)
  else
    let self :=
      if expected_load_seq_start self <? start then
        let self := _cleanup_old_seqs self start in
        mkGeneratingDataset (_num_seqs self) (_num_timesteps self)
          (reached_final_seq self) start (added_data self)
      else self in
    let start :=
      match last (added_data self) with
      | Some d => Z.max (seq_idx d + 1) start
      | None => start
      end in
    let end_ :=
      match _num_seqs self with
      | Finite n => if gt_num_seqs end_ (Finite n) then n else end_
      | Infinite => end_
      end in
    let self :=
      if ge_num_seqs end_ (_num_seqs self) then
        mkGeneratingDataset (_num_seqs self) (_num_timesteps self) true
          (expected_load_seq_start self) (added_data self)
      else self in
    match generate_seqs (py_range start end_) w with
    | (Raise e, w') => (Raise e, self, w')
    | (Ok seqs, w') =>
        (Ok tt,
         mkGeneratingDataset (_num_seqs self)
           (_num_timesteps self + foldr Z.add 0 (map num_frames seqs))
           (reached_final_seq self) (expected_load_seq_start self)
           (added_data self ++ seqs),
         w')
    end.

Definition get_num_timesteps (self : GeneratingDataset) : Result Z :=
  if reached_final_seq self then Ok (_num_timesteps self)
  else Raise (AssertionError "").

(** The buffer holds the sequences of consecutive indices from
    [expected_load_seq_start] on. *)
Definition buffer_consecutive (self : GeneratingDataset) : Prop :=
  map seq_idx (added_data self)
  = seqZ (expected_load_seq_start self) (Z.of_nat (length (added_data self))).

End GeneratingDataset.

Arguments mkGeneratingDataset {DatasetSeq}.
Arguments _num_seqs {DatasetSeq}.
Arguments _num_timesteps {DatasetSeq}.
Arguments reached_final_seq {DatasetSeq}.
Arguments expected_load_seq_start {DatasetSeq}.
Arguments added_data {DatasetSeq}.
Arguments init_seq_order {DatasetSeq}.
Arguments get_num_timesteps {DatasetSeq}.
Arguments is_cached {DatasetSeq}.
Arguments _cleanup_old_seqs_loop {DatasetSeq} seq_idx.
Arguments _cleanup_old_seqs {DatasetSeq} seq_idx.
Arguments _get_seq_loop {DatasetSeq} seq_idx.
Arguments _get_seq {DatasetSeq} seq_idx.
Arguments generate_seqs {DatasetSeq World} generate_seq.
Arguments _load_seqs {DatasetSeq} seq_idx num_frames {World} generate_seq.
Arguments buffer_consecutive {DatasetSeq} seq_idx.

(** A generator for examples: a sequence is its index and its number of
    frames, here the number of sequences generated before it. *)
Definition ex_generate_seq (i : Z) (w : nat) : Result (Z * Z) * nat :=
  (Ok (i, Z.of_nat w), S w).

Definition ex_dataset : GeneratingDataset (Z * Z) :=
  mkGeneratingDataset (Finite 5) 3 false 0 [(0, 0); (1, 1); (2, 2)].

(** ** The 12AX task *)

Definition _input_classes : string := "123ABCXYZ".
Definition _output_classes : string := "LR".

(** [s[i]] on a [str]: a negative index counts from the end. *)
Definition str_getitem (s : string) (i : Z) : Result ascii :=
  let n := Z.of_nat (String.length s) in
  let j := if i <? 0 then i + n else i in
  if (0 <=? j) && (j <? n) then
    match String.get (Z.to_nat j) s with
    | Some c => Ok c
    | None => Raise (IndexError "string index out of range")
    end
  else Raise (IndexError "string index out of range").

(** [s.index(c)] for a character [c]. *)
Fixpoint str_index (s : string) (c : ascii) : Result Z :=
  match s with
  | EmptyString => Raise (ValueError "substring not found")
  | String c' s' =>
      if Ascii.eqb c' c then Ok 0
      else match str_index s' c with
           | Ok i => Ok (i + 1)
           | Raise e => Raise e
           end
  end.

(** The loop variables of [make_output_seq]. *)
Record AXState := mkAXState {
  outer_state : string;
  inner_state : string;
  output_seq_str : string;
}.

(** One round of the loop of [make_output_seq]; [c] is a string of one
    character, so that [c in "12"] asks whether the character occurs. *)
Definition make_output_seq_step (st : AXState) (i : Z) : Result AXState :=
  match str_getitem _input_classes i with
  | Raise e => Raise e
  | Ok c =>
      let o := "L" in
      if has_char c "12" then
        Ok (mkAXState (String c "") (inner_state st) (output_seq_str st +:+ o))
      else if has_char c "AB" then
        Ok (mkAXState (outer_state st) (String c "") (output_seq_str st +:+ o))
      else if has_char c "XY" then
        let o :=
          if bool_decide (outer_state st +:+ inner_state st +:+ String c ""
                          ∈ ["1AX"; "2BY"])
          then "R" else o in
        Ok (mkAXState (outer_state st) "" (output_seq_str st +:+ o))
      else
        Ok (mkAXState (outer_state st) (inner_state st) (output_seq_str st +:+ o))
  end.

Fixpoint make_output_seq_loop (st : AXState) (input_seq : list Z) : Result AXState :=
  match input_seq with
  | [] => Ok st
  | i :: input_seq' =>
      match make_output_seq_step st i with
      | Raise e => Raise e
      | Ok st' => make_output_seq_loop st' input_seq'
      end
  end.

(** [list(map(f, s))] for a fallible [f] on the characters of [s]. *)
Fixpoint str_map_m {A} (f : ascii → Result A) (s : string) : Result (list A) :=
  match s with
  | EmptyString => Ok []
  | String c s' =>
      match f c with
      | Raise e => Raise e
      | Ok a =>
          match str_map_m f s' with
          | Raise e => Raise e
          | Ok l => Ok (a :: l)
          end
      end
  end.

Definition make_output_seq (input_seq : list Z) : Result (list Z) :=
  match make_output_seq_loop (mkAXState "" "" "") input_seq with
  | Raise e => Raise e
  | Ok st => str_map_m (str_index _output_classes) (output_seq_str st)
  end.

(** What the 12AX task asks for, said without the loop: the target at a
    position is R (1) when the symbol there is X, the last 1 or 2 before it
    is a 1 and the last of A, B, X, Y before it is an A, or when it is Y
    after a 2 and a B in the same way; otherwise L (0). *)
Definition last_of (cls : string) (cs : list ascii) : option ascii :=
  last (filter (λ c, has_char c cls = true) cs).

Definition ax_target (before : list ascii) (c : ascii) : Z :=
  match c, last_of "12" before, last_of "ABXY" before with
  | "X"%char, Some "1"%char, Some "A"%char => 1
  | "Y"%char, Some "2"%char, Some "B"%char => 1
  | _, _, _ => 0
  end.

(** The input class an index stands for. *)
Definition ax_symbol (i : Z) : ascii :=
  match str_getitem _input_classes i with Ok c => c | Raise _ => "000"%char end.

Definition ax_valid (i : Z) : Prop := -9 ≤ i < 9.

(** The targets of the symbols [input_seq] that follow the symbols
    [before], and their spelling in the output classes. *)
Fixpoint ax_targets (before : list ascii) (input_seq : list Z) : list Z :=
  match input_seq with
  | [] => []
  | i :: input_seq' =>
      ax_target before (ax_symbol i) :: ax_targets (before ++ [ax_symbol i]) input_seq'
  end.

Fixpoint ax_str (ts : list Z) : string :=
  match ts with
  | [] => ""
  | t :: ts' => String (if t =? 1 then "R"%char else "L"%char) (ax_str ts')
  end.

Definition opt_str (c : option ascii) : string :=
  match c with Some c => String c "" | None => "" end.

(** The loop variables after the symbols [cs]. *)
Definition ax_outer (cs : list ascii) : string := opt_str (last_of "12" cs).

Definition ax_inner (cs : list ascii) : string :=
  match last_of "ABXY" cs with
  | Some c => if has_char c "AB" then String c "" else ""
  | None => ""
  end.

(** ** The random input of the 12AX task *)

(** The strings of one character of a string: what [random.choice] chooses
    from when it is given a [str]. *)
Fixpoint str_items (s : string) : list string :=
  match s with
  | EmptyString => []
  | String c s' => String c "" :: str_items s'
  end.

(** Every character of [s] is one of [cls]. *)
Fixpoint all_in (cls s : string) : bool :=
  match s with
  | EmptyString => true
  | String c s' => has_char c cls && all_in cls s'
  end.

Section Random.

(** The generator of the module [random] is not part of the sources. Its
    draws are numbered; the draw [k] gives the float [rnd01 k] to a call of
    [random()], and to a call of [random.choice] the item at the index
    [pick k], taken modulo the number of items. *)
Variable rnd01 : nat → Qc.
Variable pick : nat → nat.

Definition choice (l : list string) (k : nat) : string :=
  nth (pick k mod length l) l "".

(** The inner [while] loop of [generate_input_seq]: each round draws a float
    and, below one half, a class. The loops are run for at most [fuel]
    rounds; [None] is a run that needs more. *)
Fixpoint generate_input_seq_inner (fuel : nat) (seq : string) (k : nat)
  : option (string * nat) :=
  match fuel with
  | O => None
  | S fuel' =>
      if bool_decide (rnd01 k < Q2Qc (1 # 2))%Qc then
        generate_input_seq_inner fuel' (seq +:+ choice (str_items _input_classes) (S k))
          (S (S k))
      else Some (seq, S k)
  end.

Fixpoint generate_input_seq_loop (fuel : nat) (seq_len : nat) (seq : string) (k : nat)
  : option (string * nat) :=
  match fuel with
  | O => None
  | S fuel' =>
      if (String.length seq <? seq_len)%nat then
        let '(seq, k) :=
          if bool_decide (rnd01 k < Q2Qc (1 # 2))%Qc
          then (seq +:+ choice (str_items "12") (S k), S (S k))
          else (seq, S k) in
        let '(seq, k) :=
          if bool_decide (rnd01 k < Q2Qc (9 # 10))%Qc
          then (seq +:+ choice ["AX"; "BY"] (S k), S (S k))
          else (seq, S k) in
        match generate_input_seq_inner fuel' seq k with
        | None => None
        | Some (seq, k) => generate_input_seq_loop fuel' seq_len seq k
        end
      else Some (seq, k)
  end.

(** [Task12AXDataset.generate_input_seq] for a length [seq_len], from the
    draw [k] on: the result and the number of the next draw. *)
Definition generate_input_seq (fuel : nat) (seq_len : nat) (k : nat)
  : option (Result (list Z) * nat) :=
  let seq := choice [""; "1"; "2"] k in
  match generate_input_seq_loop fuel seq_len seq (S k) with
  | None => None
  | Some (seq, k) =>
      Some (str_map_m (str_index _input_classes) (String.substring 0 seq_len seq), k)
  end.

End Random.

(** * [NetworkDescription.py] *)

(** [s.split(c)] for a character [c]. *)
Fixpoint str_split (c : ascii) (s : string) : list string :=
  match s with
  | EmptyString => [""]
  | String c' s' =>
      match str_split c s' with
      | piece :: pieces =>
          if Ascii.eqb c' c then "" :: piece :: pieces
          else String c' piece :: pieces
      | [] => [String c' ""]
      end
  end.

(** ["%d" % i] for a count [i]. *)
Definition str_of_nat (i : nat) : string :=
  DecimalString.NilEmpty.string_of_uint (Nat.to_uint i).

(** [l.append(v)], [n] times. *)
Definition append_times {A} (n : nat) (v : A) (l : list A) : list A :=
  Nat.iter n (λ l, l ++ [v]) l.

Section NetworkDescription.

(** The activation functions, [ActivationFunctions.strtoact], and
    [Util.hdf5_dimension]. *)
Variable Op : Type.
Variable strtoact : string → Result Op.
Variable hdf5_dimension : string → string → Z.

(** The activation of a layer: one function or a list of them, each with
    its name. *)
Inductive Activation :=
| OneAct (a : string * Op)
| ManyActs (acts : list (string * Op)).

Record LayerNetworkDescription := mkLayerNetworkDescription {
  num_inputs : Z;
  num_outputs : Z;
  hidden_info : list (string * Z * Activation * string);
  loss : string;
  L1_reg : Qc;
  L2_reg : Qc;
  dropout : list Qc;
  bidirectional : bool;
  sharpgates : string;
  truncation : Z;
  entropy : Qc;
}.

(** [LayerNetworkDescription.__init__] *)
Definition LayerNetworkDescription___init__ (num_inputs num_outputs : Z)
    (hidden_info : list (string * Z * Activation * string)) (loss : string)
    (L1_reg L2_reg : Qc) (dropout : list Qc) (bidirectional : bool)
    (sharpgates : string) (truncation : Z) (entropy : Qc)
    : Result LayerNetworkDescription :=
  if bool_decide (length dropout = S (length hidden_info)) then
    Ok (mkLayerNetworkDescription num_inputs num_outputs hidden_info loss L1_reg L2_reg
          dropout bidirectional sharpgates truncation entropy)
  else Raise (AssertionError "").

(** [copy]: the constructor on [init_args()], the attributes named as the
    constructor's arguments. *)
Definition LayerNetworkDescription_copy (self : LayerNetworkDescription)
    : Result LayerNetworkDescription :=
  LayerNetworkDescription___init__ (num_inputs self) (num_outputs self)
    (hidden_info self) (loss self) (L1_reg self) (L2_reg self) (dropout self)
    (bidirectional self) (sharpgates self) (truncation self) (entropy self).

(** What the calls on [Config.Config] give: [config.int(key, default)],
    [config.int_list(key)], [config.list(key)], [config.float(key, default)],
    [config.bool(key, default)] and [config.value(key, default)], and
    [config.list('dropout', [0.0])], whose items are the strings of the
    configuration or the floats of the default. *)
Record Config := mkConfig {
  config_int : string → Z → Z;
  config_int_list : string → list Z;
  config_list : string → list string;
  config_float : string → Qc → Qc;
  config_bool : string → bool → bool;
  config_value : string → string → string;
  config_list_dropout : list (string + Qc);
}.

(** [float(d)] on a string is a parameter. *)
Variable py_float : string → Result Qc.

Definition float_of (d : string + Qc) : Result Qc :=
  match d with inl s => py_float s | inr q => Ok q end.

Fixpoint res_map {A B} (f : A → Result B) (l : list A) : Result (list B) :=
  match l with
  | [] => Ok []
  | x :: l' =>
      match f x with
      | Raise e => Raise e
      | Ok y => match res_map f l' with
                | Raise e => Raise e
                | Ok ys => Ok (y :: ys)
                end
      end
  end.

Definition loss_from_config (config : Config) : string :=
  config_value config "loss" "ce".

Definition num_inputs_outputs_from_config (config : Config) : Result (Z * Z) :=
  let num_inputs := config_int config "num_inputs" 0 in
  let num_outputs := config_int config "num_outputs" 0 in
  let r :=
    match config_list config "train" with
    | train0 :: _ =>
        let _num_inputs :=
          hdf5_dimension train0 "inputPattSize" * config_int config "window" 1 in
        let _num_outputs := hdf5_dimension train0 "numLabels" in
        if negb (num_inputs =? 0) && negb (num_inputs =? _num_inputs)
        then Raise (AssertionError "")
        else if negb (num_outputs =? 0) && negb (num_outputs =? _num_outputs)
        then Raise (AssertionError "")
        else Ok (_num_inputs, _num_outputs)
    | [] => Ok (num_inputs, num_outputs)
    end in
  match r with
  | Raise e => Raise e
  | Ok (num_inputs, num_outputs) =>
      if (num_inputs =? 0) || (num_outputs =? 0) then
        Raise (AssertionError "provide num_inputs/num_outputs directly or via train")
      else
        let loss := loss_from_config config in
        if bool_decide (loss ∈ ["ctc"; "ce_ctc"]) || config_bool config "add_blank" false
        then Ok (num_inputs, num_outputs + 1)
        else Ok (num_inputs, num_outputs)
  end.

(** The loop over [enumerate(hidden_name)], from the index [i] on. *)
Fixpoint rename_hidden (i : nat) (hidden_name : list string) : list string :=
  match hidden_name with
  | [] => []
  | name :: rest =>
      (if String.eqb name "_" then "hidden_" +:+ str_of_nat i else name)
      :: rename_hidden (S i) rest
  end.

(** One round of the loop that builds [hidden_info]. *)
Definition hidden_info_item (hidden_type : list string) (hidden_size : list Z)
    (actfct hidden_name : list string) (i : nat)
    : Result (string * Z * Activation * string) :=
  match actfct !! i with
  | None => Raise (IndexError "list index out of range")
  | Some act =>
      let acts :=
        if has_char ":" act then
          match res_map (λ a, match strtoact a with
                              | Ok f => Ok (a, f) | Raise e => Raise e end)
                        (str_split ":" act) with
          | Ok acts => Ok (ManyActs acts)
          | Raise e => Raise e
          end
        else match strtoact act with
             | Ok f => Ok (OneAct (act, f))
             | Raise e => Raise e
             end in
      match acts with
      | Raise e => Raise e
      | Ok acts =>
          match hidden_type !! i, hidden_size !! i, hidden_name !! i with
          | Some t, Some n, Some name => Ok (t, n, acts, name)
          | _, _, _ => Raise (IndexError "list index out of range")
          end
      end
  end.

(** [LayerNetworkDescription.from_config] *)
Definition from_config (config : Config) : Result LayerNetworkDescription :=
  match num_inputs_outputs_from_config config with
  | Raise e => Raise e
  | Ok (num_inputs, num_outputs) =>
      let loss := loss_from_config config in
      let hidden_size := config_int_list config "hidden_size" in
      if negb (0 <? length hidden_size)%nat then
        Raise (AssertionError "no hidden layers specified")
      else
      let hidden_type := config_list config "hidden_type" in
      if negb (length hidden_type <=? length hidden_size)%nat then
        Raise (AssertionError "too many hidden layer types")
      else
      let hidden_name := config_list config "hidden_name" in
      if negb (length hidden_name <=? length hidden_size)%nat then
        Raise (AssertionError "too many hidden layer names")
      else
      let hidden_type :=
        if bool_decide (length hidden_type ≠ length hidden_size) then
          let n_hidden_type := length hidden_type in
          append_times (length hidden_size - length hidden_type)
            (if (n_hidden_type =? 1)%nat then default "" (hidden_type !! 0%nat)
             else "forward")
            hidden_type
        else hidden_type in
      let hidden_name :=
        if bool_decide (length hidden_name ≠ length hidden_size) then
          append_times (length hidden_size - length hidden_name) "_" hidden_name
        else hidden_name in
      let hidden_name := rename_hidden 0 hidden_name in
      let L1_reg := config_float config "L1_reg" 0%Qc in
      let L2_reg := config_float config "L2_reg" 0%Qc in
      let bidirectional := config_bool config "bidirectional" true in
      let truncation := config_int config "truncation" (-1) in
      let actfct := config_list config "activation" in
      let dropout := config_list_dropout config in
      let sharpgates := config_value config "sharpgates" "none" in
      let entropy := config_float config "entropy" 0%Qc in
      let actfct :=
        if (length actfct <? length hidden_size)%nat then
          append_times (length hidden_size - length actfct) "logistic" actfct
        else actfct in
      let dropout :=
        if (length dropout <? length hidden_size + 1)%nat then
          append_times (length hidden_size + 1 - length dropout) (inr 0%Qc) dropout
        else dropout in
      match res_map float_of dropout with
      | Raise e => Raise e
      | Ok dropout =>
          match res_map (hidden_info_item hidden_type hidden_size actfct hidden_name)
                        (seq 0 (length hidden_size)) with
          | Raise e => Raise e
          | Ok hidden_info =>
              LayerNetworkDescription___init__ num_inputs num_outputs hidden_info loss
                L1_reg L2_reg dropout bidirectional sharpgates truncation entropy
          end
      end
  end.

End NetworkDescription.

Arguments mkLayerNetworkDescription {Op}.
Arguments num_inputs {Op}.
Arguments num_outputs {Op}.
Arguments hidden_info {Op}.
Arguments loss {Op}.
Arguments L1_reg {Op}.
Arguments L2_reg {Op}.
Arguments dropout {Op}.
Arguments bidirectional {Op}.
Arguments sharpgates {Op}.
Arguments truncation {Op}.
Arguments entropy {Op}.
Arguments OneAct {Op}.
Arguments ManyActs {Op}.
Arguments LayerNetworkDescription_copy {Op}.
Arguments from_config {Op}.
Arguments hidden_info_item {Op}.

(** The type and the name [from_config] gives the hidden layer [i]. *)
Definition hidden_type_at (hidden_type : list string) (i : nat) : string :=
  match hidden_type !! i with
  | Some t => t
  | None => if (length hidden_type =? 1)%nat then default "" (hidden_type !! 0%nat)
            else "forward"
  end.

Definition hidden_name_at (hidden_name : list string) (i : nat) : string :=
  match hidden_name !! i with
  | Some name => if String.eqb name "_" then "hidden_" +:+ str_of_nat i else name
  | None => "hidden_" +:+ str_of_nat i
  end.

(** A configuration of three hidden layers of which one type, one name and
    two activations are given, with the CTC loss. *)
Definition ex_config : Config :=
  mkConfig
    (λ key default,
       if String.eqb key "num_inputs" then 40
       else if String.eqb key "num_outputs" then 10 else default)
    (λ key, if String.eqb key "hidden_size" then [100; 200; 300] else [])
    (λ key,
       if String.eqb key "hidden_type" then ["lstm"]
       else if String.eqb key "hidden_name" then ["_"; "enc"]
       else if String.eqb key "activation" then ["tanh"; "tanh:relu"] else [])
    (λ _ default, default)
    (λ _ default, default)
    (λ key default, if String.eqb key "loss" then "ctc" else default)
    [inr 0%Qc].

Definition ex_strtoact (a : string) : Result string := Ok a.
Definition ex_py_float (s : string) : Result Qc := Raise (ValueError "could not convert string to float").

(** * Reasoning about monadic code *)

Lemma bind_ok {A B} (m : M A) (k : A → M B) st b st' :
  (m ≫= k) st = (Ok b, st') ↔ ∃ a st1, m st = (Ok a, st1) ∧ k a st1 = (Ok b, st').
Proof.
  unfold mbind, M_bind. split.
  - destruct (m st) as [[a|e] st1] eqn:E; [eauto | discriminate].
  - intros (a & st1 & -> & H). done.
Qed.

Lemma bind_run {A B} (m : M A) (k : A → M B) st a st1 :
  m st = (Ok a, st1) → (m ≫= k) st = k a st1.
Proof. unfold mbind, M_bind. by intros ->. Qed.

Lemma bind_fail {A B} (m : M A) (k : A → M B) st e st1 :
  m st = (Raise e, st1) → (m ≫= k) st = (Raise e, st1).
Proof. unfold mbind, M_bind. by intros ->. Qed.

Lemma ret_ok {A} (a b : A) st st' :
  (mret a : M A) st = (Ok b, st') ↔ a = b ∧ st' = st.
Proof. unfold mret, M_ret. split; [by intros [= -> ->] | by intros [-> ->]]. Qed.

Lemma raise_ok {A} e (b : A) st st' : raise e st = (Ok b, st') ↔ False.
Proof. unfold raise. split; [discriminate | done]. Qed.

Lemma py_assert_ok b msg u st st' :
  py_assert b msg st = (Ok u, st') ↔ b = true ∧ st' = st.
Proof.
  unfold py_assert. destruct b; unfold mret, M_ret, raise; split;
    try (by intros [= <-]); try (by intros [? ->]; destruct u); by intros [[=] _].
Qed.

Lemma from_option_ok {A} (o : option A) e a st st' :
  from_option o e st = (Ok a, st') ↔ o = Some a ∧ st' = st.
Proof.
  unfold from_option. destruct o; unfold mret, M_ret, raise; split;
    try (by intros [= -> ->]); try (by intros [[= ->] ->]); by intros [[=] _].
Qed.

Lemma lift_result_ok {A} (r : Result A) a st st' :
  lift_result r st = (Ok a, st') ↔ r = Ok a ∧ st' = st.
Proof.
  unfold lift_result. destruct r; unfold mret, M_ret, raise; split;
    try (by intros [= -> ->]); try (by intros [[= ->] ->]); by intros [[=] _].
Qed.

Lemma read_data_ok a d st st' :
  read_data a st = (Ok d, st') ↔ datas st !! a = Some d ∧ st' = st.
Proof.
  unfold read_data. destruct (datas st !! a); split;
    try (by intros [= -> ->]); try (by intros [[= ->] ->]); by intros [[=] _].
Qed.

Lemma read_dict_ok r m st st' :
  read_dict r st = (Ok m, st') ↔ dicts st !! r = Some m ∧ st' = st.
Proof.
  unfold read_dict. destruct (dicts st !! r); split;
    try (by intros [= -> ->]); try (by intros [[= ->] ->]); by intros [[=] _].
Qed.

Lemma get_network_ok n net st st' :
  get_network n st = (Ok net, st') ↔ networks st !! n = Some net ∧ st' = st.
Proof.
  unfold get_network. destruct (networks st !! n); split;
    try (by intros [= -> ->]); try (by intros [[= ->] ->]); by intros [[=] _].
Qed.

Lemma write_data_ok a d u st st' :
  write_data a d st = (Ok u, st') ↔ st' = with_datas (<[a := d]> (datas st)) st.
Proof. unfold write_data. destruct u. split; [by intros [= <-] | by intros ->]. Qed.

Lemma new_data_ok d a st st' :
  new_data d st = (Ok a, st') ↔
  a = fresh (dom (datas st)) ∧ st' = with_datas (<[a := d]> (datas st)) st.
Proof. unfold new_data. split; [by intros [= <- <-] | by intros [-> ->]]. Qed.

Lemma write_dict_ok r m u st st' :
  write_dict r m st = (Ok u, st') ↔ st' = with_dicts (<[r := m]> (dicts st)) st.
Proof. unfold write_dict. destruct u. split; [by intros [= <-] | by intros ->]. Qed.

Lemma new_dict_ok m r st st' :
  new_dict m st = (Ok r, st') ↔
  r = fresh (dom (dicts st)) ∧ st' = with_dicts (<[r := m]> (dicts st)) st.
Proof. unfold new_dict. split; [by intros [= <- <-] | by intros [-> ->]]. Qed.

Lemma put_network_ok n net u st st' :
  put_network n net st = (Ok u, st') ↔ st' = with_networks (<[n := net]> (networks st)) st.
Proof. unfold put_network. destruct u. split; [by intros [= <-] | by intros ->]. Qed.

Lemma build_ok t t' st st' :
  build t st = (Ok t', st') ↔ t' = t ∧ st' = with_graph (graph st ++ [t]) st.
Proof. unfold build. split; [by intros [= <- <-] | by intros [-> ->]]. Qed.

(** Taking a successful run apart, one step at a time. *)
Ltac inv_step H :=
  match type of H with
  | (_ ≫= _) _ = (Ok _, _) =>
      let a := fresh "v" in let s := fresh "st" in
      let H1 := fresh "Hm" in
      apply bind_ok in H as (a & s & H1 & H); inv_step H1; inv_step H
  | mret _ _ = (Ok _, _) => apply ret_ok in H as [? ?]; subst
  | raise _ _ = (Ok _, _) => by apply raise_ok in H
  | py_assert _ _ _ = (Ok _, _) => apply py_assert_ok in H as [? ?]; subst
  | from_option _ _ _ = (Ok _, _) => apply from_option_ok in H as [? ?]; subst
  | lift_result _ _ = (Ok _, _) => apply lift_result_ok in H as [? ?]; subst
  | read_data _ _ = (Ok _, _) => apply read_data_ok in H as [? ?]; subst
  | read_dict _ _ = (Ok _, _) => apply read_dict_ok in H as [? ?]; subst
  | get_network _ _ = (Ok _, _) => apply get_network_ok in H as [? ?]; subst
  | write_data _ _ _ = (Ok _, _) => apply write_data_ok in H; subst
  | new_data _ _ = (Ok _, _) => apply new_data_ok in H as [? ?]; subst
  | write_dict _ _ _ = (Ok _, _) => apply write_dict_ok in H; subst
  | new_dict _ _ = (Ok _, _) => apply new_dict_ok in H as [? ?]; subst
  | put_network _ _ _ = (Ok _, _) => apply put_network_ok in H; subst
  | build _ _ = (Ok _, _) => apply build_ok in H as [? ?]; subst
  | _ => idtac
  end.

Lemma stateless_ret {A} (a : A) : stateless (mret a : M A).
Proof. by exists (Ok a). Qed.

Lemma stateless_raise {A} e : stateless (raise e : M A).
Proof. by exists (Raise e). Qed.

Lemma stateless_assert b msg : stateless (py_assert b msg).
Proof. destruct b; [apply stateless_ret | apply stateless_raise]. Qed.

Lemma stateless_from_option {A} (o : option A) e : stateless (from_option o e).
Proof. destruct o; [apply stateless_ret | apply stateless_raise]. Qed.

Lemma stateless_bind {A B} (m : M A) (k : A → M B) :
  stateless m → (∀ a, stateless (k a)) → stateless (m ≫= k).
Proof.
  intros [[a|e] Hm] Hk.
  - destruct (Hk a) as [r Hr]. exists r. intros st.
    unfold mbind, M_bind. by rewrite Hm.
  - exists (Raise e). intros st. unfold mbind, M_bind. by rewrite Hm.
Qed.

Lemma stateless_run {A} (m : M A) st r st' :
  stateless m → m st = (r, st') → st' = st ∧ ∀ s, m s = (r, s).
Proof.
  intros [r0 Hm] Hrun. rewrite Hm in Hrun. injection Hrun as <- <-.
  split; [done | apply Hm].
Qed.

Ltac stateless_tac :=
  repeat first
    [ apply stateless_ret | apply stateless_raise | apply stateless_assert
    | apply stateless_from_option | apply stateless_bind; [|intros]
    | case_match ].

(** A loop whose body leaves the state alone leaves the state alone. *)
Lemma for_each_pure {A} (body : A → M unit) (l : list A) st r st' :
  (∀ x s r s', body x s = (r, s') → s' = s) →
  for_each l body st = (r, st') → st' = st.
Proof.
  intros Hb. revert r st'. induction l as [|x l IH]; simpl; intros r st'.
  - by intros [= <- <-].
  - unfold mbind, M_bind. destruct (body x st) as [[[]|e] s1] eqn:E.
    + apply Hb in E as ->. apply IH.
    + apply Hb in E as ->. by intros [= <- <-].
Qed.

Lemma for_each_ok {A} (body : A → M unit) (l : list A) st u st' :
  (∀ x s r s', body x s = (r, s') → s' = s) →
  for_each l body st = (Ok u, st') → Forall (λ x, body x st = (Ok tt, st)) l.
Proof.
  intros Hb. induction l as [|x l IH]; simpl; [constructor|].
  unfold mbind, M_bind. destruct (body x st) as [[[]|e] s1] eqn:E; [|discriminate].
  pose proof (Hb _ _ _ _ E) as ->. intros H. constructor; [done | by apply IH].
Qed.

Lemma for_each_all {A} (body : A → M unit) (l : list A) st :
  Forall (λ x, body x st = (Ok tt, st)) l → for_each l body st = (Ok tt, st).
Proof.
  induction 1 as [|x l Hx _ IH]; simpl; [done|].
  by rewrite (bind_run _ _ _ _ _ Hx).
Qed.

Lemma map_m_pure {A B} (f : A → M B) (l : list A) st r st' :
  (∀ x s r s', f x s = (r, s') → s' = s) →
  map_m f l st = (r, st') → st' = st.
Proof.
  intros Hf. revert r st'. induction l as [|x l IH]; simpl; intros r st'.
  - by intros [= <- <-].
  - unfold mbind, M_bind. destruct (f x st) as [[y|e] s1] eqn:E.
    + apply Hf in E as ->.
      destruct (map_m f l st) as [[ys|e] s2];
        specialize (IH _ _ eq_refl) as ->; by intros [= <- <-].
    + apply Hf in E as ->. by intros [= <- <-].
Qed.

(** * The output-layer flag *)

(** C10: [is_output_layer()] returns the explicitly supplied flag when one
    was given; otherwise it returns True if and only if the layer has a
    target set or the layer's name is exactly "output". *)
Theorem is_output_layer_spec (self : LayerBase.t) :
  (∀ b, LayerBase._is_output_layer self = Some b → is_output_layer self = b) ∧
  (LayerBase._is_output_layer self = None →
   (is_output_layer self = true ↔ target_set self ∨ LayerBase.name self = "output")).
Proof.
  unfold is_output_layer, target_set. split.
  - by intros b ->.
  - intros ->. destruct (truthy_str (LayerBase.target self)); [by split; auto|].
    destruct (String.eqb_spec (LayerBase.name self) "output") as [E|E].
    + by split; auto.
    + split; [done|]. by intros [|].
Qed.

Example is_output_layer_flag_wins :
  is_output_layer
    (LayerBase.mk 0 LinearLayer_ "output" 0%nat 0%nat (Some "classes") None false [] None
       (Some false) None true [] None) = false.
Proof. reflexivity. Qed.

Example is_output_layer_empty_target :
  is_output_layer
    (LayerBase.mk 0 LinearLayer_ "hidden" 0%nat 0%nat (Some "") None false [] None
       None None true [] None) = false.
Proof. reflexivity. Qed.

(** * The CTC loss *)

(** C4: for the CTC loss, [get_auto_output_layer_dim d] is [d + 1]; and
    when the target descriptor is dense, [get_value] and [get_error] raise
    in the state they were called in: no node has been added to the graph
    and nothing else has changed. *)
Theorem ctc_loss_spec `{!TFUtil} (get_logits : OutputWithActivation.t → option Tensor) :
  (∀ d, get_auto_output_layer_dim CtcLoss d = d + 1) ∧
  (∀ self st a target,
     Loss.target self = Some a → datas st !! a = Some target →
     Data.sparse target = false →
     CtcLoss_get_value get_logits self st
       = (Raise (PyException "CTC target expected to be sparse (symbols)"), st) ∧
     CtcLoss_get_error get_logits self st
       = (Raise (PyException "CTC target expected to be sparse (symbols)"), st)).
Proof.
  split; [done|]. intros self st a target Ht Hd Hs.
  assert (loss_target self st = (Ok target, st)) as Hl.
  { unfold loss_target. rewrite Ht. simpl.
    unfold mbind, M_bind, mret, M_ret, read_data. by rewrite Hd. }
  unfold CtcLoss_get_value, CtcLoss_get_error.
  rewrite !(bind_run _ _ _ _ _ Hl), Hs. done.
Qed.

(** With a sparse target the CTC loss builds its nodes. *)
Example ctc_sparse_target_builds :
  let target := Data.mk "classes" [None] "int32" true (Some 5) (Some 0) (Some 1)
                        (Some (TVar 1)) (Some 1%nat) in
  let output := Data.mk "output" [None; Some 6] "float32" false (Some 6) (Some 0) (Some 1)
                        (Some (TVar 0)) (Some 0%nat) in
  let self := Loss.mk CtcLoss (Some 0%nat) None (Some (TVar 10)) (Some 1%nat) (Some (TVar 11))
                      false false None in
  let st := mkState {[ 0%nat := output; 1%nat := target ]} ∅ ∅ [] [] in
  is_ok (CtcLoss_get_error (H:=ex_TFUtil) (λ _, None) self st).1 = true ∧
  length (graph (CtcLoss_get_error (H:=ex_TFUtil) (λ _, None) self st).2) = 7%nat.
Proof. vm_compute. done. Qed.

(** * The cells of a bidirectional recurrent layer *)

(** C5: with [bidirectional=True], a construction that creates its cells
    creates exactly two, each of hidden width [n_out / 2], where [n_out]
    is the dimension of the layer's output and is even; if [n_out] is not
    divisible by 2 the construction raises and no cell has been
    instantiated; and with an even [n_out], no [direction], and a
    registered unit, the two cells are created. *)
Theorem bidirectional_cells_spec `{!TFUtil} (network : nat) (output : addr)
    (unit : string) (direction : option Z) (output_feedback attention : bool)
    (st : State) :
  let run := RecLayer___init___cells network output unit true direction
               output_feedback attention st in
  (∀ fw bw st', run = (Ok (fw, bw), st') →
     ∃ out n bwc, datas st !! output = Some out ∧ Data.dim out = Some n ∧
       n `mod` 2 = 0 ∧ bw = Some bwc ∧
       Cell.n_hidden fw = Some (n `div` 2) ∧ Cell.n_hidden bwc = Some (n `div` 2) ∧
       cells st' = cells st ++ [(Cell.class_name fw, Some (n `div` 2));
                                (Cell.class_name bwc, Some (n `div` 2))]) ∧
  (∀ out n, datas st !! output = Some out → Data.dim out = Some n →
     n `mod` 2 ≠ 0 →
     ∃ e st', run = (Raise e, st') ∧ cells st' = cells st) ∧
  (∀ out n net cls, datas st !! output = Some out → Data.dim out = Some n →
     n `mod` 2 = 0 → direction = None → networks st !! network = Some net →
     get_rnn_cell_class
       (if bool_decide (lower unit ∈ ["lstmp"; "lstm"])
        then if (negb output_feedback && negb attention)%bool
             then "nativelstm" else "lstmblock"
        else unit) st = (Ok cls, st) →
     ∃ st', run = (Ok (Cell.mk cls.1 cls.2 (Some (n `div` 2)),
                       Some (Cell.mk cls.1 cls.2 (Some (n `div` 2)))), st')).
Proof.
  intros run. subst run. unfold RecLayer___init___cells.
  set (u := if bool_decide (lower unit ∈ ["lstmp"; "lstm"]) then _ else unit).
  split; [|split].
  - intros fw bw st' Hrun.
    apply bind_ok in Hrun as ([] & s1 & Hdir & Hrun).
    assert (s1 = st) as ->.
    { destruct direction; [|by inv_step Hdir]. by inv_step Hdir. }
    apply bind_ok in Hrun as (cls & s2 & Hcls & Hrun).
    unfold get_rnn_cell_class in Hcls. inv_step Hcls.
    apply bind_ok in Hrun as (seed & s3 & Hseed & Hrun).
    unfold randint in Hseed. inv_step Hseed.
    apply bind_ok in Hrun as (out & s4 & Hout & Hrun). inv_step Hout.
    apply bind_ok in Hrun as (nh & s5 & Hnh & Hrun).
    destruct (Data.dim out) as [n|] eqn:Hn; [|by inv_step Hnh].
    inv_step Hnh.
    match goal with E : (_ =? 0) = true |- _ => apply Z.eqb_eq in E end.
    unfold new_cell, mbind, M_bind, mret, M_ret in Hrun. simpl in Hrun.
    injection Hrun as <- <- <-.
    exists out, n, (Cell.mk cls.1 cls.2 (Some (n `div` 2))). simpl.
    rewrite <- app_assoc. done.
  - intros out n Hout Hn Hodd.
    destruct direction as [dir|].
    { eexists _, st. split; [reflexivity | done]. }
    rewrite (bind_run _ _ st tt st) by done.
    unfold get_rnn_cell_class.
    destruct (_rnn_cells_dict !! lower u) as [cls|]; simpl.
    2:{ eexists _, st. by rewrite (bind_fail _ _ _ (KeyError u) st). }
    rewrite (bind_run _ _ st cls st) by done.
    unfold randint, get_network.
    destruct (networks st !! network) as [net|] eqn:Hnet.
    2:{ eexists _, st. unfold mbind, M_bind. by rewrite Hnet. }
    unfold mbind, M_bind, put_network, mret, M_ret, read_data. rewrite Hnet. simpl.
    rewrite Hout, Hn. simpl. unfold py_assert.
    destruct (Z.eqb_spec (n `mod` 2) 0); [done|]. unfold raise. eauto.
  - intros out n net cls Hout Hn Heven -> Hnet Hcls. simpl.
    rewrite (bind_run _ _ st tt st) by done.
    fold u. rewrite (bind_run _ _ _ _ _ Hcls).
    unfold randint, get_network.
    unfold mbind, M_bind, put_network, mret, M_ret, read_data. rewrite Hnet. simpl.
    rewrite Hout, Hn. simpl. unfold py_assert.
    destruct (Z.eqb_spec (n `mod` 2) 0); [|done]. simpl. eauto.
Qed.

(** The scenario of the specification: [n_out = 8] gives two cells of
    hidden width 4; [n_out = 7] fails with no cell created. *)
Example bidirectional_8_splits_4_4 :
  let r := RecLayer___init___cells (H:=ex_TFUtil) 0%nat 0%nat "BasicLSTM" true None false false
             (ex_rec_state 8) in
  r.1 = Ok (Cell.mk "BasicLSTMCell" RNNCell (Some 4),
            Some (Cell.mk "BasicLSTMCell" RNNCell (Some 4))) ∧
  cells r.2 = [("BasicLSTMCell", Some 4); ("BasicLSTMCell", Some 4)].
Proof. vm_compute. done. Qed.

Example bidirectional_7_fails :
  let r := RecLayer___init___cells (H:=ex_TFUtil) 0%nat 0%nat "BasicLSTM" true None false false
             (ex_rec_state 7) in
  r.1 = Raise (AssertionError "") ∧ cells r.2 = [].
Proof. vm_compute. done. Qed.

(** * The dynamic sizes of a reduce layer *)

Lemma renumber_skip i j : j ≠ i → skip i (renumber i j) = j.
Proof. unfold skip, renumber. intros. repeat case_match; lia. Qed.

Lemma skip_renumber i j : renumber i (skip i j) = j ∧ skip i j ≠ i.
Proof. unfold skip, renumber. repeat case_match; lia. Qed.

Lemma remove_axis_lookup (m : gmap Z Tensor) (i j : Z) :
  remove_axis m i !! j = m !! skip i j.
Proof.
  unfold remove_axis.
  assert ((if bool_decide (is_Some (m !! i)) then delete i m else m) = delete i m) as ->.
  { case_bool_decide as E; [done|]. symmetry. apply delete_id.
    by apply eq_None_not_Some. }
  set (l := (λ js : Z * Tensor, (renumber i js.1, js.2)) <$> map_to_list (delete i m)).
  assert (NoDup l.*1) as Hnd.
  { unfold l. rewrite <- list_fmap_compose.
    apply (NoDup_fmap_2_strong _ (map_to_list (delete i m))).
    - intros [j1 s1] [j2 s2] H1 H2 Heq. simpl in Heq.
      apply elem_of_map_to_list in H1, H2.
      assert (j1 ≠ i) by (intros ->; by rewrite lookup_delete_eq in H1).
      assert (j2 ≠ i) by (intros ->; by rewrite lookup_delete_eq in H2).
      assert (j1 = j2) as ->.
      { rewrite <- (renumber_skip i j1), <- (renumber_skip i j2) by done. by rewrite Heq. }
      congruence.
    - apply NoDup_map_to_list. }
  apply option_eq. intros s.
  rewrite <- (elem_of_list_to_map l j s Hnd). unfold l.
  rewrite list_elem_of_fmap. split.
  - intros [[j0 s0] [[= -> ->] Hin]]. apply elem_of_map_to_list in Hin. simpl.
    assert (j0 ≠ i) by (intros ->; by rewrite lookup_delete_eq in Hin).
    rewrite lookup_delete_ne in Hin by done. by rewrite renumber_skip.
  - intros Hs. exists (skip i j, s). destruct (skip_renumber i j) as [E1 E2].
    simpl. rewrite E1. split; [done|].
    apply elem_of_map_to_list. by rewrite lookup_delete_ne.
Qed.

Lemma remove_axes_lookup (l : list Z) (m : gmap Z Tensor) (j : Z) :
  foldl remove_axis m l !! j = m !! foldr skip j l.
Proof.
  revert m. induction l as [|i l IH]; intros m; simpl; [done|].
  by rewrite IH, remove_axis_lookup.
Qed.

Lemma keep_axis_lookup (m : gmap Z Tensor) (i j : Z) :
  (j = i ∧ is_Some (m !! i) → keep_axis m i !! j = Some (TInt 1)) ∧
  (¬ (j = i ∧ is_Some (m !! i)) → keep_axis m i !! j = m !! j).
Proof.
  unfold keep_axis. split.
  - intros [-> Hi]. rewrite (bool_decide_eq_true_2 _ Hi). apply lookup_insert_eq.
  - intros Hn. case_bool_decide as Hi; [|done].
    apply lookup_insert_ne. intros ->. by apply Hn.
Qed.

Lemma keep_axis_is_Some (m : gmap Z Tensor) (i j : Z) :
  is_Some (keep_axis m i !! j) ↔ is_Some (m !! j).
Proof.
  destruct (keep_axis_lookup m i j) as [H1 H2].
  destruct (decide (j = i ∧ is_Some (m !! i))) as [[-> Hi]|Hn].
  - rewrite H1 by done. split; [done | by eexists].
  - by rewrite H2.
Qed.

Lemma keep_axes_lookup (l : list Z) (m : gmap Z Tensor) (j : Z) :
  (j ∈ l ∧ is_Some (m !! j) → foldl keep_axis m l !! j = Some (TInt 1)) ∧
  (¬ (j ∈ l ∧ is_Some (m !! j)) → foldl keep_axis m l !! j = m !! j).
Proof.
  revert m. induction l as [|i l IH]; intros m; simpl.
  - split; [|done]. intros [E _]. by apply elem_of_nil in E.
  - destruct (IH (keep_axis m i)) as [IH1 IH2].
    destruct (keep_axis_lookup m i j) as [K1 K2].
    pose proof (keep_axis_is_Some m i j) as KS.
    split.
    + intros [Hin Hs]. destruct (decide (j ∈ l)) as [Hl|Hl].
      * apply IH1. by rewrite KS.
      * rewrite IH2 by (intros [? _]; done).
        apply elem_of_cons in Hin as [->|?]; [|done]. by apply K1.
    + intros Hn. rewrite IH2.
      * apply K2. intros [-> Hi]. apply Hn. split; [left | done].
      * rewrite KS. intros [? ?]. apply Hn. split; [by right | done].
Qed.

Lemma ReduceLayer__get_axis_stateless `{!TFUtil} axis inp :
  stateless (ReduceLayer__get_axis axis inp).
Proof. unfold ReduceLayer__get_axis, py_list_remove. stateless_tac. Qed.

Lemma dict_copy_ok r r' st st' :
  dict_copy r st = (Ok r', st') ↔
  ∃ r0 m, r = Some r0 ∧ dicts st !! r0 = Some m ∧ r' = fresh (dom (dicts st)) ∧
          st' = with_dicts (<[r' := m]> (dicts st)) st.
Proof.
  unfold dict_copy. destruct r as [r0|]; split.
  - intros Hrun. inv_step Hrun. eauto 10.
  - intros (? & m & [= <-] & Hm & -> & ->).
    rewrite (bind_run _ _ st m st); [done|]. by apply read_data_ok || by apply read_dict_ok.
  - by intros []%raise_ok.
  - by intros (? & ? & [=] & _).
Qed.

Lemma set_placeholder_ok a p u st st' :
  set_placeholder a p st = (Ok u, st') ↔
  ∃ d, datas st !! a = Some d ∧
       st' = with_datas (<[a := Data.with_placeholder (Some p) d]> (datas st)) st.
Proof.
  unfold set_placeholder. split.
  - intros Hrun. inv_step Hrun. eauto.
  - intros (d & Hd & ->). destruct u.
    by rewrite (bind_run _ _ st d st) by by apply read_data_ok.
Qed.

Lemma set_size_placeholder_ok a r u st st' :
  set_size_placeholder a r st = (Ok u, st') ↔
  ∃ d, datas st !! a = Some d ∧
       st' = with_datas (<[a := Data.with_size_placeholder r d]> (datas st)) st.
Proof.
  unfold set_size_placeholder. split.
  - intros Hrun. inv_step Hrun. eauto.
  - intros (d & Hd & ->). destruct u.
    by rewrite (bind_run _ _ st d st) by by apply read_data_ok.
Qed.

(** The arithmetic of the keys: a reduce layer that is built leaves in
    its output's [size_placeholder] the input's mapping [m] changed as
    follows, where [axes] is the list of axes [_get_axis] gives, counted
    with the batch axis, each of which the loop uses as a key of the
    mapping. Without [keep_dims], for one such number [i] the entry of
    the key [i] is removed: the entries of the keys below [i] stay, the
    entry of each key [j > i] is found at [j - 1], and there is no other
    entry (several are removed one after the other, the largest first).
    With [keep_dims], the entry of each key among [axes] that has one is 1
    and every other key keeps its entry. *)
Lemma reduce_layer_dyn_sizes_keys `{!TFUtil} (input_data output : addr) (mode : string)
    (axis : AxisArg) (keep_dims : bool) (enforce_batch_dim_axis : Z) (st st' : State) :
  ReduceLayer___init__ input_data output mode axis keep_dims enforce_batch_dim_axis st
    = (Ok tt, st') →
  ∃ inp r m axes out' r' m',
    datas st !! input_data = Some inp ∧ Data.size_placeholder inp = Some r ∧
    dicts st !! r = Some m ∧
    (∀ s, ReduceLayer__get_axis axis inp s = (Ok axes, s)) ∧
    datas st' !! output = Some out' ∧ Data.size_placeholder out' = Some r' ∧
    dicts st' !! r' = Some m' ∧
    m' = reduce_dyn_sizes keep_dims axes m ∧
    if keep_dims then
      ∀ j, (j ∈ axes ∧ is_Some (m !! j) → m' !! j = Some (TInt 1)) ∧
           (¬ (j ∈ axes ∧ is_Some (m !! j)) → m' !! j = m !! j)
    else
      (∀ j, m' !! j = m !! key_before axes j) ∧
      (∀ i, axes = [i] →
         (∀ j s, m !! j = Some s → j < i → m' !! j = Some s) ∧
         (∀ j s, m !! j = Some s → i < j → m' !! (j - 1) = Some s) ∧
         (∀ j' s, m' !! j' = Some s →
            ∃ j, j ≠ i ∧ m !! j = Some s ∧ j' = (if j <? i then j else j - 1))).
Proof.
  intros Hrun. unfold ReduceLayer___init__ in Hrun. inv_step Hrun.
  rename v0 into inp, v3 into axes, v5 into m0.
  assert (dicts st0 = dicts st) as Hd0.
  { case_bool_decide; inv_step Hm; done. }
  apply stateless_run in Hm0 as [-> Hax]; [|apply ReduceLayer__get_axis_stateless].
  apply dict_copy_ok in Hm1 as (r & m & Hr & Hm1 & -> & ->). simpl in *.
  rewrite lookup_insert_eq in H3. injection H3 as <-.
  rewrite Hd0 in Hm1.
  apply set_placeholder_ok in Hm3 as (d3 & Hd3 & ->).
  apply set_size_placeholder_ok in Hrun as (d4 & Hd4 & ->). simpl in *.
  rewrite lookup_insert_eq in Hd4. injection Hd4 as <-.
  assert (dicts st3 !! v6 = Some (reduce_dyn_sizes keep_dims axes m)) as Hm'.
  { destruct keep_dims; inv_step Hm2; simpl; by rewrite lookup_insert_eq. }
  eexists inp, r, m, axes, _, v6, _.
  split; [done|]. split; [done|]. split; [done|]. split; [done|].
  split; [apply lookup_insert_eq|]. split; [done|]. split; [exact Hm'|].
  split; [done|].
  destruct keep_dims; simpl.
  - intros j. apply keep_axes_lookup.
  - split.
    + intros j. apply remove_axes_lookup.
    + intros i ->. unfold reduce_dyn_sizes. simpl.
      assert (∀ j, remove_axis m i !! j = m !! skip i j) as L
        by apply remove_axis_lookup.
      repeat split.
      * intros j s Hj Hlt. rewrite L. unfold skip.
        by destruct (Z.ltb_spec j i); [|lia].
      * intros j s Hj Hlt. rewrite L. unfold skip.
        destruct (Z.ltb_spec (j - 1) i); [lia|]. by replace (j - 1 + 1) with j by lia.
      * intros j' s Hj'. rewrite L in Hj'. exists (skip i j').
        destruct (skip_renumber i j') as [E1 E2]. unfold renumber in E1. done.
Qed.

(** C3: [ReduceLayer.__init__] on an input of axes (batch, time, feature),
    whose mapping of dynamic lengths holds the lengths of the time axis
    under the key 0, the axis counted without the batch axis. The axis
    that is reduced is counted with the batch axis, and the loop on the
    mapping uses that number as a key. Reducing the time axis, given as
    axis 1 or as "spatial", leaves the lengths of the time axis in the
    output's mapping, under the key 0, with [keep_dims] (where they are
    not set to 1) and without (where they are not removed). Reducing the
    batch axis, axis 0, removes the lengths of the time axis, which is
    not reduced. *)
Theorem reduce_layer_time_axis_length_stays :
  ∃ inp,
    datas ex_reduce_time_state !! 0%nat = Some inp ∧
    Data.batch_dim_axis inp = Some 0 ∧ Data.time_dim_axis inp = Some 1 ∧
    time_dim_axis_excluding_batch (TFUtil:=ex_TFUtil) inp = Some 0 ∧
    get_batch_axis_excluding_batch (TFUtil:=ex_TFUtil) inp 1 = Some 0 ∧
    size_placeholder_of 0%nat ex_reduce_time_state = Some {[ 0 := TVar 20 ]} ∧
    ReduceLayer__get_axis (H:=ex_TFUtil) (AxisInt 1) inp ex_reduce_time_state
      = (Ok [1], ex_reduce_time_state) ∧
    ReduceLayer__get_axis (H:=ex_TFUtil) (AxisStr "spatial") inp ex_reduce_time_state
      = (Ok [1], ex_reduce_time_state) ∧
    ReduceLayer__get_axis (H:=ex_TFUtil) (AxisStr "B") inp ex_reduce_time_state
      = (Ok [0], ex_reduce_time_state) ∧
    (ex_reduce_time_run (AxisInt 1) false).1 = Ok tt ∧
    size_placeholder_of 1%nat (ex_reduce_time_run (AxisInt 1) false).2
      = Some {[ 0 := TVar 20 ]} ∧
    (ex_reduce_time_run (AxisStr "spatial") false).1 = Ok tt ∧
    size_placeholder_of 1%nat (ex_reduce_time_run (AxisStr "spatial") false).2
      = Some {[ 0 := TVar 20 ]} ∧
    (ex_reduce_time_run (AxisInt 1) true).1 = Ok tt ∧
    size_placeholder_of 1%nat (ex_reduce_time_run (AxisInt 1) true).2
      = Some {[ 0 := TVar 20 ]} ∧
    (ex_reduce_time_run (AxisInt 0) false).1 = Ok tt ∧
    size_placeholder_of 1%nat (ex_reduce_time_run (AxisInt 0) false).2 = Some ∅ ∧
    (ex_reduce_time_run (AxisStr "B") false).1 = Ok tt ∧
    size_placeholder_of 1%nat (ex_reduce_time_run (AxisStr "B") false).2 = Some ∅.
Proof. eexists. vm_compute. repeat split; reflexivity. Qed.

(** * The sequence lengths of a slice layer *)

Lemma SliceLayer__get_axis_stateless `{!TFUtil} axis axis_kind inp :
  stateless (SliceLayer__get_axis axis axis_kind inp).
Proof. unfold SliceLayer__get_axis. stateless_tac. Qed.

Lemma size_getitem_ok r key v st st' :
  size_getitem r key st = (Ok v, st') ↔
  ∃ r0 m k, r = Some r0 ∧ key = Some k ∧ dicts st !! r0 = Some m ∧ m !! k = Some v ∧ st' = st.
Proof.
  unfold size_getitem. split.
  - intros Hrun. inv_step Hrun. destruct key; inv_step Hrun. eauto 10.
  - intros (r0 & m & k & -> & -> & Hm & Hk & ->).
    rewrite (bind_run _ _ st r0 st) by done.
    rewrite (bind_run _ _ st m st) by by apply read_dict_ok.
    by rewrite Hk.
Qed.

Lemma size_setitem_ok r key v u st st' :
  size_setitem r key v st = (Ok u, st') ↔
  ∃ r0 m k, r = Some r0 ∧ key = Some k ∧ dicts st !! r0 = Some m ∧
            st' = with_dicts (<[r0 := <[k := v]> m]> (dicts st)) st.
Proof.
  unfold size_setitem. split.
  - intros Hrun. inv_step Hrun. destruct key; inv_step Hrun. eauto 10.
  - intros (r0 & m & k & -> & -> & Hm & ->). destruct u.
    rewrite (bind_run _ _ st r0 st) by done.
    by rewrite (bind_run _ _ st m st) by by apply read_dict_ok.
Qed.

(** C6: a slice layer over the input's time axis with
    [slice_start = k > 0], once built, leaves at the time axis' key of its
    output's [size_placeholder] a length tensor [len'] obtained from the
    input's length tensor [len] in three steps. After the [slice_start]
    step every example's length is [max 0 (len - k)], never negative; a
    [slice_end] then takes the minimum with the padded time extent less
    [slice_end]; and a [slice_step] floor-divides the length by the step.
    So with no [slice_end] every example's length is [max 0 (len - k)], or
    that value floor-divided by the step when a [slice_step] is given. *)
Theorem slice_layer_lengths_spec `{!TFUtil} (input_data output : addr) (axis : option Z)
    (axis_kind : option string) (k : Z) (slice_end slice_step : option Z)
    (st st' : State) (inp : Data.t) :
  SliceLayer___init__ input_data output axis axis_kind (Some k) slice_end slice_step st
    = (Ok tt, st') →
  0 < k →
  datas st !! input_data = Some inp →
  (SliceLayer__get_axis axis axis_kind inp st).1 = Ok (Data.time_dim_axis inp) →
  ∃ ax r t m len x start_len end_len len' m' out',
    Data.time_dim_axis inp = Some ax ∧
    Data.size_placeholder inp = Some r ∧ time_dim_axis_excluding_batch inp = Some t ∧
    dicts st !! r = Some m ∧ m !! t = Some len ∧ Data.placeholder inp = Some x ∧
    datas st' !! output = Some out' ∧ Data.size_placeholder out' = Some r ∧
    dicts st' !! r = Some m' ∧ m' !! t = Some len' ∧
    start_len = TMaximum (TInt 0) (TSub len (TInt k)) ∧
    end_len = (if truthy_int slice_end
               then TMinimum (TSub (TShapeAt x ax) (TInt (default 0 slice_end))) start_len
               else start_len) ∧
    len' = (if truthy_int slice_step
            then TFloorDiv end_len (TInt (default 0 slice_step))
            else end_len) ∧
    (∀ env b, eval_int env start_len b = Z.max 0 (eval_int env len b - k) ∧
              0 ≤ eval_int env start_len b) ∧
    (truthy_int slice_step = true →
     ∀ env b, eval_int env len' b = eval_int env end_len b `div` default 0 slice_step) ∧
    (truthy_int slice_end = false →
     (truthy_int slice_step = false →
      ∀ env b, eval_int env len' b = Z.max 0 (eval_int env len b - k) ∧
               0 ≤ eval_int env len' b) ∧
     (truthy_int slice_step = true →
      ∀ env b, eval_int env len' b =
               Z.max 0 (eval_int env len b - k) `div` default 0 slice_step)).
Proof.
  intros Hrun Hk Hinp Hax. unfold SliceLayer___init__ in Hrun.
  apply bind_ok in Hrun as (inp' & s0 & Hm & Hrun).
  apply read_data_ok in Hm as [Hm ->].
  assert (inp' = inp) as -> by congruence. clear Hm.
  apply bind_ok in Hrun as (ax' & s1 & Hm & Hrun).
  apply stateless_run in Hm as [-> Hax']; [|apply SliceLayer__get_axis_stateless].
  rewrite Hax' in Hax. simpl in Hax. injection Hax as ->.
  apply bind_ok in Hrun as (ax & s1 & Hm & Hrun).
  apply from_option_ok in Hm as [Htime ->].
  apply bind_ok in Hrun as ([] & s1 & Hm & Hrun).
  apply set_size_placeholder_ok in Hm as (out & Hout & ->).
  rewrite Htime in Hrun. rewrite bool_decide_eq_true_2 in Hrun by done.
  assert (truthy_int (Some k) = true) as Htk by (simpl; destruct (Z.eqb_spec k 0); [lia | done]).
  rewrite Htk in Hrun. simpl in Hrun.
  apply bind_ok in Hrun as ([] & s4 & Hsizes & Hrun).
  apply bind_ok in Hsizes as ([] & s2 & Hstart & Hsizes).
  apply bind_ok in Hsizes as ([] & s3 & Hend & Hstep).
  inv_step Hstart.
  apply size_getitem_ok in Hm as (r & m & t & Hr & Ht & Hm & Hlen & ->).
  apply size_setitem_ok in Hstart as (r0 & m0 & t0 & Hr0 & Ht0 & Hm0 & ->).
  simplify_eq. simpl in *. rename v0 into len.
  apply bind_ok in Hrun as (x & s5 & Hx & Hrun). apply from_option_ok in Hx as [Hx ->].
  apply bind_ok in Hrun as (y & s6 & Hy & Hrun). apply build_ok in Hy as [-> ->].
  apply set_placeholder_ok in Hrun as (d4 & Hd4 & ->). simpl in *.
  set (start_len := TMaximum (TInt 0) (TSub len (TInt k))) in *.
  assert (∃ m3, datas s3 !! output = Some (Data.with_size_placeholder (Some r) out) ∧
                dicts s3 !! r = Some m3 ∧
                m3 !! t = Some (if truthy_int slice_end
                                then TMinimum (TSub (TShapeAt x ax) (TInt (default 0 slice_end)))
                                              start_len
                                else start_len)) as (m3 & Hd3 & Hm3 & Hl3).
  { rewrite <- Hr. destruct (truthy_int slice_end).
    - inv_step Hend.
      apply size_getitem_ok in Hm1 as (r1 & m1 & t1 & Hr1 & Ht1 & Hm1 & Hlen1 & ->).
      apply size_setitem_ok in Hend as (r2 & m2 & t2 & Hr2 & Ht2 & Hm2 & ->).
      simplify_eq. simpl in *. rewrite lookup_insert_eq in Hm1, Hm2. simplify_eq.
      rewrite lookup_insert_eq in Hlen1. simplify_eq.
      eexists. rewrite !lookup_insert_eq. done.
    - inv_step Hend. simpl. eexists. rewrite !lookup_insert_eq. done. }
  set (end_len := if truthy_int slice_end then _ else start_len) in *.
  assert (∃ m4, datas s4 !! output = Some (Data.with_size_placeholder (Some r) out) ∧
                dicts s4 !! r = Some m4 ∧
                m4 !! t = Some (if truthy_int slice_step
                                then TFloorDiv end_len (TInt (default 0 slice_step))
                                else end_len)) as (m4 & Hd4' & Hm4 & Hl4).
  { destruct (truthy_int slice_step).
    - inv_step Hstep.
      apply size_getitem_ok in Hm1 as (r1 & m1 & t1 & Hr1 & Ht1 & Hm1 & Hlen1 & ->).
      apply size_setitem_ok in Hstep as (r2 & m2 & t2 & Hr2 & Ht2 & Hm2 & ->).
      simplify_eq. simpl in *.
      eexists. rewrite !lookup_insert_eq. done.
    - inv_step Hstep. eauto. }
  simplify_eq.
  eexists ax, r, t, m, len, x, start_len, end_len, _, m4, _.
  split; [done|]. split; [done|]. split; [done|]. split; [done|]. split; [done|].
  split; [done|]. split; [apply lookup_insert_eq|]. split; [done|].
  split; [done|]. split; [exact Hl4|]. split; [done|]. split; [done|]. split; [done|].
  assert (∀ env b, eval_int env start_len b = Z.max 0 (eval_int env len b - k) ∧
                   0 ≤ eval_int env start_len b) as Hs.
  { intros env b. simpl. lia. }
  split; [exact Hs|]. split.
  - intros ->. intros env b. reflexivity.
  - unfold end_len. intros ->. split; intros ->; intros env b; simpl; [|done].
    destruct (Hs env b) as [E1 E2]. simpl in E1, E2. lia.
Qed.

(** The scenario of the specification: an example of length 5 sliced from
    start 7 has length 0. *)
Lemma slice_layer_lengths_witness :
  ex_slice_run = (Ok tt, ex_slice_run.2) ∧
  ∃ (out' : Data.t) (r : addr) (m' : gmap Z Tensor) (len' : Tensor),
    datas ex_slice_run.2 !! 2%nat = Some out' ∧ Data.size_placeholder out' = Some r ∧
    dicts ex_slice_run.2 !! r = Some m' ∧ m' !! 0 = Some len' ∧
    ∀ (env : Tensor → nat → Z) (b : nat), env (TVar 10) b = 5 → eval_int env len' b = 0.
Proof.
  assert (ex_slice_run = (Ok tt, ex_slice_run.2)) as Hrun by (vm_compute; reflexivity).
  split; [exact Hrun|].
  destruct (slice_layer_lengths_spec (H:=ex_TFUtil) 0%nat 2%nat None (Some "T") 7 None None
              ex_slice_state ex_slice_run.2 (ex_data "a_output" 5 0 0%nat) Hrun)
    as (ax & r & t & m & len & x & start_len & end_len & len' & m' & out' &
        Hax & Hr & Ht & Hm & Hlen & Hx & Hout & Hr' & Hm' & Hlen' & _ & _ & _ & _ & _ & Hev).
  { lia. }
  { vm_compute. reflexivity. }
  { vm_compute. reflexivity. }
  vm_compute in Hr. injection Hr as <-.
  vm_compute in Ht. injection Ht as <-.
  vm_compute in Hm. injection Hm as <-.
  vm_compute in Hlen. injection Hlen as <-.
  exists out', 0%nat, m', len'.
  split; [exact Hout|]. split; [exact Hr'|]. split; [exact Hm'|]. split; [exact Hlen'|].
  intros env b Hb. destruct Hev as [Hev _]; [reflexivity|].
  destruct (Hev eq_refl env b) as [-> _]. simpl. rewrite Hb. reflexivity.
Defined.

(** * The regularisation penalty *)

Lemma py_result_ok v w st st' : py_result v st = (Ok w, st') → w = v.
Proof. unfold py_result. destruct v; intros Hrun; inv_step Hrun; done. Qed.

Lemma add_not_int_r a b :
  (∀ z, b ≠ PInt z) → ∀ z, add_val a b ≠ PInt z.
Proof. intros Hb z. destruct b as [y| |]; [by destruct (Hb y)| |]; by destruct a. Qed.

Lemma add_not_int_l a b :
  (∀ z, a ≠ PInt z) → ∀ z, add_val a b ≠ PInt z.
Proof. intros Ha z. destruct a as [y| |]; [by destruct (Ha y)| |]; by destruct b. Qed.

Lemma mul_float_not_int q x z : mul_val (PFloat q) x ≠ PInt z.
Proof. by destruct x. Qed.

Lemma mul_tensor_not_int a t z : mul_val a (PTensor t) ≠ PInt z.
Proof. by destruct a. Qed.

Lemma not_int_not_zero_object c : (∀ z, c ≠ PInt z) → is_int_zero_object c = false.
Proof. intros Hc. destruct c; try done. by destruct (Hc z). Qed.

(** A sum that has reached a tensor stays one. *)
Lemma py_sum_tensor l : ∀ t st v st',
  py_sum (PTensor t) l st = (Ok v, st') → ∃ t', v = PTensor t'.
Proof.
  induction l as [|x l IH]; intros t st v st' Hrun; simpl in Hrun.
  - inv_step Hrun. eauto.
  - apply bind_ok in Hrun as (acc & s1 & Hacc & Hrun).
    apply py_result_ok in Hacc as ->. simpl in Hrun. eauto.
Qed.

Lemma map_m_length {A B} (f : A → M B) l : ∀ st ys st',
  map_m f l st = (Ok ys, st') → length ys = length l.
Proof.
  induction l as [|x l IH]; intros st ys st' Hrun; simpl in Hrun.
  - by inv_step Hrun.
  - apply bind_ok in Hrun as (y & s1 & _ & Hrun).
    apply bind_ok in Hrun as (ys' & s2 & Hys & Hrun).
    inv_step Hrun. simpl. f_equal. eauto.
Qed.

(** [get_params_l2_norm] is the int [2 * 0] on a layer without parameters
    and a tensor otherwise. *)
Lemma get_params_l2_norm_ok `{!TFUtil} (self : LayerBase.t) st norm st' :
  get_params_l2_norm self st = (Ok norm, st') →
  LayerBase.params self = [] ∧ norm = PInt 0 ∨
  LayerBase.params self ≠ [] ∧ ∃ t, norm = PTensor t.
Proof.
  unfold get_params_l2_norm. intros Hrun.
  apply bind_ok in Hrun as (losses & s1 & Hl & Hrun).
  apply bind_ok in Hrun as (s & s2 & Hs & Hrun).
  apply py_result_ok in Hrun as ->.
  assert (length losses = length (LayerBase.params self)) as Hlen.
  { etransitivity; [exact (map_m_length _ _ _ _ _ Hl)|].
    apply Permutation_length, merge_sort_Permutation. }
  clear Hl. rename Hlen into Hl.
  destruct (LayerBase.params self) as [|p ps].
  - left. destruct losses; [|done]. simpl in Hs. by inv_step Hs.
  - right. split; [done|]. destruct losses as [|t losses]; [done|].
    simpl in Hs. apply bind_ok in Hs as (acc & s3 & Hacc & Hs).
    apply py_result_ok in Hacc as ->. simpl in Hs.
    apply py_sum_tensor in Hs as [t' ->]. simpl. eauto.
Qed.

(** C7: for a layer that is not a subnetwork layer,
    [get_constraints_value] returns None exactly when
    [spatial_smoothing] is None or zero and [L2] is None or zero or is a
    non-zero int on a layer without parameters (whose penalty is the int
    0), and otherwise the accumulated value [0 + L2 * l2_norm +
    spatial_smoothing * energy] over the configured penalties; a
    subnetwork layer returns None exactly when its subnetwork's
    [total_constraints] is the int object 0, whatever its own [L2].
    Either way the value that decides is compared with 0 by identity. *)
Theorem get_constraints_value_spec `{!TFUtil} (mco : nat → M unit) (self : LayerBase.t)
    (st st' : State) (r : option PyVal) :
  get_constraints_value mco self st = (Ok r, st') →
  (LayerBase.cls self ≠ SubnetworkLayer_ →
   (r = None ↔
    no_regularization_configured self = true ∨
    truthy_number (LayerBase.spatial_smoothing self) = false ∧
    int_L2_without_params self = true) ∧
   ∃ c1 c,
     r = (if is_int_zero_object c then None else Some c) ∧
     (truthy_number (LayerBase.L2 self) = false ∧ c1 = PInt 0 ∨
      ∃ l2 norm s s1, LayerBase.L2 self = Some l2 ∧
        truthy_number (LayerBase.L2 self) = true ∧
        get_params_l2_norm self s = (Ok norm, s1) ∧
        c1 = add_val (PInt 0) (mul_val (number_val l2) norm)) ∧
     (truthy_number (LayerBase.spatial_smoothing self) = false ∧ c = c1 ∨
      ∃ ss energy s s1, LayerBase.spatial_smoothing self = Some ss ∧
        truthy_number (LayerBase.spatial_smoothing self) = true ∧
        get_output_spatial_smoothing_energy self s = (Ok energy, s1) ∧
        c = add_val c1 (mul_val (number_val ss) (PTensor energy)))) ∧
  (LayerBase.cls self = SubnetworkLayer_ →
   ∃ n net, LayerBase.subnetwork self = Some n ∧ networks st' !! n = Some net ∧
     r = (if is_int_zero_object (Network.total_constraints net)
          then None else Some (Network.total_constraints net))).
Proof.
  intros Hrun. unfold get_constraints_value in Hrun.
  destruct (decide (LayerBase.cls self = SubnetworkLayer_)) as [E|E];
    [rewrite bool_decide_eq_true_2 in Hrun by done
    |rewrite bool_decide_eq_false_2 in Hrun by done];
    (split; [|]); try done.
  - intros _. destruct (LayerBase.subnetwork self) as [n|]; [|by inv_step Hrun].
    unfold SubnetworkLayer_get_constraints_value in Hrun.
    apply bind_ok in Hrun as ([] & s1 & _ & Hrun).
    apply bind_ok in Hrun as (net & s2 & Hnet & Hrun).
    apply get_network_ok in Hnet as [Hnet ->].
    exists n, net. destruct (is_int_zero_object _); inv_step Hrun; done.
  - intros _. unfold LayerBase_get_constraints_value in Hrun.
    apply bind_ok in Hrun as (c1 & s1 & H1 & Hrun).
    apply bind_ok in Hrun as (c & s2 & H2 & Hrun).
    assert (r = if is_int_zero_object c then None else Some c) as Hr.
    { destruct (is_int_zero_object c); inv_step Hrun; done. }
    clear Hrun.
    assert (truthy_number (LayerBase.L2 self) = false ∧ c1 = PInt 0 ∨
            ∃ l2 norm s s1, LayerBase.L2 self = Some l2 ∧
              truthy_number (LayerBase.L2 self) = true ∧
              get_params_l2_norm self s = (Ok norm, s1) ∧
              c1 = add_val (PInt 0) (mul_val (number_val l2) norm)) as HL2.
    { destruct (LayerBase.L2 self) as [l2|]; [|left; by inv_step H1].
      destruct (truthy_number (Some l2)) eqn:Ht; [|left; by inv_step H1].
      right. apply bind_ok in H1 as (norm & s3 & Hn & H1).
      apply bind_ok in H1 as (x & s4 & Hx & H1).
      apply py_result_ok in Hx as ->. apply py_result_ok in H1 as ->.
      eauto 10. }
    assert (truthy_number (LayerBase.spatial_smoothing self) = false ∧ c = c1 ∨
            ∃ ss energy s s1, LayerBase.spatial_smoothing self = Some ss ∧
              truthy_number (LayerBase.spatial_smoothing self) = true ∧
              get_output_spatial_smoothing_energy self s = (Ok energy, s1) ∧
              c = add_val c1 (mul_val (number_val ss) (PTensor energy))) as HSS.
    { destruct (LayerBase.spatial_smoothing self) as [ss|]; [|left; by inv_step H2].
      destruct (truthy_number (Some ss)) eqn:Ht; [|left; by inv_step H2].
      right. apply bind_ok in H2 as (e & s3 & He & H2).
      apply bind_ok in H2 as (x & s4 & Hx & H2).
      apply py_result_ok in Hx as ->. apply py_result_ok in H2 as ->.
      eauto 10. }
    split; [|eauto 10].
    unfold no_regularization_configured, int_L2_without_params. subst r.
    destruct HSS as [[Hss ->]|(ss & e & ? & ? & _ & Hss & _ & ->)]; rewrite Hss.
    + destruct HL2 as [[HL ->]|(l2 & norm & s & s' & El & HL & Hn & ->)].
      * rewrite HL. simpl. split; [by left | done].
      * rewrite HL. rewrite El in HL |- *.
        apply get_params_l2_norm_ok in Hn as [[Hp ->]|[Hp [t ->]]].
        -- destruct l2 as [z|q]; simpl.
           ++ replace (z * 0) with 0 by lia. simpl. split; [intros _|done].
              right. split; [done|]. simpl in HL. rewrite HL.
              by rewrite bool_decide_eq_true_2.
           ++ split; [done|]. by intros [|[_ ?]].
        -- rewrite not_int_not_zero_object
             by (apply add_not_int_r; intros z; apply mul_tensor_not_int).
           simpl. split; [done|]. intros [?|[_ Hi]]; [done|].
           destruct l2 as [z|q]; [|done].
           rewrite bool_decide_eq_false_2 in Hi by done.
           by rewrite andb_false_r in Hi.
    + rewrite not_int_not_zero_object
        by (apply add_not_int_r; intros z; apply mul_tensor_not_int).
      rewrite andb_false_r. split; [done|]. by intros [|[]].
Qed.

(** A layer with [L2 = 0.01] and two parameters: the penalty is the
    weighted sum, and it is not None. *)
Lemma get_constraints_value_witness :
  ex_l2_run = (Ok (Some ex_l2_value), ex_l2_run.2) ∧
  (Some ex_l2_value = None ↔
   no_regularization_configured (ex_l2_layer [("b", TVar 6); ("W", TVar 5)]) = true ∨
   truthy_number
     (LayerBase.spatial_smoothing (ex_l2_layer [("b", TVar 6); ("W", TVar 5)])) = false ∧
   int_L2_without_params (ex_l2_layer [("b", TVar 6); ("W", TVar 5)]) = true).
Proof.
  assert (ex_l2_run = (Ok (Some ex_l2_value), ex_l2_run.2)) as Hrun
    by (vm_compute; reflexivity).
  split; [exact Hrun|].
  destruct (get_constraints_value_spec (H:=ex_TFUtil) (λ _, mret tt)
              (ex_l2_layer [("b", TVar 6); ("W", TVar 5)]) (ex_state TrainTrue)
              ex_l2_run.2 (Some ex_l2_value) Hrun) as [Hbase _].
  destruct Hbase as [Hiff _]; [discriminate | exact Hiff].
Defined.

(** A subnetwork layer's value does not depend on the layer's own [L2]
    and [spatial_smoothing]. *)
Lemma subnetwork_constraints_ignore_own_settings `{!TFUtil} (mco : nat → M unit)
    (self self' : LayerBase.t) (st : State) :
  LayerBase.cls self = SubnetworkLayer_ →
  LayerBase.cls self' = SubnetworkLayer_ →
  LayerBase.subnetwork self' = LayerBase.subnetwork self →
  get_constraints_value mco self' st = get_constraints_value mco self st.
Proof. intros Hc Hc' Hs. unfold get_constraints_value. by rewrite Hc, Hc', Hs. Qed.

(** Where the value is None against the layer's settings, or is not None
    with nothing set. On a subnetwork layer the layer's own settings do
    not decide: with [L2 = 0.01] configured on the
    layer and a subnetwork without constraints the value is None, and with
    nothing configured on the layer and a subnetwork with constraints the
    value is the subnetwork's. On a linear layer with the int [L2 = 1] and
    no parameter the value is None although [L2] is configured. A layer
    whose [L2] is set to [0.0] returns None although [L2] is not unset,
    and a layer whose [spatial_smoothing] is None returns None although
    [spatial_smoothing] is not zero. *)
Lemma get_constraints_value_counterexample :
  ((get_constraints_value (H:=ex_TFUtil) (λ _, mret tt) ex_subnetwork_layer
      ex_subnetwork_state).1 = Ok None ∧
   LayerBase.L2 ex_subnetwork_layer = Some (FloatNum (Q2Qc (1 # 100))) ∧
   no_regularization_configured ex_subnetwork_layer = false) ∧
  ((get_constraints_value (H:=ex_TFUtil) (λ _, mret tt) ex_subnetwork_plain_layer
      ex_subnetwork_constrained_state).1 = Ok (Some (PTensor (TVar 9))) ∧
   no_regularization_configured ex_subnetwork_plain_layer = true) ∧
  ((get_constraints_value (H:=ex_TFUtil) (λ _, mret tt) ex_int_l2_layer
      (ex_state TrainTrue)).1 = Ok None ∧
   LayerBase.cls ex_int_l2_layer = LinearLayer_ ∧
   LayerBase.L2 ex_int_l2_layer = Some (IntNum 1) ∧
   no_regularization_configured ex_int_l2_layer = false) ∧
  ((get_constraints_value (H:=ex_TFUtil) (λ _, mret tt) ex_zero_l2_layer
      (ex_state TrainTrue)).1 = Ok None ∧
   LayerBase.cls ex_zero_l2_layer = LinearLayer_ ∧
   LayerBase.L2 ex_zero_l2_layer = Some (FloatNum 0%Qc) ∧
   LayerBase.spatial_smoothing ex_zero_l2_layer = Some (FloatNum 0%Qc)) ∧
  ((get_constraints_value (H:=ex_TFUtil) (λ _, mret tt) ex_unset_layer
      (ex_state TrainTrue)).1 = Ok None ∧
   LayerBase.cls ex_unset_layer = LinearLayer_ ∧
   LayerBase.L2 ex_unset_layer = None ∧
   LayerBase.spatial_smoothing ex_unset_layer = None).
Proof. vm_compute. done. Qed.

(** Identity, not equality: with [L2 = 0.01] and no parameter the
    accumulated value is the float 0.0, which equals 0 and is returned. *)
Example get_constraints_value_float_zero :
  (get_constraints_value (H:=ex_TFUtil) (λ _, mret tt) (ex_l2_layer [])
     (ex_state TrainTrue)).1 = Ok (Some (PFloat 0%Qc)) ∧
  py_eq_zero (PFloat 0%Qc) = true ∧ is_int_zero_object (PFloat 0%Qc) = false.
Proof. vm_compute. done. Qed.

(** * The default target of a layer with a loss *)

Lemma default_target_for_loss network target l st net :
  networks st !! network = Some net → truthy_str target = false →
  default_target_for network target (Some l) st
    = (Ok (Some (ExternData.default_target (Network.extern_data net))), st).
Proof.
  intros Hnet Ht. unfold default_target_for. rewrite Ht.
  rewrite bool_decide_eq_true_2 by eauto. simpl.
  by rewrite (bind_run _ _ st net st) by by apply get_network_ok.
Qed.


Lemma _static_get_target_value_unmarked target network st r st' :
  _static_get_target_value target network false st = (r, st') → st' = st.
Proof.
  unfold _static_get_target_value, get_extern_data.
  destruct target as [tg|]; [|by intros [= <- <-]].
  destruct (_ || _); [by intros [= <- <-]|].
  unfold mbind, M_bind, get_network, mret, M_ret, from_option, raise.
  destruct (networks st !! network) as [net|]; [|by intros [= <- <-]].
  destruct (has_data _ _).
  - destruct (networks st !! network); [|by intros [= <- <-]].
    destruct (ExternData.data _ !! tg); by intros [= <- <-].
  - destruct (Network.layers net !! tg); by intros [= <- <-].
Qed.

Lemma get_auto_output_layer_dim_opt_ok l d r st st' :
  get_auto_output_layer_dim_opt l d st = (Ok r, st') →
  st' = st ∧ r = get_auto_output_layer_dim l <$> d.
Proof.
  unfold get_auto_output_layer_dim_opt.
  destruct d as [n|]; [by intros [= <- <-]|]. by destruct l; intros [= <- <-].
Qed.





(** * Concatenation: what a run does *)

Lemma readonly_stateless {A} (m : M A) : stateless m → readonly m.
Proof. intros Hm st r st' Hrun. by apply (stateless_run _ _ _ _ Hm) in Hrun as [-> _]. Qed.

Lemma readonly_bind {A B} (m : M A) (k : A → M B) :
  readonly m → (∀ a, readonly (k a)) → readonly (m ≫= k).
Proof.
  intros Hm Hk st r st'. unfold mbind, M_bind.
  destruct (m st) as [[a|e] s1] eqn:E; apply Hm in E as ->.
  - apply Hk.
  - by intros [= <- <-].
Qed.

Lemma readonly_read_data a : readonly (read_data a).
Proof. intros st r st'. unfold read_data. by destruct (datas st !! a); intros [= <- <-]. Qed.

Lemma readonly_lift_result {A} (r : Result A) : readonly (lift_result r).
Proof. destruct r; apply readonly_stateless; [apply stateless_ret | apply stateless_raise]. Qed.

Ltac readonly_tac :=
  repeat first
    [ apply readonly_read_data | apply readonly_lift_result
    | apply readonly_bind; [|intros]
    | apply readonly_stateless; stateless_tac; fail
    | case_match ].

Section ConcatRun.
Context `{!TFUtil}.

Lemma template_dim_step_readonly acc layer : readonly (template_dim_step acc layer).
Proof. unfold template_dim_step, last_item. readonly_tac. Qed.

Lemma concat_check_readonly d p layer : readonly (concat_check d p layer).
Proof. unfold concat_check, last_item. readonly_tac. Qed.

Lemma concat_value_readonly b layer : readonly (concat_value b layer).
Proof. unfold concat_value. readonly_tac. Qed.

Lemma template_dim_ok src acc st n st' :
  template_dim acc src st = (Ok n, st') →
  st' = st ∧ n = acc + sum_feature_dims st src ∧
  Forall (λ layer, ∃ o k, layer_output st layer = Some o ∧
                          last (Data.shape o) = Some (Some k) ∧ k ≠ 0) src.
Proof.
  revert acc. induction src as [|layer src IH]; intros acc; simpl.
  - intros [<- ->]%ret_ok. split; [done|]. split; [lia | constructor].
  - intros Hrun. apply bind_ok in Hrun as (acc' & s1 & Hstep & Hrun).
    pose proof (template_dim_step_readonly _ _ _ _ _ Hstep) as ->.
    apply IH in Hrun as (-> & -> & Hall).
    unfold template_dim_step, last_item in Hstep. inv_step Hstep.
    destruct v0 as [k|]; [|by inv_step Hstep]. inv_step Hstep.
    split; [done|]. unfold layer_output, feature_dim at 1.
    match goal with E : datas st !! _ = Some _ |- _ => rewrite E end. simpl.
    match goal with E : last _ = Some _ |- _ => rewrite E end. simpl.
    split; [lia|]. constructor; [|done].
    eexists _, k. split; [done|]. split; [done|].
    match goal with E : truthy_int _ = true |- _ => simpl in E end.
    intros ->. done.
Qed.

Lemma template_ok src st a st' :
  get_concat_sources_data_template src st = (Ok a, st') →
  ∃ tmpl, template_of st src = Some tmpl ∧ a = fresh (dom (datas st)) ∧
          st' = with_datas (<[a := tmpl]> (datas st)) st ∧
          Forall (λ layer, ∃ o k, layer_output st layer = Some o ∧
                                  last (Data.shape o) = Some (Some k) ∧ k ≠ 0) src.
Proof.
  unfold get_concat_sources_data_template. intros Hrun.
  apply bind_ok in Hrun as ([] & s1 & Hassert & Hrun). inv_step Hassert.
  apply bind_ok in Hrun as (dim & s1 & Hdim & Hrun).
  apply template_dim_ok in Hdim as (-> & -> & Hall).
  inv_step Hrun. eexists. unfold template_of, layer_output.
  match goal with E : head src = Some _ |- _ => rewrite E end. simpl.
  match goal with E : datas st !! _ = Some _ |- _ => rewrite E end. simpl.
  done.
Qed.

Lemma Data_copy_ok a c st st' :
  Data_copy a st = (Ok c, st') →
  ∃ d, datas st !! a = Some d ∧ c = fresh (dom (datas st)) ∧
    match Data.size_placeholder d with
    | Some r => ∃ m, dicts st !! r = Some m ∧
        st' = with_datas (<[c := Data.with_size_placeholder
                                   (Some (fresh (dom (dicts st)))) d]> (datas st))
                (with_dicts (<[fresh (dom (dicts st)) := m]> (dicts st)) st)
    | None => st' = with_datas (<[c := d]> (datas st)) st
    end.
Proof.
  unfold Data_copy. intros Hrun.
  apply bind_ok in Hrun as (d & s1 & Hd & Hrun). apply read_data_ok in Hd as [Hd ->].
  exists d. split; [done|]. destruct (Data.size_placeholder d) as [r|] eqn:Hr.
  - apply bind_ok in Hrun as (r' & s1 & Hcopy & Hrun).
    apply dict_copy_ok in Hcopy as (r0 & m & [= <-] & Hm & -> & ->).
    apply new_data_ok in Hrun as [-> ->]. split; [done|]. by exists m.
  - by apply new_data_ok in Hrun as [-> ->].
Qed.

End ConcatRun.

Section ConcatRun2.
Context `{!TFUtil}.

Lemma fresh_data_ne (st : State) (x : addr) :
  is_Some (datas st !! x) → x ≠ fresh (dom (datas st)).
Proof. intros Hx ->. apply elem_of_dom in Hx. by apply is_fresh in Hx. Qed.

Lemma fresh_dict_ne (st : State) (r : addr) :
  is_Some (dicts st !! r) → r ≠ fresh (dom (dicts st)).
Proof. intros Hx ->. apply elem_of_dom in Hx. by apply is_fresh in Hx. Qed.

Lemma concat_check_ok d p layer st st' :
  concat_check d p layer st = (Ok tt, st') →
  ∃ o, layer_output st layer = Some o ∧ Data.sparse o = false ∧
       Data.dtype o = Data.dtype d ∧
       time_dim_axis_excluding_batch o = time_dim_axis_excluding_batch d ∧
       all_but_last (Data.shape o) = p.
Proof.
  unfold concat_check. intros Hrun. inv_step Hrun.
  repeat match goal with E : bool_decide _ = true |- _ => apply bool_decide_eq_true_1 in E end.
  eexists. split; [done|]. split; [by apply negb_true_iff|]. done.
Qed.

Lemma concat_sources_run src st a st' :
  concat_sources src st = (Ok a, st') →
  (∃ layer, src = [layer] ∧ a = LayerBase.output layer ∧ st' = st) ∨
  ((2 ≤ length src)%nat ∧
   ∃ src0 net, head src = Some src0 ∧
     networks st !! LayerBase.network src0 = Some net ∧
     ((∃ c, Network.concat_sources_dropout_cache net !! concat_key src = Some c ∧
            Data_copy c st = (Ok a, st')) ∨
      (Network.concat_sources_dropout_cache net !! concat_key src = None ∧
       ∃ tmpl o0 r0 m0 values,
         template_of st src = Some tmpl ∧ layer_output st src0 = Some o0 ∧
         Data.size_placeholder o0 = Some r0 ∧ dicts st !! r0 = Some m0 ∧
         Forall (λ layer, ∃ o, layer_output st layer = Some o ∧ ¬ mismatch tmpl o) src ∧
         a = fresh (dom (datas st)) ∧
         st' = concat_miss_state st (LayerBase.network src0) net (concat_key src)
                 (Data.with_placeholder
                    (Some (TConcat (Z.of_nat (length (all_but_last (Data.shape tmpl))) + 1)
                                   values)) tmpl)
                 m0
                 (TConcat (Z.of_nat (length (all_but_last (Data.shape tmpl))) + 1)
                          values)))).
Proof.
  unfold concat_sources. intros Hrun.
  apply bind_ok in Hrun as ([] & s1 & Hassert & Hrun). inv_step Hassert.
  apply bind_ok in Hrun as (src0 & s1 & Hhead & Hrun).
  apply from_option_ok in Hhead as [Hhead ->].
  case_bool_decide as Hlen.
  - left. apply ret_ok in Hrun as [<- ->].
    destruct src as [|layer [|? ?]]; try done.
    simpl in Hhead. injection Hhead as ->. by exists src0.
  - right. split.
    { destruct src as [|? [|? ?]]; simpl in *; try done; lia. }
    exists src0. apply bind_ok in Hrun as (net & s1 & Hnet & Hrun).
    apply get_network_ok in Hnet as [Hnet ->]. exists net.
    split; [done|]. split; [done|]. fold (concat_key src) in Hrun.
    destruct (Network.concat_sources_dropout_cache net !! concat_key src) as [c|] eqn:Hc.
    { left. by exists c. }
    right. split; [done|].
    apply bind_ok in Hrun as (data & s1 & Htmpl & Hrun).
    apply template_ok in Htmpl as (tmpl & Htmpl & -> & -> & Hdims).
    apply bind_ok in Hrun as (d & s1 & Hd & Hrun).
    apply read_data_ok in Hd as [Hd ->]. simpl in Hd.
    rewrite lookup_insert_eq in Hd. injection Hd as <-.
    apply bind_ok in Hrun as ([] & s1 & Hchecks & Hrun).
    pose proof (for_each_pure _ _ _ _ _ (concat_check_readonly _ _) Hchecks) as ->.
    apply for_each_ok in Hchecks; [|intros; by eapply concat_check_readonly].
    apply bind_ok in Hrun as (values & s1 & Hvalues & Hrun).
    pose proof (map_m_pure _ _ _ _ _ (concat_value_readonly _) Hvalues) as ->.
    apply bind_ok in Hrun as (y & s1 & Hy & Hrun). apply build_ok in Hy as [-> ->].
    apply bind_ok in Hrun as ([] & s1 & Hset & Hrun).
    apply set_placeholder_ok in Hset as (d1 & Hd1 & ->). simpl in Hd1.
    rewrite lookup_insert_eq in Hd1. injection Hd1 as <-.
    apply bind_ok in Hrun as (o0 & s1 & Ho0 & Hrun).
    apply read_data_ok in Ho0 as [Ho0 ->]. simpl in Ho0.
    apply bind_ok in Hrun as (r & s1 & Hr & Hrun).
    apply dict_copy_ok in Hr as (r0 & m0 & Hr0 & Hm0 & -> & ->). simpl in Hm0.
    apply bind_ok in Hrun as ([] & s1 & Hset & Hrun).
    apply set_size_placeholder_ok in Hset as (d2 & Hd2 & ->). simpl in Hd2.
    rewrite lookup_insert_eq in Hd2. injection Hd2 as <-.
    apply bind_ok in Hrun as (c & s1 & Hcopy & Hrun).
    apply Data_copy_ok in Hcopy as (d3 & Hd3 & -> & Hcopy). simpl in Hd3.
    rewrite lookup_insert_eq in Hd3. injection Hd3 as <-. simpl in Hcopy.
    destruct Hcopy as (m1 & Hm1 & ->). rewrite lookup_insert_eq in Hm1. injection Hm1 as <-.
    apply bind_ok in Hrun as ([] & s1 & Hstore & Hrun).
    unfold cache_store in Hstore. inv_step Hstore. simpl in *.
    apply ret_ok in Hrun as [<- ->].
    assert (Forall (λ layer, ∃ o, layer_output st layer = Some o) src) as Hlive.
    { eapply Forall_impl; [exact Hdims|]. intros layer (o & k & ? & _). eauto. }
    assert (∀ layer, layer ∈ src →
              fresh (dom (datas st)) ≠ LayerBase.output layer) as Hne.
    { intros layer Hin. rewrite Forall_forall in Hlive.
      destruct (Hlive layer Hin) as [o Ho].
      symmetry. apply fresh_data_ne. unfold layer_output in Ho. by rewrite Ho. }
    assert (src0 ∈ src) as Hin0.
    { destruct src; simplify_eq/=. left. }
    rewrite !lookup_insert_ne in Ho0 by by apply Hne.
    exists tmpl, o0, r0, m0, values.
    split; [done|]. split; [done|]. split; [done|]. split; [done|]. split.
    { rewrite Forall_forall in Hchecks |- *. intros layer Hin.
      specialize (Hchecks layer Hin). apply concat_check_ok in Hchecks
        as (o & Ho & _ & Hdt & Htime & Hshape).
      unfold layer_output in Ho. simpl in Ho.
      rewrite lookup_insert_ne in Ho by by apply Hne.
      exists o. split; [done|]. unfold mismatch. intros [?|[?|?]]; congruence. }
    split; [done|].
    unfold concat_miss_state. rewrite !insert_insert_eq.
    match goal with E : networks st !! _ = Some ?n |- _ =>
      assert (n = net) as -> by congruence end.
    reflexivity.
Qed.

End ConcatRun2.

Section ConcatReturns.
Context `{!TFUtil}.

Lemma feature_dim_last o n :
  feature_dim o = Some n → last (Data.shape o) = Some (Some n).
Proof.
  unfold feature_dim. destruct (last (Data.shape o)) as [[k|]|]; simpl; congruence.
Qed.

Lemma template_dim_run src acc st :
  Forall (λ layer, ∃ o n, layer_output st layer = Some o ∧
                          feature_dim o = Some n ∧ n ≠ 0) src →
  template_dim acc src st = (Ok (acc + sum_feature_dims st src), st).
Proof.
  intros Hall. revert acc. induction Hall as [|layer src (o & n & Ho & Hn & Hnz) _ IH];
    intros acc; simpl.
  - by rewrite Z.add_0_r.
  - assert (template_dim_step acc layer st = (Ok (acc + n), st)) as Hstep.
    { unfold template_dim_step, last_item.
      rewrite (bind_run _ _ st o st) by by apply read_data_ok.
      rewrite (bind_run _ _ st (Some n) st)
        by (apply from_option_ok; split; [by apply feature_dim_last | done]).
      rewrite (bind_run _ _ st tt st); [done|].
      apply py_assert_ok. split; [|done]. simpl. by apply negb_true_iff, Z.eqb_neq. }
    rewrite (bind_run _ _ _ _ _ Hstep), IH. rewrite Ho. simpl. rewrite Hn. simpl.
    do 2 f_equal. lia.
Qed.

Lemma concat_check_run tmpl layer o st :
  layer_output st layer = Some o → concat_ready tmpl o → ¬ mismatch tmpl o →
  concat_check tmpl (all_but_last (Data.shape tmpl)) layer st = (Ok tt, st).
Proof.
  intros Ho (Hsparse & (p & Hp & Hnd) & (n & Hn & Hnz) & _) Hagree.
  assert (Data.dtype o = Data.dtype tmpl ∧
          time_dim_axis_excluding_batch o = time_dim_axis_excluding_batch tmpl ∧
          all_but_last (Data.shape o) = all_but_last (Data.shape tmpl)) as (Hdt & Htime & Hshape).
  { unfold mismatch in Hagree. repeat split.
    - destruct (decide (Data.dtype o = Data.dtype tmpl)); [done | tauto].
    - destruct (decide (time_dim_axis_excluding_batch o
                        = time_dim_axis_excluding_batch tmpl)); [done | tauto].
    - destruct (decide (all_but_last (Data.shape o) = all_but_last (Data.shape tmpl)));
        [done | tauto]. }
  apply feature_dim_last in Hn.
  unfold concat_check, last_item.
  rewrite (bind_run _ _ st o st) by by apply read_data_ok.
  rewrite (bind_run _ _ st tt st) by (apply py_assert_ok; by rewrite Hsparse).
  rewrite (bind_run _ _ st tt st)
    by (apply py_assert_ok; split; [by apply bool_decide_eq_true_2 | done]).
  rewrite (bind_run _ _ st tt st)
    by (apply py_assert_ok; split; [by apply bool_decide_eq_true_2 | done]).
  rewrite (bind_run _ _ st p st) by by apply from_option_ok.
  rewrite (bind_run _ _ st tt st)
    by (apply py_assert_ok; split; [by apply bool_decide_eq_true_2 | done]).
  rewrite (bind_run _ _ st tt st).
  2:{ apply py_assert_ok; split; [|done]. apply bool_decide_eq_true_2.
      intros Hnil. by rewrite Hnil in Hn. }
  rewrite (bind_run _ _ st tt st)
    by (apply py_assert_ok; split; [by apply bool_decide_eq_true_2 | done]).
  rewrite (bind_run _ _ st (Some n) st) by by apply from_option_ok.
  apply py_assert_ok. split; [|done]. simpl. by apply negb_true_iff, Z.eqb_neq.
Qed.

Lemma map_m_run {A B} (f : A → M B) (l : list A) st :
  Forall (λ x, ∃ y, f x st = (Ok y, st)) l → ∃ ys, map_m f l st = (Ok ys, st).
Proof.
  induction 1 as [|x l [y Hy] _ [ys IH]]; simpl; [by exists []|].
  exists (y :: ys). rewrite (bind_run _ _ _ _ _ Hy). by rewrite (bind_run _ _ _ _ _ IH).
Qed.

Lemma Data_copy_run a d st :
  datas st !! a = Some d →
  (∀ r, Data.size_placeholder d = Some r → is_Some (dicts st !! r)) →
  ∃ c st', Data_copy a st = (Ok c, st').
Proof.
  intros Hd Hlive. unfold Data_copy.
  rewrite (bind_run _ _ st d st) by by apply read_data_ok.
  destruct (Data.size_placeholder d) as [r|]; [|by eexists _, _].
  destruct (Hlive r eq_refl) as [m Hm].
  erewrite bind_run; [by eexists _, _|]. apply dict_copy_ok. by exists r, m.
Qed.

(** A first concatenation of sources that are ready and agree returns. *)
Lemma concat_sources_returns src st src0 net tmpl o0 r0 :
  (2 ≤ length src)%nat → head src = Some src0 →
  networks st !! LayerBase.network src0 = Some net →
  Network.concat_sources_dropout_cache net !! (layer_tuple src, 0%Qc) = None →
  template_of st src = Some tmpl →
  layer_output st src0 = Some o0 → Data.size_placeholder o0 = Some r0 →
  is_Some (dicts st !! r0) →
  Forall (λ layer, ∃ o, layer_output st layer = Some o ∧ concat_ready tmpl o ∧
                        ¬ mismatch tmpl o) src →
  ∃ a st', concat_sources src st = (Ok a, st').
Proof.
  intros Hlen Hhead Hnet Hmiss Htmpl Ho0 Hr0 [m0 Hm0] Hall.
  assert (src ≠ []) as Hne by (by intros ->).
  unfold concat_sources.
  rewrite (bind_run _ _ st tt st)
    by (apply py_assert_ok; split; [by apply bool_decide_eq_true_2 | done]).
  rewrite (bind_run _ _ st src0 st) by by apply from_option_ok.
  rewrite bool_decide_eq_false_2 by lia.
  rewrite (bind_run _ _ st net st) by by apply get_network_ok.
  rewrite Hmiss.
  set (a := fresh (dom (datas st))).
  set (st1 := with_datas (<[a := tmpl]> (datas st)) st).
  assert (get_concat_sources_data_template src st = (Ok a, st1)) as Hrun.
  { unfold get_concat_sources_data_template.
    rewrite (bind_run _ _ st tt st)
      by (apply py_assert_ok; split; [by apply bool_decide_eq_true_2 | done]).
    rewrite (bind_run _ _ st (0 + sum_feature_dims st src) st).
    2:{ apply template_dim_run. eapply Forall_impl; [exact Hall|].
        intros layer (o & Ho & (_ & _ & (n & Hn & Hnz) & _) & _). by exists o, n. }
    rewrite (bind_run _ _ st src0 st) by by apply from_option_ok.
    rewrite (bind_run _ _ st o0 st) by by apply read_data_ok.
    unfold template_of in Htmpl. rewrite Hhead in Htmpl. simpl in Htmpl.
    rewrite Ho0 in Htmpl. simpl in Htmpl. injection Htmpl as <-. done. }
  rewrite (bind_run _ _ _ _ _ Hrun).
  assert (∀ layer, layer ∈ src → layer_output st1 layer = layer_output st layer) as Hframe.
  { intros layer Hin. rewrite Forall_forall in Hall.
    destruct (Hall layer Hin) as (o & Ho & _).
    unfold layer_output, st1. simpl. apply lookup_insert_ne.
    symmetry. apply fresh_data_ne. unfold layer_output in Ho. by rewrite Ho. }
  rewrite (bind_run _ _ st1 tmpl st1)
    by (apply read_data_ok; split; [apply lookup_insert_eq | done]).
  rewrite (bind_run _ _ st1 tt st1).
  2:{ apply for_each_all. rewrite Forall_forall in Hall |- *. intros layer Hin.
      destruct (Hall layer Hin) as (o & Ho & Hready & Hagree).
      apply (concat_check_run tmpl layer o); [by rewrite Hframe | done | done]. }
  destruct (map_m_run (concat_value (Data.batch_dim_axis tmpl)) src st1) as [values Hvalues].
  { rewrite Forall_forall in Hall |- *. intros layer Hin.
    destruct (Hall layer Hin) as (o & Ho & (_ & _ & _ & Hget) & _).
    unfold concat_value. rewrite <- Hframe in Ho by done.
    rewrite (bind_run _ _ st1 o st1) by by apply read_data_ok.
    destruct (get_placeholder_with_specific_batch_dim_axis o _) as [y|]; [|done].
    by exists y. }
  rewrite (bind_run _ _ _ _ _ Hvalues).
  assert (src0 ∈ src) as Hin0 by (destruct src; simplify_eq/=; left).
  pose proof (Hframe src0 Hin0) as Hf0. rewrite Ho0 in Hf0.
  assert (a ≠ LayerBase.output src0) as Hne0.
  { symmetry. apply fresh_data_ne. unfold layer_output in Ho0. by rewrite Ho0. }
  erewrite bind_run by (apply build_ok; split; reflexivity).
  erewrite (bind_run _ _ _ tt).
  2:{ apply set_placeholder_ok. eexists. split; [apply lookup_insert_eq | reflexivity]. }
  erewrite (bind_run (read_data _)).
  2:{ apply read_data_ok. split; [|reflexivity]. simpl.
      rewrite !lookup_insert_ne by done. exact Ho0. }
  erewrite (bind_run (dict_copy _)).
  2:{ apply dict_copy_ok. exists r0, m0. split; [done|]. split; [exact Hm0|].
      split; reflexivity. }
  erewrite (bind_run (set_size_placeholder _ _) _ _ tt).
  2:{ apply set_size_placeholder_ok. eexists. split; [apply lookup_insert_eq | reflexivity]. }
  match goal with |- ∃ _ _, (Data_copy a ≫= _) ?s = _ =>
    assert (∃ c s_c, Data_copy a s = (Ok c, s_c)) as (c & s_c & Hcopy) end.
  { eapply Data_copy_run; [apply lookup_insert_eq|].
    simpl. intros r [= <-]. rewrite lookup_insert_eq. eauto. }
  rewrite (bind_run _ _ _ _ _ Hcopy).
  assert (networks s_c !! LayerBase.network src0 = Some net) as Hnet'.
  { apply Data_copy_ok in Hcopy as (d & _ & _ & Hst).
    destruct (Data.size_placeholder d); [destruct Hst as (m & _ & ->)|subst s_c]; done. }
  assert (∃ s', cache_store (LayerBase.network src0) (layer_tuple src, 0%Qc) c s_c
                = (Ok tt, s')) as [s' Hstore].
  { eexists. unfold cache_store.
    rewrite (bind_run _ _ s_c net s_c) by by apply get_network_ok.
    by apply put_network_ok. }
  rewrite (bind_run _ _ _ _ _ Hstore). by eexists _, _.
Qed.

End ConcatReturns.

Section ConcatSpec.
Context `{!TFUtil}.

Lemma sum_feature_dims_frame st st' src :
  (∀ layer, layer ∈ src → layer_output st' layer = layer_output st layer) →
  sum_feature_dims st' src = sum_feature_dims st src.
Proof.
  induction src as [|layer src IH]; simpl; [done|]. intros Hf.
  rewrite IH by (intros; apply Hf; by right). rewrite Hf by left. done.
Qed.

Lemma template_of_frame st st' src :
  (∀ layer, layer ∈ src → layer_output st' layer = layer_output st layer) →
  template_of st' src = template_of st src.
Proof.
  intros Hf. unfold template_of. rewrite (sum_feature_dims_frame _ _ _ Hf).
  destruct src as [|src0 src]; [done|]. simpl. by rewrite Hf by left.
Qed.

Lemma cache_sound_for_frame st st' src :
  cache_sound_for st src →
  (∀ n, networks st' !! n = networks st !! n) →
  (∀ x, is_Some (datas st !! x) → datas st' !! x = datas st !! x) →
  Forall (λ layer, is_Some (layer_output st layer)) src →
  cache_sound_for st' src.
Proof.
  intros Hsound Hnets Hdatas Hlive src0 net c Hhead Hnet Hc.
  rewrite Hnets in Hnet.
  destruct (Hsound src0 net c Hhead Hnet Hc) as (dc & tmpl & Hdc & Htmpl & Hdim & Hfeat & Hall).
  assert (∀ layer, layer ∈ src → layer_output st' layer = layer_output st layer) as Hf.
  { intros layer Hin. rewrite Forall_forall in Hlive. apply Hdatas, Hlive, Hin. }
  exists dc, tmpl. rewrite (sum_feature_dims_frame _ _ _ Hf), (template_of_frame _ _ _ Hf).
  split; [rewrite Hdatas; [done | by rewrite Hdc]|]. split; [done|]. split; [done|].
  split; [done|]. rewrite Forall_forall in Hall |- *. intros layer Hin.
  rewrite Hf by done. by apply Hall.
Qed.

Lemma concat_template_dims o0 n :
  Data.dim (concat_template o0 n) = Some n ∧ feature_dim (concat_template o0 n) = Some n.
Proof.
  unfold concat_template, feature_dim. split.
  - by apply Data_init_dim.
  - erewrite Data_init_shape by done. by rewrite last_snoc.
Qed.

(** C1: [concat_sources] with exactly one source returns that source's
    output descriptor itself (the same object, in the unchanged state).
    With two or more sources, in a state whose cache entry for these
    sources, if any, is the one [concat_sources] stores, the descriptor
    returned has as [dim] and as last shape entry the sum of the sources'
    feature dimensions (and the cache entry stays such); a first call, with
    no cache entry yet, on sources that are ready and agree does return;
    and a source that disagrees in dtype, time axis or non-feature shape
    makes the call raise. *)
Theorem concat_sources_spec (src_layers : list LayerBase.t) (st : State) :
  cache_sound_for st src_layers →
  (∀ layer, src_layers = [layer] →
     concat_sources src_layers st = (Ok (LayerBase.output layer), st)) ∧
  ((2 ≤ length src_layers)%nat →
   (∀ a st', concat_sources src_layers st = (Ok a, st') →
      ∃ d, datas st' !! a = Some d ∧
           Data.dim d = Some (sum_feature_dims st src_layers) ∧
           feature_dim d = Some (sum_feature_dims st src_layers) ∧
           sum_feature_dims st' src_layers = sum_feature_dims st src_layers ∧
           cache_sound_for st' src_layers) ∧
   (∀ src0 net tmpl o0 r0,
      head src_layers = Some src0 →
      networks st !! LayerBase.network src0 = Some net →
      Network.concat_sources_dropout_cache net !! (layer_tuple src_layers, 0%Qc) = None →
      template_of st src_layers = Some tmpl →
      layer_output st src0 = Some o0 → Data.size_placeholder o0 = Some r0 →
      is_Some (dicts st !! r0) →
      Forall (λ layer, ∃ o, layer_output st layer = Some o ∧ concat_ready tmpl o ∧
                            ¬ mismatch tmpl o) src_layers →
      ∃ a st', concat_sources src_layers st = (Ok a, st')) ∧
   (∀ tmpl layer o,
      template_of st src_layers = Some tmpl → layer ∈ src_layers →
      layer_output st layer = Some o → mismatch tmpl o →
      ∃ e st', concat_sources src_layers st = (Raise e, st'))).
Proof.
  intros Hsound. split; [by intros layer ->|]. intros Hlen.
  assert (∀ a st', concat_sources src_layers st = (Ok a, st') →
            (∀ tmpl layer o, template_of st src_layers = Some tmpl → layer ∈ src_layers →
               layer_output st layer = Some o → ¬ mismatch tmpl o) ∧
            ∃ d, datas st' !! a = Some d ∧
                 Data.dim d = Some (sum_feature_dims st src_layers) ∧
                 feature_dim d = Some (sum_feature_dims st src_layers) ∧
                 sum_feature_dims st' src_layers = sum_feature_dims st src_layers ∧
                 cache_sound_for st' src_layers) as Hmain.
  { intros a st' Hrun.
    apply concat_sources_run in Hrun
      as [(layer & -> & _)|(_ & src0 & net & Hhead & Hnet & Hrun)];
      [simpl in Hlen; lia|].
    destruct Hrun as [(c & Hc & Hcopy)|(Hc & tmpl & o0 & r0 & m0 & values & Htmpl & Ho0 &
                                        Hr0 & Hm0 & Hagree & -> & ->)].
    - destruct (Hsound src0 net c Hhead Hnet Hc)
        as (dc & tmpl & Hdc & Htmpl & Hdim & Hfeat & Hall).
      split.
      { intros tmpl' layer o Htmpl' Hin Ho. rewrite Forall_forall in Hall.
        destruct (Hall layer Hin) as (o' & Ho' & Hno). congruence. }
      apply Data_copy_ok in Hcopy as (d & Hd & -> & Hcopy).
      assert (d = dc) as -> by congruence.
      assert (Forall (λ layer, is_Some (layer_output st layer)) src_layers) as Hlive.
      { eapply Forall_impl; [exact Hall|]. intros layer (o & -> & _). eauto. }
      destruct (Data.size_placeholder dc) as [r|] eqn:Hr.
      + destruct Hcopy as (m & Hm & ->). eexists. simpl.
        split; [apply lookup_insert_eq|]. split; [done|]. split; [done|].
        assert (∀ x, is_Some (datas st !! x) →
                  <[fresh (dom (datas st)) :=
                      Data.with_size_placeholder (Some (fresh (dom (dicts st)))) dc]>
                    (datas st) !! x = datas st !! x) as Hf.
        { intros x Hx. apply lookup_insert_ne. symmetry. by apply fresh_data_ne. }
        split.
        * apply sum_feature_dims_frame. intros layer Hin.
          rewrite Forall_forall in Hlive. apply Hf, Hlive, Hin.
        * by apply (cache_sound_for_frame st).
      + subst st'. eexists. simpl.
        split; [apply lookup_insert_eq|]. split; [done|]. split; [done|].
        assert (∀ x, is_Some (datas st !! x) →
                  <[fresh (dom (datas st)) := dc]> (datas st) !! x = datas st !! x) as Hf.
        { intros x Hx. apply lookup_insert_ne. symmetry. by apply fresh_data_ne. }
        split.
        * apply sum_feature_dims_frame. intros layer Hin.
          rewrite Forall_forall in Hlive. apply Hf, Hlive, Hin.
        * by apply (cache_sound_for_frame st).
    - split.
      { intros tmpl' layer o Htmpl' Hin Ho. rewrite Forall_forall in Hagree.
        destruct (Hagree layer Hin) as (o' & Ho' & Hno). congruence. }
      assert (Forall (λ layer, is_Some (layer_output st layer)) src_layers) as Hlive.
      { eapply Forall_impl; [exact Hagree|]. intros layer (o & -> & _). eauto. }
      set (y := TConcat _ values).
      set (st' := concat_miss_state _ _ _ _ _ _ _).
      assert (Data.dim tmpl = Some (sum_feature_dims st src_layers) ∧
              feature_dim tmpl = Some (sum_feature_dims st src_layers)) as [Hdim Hfeat].
      { unfold template_of in Htmpl. rewrite Hhead in Htmpl. simpl in Htmpl.
        rewrite Ho0 in Htmpl. injection Htmpl as <-. apply concat_template_dims. }
      assert (∀ x, is_Some (datas st !! x) → datas st' !! x = datas st !! x) as Hf.
      { intros x Hx. unfold st', concat_miss_state. simpl.
        rewrite lookup_insert_ne.
        - apply lookup_insert_ne. symmetry. by apply fresh_data_ne.
        - intros Heq. pose proof (is_fresh (dom (<[fresh (dom (datas st)) :=
            Data.with_size_placeholder (Some (fresh (dom (dicts st))))
              (Data.with_placeholder (Some y) tmpl)]> (datas st)))) as Hfr.
          rewrite Heq in Hfr. apply Hfr. rewrite dom_insert_L.
          apply elem_of_union_r. by apply elem_of_dom. }
      assert (∀ layer, layer ∈ src_layers →
                layer_output st' layer = layer_output st layer) as Hfl.
      { intros layer Hin. rewrite Forall_forall in Hlive. apply Hf, Hlive, Hin. }
      eexists. split.
      { unfold st', concat_miss_state. simpl. rewrite lookup_insert_ne.
        - apply lookup_insert_eq.
        - intros Heq. pose proof (is_fresh (dom (<[fresh (dom (datas st)) :=
            Data.with_size_placeholder (Some (fresh (dom (dicts st))))
              (Data.with_placeholder (Some y) tmpl)]> (datas st)))) as Hfr.
          rewrite Heq in Hfr. apply Hfr. rewrite dom_insert_L. set_solver. }
      split; [done|]. split; [done|].
      split; [by apply sum_feature_dims_frame|].
      intros src0' net' c' Hhead' Hnet' Hc'.
      assert (src0' = src0) as -> by congruence.
      unfold st', concat_miss_state in Hnet'. simpl in Hnet'.
      rewrite lookup_insert_eq in Hnet'. injection Hnet' as <-.
      simpl in Hc'. fold (concat_key src_layers) in Hc'.
      rewrite lookup_insert_eq in Hc'. injection Hc' as <-.
      eexists _, tmpl. split.
      { unfold st', concat_miss_state. simpl. apply lookup_insert_eq. }
      rewrite (sum_feature_dims_frame _ _ _ Hfl), (template_of_frame _ _ _ Hfl).
      split; [done|]. split; [done|]. split; [done|].
      rewrite Forall_forall in Hagree |- *. intros layer Hin.
      rewrite Hfl by done. by apply Hagree. }
  split; [|split].
  - intros a st' Hrun. by apply Hmain in Hrun as [_ ?].
  - intros src0 net tmpl o0 r0. by apply concat_sources_returns.
  - intros tmpl layer o Htmpl Hin Ho Hmis.
    destruct (concat_sources src_layers st) as [[a|e] st'] eqn:Hrun; [|eauto].
    destruct (Hmain a st' eq_refl) as [Hno _]. by destruct (Hno tmpl layer o).
Qed.

End ConcatSpec.

Lemma ex_state_cache_sound flag src : cache_sound_for (H:=ex_TFUtil) (ex_state flag) src.
Proof.
  intros src0 net c _ Hnet Hc. simpl in Hnet.
  apply lookup_singleton_Some in Hnet as [_ <-]. simpl in Hc.
  by rewrite lookup_empty in Hc.
Qed.

(** One source of width 5 is returned as it is; with a second source of
    width 3 the concatenation has width 8. *)
Lemma concat_sources_witness :
  concat_sources (H:=ex_TFUtil) [ex_a] (ex_state TrainTrue)
  = (Ok (LayerBase.output ex_a), ex_state TrainTrue) ∧
  ex_concat_run = (Ok 2%nat, ex_concat_run.2) ∧
  ∃ d : Data.t, datas ex_concat_run.2 !! 2%nat = Some d ∧
                Data.dim d = Some 8 ∧ feature_dim d = Some 8.
Proof.
  assert (ex_concat_run = (Ok 2%nat, ex_concat_run.2)) as Hrun by (vm_compute; reflexivity).
  split.
  { exact (proj1 (concat_sources_spec (H:=ex_TFUtil) [ex_a] (ex_state TrainTrue)
                    (ex_state_cache_sound TrainTrue [ex_a])) ex_a eq_refl). }
  split; [exact Hrun|].
  destruct (concat_sources_spec (H:=ex_TFUtil) [ex_a; ex_b] (ex_state TrainTrue)
              (ex_state_cache_sound TrainTrue [ex_a; ex_b])) as [_ Hmany].
  destruct (Hmany (le_n 2)) as [Hsum _].
  destruct (Hsum 2%nat ex_concat_run.2 Hrun) as (d & Hd & Hdim & Hfeat & _).
  exists d. split; [exact Hd|]. split; [exact Hdim | exact Hfeat].
Defined.

(** A second source of another dtype makes the concatenation fail. *)
Example concat_sources_dtype_mismatch :
  (concat_sources (H:=ex_TFUtil) [ex_a; ex_b]
     (with_datas (<[1%nat := Data.mk "b_output" [None; Some 3] "int32" false (Some 3)
                               (Some 0) (Some 1) (Some (TVar 1)) (Some 1%nat)]>
                    (datas (ex_state TrainTrue))) (ex_state TrainTrue))).1
  = Raise (AssertionError "incompatible dtype with layer").
Proof. vm_compute. reflexivity. Qed.

Section DropoutOff.
Context `{!TFUtil}.

(** What [concat_sources] leaves of the networks and adds to the graph. *)
Lemma concat_sources_effects src st a st' :
  concat_sources src st = (Ok a, st') →
  (∀ n net, networks st !! n = Some net →
     ∃ net', networks st' !! n = Some net' ∧
             Network.train_flag net' = Network.train_flag net ∧
             Network.random_draws net' = Network.random_draws net) ∧
  (∀ n, networks st !! n = None → networks st' !! n = None) ∧
  ∃ new, graph st' = graph st ++ new ∧ Forall (λ t, is_dropout t = false) new.
Proof.
  intros Hrun.
  apply concat_sources_run in Hrun
    as [(layer & -> & -> & ->)|(Hlen & src0 & net0 & Hhead & Hnet0 & Hrun)].
  { split; [eauto|]. split; [done|]. exists []. by rewrite app_nil_r. }
  destruct Hrun as [(c & Hc & Hcopy)|(Hc & tmpl & o0 & r0 & m0 & values & _ & _ & _ & _ & _ &
                                      -> & ->)].
  - destruct (Data_copy_ok _ _ _ _ Hcopy) as (d & _ & _ & Hst).
    assert (networks st' = networks st ∧ graph st' = graph st) as [Hn Hg].
    { destruct (Data.size_placeholder d); [destruct Hst as (m & _ & ->)|subst st']; done. }
    rewrite Hn, Hg. split; [eauto|]. split; [done|]. exists []. by rewrite app_nil_r.
  - unfold concat_miss_state. simpl. split; [|split].
    + intros n net Hn. destruct (decide (n = LayerBase.network src0)) as [->|Hne].
      * rewrite lookup_insert_eq. eexists. split; [done|].
        assert (net = net0) as -> by congruence. done.
      * rewrite lookup_insert_ne by done. eauto.
    + intros n Hn. rewrite lookup_insert_ne; [done|]. intros <-. congruence.
    + eexists [_]. split; [done|]. by constructor.
Qed.

(** C2: when the train flag of the sources' network is statically [False],
    [concat_sources_with_opt_dropout] is [concat_sources], whatever the
    dropout rate asked for: the same descriptor is returned in the same
    state (so its placeholder is the one [concat_sources] attached), no
    dropout node is added to the graph and no number is drawn from any
    network's random stream. *)
Theorem dropout_off_when_not_training (src_layers : list LayerBase.t) (dropout : Qc)
    (st : State) (src0 : LayerBase.t) (net : Network.t) :
  head src_layers = Some src0 →
  networks st !! LayerBase.network src0 = Some net →
  Network.train_flag net = TrainFalse →
  concat_sources_with_opt_dropout src_layers dropout st = concat_sources src_layers st ∧
  ∀ a st', concat_sources_with_opt_dropout src_layers dropout st = (Ok a, st') →
    (∃ new, graph st' = graph st ++ new ∧ Forall (λ t, is_dropout t = false) new) ∧
    (∀ n net0, networks st !! n = Some net0 →
       ∃ net', networks st' !! n = Some net' ∧
               Network.random_draws net' = Network.random_draws net0).
Proof.
  intros Hhead Hnet Hflag.
  assert (concat_sources_with_opt_dropout src_layers dropout st
          = concat_sources src_layers st) as Heq.
  { unfold concat_sources_with_opt_dropout.
    assert (src_layers ≠ []) as Hne by (by intros ->).
    rewrite (bind_run _ _ st tt st)
      by (unfold py_assert; by rewrite bool_decide_eq_true_2).
    destruct (concat_sources src_layers st) as [[a|e] st1] eqn:Hrun.
    - rewrite (bind_run _ _ _ _ _ Hrun).
      destruct (concat_sources_effects _ _ _ _ Hrun) as (Hnets & _ & _).
      destruct (Hnets _ _ Hnet) as (net' & Hnet' & Hflag' & _).
      rewrite (bind_run _ _ st1 src0 st1) by (by rewrite Hhead).
      rewrite (bind_run _ _ st1 net' st1) by (by apply get_network_ok).
      rewrite Hflag', Hflag. by rewrite bool_decide_eq_true_2.
    - by rewrite (bind_fail _ _ _ _ _ Hrun). }
  split; [exact Heq|]. intros a st' Hrun. rewrite Heq in Hrun.
  destruct (concat_sources_effects _ _ _ _ Hrun) as (Hnets & _ & Hgraph).
  split; [exact Hgraph|]. intros n net0 Hn.
  destruct (Hnets _ _ Hn) as (net' & Hnet' & _ & Hdraws). eauto.
Qed.

End DropoutOff.

Lemma dropout_off_when_not_training_witness :
  concat_sources_with_opt_dropout (H:=ex_TFUtil) [ex_a; ex_b] (Q2Qc (1 # 10))
    (ex_state TrainFalse)
  = concat_sources (H:=ex_TFUtil) [ex_a; ex_b] (ex_state TrainFalse).
Proof.
  apply (dropout_off_when_not_training (H:=ex_TFUtil) [ex_a; ex_b] (Q2Qc (1 # 10))
           (ex_state TrainFalse) ex_a (ex_network TrainFalse)); reflexivity.
Defined.

(** The same call on a training network does build the dropout. *)
Example dropout_built_when_training :
  (∃ a st', concat_sources_with_opt_dropout (H:=ex_TFUtil) [ex_a; ex_b] (Q2Qc (1 # 10))
              (ex_state TrainTrue) = (Ok a, st') ∧
            existsb is_dropout (graph st') = true) ∧
  (∃ a st', concat_sources_with_opt_dropout (H:=ex_TFUtil) [ex_a; ex_b] (Q2Qc (1 # 10))
              (ex_state TrainFalse) = (Ok a, st') ∧
            existsb is_dropout (graph st') = false).
Proof. split; (eexists _, _; split; [vm_compute; reflexivity | reflexivity]). Qed.



(** * The cache owns its descriptors *)

Lemma cached_same_networks st st' :
  networks st' = networks st → ∀ c, cached st' c ↔ cached st c.
Proof. intros E c. unfold cached. by rewrite E. Qed.

Lemma cache_private_live st a d r :
  cache_private st → datas st !! a = Some d → Data.size_placeholder d = Some r →
  r ≠ fresh (dom (dicts st)).
Proof. intros (_ & _ & Hl) Ha Hr. apply fresh_dict_ne. eauto. Qed.

(** Allocating a descriptor with a dict of its own. *)
Lemma alloc_private st d m g :
  cache_private st →
  Data.size_placeholder d = Some (fresh (dom (dicts st))) →
  let a := fresh (dom (datas st)) in
  let st' := mkState (<[a := d]> (datas st)) (<[fresh (dom (dicts st)) := m]> (dicts st))
                     (networks st) g (cells st) in
  cache_private st' ∧ (∀ y, cached st' y ↔ cached st y) ∧ ¬ cached st' a ∧
  unshared st' a.
Proof.
  intros Hp Hd a st'. pose proof Hp as (Hlive & Hun & Hdl).
  assert (∀ y, cached st' y ↔ cached st y) as Hc by done.
  assert (∀ y dy, datas st !! y = Some dy → a ≠ y) as Hne.
  { intros y dy Hy E. symmetry in E. revert E. apply fresh_data_ne. by rewrite Hy. }
  assert (unshared st' a) as Hua.
  { intros dc r x dx Hdc Hr Hx Hrx. simpl in *.
    destruct (decide (x = a)) as [|Hxa]; [done|].
    rewrite lookup_insert_eq in Hdc. injection Hdc as <-.
    rewrite lookup_insert_ne in Hx by done.
    rewrite Hd in Hr. injection Hr as <-.
    by destruct (cache_private_live st x dx _ Hp Hx Hrx). }
  split; [|split; [done|split; [|done]]].
  - split; [|split].
    + intros c Hcc. apply Hc, Hlive in Hcc as [dc Hdc]. simpl.
      rewrite lookup_insert_ne by by eapply Hne. by rewrite Hdc.
    + intros c Hcc dc r x dx Hdc Hr Hx Hrx. simpl in *.
      apply Hc in Hcc. destruct (Hlive c Hcc) as [dc' Hdc'].
      rewrite lookup_insert_ne in Hdc by by eapply Hne.
      destruct (decide (x = a)) as [->|Hxa].
      * exfalso. rewrite lookup_insert_eq in Hx. injection Hx as <-.
        rewrite Hd in Hrx. injection Hrx as <-.
        by destruct (cache_private_live st c dc _ Hp Hdc Hr).
      * rewrite lookup_insert_ne in Hx by done. exact (Hun c Hcc dc r x dx Hdc Hr Hx Hrx).
    + intros x dx r Hx Hr. simpl in *.
      destruct (decide (x = a)) as [->|Hxa].
      * rewrite lookup_insert_eq in Hx. injection Hx as <-.
        rewrite Hd in Hr. injection Hr as <-. rewrite lookup_insert_eq. eauto.
      * rewrite lookup_insert_ne in Hx by done.
        rewrite lookup_insert_ne; [by eapply Hdl|].
        symmetry. by eapply cache_private_live.
  - intros Hcc. apply Hc, Hlive in Hcc as [dc Hdc]. by destruct (Hne a dc).
Qed.

(** Allocating a descriptor with no dict. *)
Lemma alloc_nodict_private st d :
  cache_private st → Data.size_placeholder d = None →
  let a := fresh (dom (datas st)) in
  let st' := with_datas (<[a := d]> (datas st)) st in
  cache_private st' ∧ (∀ y, cached st' y ↔ cached st y) ∧ ¬ cached st' a ∧
  unshared st' a.
Proof.
  intros Hp Hd a st'. pose proof Hp as (Hlive & Hun & Hdl).
  assert (∀ y, cached st' y ↔ cached st y) as Hc by done.
  assert (∀ y dy, datas st !! y = Some dy → a ≠ y) as Hne.
  { intros y dy Hy E. symmetry in E. revert E. apply fresh_data_ne. by rewrite Hy. }
  assert (unshared st' a) as Hua.
  { intros dc r x dx Hdc Hr Hx Hrx. simpl in *.
    rewrite lookup_insert_eq in Hdc. injection Hdc as <-. congruence. }
  split; [|split; [done|split; [|done]]].
  - split; [|split].
    + intros c Hcc. apply Hc, Hlive in Hcc as [dc Hdc]. simpl.
      rewrite lookup_insert_ne by by eapply Hne. by rewrite Hdc.
    + intros c Hcc dc r x dx Hdc Hr Hx Hrx. simpl in *.
      apply Hc in Hcc. destruct (Hlive c Hcc) as [dc' Hdc'].
      rewrite lookup_insert_ne in Hdc by by eapply Hne.
      destruct (decide (x = a)) as [->|Hxa].
      * exfalso. rewrite lookup_insert_eq in Hx. injection Hx as <-. congruence.
      * rewrite lookup_insert_ne in Hx by done. exact (Hun c Hcc dc r x dx Hdc Hr Hx Hrx).
    + intros x dx r Hx Hr. simpl in *.
      destruct (decide (x = a)) as [->|Hxa].
      * rewrite lookup_insert_eq in Hx. injection Hx as <-. congruence.
      * rewrite lookup_insert_ne in Hx by done. by eapply Hdl.
  - intros Hcc. apply Hc, Hlive in Hcc as [dc Hdc]. by destruct (Hne a dc).
Qed.

(** A copy is a new object that shares nothing. *)
Lemma copy_private x a st st' :
  cache_private st → Data_copy x st = (Ok a, st') →
  cache_private st' ∧ (∀ y, cached st' y ↔ cached st y) ∧ ¬ cached st' a ∧
  unshared st' a ∧ (a ∉ dom (datas st)) ∧ is_Some (datas st' !! a) ∧
  content st' a = content st x ∧
  (∀ y, is_Some (datas st !! y) → view st' y = view st y) ∧
  networks st' = networks st ∧ graph st' = graph st.
Proof.
  intros Hp Hcopy. apply Data_copy_ok in Hcopy as (d & Hd & -> & Hcopy).
  assert (∀ y, is_Some (datas st !! y) → fresh (dom (datas st)) ≠ y) as Hne.
  { intros y Hy E. symmetry in E. revert E. by apply fresh_data_ne. }
  destruct (Data.size_placeholder d) as [r|] eqn:Hr.
  - destruct Hcopy as (m & Hm & ->).
    destruct (alloc_private st (Data.with_size_placeholder (Some (fresh (dom (dicts st)))) d)
                m (graph st) Hp eq_refl) as (Hp' & Hc & Hnc & Hu).
    split; [exact Hp'|]. split; [exact Hc|]. split; [exact Hnc|]. split; [exact Hu|].
    split; [apply is_fresh|]. split; [simpl; rewrite lookup_insert_eq; eauto|].
    split; [|split; [|done]].
    + unfold content. simpl. rewrite lookup_insert_eq, Hd. simpl.
      rewrite lookup_insert_eq, Hr. simpl. by rewrite Hm.
    + intros y Hy. unfold view. simpl. rewrite lookup_insert_ne by by apply Hne.
      destruct (datas st !! y) as [dy|] eqn:Hdy; [|done]. simpl.
      destruct (Data.size_placeholder dy) as [ry|] eqn:Hry; [|done]. simpl.
      rewrite lookup_insert_ne; [done|]. symmetry. by eapply cache_private_live.
  - subst st'.
    destruct (alloc_nodict_private st d Hp Hr) as (Hp' & Hc & Hnc & Hu).
    split; [exact Hp'|]. split; [exact Hc|]. split; [exact Hnc|]. split; [exact Hu|].
    split; [apply is_fresh|]. split; [simpl; rewrite lookup_insert_eq; eauto|].
    split; [|split; [|done]].
    + unfold content. simpl. rewrite lookup_insert_eq, Hd. simpl. by rewrite Hr.
    + intros y Hy. unfold view. simpl. by rewrite lookup_insert_ne by by apply Hne.
Qed.

(** Storing a descriptor that shares nothing. *)
Lemma store_private n key c st st' :
  cache_private st → is_Some (datas st !! c) → unshared st c →
  cache_store n key c st = (Ok tt, st') →
  cache_private st' ∧ (∀ y, cached st' y → cached st y ∨ y = c) ∧
  datas st' = datas st ∧ dicts st' = dicts st ∧ graph st' = graph st.
Proof.
  intros (Hlive & Hun & Hdl) Hc Hu Hstore. unfold cache_store in Hstore.
  apply bind_ok in Hstore as (net & s1 & Hnet & Hstore).
  apply get_network_ok in Hnet as [Hnet ->]. apply put_network_ok in Hstore as ->.
  assert (∀ y, cached (with_networks (<[n := Network.with_cache
            (<[key := c]> (Network.concat_sources_dropout_cache net)) net]> (networks st)) st) y
               → cached st y ∨ y = c) as Hcc.
  { intros y (n' & net' & key' & Hn' & Hk'). simpl in Hn'.
    destruct (decide (n' = n)) as [->|Hne].
    - rewrite lookup_insert_eq in Hn'. injection Hn' as <-. simpl in Hk'.
      destruct (decide (key' = key)) as [->|Hkne].
      + rewrite lookup_insert_eq in Hk'. injection Hk' as <-. by right.
      + rewrite lookup_insert_ne in Hk' by done. left. by exists n, net, key'.
    - rewrite lookup_insert_ne in Hn' by done. left. by exists n', net', key'. }
  split; [|done]. split; [|split].
  - intros y [Hy| ->]%Hcc; [by apply Hlive | done].
  - intros y [Hy| ->]%Hcc; [by apply Hun | done].
  - done.
Qed.

(** Assigning attributes of a descriptor that is not cached, keeping its
    dict. *)
Lemma write_private a d d' st :
  cache_private st → ¬ cached st a → datas st !! a = Some d →
  Data.size_placeholder d' = Data.size_placeholder d →
  let st' := with_datas (<[a := d']> (datas st)) st in
  cache_private st' ∧ (∀ y, cached st' y ↔ cached st y) ∧
  (∀ y, y ≠ a → view st' y = view st y).
Proof.
  intros (Hlive & Hun & Hdl) Hnc Ha Hsz st'.
  assert (∀ y, cached st' y ↔ cached st y) as Hc by done.
  split; [|split; [done|]].
  - split; [|split].
    + intros c Hcc. simpl. apply Hc in Hcc.
      rewrite lookup_insert_ne by (intros ->; done). by apply Hlive.
    + intros c Hcc dc r x dx Hdc Hr Hx Hrx. simpl in *. apply Hc in Hcc.
      rewrite lookup_insert_ne in Hdc by (intros ->; done).
      destruct (decide (x = a)) as [->|Hxa].
      * rewrite lookup_insert_eq in Hx. injection Hx as <-.
        rewrite Hsz in Hrx. exact (Hun c Hcc dc r a d Hdc Hr Ha Hrx).
      * rewrite lookup_insert_ne in Hx by done. exact (Hun c Hcc dc r x dx Hdc Hr Hx Hrx).
    + intros x dx r Hx Hr. simpl in *.
      destruct (decide (x = a)) as [->|Hxa].
      * rewrite lookup_insert_eq in Hx. injection Hx as <-.
        rewrite Hsz in Hr. by eapply Hdl.
      * rewrite lookup_insert_ne in Hx by done. by eapply Hdl.
  - intros y Hy. unfold view. simpl. by rewrite lookup_insert_ne.
Qed.

(** Changing a descriptor that is not cached leaves every cached
    descriptor as it is. *)
Lemma mutate_isolated a mu st c :
  cache_private st → ¬ cached st a → cached st c →
  view (mutate a mu st) c = view st c.
Proof.
  intros (Hlive & Hun & Hdl) Hnc Hc.
  assert (c ≠ a) as Hne by (intros ->; done).
  unfold mutate. destruct (datas st !! a) as [d|] eqn:Ha; [|done].
  assert (∀ r (m : gmap Z Tensor), Data.size_placeholder d = Some r →
            view (with_dicts (<[r := m]> (dicts st)) st) c = view st c) as Hdict.
  { intros r m Hr. unfold view. simpl.
    destruct (datas st !! c) as [dc|] eqn:Hdc; [|done]. simpl.
    destruct (Data.size_placeholder dc) as [rc|] eqn:Hrc; [|done]. simpl.
    rewrite lookup_insert_ne; [done|]. intros ->.
    by destruct Hne; symmetry; eapply (Hun c Hc dc rc a d). }
  destruct mu as [f|k v|k].
  - unfold view. simpl. by rewrite lookup_insert_ne.
  - destruct (Data.size_placeholder d) as [r|] eqn:Hr; [|done]. simpl.
    destruct (dicts st !! r) as [m|]; [|done]. simpl.
    by apply Hdict.
  - destruct (Data.size_placeholder d) as [r|] eqn:Hr; [|done]. simpl.
    destruct (dicts st !! r) as [m|]; [|done]. simpl.
    by apply Hdict.
Qed.

Lemma content_of_view st st' y y' :
  view st' y' = view st y → content st' y' = content st y.
Proof.
  unfold view, content. intros Hv.
  destruct (datas st' !! y') as [d'|], (datas st !! y) as [d|]; simpl in *; try done.
  injection Hv as -> Hm. by rewrite Hm.
Qed.

Lemma view_same_objects st st' y :
  datas st' = datas st → dicts st' = dicts st → view st' y = view st y.
Proof. unfold view. by intros -> ->. Qed.

Lemma same_objects_private st st' :
  datas st' = datas st → dicts st' = dicts st → (∀ y, cached st' y ↔ cached st y) →
  cache_private st → cache_private st'.
Proof.
  intros Hd Hm Hc (Hlive & Hun & Hdl). split; [|split].
  - intros c Hcc. rewrite Hd. by apply Hlive, Hc.
  - intros c Hcc. unfold unshared. rewrite Hd. by apply Hun, Hc.
  - unfold live_dicts. rewrite Hd, Hm. exact Hdl.
Qed.

Lemma cached_put_same_cache st n net net' y :
  networks st !! n = Some net →
  Network.concat_sources_dropout_cache net' = Network.concat_sources_dropout_cache net →
  cached (with_networks (<[n := net']> (networks st)) st) y ↔ cached st y.
Proof.
  intros Hn Hc. split.
  - intros (n' & net0 & key & Hn' & Hk). simpl in Hn'.
    destruct (decide (n' = n)) as [->|Hne].
    + rewrite lookup_insert_eq in Hn'. injection Hn' as <-. rewrite Hc in Hk.
      by exists n, net, key.
    + rewrite lookup_insert_ne in Hn' by done. by exists n', net0, key.
  - intros (n' & net0 & key & Hn' & Hk).
    destruct (decide (n' = n)) as [->|Hne].
    + exists n, net', key. simpl. rewrite lookup_insert_eq. split; [done|].
      rewrite Hc. congruence.
    + exists n', net0, key. simpl. by rewrite lookup_insert_ne.
Qed.

Section ConcatPrivate.
Context `{!TFUtil}.

(** A first concatenation, step by step: the new descriptor with a dict of
    its own, its copy, and the copy stored. *)
Lemma concat_miss_steps st n net key da m0 y :
  networks st !! n = Some net →
  let a := fresh (dom (datas st)) in
  let r := fresh (dom (dicts st)) in
  let s_a := mkState (<[a := Data.with_size_placeholder (Some r) da]> (datas st))
                     (<[r := m0]> (dicts st)) (networks st) (graph st ++ [y]) (cells st) in
  ∃ c s_c, Data_copy a s_a = (Ok c, s_c) ∧
           cache_store n key c s_c = (Ok tt, concat_miss_state st n net key da m0 y).
Proof.
  intros Hnet a r s_a. eexists _, _. split.
  - unfold Data_copy, dict_copy, read_data, read_dict, new_dict, new_data,
      mbind, M_bind, mret, M_ret.
    simpl. rewrite lookup_insert_eq. simpl. rewrite lookup_insert_eq. reflexivity.
  - unfold cache_store, get_network, put_network, mbind, M_bind. simpl.
    rewrite Hnet. reflexivity.
Qed.

Lemma concat_sources_private src st a st' :
  cache_private st →
  Forall (λ layer, ¬ cached st (LayerBase.output layer)) src →
  concat_sources src st = (Ok a, st') →
  cache_private st' ∧ ¬ cached st' a ∧
  Forall (λ layer, ¬ cached st' (LayerBase.output layer)) src ∧
  (∀ c, cached st' c → ¬ cached st c → c ≠ a ∧ content st' c = content st' a) ∧
  (∀ c, cached st c → view st' c = view st c) ∧
  (∀ src0 net c, (2 ≤ length src)%nat → head src = Some src0 →
     networks st !! LayerBase.network src0 = Some net →
     Network.concat_sources_dropout_cache net !! concat_key src = Some c →
     (a ∉ dom (datas st)) ∧ content st' a = content st c).
Proof.
  intros Hp Hsrc Hrun.
  apply concat_sources_run in Hrun
    as [(layer & -> & -> & ->)|(Hlen & src0 & net & Hhead & Hnet & Hrun)].
  { split; [done|]. split; [by apply Forall_inv in Hsrc|]. split; [done|].
    split; [done|]. split; [done|]. intros ? ? ? Hlen. simpl in Hlen. lia. }
  destruct Hrun as [(c & Hc & Hcopy)|(Hc & tmpl & o0 & r0 & m0 & values & Htmpl & Ho0 &
                                      Hr0 & Hm0 & Hagree & -> & ->)].
  - destruct (copy_private _ _ _ _ Hp Hcopy)
      as (Hp' & Hcc & Hnc & Hu & Hfresh & Hlive & Hcont & Hframe & _).
    split; [done|]. split; [done|]. split.
    { eapply Forall_impl; [exact Hsrc|]. intros layer Hl Hl'. by apply Hl, Hcc. }
    split; [intros c' Hc' Hnc'; by apply Hcc in Hc'|].
    split. { intros c' Hc'. apply Hframe. by apply Hp. }
    intros src0' net' c' _ Hhead' Hnet' Hc'.
    assert (c' = c) as -> by congruence. done.
  - set (y := TConcat _ values). set (da := Data.with_placeholder (Some y) tmpl).
    destruct (concat_miss_steps st _ net (concat_key src) da m0 y Hnet)
      as (c & s_c & Hcopy & Hstore).
    set (s_a := mkState _ _ _ _ _) in Hcopy.
    destruct (alloc_private st (Data.with_size_placeholder (Some (fresh (dom (dicts st)))) da)
                m0 (graph st ++ [y]) Hp eq_refl) as (Hpa & Hca & Hnca & Hua).
    fold s_a in Hpa, Hca, Hnca, Hua.
    destruct (copy_private _ _ _ _ Hpa Hcopy)
      as (Hpc & Hcc & Hncc & Huc & Hfresh & Hlivec & Hcont & Hframe & _).
    destruct (store_private _ _ _ _ _ Hpc Hlivec Huc Hstore)
      as (Hp' & Hcs & Hds & Hms & _).
    set (st' := concat_miss_state _ _ _ _ _ _ _) in *.
    assert (is_Some (datas s_a !! fresh (dom (datas st)))) as Hlivea.
    { simpl. rewrite lookup_insert_eq. eauto. }
    assert (c ≠ fresh (dom (datas st))) as Hca_ne.
    { intros E. apply Hfresh. rewrite E. by apply elem_of_dom. }
    assert (∀ y', is_Some (datas st !! y') → is_Some (datas s_a !! y')) as Hsub.
    { intros y' Hy'. simpl. rewrite lookup_insert_ne; [done|].
      intros E. symmetry in E. revert E. by apply fresh_data_ne. }
    assert (∀ y', cached st' y' → cached st y' ∨ y' = c) as Hnew.
    { intros y' [Hy'|Hy']%Hcs; [|by right]. left. by apply Hca, Hcc. }
    split; [done|]. split.
    { intros [Hy|Hy]%Hnew; [|done]. by apply Hnca, Hca. }
    split.
    { rewrite Forall_forall in Hsrc, Hagree |- *. intros layer Hin [Hy|Hy]%Hnew.
      - by apply (Hsrc layer Hin).
      - destruct (Hagree layer Hin) as (o & Ho & _). apply Hfresh. rewrite <- Hy.
        apply elem_of_dom, Hsub. unfold layer_output in Ho. by rewrite Ho. }
    split.
    { intros c' [Hy| ->]%Hnew Hnc'; [done|]. split; [done|].
      transitivity (content s_c c).
      { apply content_of_view. by apply view_same_objects. }
      rewrite Hcont. symmetry. transitivity (content s_c (fresh (dom (datas st)))).
      { apply content_of_view. by apply view_same_objects. }
      apply content_of_view. by apply Hframe. }
    split.
    { intros c' Hc'. transitivity (view s_c c'); [by apply view_same_objects|].
      rewrite Hframe by (apply Hsub; by apply Hp).
      destruct Hp as (Hlive & _ & Hdl). destruct (Hlive c' Hc') as [dc Hdc].
      unfold view. simpl. rewrite lookup_insert_ne.
      2:{ intros E. symmetry in E. revert E. apply fresh_data_ne. by rewrite Hdc. }
      rewrite Hdc. simpl. destruct (Data.size_placeholder dc) as [rc|] eqn:Hrc; [|done].
      simpl. rewrite lookup_insert_ne; [done|].
      intros E. symmetry in E. revert E. apply fresh_dict_ne. by eapply Hdl. }
    intros src0' net' c' _ Hhead' Hnet' Hc'. congruence.
Qed.

End ConcatPrivate.

Section DropoutPrivate.
Context `{!TFUtil}.

(** Building the dropout touches no descriptor, no dict and no cache. *)
Lemma cond_on_train_objects network data dropout y st st' :
  cond_on_train network (fn_train network data dropout) (fn_eval data) st = (Ok y, st') →
  datas st' = datas st ∧ dicts st' = dicts st ∧ (∀ c, cached st' c ↔ cached st c).
Proof.
  assert (∀ s s' t, fn_train network data dropout s = (Ok t, s') →
            datas s' = datas s ∧ dicts s' = dicts s ∧ (∀ c, cached s' c ↔ cached s c)) as Htrain.
  { intros s s' t Hrun. unfold fn_train in Hrun.
    apply bind_ok in Hrun as (d & s1 & Hd & Hrun). apply read_data_ok in Hd as [_ ->].
    apply bind_ok in Hrun as (seed & s1 & Hseed & Hrun).
    apply bind_ok in Hrun as (x & s2 & Hx & Hrun). apply from_option_ok in Hx as [_ ->].
    apply build_ok in Hrun as [_ ->]. simpl.
    unfold randint in Hseed.
    apply bind_ok in Hseed as (net & s0 & Hnet & Hseed).
    apply get_network_ok in Hnet as [Hnet ->].
    apply bind_ok in Hseed as ([] & s0 & Hput & Hseed).
    apply ret_ok in Hseed as [_ ->].
    unfold put_network in Hput. injection Hput as <-. simpl.
    split; [done|]. split; [done|]. intros c.
    by apply (cached_put_same_cache s network net). }
  assert (∀ s s' t, fn_eval data s = (Ok t, s') → s' = s) as Heval.
  { intros s s' t Hrun. unfold fn_eval in Hrun. by inv_step Hrun. }
  unfold cond_on_train. intros Hrun.
  apply bind_ok in Hrun as (net & s1 & Hnet & Hrun).
  apply get_network_ok in Hnet as [Hnet ->].
  destruct (Network.train_flag net).
  - by apply Htrain in Hrun.
  - by apply Heval in Hrun as ->.
  - apply bind_ok in Hrun as (x & s1 & Hx & Hrun). apply Htrain in Hx as (Hd & Hm & Hc).
    apply bind_ok in Hrun as (z & s2 & Hz & Hrun). apply Heval in Hz as ->.
    apply build_ok in Hrun as [-> ->]. simpl. done.
Qed.

Lemma concat_dropout_run src dropout st a st' :
  concat_sources_with_opt_dropout src dropout st = (Ok a, st') →
  ∃ a0 st1 src0 net1,
    concat_sources src st = (Ok a0, st1) ∧ head src = Some src0 ∧
    networks st1 !! LayerBase.network src0 = Some net1 ∧
    let rate := effective_dropout net1 dropout in
    let key := (layer_tuple src, rate) in
    (rate = 0%Qc ∧ a = a0 ∧ st' = st1) ∨
    (rate ≠ 0%Qc ∧ ∃ c, Network.concat_sources_dropout_cache net1 !! key = Some c ∧
                         Data_copy c st1 = (Ok a, st')) ∨
    (rate ≠ 0%Qc ∧ Network.concat_sources_dropout_cache net1 !! key = None ∧ a = a0 ∧
     ∃ y s2 d c s_c,
       cond_on_train (LayerBase.network src0)
         (fn_train (LayerBase.network src0) a0 rate) (fn_eval a0) st1 = (Ok y, s2) ∧
       datas s2 !! a0 = Some d ∧
       Data_copy a0 (with_datas (<[a0 := Data.with_placeholder (Some y) d]> (datas s2)) s2)
         = (Ok c, s_c) ∧
       cache_store (LayerBase.network src0) key c s_c = (Ok tt, st')).
Proof.
  unfold concat_sources_with_opt_dropout. intros Hrun.
  apply bind_ok in Hrun as ([] & s0 & Hassert & Hrun). inv_step Hassert.
  apply bind_ok in Hrun as (a0 & st1 & Hconcat & Hrun).
  apply bind_ok in Hrun as (src0 & s1 & Hhead & Hrun).
  apply from_option_ok in Hhead as [Hhead ->].
  apply bind_ok in Hrun as (net1 & s1 & Hnet & Hrun).
  apply get_network_ok in Hnet as [Hnet ->].
  exists a0, st1, src0, net1. split; [done|]. split; [done|]. split; [done|].
  fold (effective_dropout net1 dropout) in Hrun.
  set (rate := effective_dropout net1 dropout) in *. simpl.
  case_bool_decide as Hrate.
  { left. by apply ret_ok in Hrun as [<- ->]. }
  right. destruct (Network.concat_sources_dropout_cache net1 !! _) as [c|] eqn:Hc.
  { left. split; [done|]. by exists c. }
  right. split; [done|]. split; [done|].
  apply bind_ok in Hrun as ([] & s1 & Hrange & Hrun).
  apply py_assert_ok in Hrange as [_ ->].
  apply bind_ok in Hrun as (y & s2 & Hy & Hrun).
  apply bind_ok in Hrun as ([] & s3 & Hset & Hrun).
  apply set_placeholder_ok in Hset as (d & Hd & ->).
  apply bind_ok in Hrun as (c & s_c & Hcopy & Hrun).
  apply bind_ok in Hrun as ([] & s4 & Hstore & Hrun).
  apply ret_ok in Hrun as [<- ->].
  split; [done|]. by exists y, s2, d, c, s_c.
Qed.

Lemma concat_dropout_private src dropout st a st' :
  cache_private st →
  Forall (λ layer, ¬ cached st (LayerBase.output layer)) src →
  concat_sources_with_opt_dropout src dropout st = (Ok a, st') →
  ∃ a0 st1 src0 net1,
    concat_sources src st = (Ok a0, st1) ∧ head src = Some src0 ∧
    networks st1 !! LayerBase.network src0 = Some net1 ∧
    cache_private st' ∧ ¬ cached st' a ∧
    (∀ c, cached st' c → ¬ cached st1 c → c ≠ a ∧ content st' c = content st' a) ∧
    (∀ c, cached st1 c → view st' c = view st1 c) ∧
    (∀ c, effective_dropout net1 dropout ≠ 0%Qc →
       Network.concat_sources_dropout_cache net1
         !! (layer_tuple src, effective_dropout net1 dropout) = Some c →
       (a ∉ dom (datas st1)) ∧ content st' a = content st1 c).
Proof.
  intros Hp Hsrc Hrun.
  apply concat_dropout_run in Hrun as (a0 & st1 & src0 & net1 & Hconcat & Hhead & Hnet & Hrun).
  exists a0, st1, src0, net1. split; [done|]. split; [done|]. split; [done|].
  destruct (concat_sources_private _ _ _ _ Hp Hsrc Hconcat) as (Hp1 & Hnc1 & Hsrc1 & _).
  simpl in Hrun.
  destruct Hrun as [(Hrate & -> & ->)|[(Hrate & c & Hc & Hcopy)|
    (Hrate & Hc & -> & y & s2 & d & c & s_c & Hcond & Hd & Hcopy & Hstore)]].
  - split; [done|]. split; [done|]. split; [done|]. split; [done|]. done.
  - destruct (copy_private _ _ _ _ Hp1 Hcopy)
      as (Hp' & Hcc & Hnc & Hu & Hfresh & Hlive & Hcont & Hframe & _).
    split; [done|]. split; [done|].
    split; [intros c' Hc' Hnc'; by apply Hcc in Hc'|].
    split. { intros c' Hc'. apply Hframe. by apply Hp1. }
    intros c' _ Hc'. assert (c' = c) as -> by congruence. done.
  - apply cond_on_train_objects in Hcond as (Hd2 & Hm2 & Hc2).
    pose proof (same_objects_private _ _ Hd2 Hm2 Hc2 Hp1) as Hp2.
    assert (¬ cached s2 a0) as Hnc2 by (by rewrite Hc2).
    destruct (write_private a0 d (Data.with_placeholder (Some y) d) s2 Hp2 Hnc2 Hd eq_refl)
      as (Hp3 & Hc3 & Hframe3).
    set (s3 := with_datas _ s2) in *.
    destruct (copy_private _ _ _ _ Hp3 Hcopy)
      as (Hpc & Hcc & Hncc & Huc & Hfresh & Hlivec & Hcont & Hframe & _).
    destruct (store_private _ _ _ _ _ Hpc Hlivec Huc Hstore)
      as (Hp' & Hcs & Hds & Hms & _).
    assert (is_Some (datas s3 !! a0)) as Hlive3.
    { simpl. rewrite lookup_insert_eq. eauto. }
    assert (c ≠ a0) as Hne.
    { intros ->. apply Hfresh. by apply elem_of_dom. }
    assert (∀ y', cached st' y' → cached st1 y' ∨ y' = c) as Hnew.
    { intros y' [Hy'|Hy']%Hcs; [|by right]. left. by apply Hc2, Hc3, Hcc. }
    split; [done|]. split.
    { intros [Hy|Hy]%Hnew; [done | by destruct Hne]. }
    split.
    { intros c' [Hy| ->]%Hnew Hnc'; [done|]. split; [done|].
      transitivity (content s_c c).
      { apply content_of_view. by apply view_same_objects. }
      rewrite Hcont. symmetry. transitivity (content s_c a0).
      { apply content_of_view. by apply view_same_objects. }
      apply content_of_view. by apply Hframe. }
    split.
    { intros c' Hc'. transitivity (view s_c c'); [by apply view_same_objects|].
      assert (c' ≠ a0) as Hne' by (intros ->; done).
      rewrite Hframe.
      - rewrite Hframe3 by done. by apply view_same_objects.
      - simpl. rewrite lookup_insert_ne by done. rewrite Hd2. by apply Hp1. }
    intros c' _ Hc'. congruence.
Qed.

End DropoutPrivate.

(** ** The caller's changes and the cache *)

Lemma mutate_networks a mu st : networks (mutate a mu st) = networks st.
Proof.
  unfold mutate. destruct (datas st !! a) as [d|]; [|done].
  destruct mu; simpl; [done| |];
    by destruct (Data.size_placeholder d ≫= λ r, (r,.) <$> dicts st !! r) as [[r m]|].
Qed.

Lemma cached_entry st n net key c :
  networks st !! n = Some net → Network.concat_sources_dropout_cache net !! key = Some c →
  cached st c.
Proof. intros Hn Hk. by exists n, net, key. Qed.

Lemma ex_state_not_cached flag c : ¬ cached (ex_state flag) c.
Proof.
  intros (n & net & key & Hn & Hk). simpl in Hn.
  apply lookup_singleton_Some in Hn as [<- <-]. simpl in Hk.
  by rewrite lookup_empty in Hk.
Qed.

Lemma ex_state_private flag : cache_private (ex_state flag).
Proof.
  split; [|split].
  - intros c Hc. by apply ex_state_not_cached in Hc.
  - intros c Hc. by apply ex_state_not_cached in Hc.
  - intros a d r Ha Hr. simpl in Ha.
    apply lookup_insert_Some in Ha as [[<- <-]|[_ Ha]].
    + injection Hr as <-. by eexists.
    + apply lookup_singleton_Some in Ha as [<- <-]. injection Hr as <-. by eexists.
Qed.

Lemma ex_sources_not_cached flag :
  Forall (λ layer, ¬ cached (ex_state flag) (LayerBase.output layer)) [ex_a; ex_b].
Proof. repeat constructor; apply ex_state_not_cached. Qed.

Section ConcatIsolated.
Context `{!TFUtil}.

(** C8: in a state where the cache owns its descriptors (each cached
    descriptor exists and shares its dict of dynamic lengths with no other
    descriptor, as is the case for an empty cache and is kept by every
    call) and no source's output is a cached descriptor, a successful call
    of [concat_sources] or of [concat_sources_with_opt_dropout] keeps the
    cache's ownership and leaves the entries it found as they were; every
    entry it adds is a descriptor other than the one returned, equal to it
    in content; on a cache hit the descriptor returned is a new object,
    equal in content to the entry; and whatever change the caller then makes
    to the descriptor returned (assigning attributes such as the
    placeholder, setting or deleting an item of its dict of lengths), every
    key of every network's cache still maps to the same descriptor, which
    reads as before. [Data.copy] is the one modelled above. *)
Theorem concat_cache_isolated (src_layers : list LayerBase.t) (dropout : Qc) (st : State) :
  cache_private st →
  Forall (λ layer, ¬ cached st (LayerBase.output layer)) src_layers →
  (∀ a st', concat_sources src_layers st = (Ok a, st') →
     cache_private st' ∧
     (∀ c, cached st c → view st' c = view st c) ∧
     (∀ c, cached st' c → ¬ cached st c → c ≠ a ∧ content st' c = content st' a) ∧
     (∀ src0 net c, (2 ≤ length src_layers)%nat → head src_layers = Some src0 →
        networks st !! LayerBase.network src0 = Some net →
        Network.concat_sources_dropout_cache net !! (layer_tuple src_layers, 0%Qc) = Some c →
        (a ∉ dom (datas st)) ∧ content st' a = content st c) ∧
     (∀ mu n net key c,
        networks st' !! n = Some net →
        Network.concat_sources_dropout_cache net !! key = Some c →
        networks (mutate a mu st') !! n = Some net ∧
        view (mutate a mu st') c = view st' c)) ∧
  (∀ a st', concat_sources_with_opt_dropout src_layers dropout st = (Ok a, st') →
     ∃ a0 st1 src0 net1,
       concat_sources src_layers st = (Ok a0, st1) ∧ head src_layers = Some src0 ∧
       networks st1 !! LayerBase.network src0 = Some net1 ∧
       cache_private st' ∧
       (∀ c, cached st1 c → view st' c = view st1 c) ∧
       (∀ c, cached st' c → ¬ cached st1 c → c ≠ a ∧ content st' c = content st' a) ∧
       (∀ c, effective_dropout net1 dropout ≠ 0%Qc →
          Network.concat_sources_dropout_cache net1
            !! (layer_tuple src_layers, effective_dropout net1 dropout) = Some c →
          (a ∉ dom (datas st1)) ∧ content st' a = content st1 c) ∧
       (∀ mu n net key c,
          networks st' !! n = Some net →
          Network.concat_sources_dropout_cache net !! key = Some c →
          networks (mutate a mu st') !! n = Some net ∧
          view (mutate a mu st') c = view st' c)).
Proof.
  intros Hp Hsrc. split.
  - intros a st' Hrun.
    destruct (concat_sources_private _ _ _ _ Hp Hsrc Hrun)
      as (Hp' & Hnc & _ & Hnew & Hold & Hhit).
    split; [done|]. split; [done|]. split; [done|]. split; [exact Hhit|].
    intros mu n net key c Hn Hk. rewrite mutate_networks. split; [done|].
    apply mutate_isolated; [done..|]. by eapply cached_entry.
  - intros a st' Hrun.
    destruct (concat_dropout_private _ _ _ _ _ Hp Hsrc Hrun)
      as (a0 & st1 & src0 & net1 & Hconcat & Hhead & Hnet & Hp' & Hnc & Hnew & Hold & Hhit).
    exists a0, st1, src0, net1.
    split; [done|]. split; [done|]. split; [done|]. split; [done|]. split; [done|].
    split; [done|]. split; [exact Hhit|].
    intros mu n net key c Hn Hk. rewrite mutate_networks. split; [done|].
    apply mutate_isolated; [done..|]. by eapply cached_entry.
Qed.

End ConcatIsolated.

(** After concatenating two sources with dropout on a training network,
    replacing the placeholder of the descriptor returned leaves both cache
    entries as they were. *)
Lemma concat_cache_isolated_witness :
  ex_dropout_run = (Ok 2%nat, ex_dropout_run.2) ∧
  Network.concat_sources_dropout_cache (ex_network_after ex_dropout_run.2)
    !! ([0%nat; 1%nat], Q2Qc (1 # 10)) = Some 4%nat ∧
  view (mutate 2%nat (SetAttrs (Data.with_placeholder None)) ex_dropout_run.2) 4%nat
  = view ex_dropout_run.2 4%nat.
Proof.
  assert (ex_dropout_run = (Ok 2%nat, ex_dropout_run.2)) as Hrun by (vm_compute; reflexivity).
  assert (networks ex_dropout_run.2 !! 0%nat = Some (ex_network_after ex_dropout_run.2))
    as Hnet by (vm_compute; reflexivity).
  assert (Network.concat_sources_dropout_cache (ex_network_after ex_dropout_run.2)
            !! ([0%nat; 1%nat], Q2Qc (1 # 10)) = Some 4%nat) as Hkey
    by (vm_compute; reflexivity).
  split; [exact Hrun|]. split; [exact Hkey|].
  destruct (concat_cache_isolated (H:=ex_TFUtil) [ex_a; ex_b] (Q2Qc (1 # 10))
              (ex_state TrainTrue) (ex_state_private TrainTrue)
              (ex_sources_not_cached TrainTrue)) as [_ Hdrop].
  destruct (Hdrop 2%nat ex_dropout_run.2 Hrun)
    as (a0 & st1 & src0 & net1 & _ & _ & _ & _ & _ & _ & _ & Hmut).
  exact (proj2 (Hmut (SetAttrs (Data.with_placeholder None)) 0%nat
                  (ex_network_after ex_dropout_run.2) ([0%nat; 1%nat], Q2Qc (1 # 10))
                  4%nat Hnet Hkey)).
Defined.

(** A second concatenation of the same sources is served from the cache by
    a new descriptor, and dropping a length from it is not seen by the
    entry. *)
Example concat_sources_hit_is_fresh :
  ex_concat_run = (Ok 2%nat, ex_concat_run.2) ∧
  ex_concat_hit_run = (Ok 4%nat, ex_concat_hit_run.2) ∧
  view (mutate 4%nat (DelSizeItem 0) ex_concat_hit_run.2) 3%nat
  = view ex_concat_hit_run.2 3%nat ∧
  view (mutate 4%nat (DelSizeItem 0) ex_concat_hit_run.2) 4%nat
  ≠ view ex_concat_hit_run.2 4%nat.
Proof.
  split; [vm_compute; reflexivity|]. split; [vm_compute; reflexivity|].
  split; [vm_compute; reflexivity|]. vm_compute. discriminate.
Qed.

(** * What the layers do to the descriptors of their sources *)

Section DropoutSingleSource.
Context `{!TFUtil}.

(** [concat_sources_with_opt_dropout] on one source, with a dropout in
    effect that is not cached yet: the descriptor returned is the source
    layer's own output descriptor, and its placeholder has been replaced by
    the tensor [cond_on_train] returned; nothing else of it has changed. *)
Theorem dropout_overwrites_single_source (layer : LayerBase.t) (dropout : Qc)
    (st st' : State) (net : Network.t) (a : addr) :
  networks st !! LayerBase.network layer = Some net →
  effective_dropout net dropout ≠ 0%Qc →
  Network.concat_sources_dropout_cache net
    !! ([LayerBase.id layer], effective_dropout net dropout) = None →
  concat_sources_with_opt_dropout [layer] dropout st = (Ok a, st') →
  a = LayerBase.output layer ∧
  ∃ d y s2,
    datas st !! LayerBase.output layer = Some d ∧
    cond_on_train (LayerBase.network layer)
      (fn_train (LayerBase.network layer) (LayerBase.output layer)
         (effective_dropout net dropout))
      (fn_eval (LayerBase.output layer)) st = (Ok y, s2) ∧
    datas st' !! LayerBase.output layer = Some (Data.with_placeholder (Some y) d).
Proof.
  intros Hnet Hrate Hmiss Hrun.
  apply concat_dropout_run in Hrun
    as (a0 & st1 & src0 & net1 & Hconcat & Hhead & Hnet1 & Hrun).
  assert (concat_sources [layer] st = (Ok (LayerBase.output layer), st)) as Hone by done.
  rewrite Hone in Hconcat. injection Hconcat as <- <-.
  simpl in Hhead. injection Hhead as <-.
  assert (net1 = net) as -> by congruence. simpl in Hrun.
  destruct Hrun as [(Hz & _)|[(_ & c & Hc & _)|
    (_ & _ & -> & y & s2 & d & c & s_c & Hcond & Hd & Hcopy & Hstore)]];
    [done | simpl in Hc; congruence |].
  split; [done|].
  pose proof (cond_on_train_objects _ _ _ _ _ _ Hcond) as (Hd2 & _ & _).
  exists d, y, s2. split; [by rewrite <- Hd2|]. split; [done|].
  assert (datas st' = datas s_c) as ->.
  { unfold cache_store in Hstore.
    apply bind_ok in Hstore as (n0 & s0 & Hn0 & Hstore).
    apply get_network_ok in Hn0 as [_ ->]. by apply put_network_ok in Hstore as ->. }
  apply Data_copy_ok in Hcopy as (d' & Hd' & -> & Hcopy). simpl in Hd'.
  rewrite lookup_insert_eq in Hd'. injection Hd' as <-.
  assert (fresh (dom (<[LayerBase.output layer := Data.with_placeholder (Some y) d]>
                        (datas s2))) ≠ LayerBase.output layer) as Hne.
  { intros E. pose proof (is_fresh (dom (<[LayerBase.output layer :=
      Data.with_placeholder (Some y) d]> (datas s2)))) as Hf.
    rewrite E in Hf. apply Hf. apply elem_of_dom. rewrite lookup_insert_eq. eauto. }
  destruct (Data.size_placeholder (Data.with_placeholder (Some y) d)).
  - destruct Hcopy as (m & _ & ->). simpl.
    rewrite lookup_insert_ne by done. apply lookup_insert_eq.
  - subst s_c. simpl. rewrite lookup_insert_ne by done. apply lookup_insert_eq.
Qed.

End DropoutSingleSource.

(** One source of a training network with dropout 0.1: the source's
    descriptor now holds the dropout node. *)
Lemma dropout_overwrites_single_source_witness :
  ex_dropout_one_run = (Ok 0%nat, ex_dropout_one_run.2) ∧
  datas ex_dropout_one_run.2 !! 0%nat
  = Some (Data.with_placeholder
            (Some (TDropout (TVar 0) (Q2Qc (9 # 10)) [1; 1; 5] 0))
            (ex_data "a_output" 5 0 0%nat)).
Proof.
  assert (ex_dropout_one_run = (Ok 0%nat, ex_dropout_one_run.2)) as Hrun
    by (vm_compute; reflexivity).
  split; [exact Hrun|].
  destruct (dropout_overwrites_single_source (H:=ex_TFUtil) ex_a (Q2Qc (1 # 10))
              (ex_state TrainTrue) ex_dropout_one_run.2 (ex_network TrainTrue) 0%nat
              eq_refl) as (_ & d & y & s2 & Hd & Hy & Hd').
  { vm_compute. discriminate. }
  { vm_compute. reflexivity. }
  { exact Hrun. }
  vm_compute in Hd. injection Hd as <-.
  vm_compute in Hy. injection Hy as <- _.
  exact Hd'.
Defined.

(** Computations that leave every descriptor as it is. *)
Lemma keeps_datas_bind {A B} (m : M A) (k : A → M B) :
  keeps_datas m → (∀ a, keeps_datas (k a)) → keeps_datas (m ≫= k).
Proof.
  intros Hm Hk st r st'. unfold mbind, M_bind.
  destruct (m st) as [[a|e] s1] eqn:E; pose proof (Hm _ _ _ E) as Hd.
  - intros Hrun. apply Hk in Hrun. congruence.
  - by intros [= <- <-].
Qed.

Lemma keeps_datas_readonly {A} (m : M A) : readonly m → keeps_datas m.
Proof. intros Hm st r st' Hrun. by apply Hm in Hrun as ->. Qed.

Lemma keeps_datas_build t : keeps_datas (build t).
Proof. by intros st r st' [= <- <-]. Qed.

Lemma readonly_read_dict r : readonly (read_dict r).
Proof. intros st x st'. unfold read_dict. by destruct (dicts st !! r); intros [= <- <-]. Qed.

Lemma keeps_datas_write_dict r m : keeps_datas (write_dict r m).
Proof. by intros st x st' [= <- <-]. Qed.

Lemma keeps_datas_new_dict m : keeps_datas (new_dict m).
Proof. by intros st x st' [= <- <-]. Qed.

Ltac keeps_datas_tac :=
  repeat first
    [ apply keeps_datas_build | apply keeps_datas_write_dict | apply keeps_datas_new_dict
    | apply keeps_datas_bind; [|intros]
    | apply keeps_datas_readonly;
      first [ apply readonly_read_dict | apply readonly_read_data
            | apply readonly_lift_result | apply readonly_stateless; stateless_tac; fail ]
    | case_match ].

Lemma keeps_datas_size_getitem r key : keeps_datas (size_getitem r key).
Proof. unfold size_getitem. keeps_datas_tac. Qed.

Lemma keeps_datas_size_setitem r key v : keeps_datas (size_setitem r key v).
Proof. unfold size_setitem. keeps_datas_tac. Qed.

Lemma keeps_datas_size_contains r key : keeps_datas (size_contains r key).
Proof. unfold size_contains. keeps_datas_tac. Qed.

Section SliceShares.
Context `{!TFUtil}.

(** A slice layer's output and its input hold one and the same dict of
    dynamic lengths: the input's descriptor is left as it was, the output's
    [size_placeholder] is the input's dict object, and so every length the
    layer sets for its output it sets for its input. With [slice_start = k]
    alone on the time axis, the input's own length entry has become
    [maximum(0, len - k)]. *)
Theorem slice_layer_shares_lengths (input_data output : addr) (axis : option Z)
    (axis_kind : option string) (slice_start slice_end slice_step : option Z)
    (st st' : State) (inp : Data.t) :
  SliceLayer___init__ input_data output axis axis_kind slice_start slice_end slice_step st
    = (Ok tt, st') →
  datas st !! input_data = Some inp → input_data ≠ output →
  (∃ out', datas st' !! output = Some out' ∧
           Data.size_placeholder out' = Data.size_placeholder inp) ∧
  datas st' !! input_data = Some inp ∧
  (∀ k, slice_start = Some k → 0 < k → slice_end = None → slice_step = None →
     (SliceLayer__get_axis axis axis_kind inp st).1 = Ok (Data.time_dim_axis inp) →
     ∃ r t m len,
       Data.size_placeholder inp = Some r ∧ time_dim_axis_excluding_batch inp = Some t ∧
       dicts st !! r = Some m ∧ m !! t = Some len ∧
       dicts st' !! r = Some (<[t := TMaximum (TInt 0) (TSub len (TInt k))]> m)).
Proof.
  intros Hrun Hinp Hne. unfold SliceLayer___init__ in Hrun.
  apply bind_ok in Hrun as (inp' & s0 & Hm & Hrun).
  apply read_data_ok in Hm as [Hm ->].
  assert (inp' = inp) as -> by congruence. clear Hm.
  apply bind_ok in Hrun as (ax' & s1 & Hm & Hrun).
  apply stateless_run in Hm as [-> Hax']; [|apply SliceLayer__get_axis_stateless].
  apply bind_ok in Hrun as (ax & s1 & Hm & Hrun).
  apply from_option_ok in Hm as [-> ->].
  apply bind_ok in Hrun as ([] & s1 & Hm & Hrun).
  apply set_size_placeholder_ok in Hm as (out & Hout & ->).
  apply bind_ok in Hrun as ([] & s4 & Hsizes & Hrun).
  assert (datas s4 = <[output := Data.with_size_placeholder (Data.size_placeholder inp) out]>
                       (datas st)) as Hd4.
  { match type of Hsizes with ?m _ = _ => assert (keeps_datas m) as Hk end.
    { keeps_datas_tac; first [ apply keeps_datas_size_getitem | apply keeps_datas_size_setitem
                             | apply keeps_datas_size_contains ]. }
    by apply Hk in Hsizes. }
  apply bind_ok in Hrun as (x & s5 & Hx & Hrun). apply from_option_ok in Hx as [Hx ->].
  apply bind_ok in Hrun as (y & s6 & Hy & Hrun). apply build_ok in Hy as [-> ->].
  apply set_placeholder_ok in Hrun as (d4 & Hd4' & ->). simpl in *.
  rewrite Hd4, lookup_insert_eq in Hd4'. injection Hd4' as <-.
  split; [|split].
  - eexists. split; [apply lookup_insert_eq | done].
  - rewrite lookup_insert_ne by done. rewrite Hd4. by rewrite lookup_insert_ne by done.
  - intros k -> Hk -> -> Hax.
    rewrite Hax' in Hax. simpl in Hax. injection Hax as Hax.
    rewrite <- Hax in Hsizes. rewrite bool_decide_eq_true_2 in Hsizes by done.
    assert (truthy_int (Some k) = true) as Htk
      by (simpl; destruct (Z.eqb_spec k 0); [lia | done]).
    rewrite Htk in Hsizes. simpl in Hsizes.
    apply bind_ok in Hsizes as ([] & s2 & Hstart & Hsizes).
    apply bind_ok in Hsizes as ([] & s3 & Hend & Hstep).
    apply ret_ok in Hend as [_ ->]. apply ret_ok in Hstep as [_ ->].
    inv_step Hstart.
    apply size_getitem_ok in Hm as (r & m & t & Hr & Ht & Hm & Hlen & ->).
    apply size_setitem_ok in Hstart as (r0 & m0 & t0 & Hr0 & Ht0 & Hm0 & ->).
    simplify_eq. simpl in *.
    assert (m0 = m) as -> by congruence.
    eexists r, t, m, _. split; [done|]. split; [done|]. split; [done|]. split; [done|].
    apply lookup_insert_eq.
Qed.

End SliceShares.

(** Slicing a source from frame 7 on: the length entry of the source's own
    descriptor has become [maximum(0, len - 7)]. *)
Lemma slice_layer_shares_lengths_witness :
  ex_slice_run = (Ok tt, ex_slice_run.2) ∧
  datas ex_slice_run.2 !! 0%nat = Some (ex_data "a_output" 5 0 0%nat) ∧
  dicts ex_slice_run.2 !! 0%nat
  = Some (<[0 := TMaximum (TInt 0) (TSub (TVar 10) (TInt 7))]> {[ 0 := TVar 10 ]}).
Proof.
  assert (ex_slice_run = (Ok tt, ex_slice_run.2)) as Hrun by (vm_compute; reflexivity).
  split; [exact Hrun|].
  destruct (slice_layer_shares_lengths (H:=ex_TFUtil) 0%nat 2%nat None (Some "T") (Some 7)
              None None ex_slice_state ex_slice_run.2 (ex_data "a_output" 5 0 0%nat)
              Hrun eq_refl) as (_ & Hinp & Hlen).
  { discriminate. }
  split; [exact Hinp|].
  destruct (Hlen 7 eq_refl) as (r & t & m & len & Hr & Ht & Hm & Hl & Hd);
    [lia | reflexivity | reflexivity | vm_compute; reflexivity |].
  vm_compute in Hr. injection Hr as <-.
  vm_compute in Ht. injection Ht as <-.
  vm_compute in Hm. injection Hm as <-.
  vm_compute in Hl. injection Hl as <-.
  exact Hd.
Defined.

Section ReduceKeepsInput.
Context `{!TFUtil}.

Lemma fresh_insert_ne {A} (m : gmap addr A) (k x : addr) (v : A) :
  is_Some (m !! x) → fresh (dom (<[k := v]> m)) ≠ x.
Proof.
  intros Hx E. pose proof (is_fresh (dom (<[k := v]> m))) as Hf. rewrite E in Hf.
  apply Hf, elem_of_dom. destruct (decide (k = x)) as [->|Hne].
  - rewrite lookup_insert_eq. eauto.
  - by rewrite lookup_insert_ne.
Qed.

(** A reduce layer leaves its input as it was: the input's descriptor and
    the items of the input's dict of dynamic lengths are unchanged, and the
    output's [size_placeholder] is a dict object that did not exist before
    the call. *)
Theorem reduce_layer_keeps_input (input_data output : addr) (mode : string)
    (axis : AxisArg) (keep_dims : bool) (enforce_batch_dim_axis : Z) (st st' : State) :
  ReduceLayer___init__ input_data output mode axis keep_dims enforce_batch_dim_axis st
    = (Ok tt, st') →
  input_data ≠ output →
  view st' input_data = view st input_data ∧
  ∃ out' r', datas st' !! output = Some out' ∧ Data.size_placeholder out' = Some r' ∧
             (r' ∉ dom (dicts st)) ∧ is_Some (dicts st' !! r').
Proof.
  intros Hrun Hne. unfold ReduceLayer___init__ in Hrun.
  apply bind_ok in Hrun as ([] & s0 & Hm & Hrun). apply py_assert_ok in Hm as [_ ->].
  apply bind_ok in Hrun as (inp & s0 & Hm & Hrun). apply read_data_ok in Hm as [Hinp ->].
  apply bind_ok in Hrun as ([] & s0 & Hm & Hrun). apply py_assert_ok in Hm as [_ ->].
  apply bind_ok in Hrun as (x & s1 & Hm & Hrun).
  assert (datas s1 = datas st ∧ dicts s1 = dicts st) as [Hd1 Hm1].
  { case_bool_decide; inv_step Hm; done. }
  clear Hm.
  apply bind_ok in Hrun as (axes & s2 & Hm & Hrun).
  apply stateless_run in Hm as [-> _]; [|apply ReduceLayer__get_axis_stateless].
  apply bind_ok in Hrun as (x' & s2 & Hm & Hrun). apply from_option_ok in Hm as [_ ->].
  apply bind_ok in Hrun as (y & s2 & Hm & Hrun). apply build_ok in Hm as [_ ->].
  apply bind_ok in Hrun as (r1 & s3 & Hm & Hrun).
  apply dict_copy_ok in Hm as (r0 & m0 & Hr0 & Hm0 & -> & ->). simpl in Hm0.
  apply bind_ok in Hrun as (m1 & s4 & Hm & Hrun). apply read_dict_ok in Hm as [_ ->].
  apply bind_ok in Hrun as (r2 & s5 & Hm & Hrun).
  apply bind_ok in Hrun as ([] & s6 & Hset & Hrun).
  apply set_placeholder_ok in Hset as (d5 & Hd5 & ->).
  apply set_size_placeholder_ok in Hrun as (d6 & Hd6 & ->). simpl in *.
  rewrite lookup_insert_eq in Hd6. injection Hd6 as <-.
  set (r1 := fresh (dom (dicts s1))) in *.
  assert (r1 ≠ r0) as Hr1.
  { intros E. pose proof (is_fresh (dom (dicts s1))) as Hf. fold r1 in Hf. rewrite E in Hf.
    apply Hf, elem_of_dom. eauto. }
  assert (datas s5 = datas s1 ∧ dicts s5 !! r0 = Some m0 ∧
          (r2 ∉ dom (dicts s1)) ∧ is_Some (dicts s5 !! r2)) as (Hd5' & Hm5 & Hfresh & Hlive).
  { destruct keep_dims.
    - apply bind_ok in Hm as ([] & s7 & Hw & Hm). apply write_dict_ok in Hw as ->.
      apply ret_ok in Hm as [<- ->]. simpl. split; [done|].
      split; [by rewrite !lookup_insert_ne by done|].
      split; [apply is_fresh | rewrite lookup_insert_eq; eauto].
    - apply new_dict_ok in Hm as [-> ->]. simpl. split; [done|].
      split.
      + rewrite lookup_insert_ne; [by rewrite lookup_insert_ne by done|].
        apply fresh_insert_ne. eauto.
      + split; [|rewrite lookup_insert_eq; eauto].
        intros Hin. apply elem_of_dom in Hin.
        by destruct (fresh_insert_ne (dicts s1) r1 _ m0 Hin). }
  split.
  - unfold view. simpl. rewrite !lookup_insert_ne by done.
    rewrite Hd5', Hd1, Hinp. simpl. rewrite Hr0. simpl. rewrite Hm5.
    by rewrite <- Hm1, Hm0.
  - eexists _, r2. split; [apply lookup_insert_eq|]. split; [done|].
    split; [by rewrite <- Hm1 | done].
Qed.

End ReduceKeepsInput.

Lemma reduce_layer_keeps_input_witness :
  ex_reduce_run = (Ok tt, ex_reduce_run.2) ∧
  view ex_reduce_run.2 0%nat = view ex_reduce_state 0%nat.
Proof.
  assert (ex_reduce_run = (Ok tt, ex_reduce_run.2)) as Hrun by (vm_compute; reflexivity).
  split; [exact Hrun|].
  refine (proj1 (reduce_layer_keeps_input (H:=ex_TFUtil) 0%nat 1%nat "sum" (AxisInt 0) false
                   0 ex_reduce_state ex_reduce_run.2 Hrun _)).
  discriminate.
Defined.

(** * The CTC loss keeps its sparse labels *)

Lemma adds_refl P st : adds P st st.
Proof. exists []. by rewrite app_nil_r. Qed.

Lemma adds_trans P st1 st2 st3 : adds P st1 st2 → adds P st2 st3 → adds P st1 st3.
Proof.
  intros (n1 & E1 & H1) (n2 & E2 & H2). exists (n1 ++ n2).
  rewrite E2, E1, app_assoc. split; [done|]. by apply Forall_app.
Qed.

Lemma adds_build (P : Tensor → Prop) t st : P t → adds P st (with_graph (graph st ++ [t]) st).
Proof. intros Ht. exists [t]. split; [done|]. by constructor. Qed.

Lemma adds_same_graph P st st' : graph st' = graph st → adds P st st'.
Proof. intros E. exists []. by rewrite app_nil_r. Qed.

Section CtcMemo.
Context `{!TFUtil}.
Variable get_logits : OutputWithActivation.t → option Tensor.

Lemma _get_target_sparse_labels_memo self labels self' st st' :
  _get_target_sparse_labels self st = (Ok (labels, self'), st') →
  Loss._target_sparse_labels self' = Some labels.
Proof.
  unfold _get_target_sparse_labels. intros Hrun.
  destruct (Loss._target_sparse_labels self) as [l|] eqn:E.
  - apply ret_ok in Hrun as [[= <- <-] _]. done.
  - apply bind_ok in Hrun as (lens & s1 & _ & Hrun).
    apply bind_ok in Hrun as (target & s2 & _ & Hrun).
    apply bind_ok in Hrun as (l & s3 & Hl & Hrun).
    apply ret_ok in Hrun as [[= <- <-] _]. apply build_ok in Hl as [-> _]. done.
Qed.

Lemma ctc_logits_adds self l st st' :
  ctc_logits get_logits self st = (Ok l, st') →
  adds (λ t, is_call "sparse_labels" t = false) st st'.
Proof.
  unfold ctc_logits. intros Hrun.
  destruct (match Loss.output_with_activation self with
            | Some owa => get_logits owa | None => None end).
  - apply ret_ok in Hrun as [_ ->]. apply adds_refl.
  - apply bind_ok in Hrun as (out & s1 & Hout & Hrun).
    unfold loss_output in Hout. inv_step Hout.
    apply bind_ok in Hrun as (x & s2 & Hx & Hrun). apply from_option_ok in Hx as [_ ->].
    apply build_ok in Hrun as [_ ->]. apply adds_build; reflexivity.
Qed.

(** After [get_value] has returned, the loss object remembers the sparse
    labels it built, and [get_error] on that object uses them: it returns
    the object unchanged, compares the decoded output with those labels and
    adds no [sparse_labels] call to the graph. *)
Theorem ctc_labels_built_once (self self1 self2 : Loss.t) (v e : Tensor)
    (st st1 st2 : State) :
  CtcLoss_get_value get_logits self st = (Ok (v, self1), st1) →
  CtcLoss_get_error get_logits self1 st1 = (Ok (e, self2), st2) →
  self2 = self1 ∧
  (∃ labels hyp, Loss._target_sparse_labels self1 = Some labels ∧
                 e = TCall "tf.reduce_sum" [TCall "tf.edit_distance" [hyp; labels]]) ∧
  adds (λ t, is_call "sparse_labels" t = false) st1 st2.
Proof.
  intros Hvalue Herror.
  assert (∃ labels, Loss._target_sparse_labels self1 = Some labels) as [labels Hlabels].
  { unfold CtcLoss_get_value in Hvalue.
    apply bind_ok in Hvalue as (target & s1 & _ & Hvalue).
    destruct (negb (Data.sparse target)); [done|].
    apply bind_ok in Hvalue as (logits & s2 & _ & Hvalue).
    apply bind_ok in Hvalue as ([] & s3 & _ & Hvalue).
    apply bind_ok in Hvalue as (n & s4 & _ & Hvalue).
    apply bind_ok in Hvalue as ([] & s5 & _ & Hvalue).
    apply bind_ok in Hvalue as ([l self'] & s6 & Hl & Hvalue).
    apply _get_target_sparse_labels_memo in Hl.
    apply bind_ok in Hvalue as (out & s7 & _ & Hvalue).
    apply bind_ok in Hvalue as (loss & s8 & _ & Hvalue).
    apply bind_ok in Hvalue as (v' & s9 & _ & Hvalue).
    apply ret_ok in Hvalue as [[= _ <-] _]. eauto. }
  clear Hvalue. unfold CtcLoss_get_error in Herror.
  apply bind_ok in Herror as (target & s1 & Ht & Herror).
  unfold loss_target in Ht. inv_step Ht.
  destruct (negb (Data.sparse target)); [done|].
  apply bind_ok in Herror as (logits & s2 & Hlogits & Herror).
  apply ctc_logits_adds in Hlogits.
  apply bind_ok in Herror as (out & s3 & Hout & Herror).
  unfold loss_output in Hout. inv_step Hout.
  apply bind_ok in Herror as (logits' & s4 & Htr & Herror).
  assert (adds (λ t, is_call "sparse_labels" t = false) s2 s4) as Hs4.
  { destruct (negb (is_time_major out)).
    - apply build_ok in Htr as [_ ->]. apply adds_build; reflexivity.
    - apply ret_ok in Htr as [_ ->]. apply adds_refl. }
  apply bind_ok in Herror as (decoded & s5 & Hdec & Herror).
  apply build_ok in Hdec as [-> ->].
  apply bind_ok in Herror as ([l self'] & s6 & Hl & Herror).
  unfold _get_target_sparse_labels in Hl. rewrite Hlabels in Hl.
  apply ret_ok in Hl as [[= <- <-] ->].
  apply bind_ok in Herror as (hyp & s7 & Hhyp & Herror). apply build_ok in Hhyp as [-> ->].
  apply bind_ok in Herror as (err & s8 & Herr & Herror). apply build_ok in Herr as [-> ->].
  apply bind_ok in Herror as (v' & s9 & Hv & Herror). apply build_ok in Hv as [-> ->].
  apply ret_ok in Herror as [[= <- <-] ->].
  split; [done|]. split; [eauto|].
  do 4 (eapply adds_trans; [|apply adds_build; reflexivity]).
  eapply adds_trans; [exact Hlogits | exact Hs4].
Qed.

End CtcMemo.

(** A sparse target of 5 classes against an output of width 6: the error
    after the value reuses the labels. *)
Lemma ctc_labels_built_once_witness :
  ∃ v e self1 st1 st2,
    CtcLoss_get_value (H:=ex_TFUtil6) (λ _, Some (TVar 0)) ex_ctc_loss ex_ctc_loss_state
      = (Ok (v, self1), st1) ∧
    CtcLoss_get_error (H:=ex_TFUtil6) (λ _, Some (TVar 0)) self1 st1 = (Ok (e, self1), st2) ∧
    adds (λ t, is_call "sparse_labels" t = false) st1 st2.
Proof.
  destruct (CtcLoss_get_value (H:=ex_TFUtil6) (λ _, Some (TVar 0)) ex_ctc_loss ex_ctc_loss_state)
    as [[[v self1]|] st1] eqn:Hvalue; [|by vm_compute in Hvalue].
  destruct (CtcLoss_get_error (H:=ex_TFUtil6) (λ _, Some (TVar 0)) self1 st1)
    as [[[e self2]|] st2] eqn:Herror.
  2:{ vm_compute in Hvalue. injection Hvalue as <- <- <-. by vm_compute in Herror. }
  destruct (ctc_labels_built_once (H:=ex_TFUtil6) (λ _, Some (TVar 0)) ex_ctc_loss self1 self2 v e
              ex_ctc_loss_state st1 st2 Hvalue Herror) as (-> & _ & Hadds).
  by exists v, e, self1, st1, st2.
Defined.

(** * Scope names *)

Lemma append_cons c (s t : string) : String c s +:+ t = String c (s +:+ t).
Proof. reflexivity. Qed.

Lemma append_nil (t : string) : "" +:+ t = t.
Proof. reflexivity. Qed.

Lemma str_app_assoc (s t u : string) : (s +:+ t) +:+ u = s +:+ (t +:+ u).
Proof.
  induction s as [|c s IH]; [done|]. by rewrite !append_cons, IH.
Qed.

Lemma has_char_app c s t : has_char c (s +:+ t) = has_char c s || has_char c t.
Proof.
  induction s as [|c' s IH]; [done|].
  rewrite append_cons. simpl. by rewrite IH, orb_assoc.
Qed.

Lemma str_replace_char_app old new s t :
  str_replace_char old new (s +:+ t) = str_replace_char old new s +:+ str_replace_char old new t.
Proof.
  induction s as [|c s IH]; [done|]. rewrite append_cons. simpl. rewrite IH.
  destruct (Ascii.eqb c old); [|done]. by rewrite str_app_assoc.
Qed.

(** The scope name of a layer never holds a colon; a name without colon is
    its own scope name, so that taking the scope name twice changes nothing
    more; and two names that differ by a colon against two underscores have
    one scope name. *)
Theorem cls_get_tf_scope_name_spec :
  (∀ name, has_char ":" (cls_get_tf_scope_name name) = false) ∧
  (∀ name, has_char ":" name = false → cls_get_tf_scope_name name = name) ∧
  (∀ name, cls_get_tf_scope_name (cls_get_tf_scope_name name) = cls_get_tf_scope_name name) ∧
  (∀ s t, cls_get_tf_scope_name (s +:+ ":" +:+ t) = cls_get_tf_scope_name (s +:+ "__" +:+ t)) ∧
  (∀ self, tf_scope_name self = cls_get_tf_scope_name (LayerBase.name self)).
Proof.
  assert (∀ name, has_char ":" (cls_get_tf_scope_name name) = false) as Hno.
  { unfold cls_get_tf_scope_name. induction name as [|c s IH]; simpl; [done|].
    destruct (Ascii.eqb c ":") eqn:E; [by rewrite !append_cons, append_nil|].
    simpl. by rewrite E. }
  assert (∀ name, has_char ":" name = false → cls_get_tf_scope_name name = name) as Hid.
  { unfold cls_get_tf_scope_name. induction name as [|c s IH]; simpl; [done|].
    destruct (Ascii.eqb c ":"); simpl; [done|]. intros Hs. by rewrite IH. }
  split; [done|]. split; [done|]. split; [intros; by apply Hid|]. split; [|done].
  intros s t. unfold cls_get_tf_scope_name. by rewrite !str_replace_char_app.
Qed.

(** * The registries of loss and layer classes *)

(** [get_loss_class], called with the registry still empty or already
    filled, finds every loss class under its [class_name] and leaves the
    registry filled with the three named classes; any other name is a
    KeyError; the unnamed base class is never returned. *)
Theorem get_loss_class_spec :
  let full : gmap string LossType :=
    {[ "ce" := CrossEntropyLoss_; "generic_ce" := GenericCELoss_; "ctc" := CtcLoss_ ]} in
  Forall (λ d,
    (∀ v name, Loss_class_name v = Some name → get_loss_class name d = (Ok v, full)) ∧
    (∀ name, (∀ v, Loss_class_name v ≠ Some name) →
       get_loss_class name d = (Raise (KeyError name), full)) ∧
    (∀ name d', get_loss_class name d ≠ (Ok Loss_, d'))) [∅; full].
Proof.
  intros full. apply Forall_forall. intros d Hd.
  assert (d = ∅ ∨ d = full) as Hd'.
  { apply elem_of_cons in Hd as [->|Hd]; [by left|].
    apply list_elem_of_singleton in Hd. by right. }
  clear Hd. rename Hd' into Hd.
  assert (∀ name, get_loss_class name d
                  = (match full !! name with
                     | Some v => Ok v | None => Raise (KeyError name) end, full)) as Hget.
  { intros name. unfold get_loss_class. destruct Hd as [-> | ->].
    - rewrite bool_decide_eq_true_2 by done.
      assert (fill_class_dict Loss_class_name loss_globals ∅ = (Ok tt, full)) as ->
        by (vm_compute; reflexivity).
      by destruct (full !! name).
    - rewrite bool_decide_eq_false_2 by apply insert_non_empty.
      by destruct (full !! name). }
  assert (∀ name v, full !! name = Some v ↔ Loss_class_name v = Some name) as Hfull.
  { intros name v. split.
    - unfold full. rewrite !lookup_insert_Some, lookup_singleton_Some.
      intros [[<- <-]|[_ [[<- <-]|[_ [<- <-]]]]]; done.
    - destruct v; simpl; intros [= <-]; vm_compute; reflexivity. }
  split; [|split].
  - intros v name Hv. rewrite Hget. apply Hfull in Hv. by rewrite Hv.
  - intros name Hno. rewrite Hget. destruct (full !! name) as [v|] eqn:E; [|done].
    apply Hfull in E. by destruct (Hno v).
  - intros name d'. rewrite Hget. destruct (full !! name) as [v|] eqn:E; [|done].
    apply Hfull in E. intros [= -> _]. done.
Qed.

(** The registry loop succeeds when the names it meets are new and
    pairwise distinct, and then has entered each named class. *)
Lemma fill_class_dict_spec {C} (class_name : C → option string) (vs : list C)
    (d : gmap string C) :
  NoDup (named_classes class_name vs).*1 →
  (∀ n, n ∈ (named_classes class_name vs).*1 → d !! n = None) →
  ∃ d', fill_class_dict class_name vs d = (Ok tt, d') ∧
        ∀ n v, d' !! n = Some v ↔ d !! n = Some v ∨ (n, v) ∈ named_classes class_name vs.
Proof.
  revert d. induction vs as [|v vs IH]; intros d Hnd Hnew; simpl.
  { exists d. split; [done|]. intros n v'. split; [by left|].
    intros [?|Hin]; [done|]. by apply elem_of_nil in Hin. }
  unfold named_classes in *. simpl in Hnd, Hnew |- *.
  destruct (truthy_str (class_name v)) eqn:Ht.
  - destruct (class_name v) as [n0|] eqn:Hn; [|done]. simpl in *.
    apply NoDup_cons in Hnd as [Hn0 Hnd].
    rewrite bool_decide_eq_false_2.
    2:{ rewrite (Hnew n0) by left. by intros [? ?]. }
    destruct (IH (<[n0 := v]> d) Hnd) as (d' & Hrun & Hd').
    { intros n Hin. rewrite lookup_insert_ne; [apply Hnew; by right|].
      intros <-. done. }
    exists d'. split; [done|]. intros n v'. rewrite Hd', elem_of_cons.
    destruct (decide (n = n0)) as [->|Hne].
    + rewrite lookup_insert_eq, (Hnew n0) by left. split.
      * intros [[= <-]|Hin]; [right; by left | right; by right].
      * intros [?|[[= <-]|Hin]]; [done | by left | by right].
    + rewrite lookup_insert_ne by done. split.
      * intros [?|?]; [by left | right; by right].
      * intros [?|[[= -> _]|?]]; [by left | done | by right].
  - destruct (IH d Hnd Hnew) as (d' & Hrun & Hd'). exists d'. split; [done|].
    intros n v'. rewrite Hd'. done.
Qed.

Lemma elem_of_named_classes {C} (class_name : C → option string) (vs : list C) n v :
  (n, v) ∈ named_classes class_name vs ↔ v ∈ vs ∧ class_name v = Some n ∧ n ≠ "".
Proof.
  unfold named_classes. rewrite list_elem_of_omap. split.
  - intros (v' & Hin & Hv). destruct (truthy_str (class_name v')) eqn:Ht; [|done].
    destruct (class_name v') as [n'|] eqn:Hn; simplify_eq/=.
    split; [done|]. split; [done|]. intros ->. done.
  - intros (Hin & Hn & Hne). exists v. split; [done|]. rewrite Hn. simpl.
    destruct (String.eqb_spec n ""); done.
Qed.

Lemma layer_globals_all v : v ∈ layer_globals.
Proof. refine (bool_decide_unpack _ _). by destruct v. Qed.

(** [get_layer_class], called with the registry still empty or already
    filled: filling the registry trips no assertion; every layer class is
    found under its [layer_class], and [LinearLayer] under "forward" too;
    any other name raises; the classes without a [layer_class],
    [LayerBase] and [_ConcatInputLayer], are never returned. *)
Theorem get_layer_class_spec :
  ∃ full, _init_layer_class_dict ∅ = (Ok tt, full) ∧
    Forall (λ d,
      (∀ v name, LayerType_layer_class v = Some name →
         get_layer_class name d = (Ok v, full)) ∧
      get_layer_class "forward" d = (Ok LinearLayer_, full) ∧
      (∀ name, name ≠ "forward" → (∀ v, LayerType_layer_class v ≠ Some name) →
         get_layer_class name d = (Raise (PyException "unknown layer class"), full)) ∧
      (∀ name v d', get_layer_class name d = (Ok v, d') →
         v ≠ LayerBase_ ∧ v ≠ _ConcatInputLayer_)) [∅; full].
Proof.
  destruct (fill_class_dict_spec LayerType_layer_class layer_globals ∅)
    as (d0 & Hfill & Hd0).
  { refine (bool_decide_unpack _ _). vm_compute. exact I. }
  { intros n _. apply lookup_empty. }
  assert (∀ name v, d0 !! name = Some v ↔ LayerType_layer_class v = Some name) as Hd0'.
  { intros name v. rewrite Hd0, lookup_empty, elem_of_named_classes. split.
    - intros [?|(_ & ? & _)]; done.
    - intros Hv. right. split; [apply layer_globals_all|]. split; [done|].
      intros ->. destruct v; vm_compute in Hv; discriminate. }
  assert (d0 !! "forward" = None) as Hfw.
  { destruct (d0 !! "forward") as [v|] eqn:E; [|done]. apply Hd0' in E.
    destruct v; vm_compute in E; discriminate. }
  set (full := <["forward" := LinearLayer_]> d0).
  assert (_init_layer_class_dict ∅ = (Ok tt, full)) as Hinit.
  { unfold _init_layer_class_dict. rewrite Hfill, Hfw.
    rewrite bool_decide_eq_false_2 by (by intros [? ?]). done. }
  assert (∀ name v, full !! name = Some v ↔
            LayerType_layer_class v = Some name ∨ (name = "forward" ∧ v = LinearLayer_))
    as Hfull.
  { intros name v. unfold full. destruct (decide (name = "forward")) as [->|Hne].
    - rewrite lookup_insert_eq. split.
      + intros [= <-]. by right.
      + intros [Hv|[_ ->]]; [|done]. apply Hd0' in Hv. congruence.
    - rewrite lookup_insert_ne by done. rewrite Hd0'. split; [by left|].
      intros [?|[? _]]; done. }
  assert (full ≠ ∅) as Hne.
  { intros E. assert (full !! "forward" = Some LinearLayer_) as Hf
      by (apply Hfull; by right).
    by rewrite E, lookup_empty in Hf. }
  exists full. split; [done|]. apply Forall_forall. intros d Hd'.
  assert (d = ∅ ∨ d = full) as Hd.
  { apply elem_of_cons in Hd' as [->|Hd']; [by left|].
    apply list_elem_of_singleton in Hd'. by right. }
  clear Hd'.
  assert (∀ name, get_layer_class name d
                  = (match full !! name with
                     | Some v => Ok v
                     | None => Raise (PyException "unknown layer class") end, full)) as Hget.
  { intros name. unfold get_layer_class. destruct Hd as [-> | ->].
    - rewrite bool_decide_eq_true_2 by done. rewrite Hinit. by destruct (full !! name).
    - rewrite bool_decide_eq_false_2 by done. by destruct (full !! name). }
  split; [|split; [|split]].
  - intros v name Hv. rewrite Hget.
    assert (full !! name = Some v) as -> by (apply Hfull; by left). done.
  - rewrite Hget. assert (full !! "forward" = Some LinearLayer_) as ->; [|done].
    apply Hfull. by right.
  - intros name Hfw' Hno. rewrite Hget. destruct (full !! name) as [v|] eqn:E; [|done].
    apply Hfull in E as [E|[-> _]]; [by destruct (Hno v) | done].
  - intros name v d'. rewrite Hget. destruct (full !! name) as [v'|] eqn:E; [|done].
    intros [= -> _]. apply Hfull in E as [E|[_ ->]]; [|done].
    split; intros ->; vm_compute in E; discriminate.
Qed.

(** * The error value of a subnetwork layer *)

Lemma String_compare_trans s1 : ∀ s2 s3,
  String.compare s1 s2 ≠ Gt → String.compare s2 s3 ≠ Gt → String.compare s1 s3 ≠ Gt.
Proof.
  induction s1 as [|c1 s1 IH]; intros [|c2 s2] [|c3 s3]; simpl; try done.
  unfold Ascii.compare.
  destruct (N.compare_spec (N_of_ascii c1) (N_of_ascii c2)) as [E12|L12|G12];
    destruct (N.compare_spec (N_of_ascii c2) (N_of_ascii c3)) as [E23|L23|G23];
    try done; intros H1 H2.
  - rewrite E12, E23, N.compare_refl. by apply (IH s2).
  - rewrite E12. by apply N.compare_lt_iff in L23 as ->.
  - rewrite <- E23. by apply N.compare_lt_iff in L12 as ->.
  - assert (N_of_ascii c1 < N_of_ascii c3)%N as L by lia.
    by apply N.compare_lt_iff in L as ->.
Qed.

Lemma String_leb_trans s1 s2 s3 :
  String.leb s1 s2 = true → String.leb s2 s3 = true → String.leb s1 s3 = true.
Proof.
  unfold String.leb. intros H1 H2.
  pose proof (String_compare_trans s1 s2 s3) as Ht.
  destruct (String.compare s1 s2), (String.compare s2 s3), (String.compare s1 s3);
    try done; exfalso; by apply Ht.
Qed.

#[local] Instance item_le_trans {A} : Transitive (@item_le A).
Proof. intros a b c. unfold item_le. apply String_leb_trans. Qed.

#[local] Instance item_le_total {A} : Total (@item_le A).
Proof. intros a b. unfold item_le. apply String.leb_total. Qed.

(** The first of the sorted items of a dict has the least key. *)
Lemma sorted_items_head {A} (d : gmap string A) k v :
  head (sorted_items d) = Some (k, v) →
  d !! k = Some v ∧ ∀ k', is_Some (d !! k') → String.leb k k' = true.
Proof.
  unfold sorted_items. intros Hhead.
  pose proof (StronglySorted_merge_sort item_le (map_to_list d)) as Hs.
  pose proof (merge_sort_Permutation item_le (map_to_list d)) as Hp.
  destruct (merge_sort item_le (map_to_list d)) as [|[k0 v0] l]; simplify_eq/=.
  apply StronglySorted_inv in Hs as [_ Hall].
  split.
  - apply elem_of_map_to_list. rewrite <- Hp. left.
  - intros k' [v' Hk']. apply elem_of_map_to_list in Hk'. rewrite <- Hp in Hk'.
    apply elem_of_cons in Hk' as [[= -> ->]|Hin].
    + by destruct (String.leb_total k k).
    + rewrite Forall_forall in Hall. by apply (Hall (k', v')).
Qed.

Section SubnetworkErrorsSpec.
Variable maybe_construct_objective : nat → M unit.
Variable get_all_errors : nat → M (gmap string Tensor).
Variable get_default_output_layer_name : nat → M (option string).

(** [SubnetworkLayer.get_error_value] returns None exactly when the
    subnetwork has no errors, and otherwise one of the subnetwork's errors:
    with one error that one, without asking for the default output layer;
    with several the one of the default output layer if it has one, and
    else the one whose layer name comes first. *)
Theorem subnetwork_error_value_spec (subnetwork : nat) (st st' : State)
    (r : option Tensor) :
  SubnetworkLayer_get_error_value maybe_construct_objective get_all_errors
    get_default_output_layer_name subnetwork st = (Ok r, st') →
  ∃ s1 s2 errors,
    maybe_construct_objective subnetwork st = (Ok tt, s1) ∧
    get_all_errors subnetwork s1 = (Ok errors, s2) ∧
    (r = None ↔ errors = ∅) ∧
    (∀ v, r = Some v → ∃ k, errors !! k = Some v) ∧
    ((size errors ≤ 1)%nat → st' = s2) ∧
    ((2 ≤ size errors)%nat →
     ∃ name, get_default_output_layer_name subnetwork s2 = (Ok name, st') ∧
       match name ≫= (errors !!.) with
       | Some v => r = Some v
       | None => ∃ k v, errors !! k = Some v ∧ r = Some v ∧
                        ∀ k', is_Some (errors !! k') → String.leb k k' = true
       end).
Proof.
  unfold SubnetworkLayer_get_error_value. intros Hrun.
  apply bind_ok in Hrun as ([] & s1 & Hmco & Hrun).
  apply bind_ok in Hrun as (errors & s2 & Herrors & Hrun).
  exists s1, s2, errors. split; [done|]. split; [done|].
  case_bool_decide as Hempty.
  { apply ret_ok in Hrun as [<- ->]. subst errors. rewrite map_size_empty.
    repeat split; try done. lia. }
  assert (size errors ≠ 0%nat) as Hsize by (by rewrite map_size_empty_iff).
  case_bool_decide as Hone.
  { apply bind_ok in Hrun as (v & s3 & Hv & Hrun). apply from_option_ok in Hv as [Hv ->].
    apply ret_ok in Hrun as [<- ->].
    split; [by split|]. split; [|split; [done | lia]].
    intros v' [= <-]. destruct (map_to_list errors) as [|[k v0] l] eqn:E; simplify_eq/=.
    exists k. apply elem_of_map_to_list. rewrite E. left. }
  apply bind_ok in Hrun as (name & s3 & Hname & Hrun).
  assert (∃ v, r = Some v ∧ st' = s3 ∧
            match name ≫= (errors !!.) with
            | Some v' => v' = v
            | None => ∃ k, errors !! k = Some v ∧
                           ∀ k', is_Some (errors !! k') → String.leb k k' = true
            end) as (v & -> & -> & Hv).
  { destruct (name ≫= (errors !!.)) as [v|].
    - apply ret_ok in Hrun as [<- ->]. eauto.
    - apply bind_ok in Hrun as ([k v] & s4 & Hitem & Hrun).
      apply from_option_ok in Hitem as [Hitem ->]. apply ret_ok in Hrun as [<- ->].
      apply sorted_items_head in Hitem as [Hk Hmin].
      exists v. split; [done|]. split; [done|]. by exists k. }
  split; [by split|]. split; [|split; [lia|]].
  - intros v' [= <-]. destruct (name ≫= (errors !!.)) as [v'|] eqn:E.
    + subst v'. destruct name as [n|]; simplify_eq/=. eauto.
    + destruct Hv as (k & Hk & _). eauto.
  - intros _. exists name. split; [done|].
    destruct (name ≫= (errors !!.)) as [v'|]; [by subst|].
    destruct Hv as (k & Hk & Hmin). eauto.
Qed.

End SubnetworkErrorsSpec.

(** Two errors and a default output layer without one: the error of the
    layer that comes first by name. *)
Lemma subnetwork_error_value_witness :
  SubnetworkLayer_get_error_value (λ _, mret tt)
    (λ _, mret {[ "b" := TVar 1; "a" := TVar 2 ]}) (λ _, mret (Some "output")) 1%nat
    (ex_state TrainTrue)
  = (Ok (Some (TVar 2)), ex_state TrainTrue) ∧
  ∃ errors : gmap string Tensor, errors !! "a" = Some (TVar 2) ∧ size errors = 2%nat.
Proof.
  assert (SubnetworkLayer_get_error_value (λ _, mret tt)
            (λ _, mret {[ "b" := TVar 1; "a" := TVar 2 ]}) (λ _, mret (Some "output")) 1%nat
            (ex_state TrainTrue)
          = (Ok (Some (TVar 2)), ex_state TrainTrue)) as Hrun by (vm_compute; reflexivity).
  split; [exact Hrun|].
  destruct (subnetwork_error_value_spec (λ _, mret tt)
              (λ _, mret {[ "b" := TVar 1; "a" := TVar 2 ]}) (λ _, mret (Some "output"))
              1%nat (ex_state TrainTrue) (ex_state TrainTrue) (Some (TVar 2)) Hrun)
    as (s1 & s2 & errors & _ & Herrors & _ & _ & _ & _).
  injection Herrors as <- _. exists {[ "b" := TVar 1; "a" := TVar 2 ]}.
  split; vm_compute; reflexivity.
Defined.

(** * Layers over the concatenation of their sources *)

Section ConcatInputSpec.
Context `{!TFUtil}.

Lemma _ConcatInputLayer___init___ok sources dropout mask r st st' :
  _ConcatInputLayer___init__ sources dropout mask st = (Ok r, st') →
  (mask = Some "unity" → dropout = 0%Qc) ∧ (mask = Some "dropout" → (0 < dropout)%Qc) ∧
  (sources = [] ∧ r = None ∧ st' = st ∨
   sources ≠ [] ∧ ∃ a, r = Some a ∧
     concat_sources_with_opt_dropout sources dropout st = (Ok a, st')).
Proof.
  unfold _ConcatInputLayer___init__. intros Hrun.
  apply bind_ok in Hrun as ([] & s1 & Hmask & Hrun). apply py_assert_ok in Hmask as [_ ->].
  apply bind_ok in Hrun as ([] & s1 & Hm & Hrun).
  assert (s1 = st ∧ (mask = Some "unity" → dropout = 0%Qc) ∧
          (mask = Some "dropout" → (0 < dropout)%Qc)) as (-> & Hu & Hd).
  { destruct (decide (mask = Some "unity")) as [E1|E1].
    - rewrite bool_decide_eq_true_2 in Hm by done.
      apply py_assert_ok in Hm as [Hm ->]. apply bool_decide_eq_true_1 in Hm.
      split; [done|]. split; [done|]. by rewrite E1.
    - rewrite bool_decide_eq_false_2 in Hm by done.
      destruct (decide (mask = Some "dropout")) as [E2|E2].
      + rewrite bool_decide_eq_true_2 in Hm by done.
        apply py_assert_ok in Hm as [Hm ->]. apply bool_decide_eq_true_1 in Hm. done.
      + rewrite bool_decide_eq_false_2 in Hm by done.
        apply ret_ok in Hm as [_ ->]. done. }
  split; [done|]. split; [done|].
  destruct (decide (sources = [])) as [Hs|Hs].
  - rewrite bool_decide_eq_true_2 in Hrun by done.
    apply ret_ok in Hrun as [<- ->]. by left.
  - rewrite bool_decide_eq_false_2 in Hrun by done.
    apply bind_ok in Hrun as (a & s2 & Ha & Hrun). apply ret_ok in Hrun as [<- ->].
    right. split; [done|]. by exists a.
Qed.

Variable output_with_activation_y : option Tensor → option string → M (option Tensor).
Hypothesis output_with_activation_y_datas :
  ∀ x act, keeps_datas (output_with_activation_y x act).

(** An activation layer over one source, with no dropout in effect, has
    the source layer's own output descriptor as its input and as its
    output, and has replaced the placeholder of that descriptor by the
    output of the activation. *)
Theorem activation_layer_overwrites_single_source (activation : option string)
    (layer : LayerBase.t) (dropout : Qc) (mask : option string) (net : Network.t)
    (st st' : State) (input_data output : option addr) :
  networks st !! LayerBase.network layer = Some net →
  effective_dropout net dropout = 0%Qc →
  ActivationLayer___init__ output_with_activation_y activation [layer] dropout mask st
    = (Ok (input_data, output), st') →
  input_data = Some (LayerBase.output layer) ∧ output = Some (LayerBase.output layer) ∧
  ∃ d y s1,
    datas st !! LayerBase.output layer = Some d ∧
    output_with_activation_y (Data.placeholder d)
      (if truthy_str activation then activation else None) st = (Ok y, s1) ∧
    datas st' !! LayerBase.output layer = Some (Data.with_placeholder y d).
Proof.
  intros Hnet Hrate Hrun. unfold ActivationLayer___init__, CopyLayer___init__ in Hrun.
  apply bind_ok in Hrun as ([i o] & s1 & Hcopy & Hrun).
  apply bind_ok in Hcopy as (i' & s0 & Hin & Hcopy). apply ret_ok in Hcopy as [[= <- <-] ->].
  apply _ConcatInputLayer___init___ok in Hin as (_ & _ & [(? & _)|(_ & a & -> & Hconcat)]);
    [done|].
  apply concat_dropout_run in Hconcat
    as (a0 & st1 & src0 & net1 & Hcs & Hhead & Hnet1 & Hcases).
  assert (concat_sources [layer] st = (Ok (LayerBase.output layer), st)) as Hone by done.
  rewrite Hone in Hcs. injection Hcs as <- <-.
  simpl in Hhead. injection Hhead as <-.
  assert (net1 = net) as -> by congruence. simpl in Hcases.
  destruct Hcases as [(_ & -> & ->)|[(Hnz & _)|(Hnz & _)]]; [|done..].
  apply bind_ok in Hrun as (x & s2 & Hx & Hrun).
  unfold placeholder_of in Hx.
  apply bind_ok in Hx as (a1 & s0 & Ha1 & Hx). apply from_option_ok in Ha1 as [[= <-] ->].
  apply bind_ok in Hx as (d & s0 & Hd & Hx). apply read_data_ok in Hd as [Hd ->].
  apply ret_ok in Hx as [<- ->].
  apply bind_ok in Hrun as (y & s3 & Hy & Hrun).
  apply bind_ok in Hrun as ([] & s4 & Hset & Hrun).
  apply ret_ok in Hrun as [[= <- <-] ->].
  split; [done|]. split; [done|].
  unfold assign_placeholder in Hset.
  apply bind_ok in Hset as (a2 & s0 & Ha2 & Hset). apply from_option_ok in Ha2 as [[= <-] ->].
  apply bind_ok in Hset as (d' & s0 & Hd' & Hset). apply read_data_ok in Hd' as [Hd' ->].
  apply write_data_ok in Hset as ->.
  rewrite (output_with_activation_y_datas _ _ _ _ _ Hy) in Hd'.
  assert (d' = d) as -> by congruence.
  exists d, y, s3. split; [done|]. split; [done|].
  simpl. apply lookup_insert_eq.
Qed.

End ConcatInputSpec.

Lemma ex_activation_y_datas x act : keeps_datas (ex_activation_y x act).
Proof.
  intros st r st'. unfold ex_activation_y.
  destruct x as [x|], act as [f|]; by intros [= <- <-].
Qed.

(** A [tanh] layer over the source [a]: the descriptor of [a] holds the
    output of the activation. *)
Lemma activation_layer_overwrites_single_source_witness :
  ex_activation_run = (Ok (Some 0%nat, Some 0%nat), ex_activation_run.2) ∧
  datas ex_activation_run.2 !! 0%nat
  = Some (Data.with_placeholder (Some (TCall "tanh" [TVar 0]))
            (ex_data "a_output" 5 0 0%nat)).
Proof.
  assert (ex_activation_run = (Ok (Some 0%nat, Some 0%nat), ex_activation_run.2)) as Hrun
    by (vm_compute; reflexivity).
  split; [exact Hrun|].
  destruct (activation_layer_overwrites_single_source (H:=ex_TFUtil) ex_activation_y
              ex_activation_y_datas (Some "tanh") ex_a 0%Qc None (ex_network TrainTrue)
              (ex_state TrainTrue) ex_activation_run.2 (Some 0%nat) (Some 0%nat)
              eq_refl eq_refl Hrun) as (_ & _ & d & y & s1 & Hd & Hy & Hd').
  vm_compute in Hd. injection Hd as <-.
  vm_compute in Hy. injection Hy as <- _.
  exact Hd'.
Defined.

Lemma extends_refl st : extends st st.
Proof. by split. Qed.

Lemma extends_trans st1 st2 st3 : extends st1 st2 → extends st2 st3 → extends st1 st3.
Proof.
  intros [Hd1 Hm1] [Hd2 Hm2]. split.
  - intros x Hx. rewrite Hd2, Hd1; [done..|]. by rewrite Hd1.
  - intros r Hr. rewrite Hm2, Hm1; [done..|]. by rewrite Hm1.
Qed.

Lemma extends_same st st' : datas st' = datas st → dicts st' = dicts st → extends st st'.
Proof. intros Hd Hm. split; intros; by rewrite ?Hd, ?Hm. Qed.

Lemma extends_dom st st' x : extends st st' → x ∉ dom (datas st') → x ∉ dom (datas st).
Proof.
  intros [Hd _] Hx Hin. apply Hx. apply elem_of_dom in Hin. apply elem_of_dom.
  by rewrite Hd.
Qed.

Section ConcatExtends.
Context `{!TFUtil}.

Lemma Data_copy_extends a c st st' :
  Data_copy a st = (Ok c, st') → extends st st' ∧ (c ∉ dom (datas st)) ∧
  is_Some (datas st' !! c).
Proof.
  intros Hcopy. apply Data_copy_ok in Hcopy as (d & Hd & -> & Hst).
  assert (∀ x, is_Some (datas st !! x) → fresh (dom (datas st)) ≠ x) as Hne.
  { intros x Hx E. symmetry in E. revert E. by apply fresh_data_ne. }
  assert (∀ r, is_Some (dicts st !! r) → fresh (dom (dicts st)) ≠ r) as Hne'.
  { intros r Hr E. symmetry in E. revert E. by apply fresh_dict_ne. }
  split; [|split; [apply is_fresh|]].
  - destruct (Data.size_placeholder d).
    + destruct Hst as (m & _ & ->). split; simpl.
      * intros x Hx. apply lookup_insert_ne. by apply Hne.
      * intros r Hr. apply lookup_insert_ne. by apply Hne'.
    + subst st'. split; simpl; [|done].
      intros x Hx. apply lookup_insert_ne. by apply Hne.
  - destruct (Data.size_placeholder d).
    + destruct Hst as (m & _ & ->). simpl. rewrite lookup_insert_eq. eauto.
    + subst st'. simpl. rewrite lookup_insert_eq. eauto.
Qed.

Lemma concat_sources_extends src st a st' :
  (2 ≤ length src)%nat → concat_sources src st = (Ok a, st') →
  extends st st' ∧ (a ∉ dom (datas st)) ∧ is_Some (datas st' !! a).
Proof.
  intros Hlen Hrun.
  apply concat_sources_run in Hrun
    as [(layer & -> & _)|(_ & src0 & net & Hhead & Hnet & Hrun)]; [simpl in Hlen; lia|].
  destruct Hrun as [(c & Hc & Hcopy)|(Hc & tmpl & o0 & r0 & m0 & values & _ & _ & _ & _ & _ &
                                      -> & ->)].
  { by apply Data_copy_extends in Hcopy. }
  unfold concat_miss_state. split; [|split; [apply is_fresh|]].
  - split; simpl.
    + intros x Hx. rewrite lookup_insert_ne.
      * apply lookup_insert_ne. intros E. symmetry in E. revert E. by apply fresh_data_ne.
      * by apply fresh_insert_ne.
    + intros r Hr. rewrite lookup_insert_ne.
      * apply lookup_insert_ne. intros E. symmetry in E. revert E. by apply fresh_dict_ne.
      * by apply fresh_insert_ne.
  - simpl. rewrite lookup_insert_ne.
    + rewrite lookup_insert_eq. eauto.
    + intros E. pose proof (is_fresh (dom (<[fresh (dom (datas st)) :=
        Data.with_size_placeholder (Some (fresh (dom (dicts st))))
          (Data.with_placeholder (Some (TConcat
             (Z.of_nat (length (all_but_last (Data.shape tmpl))) + 1) values)) tmpl)]>
        (datas st)))) as Hf.
      rewrite E in Hf. apply Hf, elem_of_dom. rewrite lookup_insert_eq. eauto.
Qed.

Lemma cache_store_same n key c st st' :
  cache_store n key c st = (Ok tt, st') → datas st' = datas st ∧ dicts st' = dicts st.
Proof.
  unfold cache_store. intros Hrun.
  apply bind_ok in Hrun as (net & s0 & Hnet & Hrun).
  apply get_network_ok in Hnet as [_ ->]. by apply put_network_ok in Hrun as ->.
Qed.

Lemma concat_dropout_extends src dropout st a st' :
  (2 ≤ length src)%nat → concat_sources_with_opt_dropout src dropout st = (Ok a, st') →
  extends st st' ∧ (a ∉ dom (datas st)) ∧ is_Some (datas st' !! a).
Proof.
  intros Hlen Hrun.
  apply concat_dropout_run in Hrun
    as (a0 & st1 & src0 & net1 & Hcs & Hhead & Hnet1 & Hcases).
  apply concat_sources_extends in Hcs as (Hext & Hfresh & Hlive); [|done].
  simpl in Hcases.
  destruct Hcases as [(_ & -> & ->)|[(_ & c & _ & Hcopy)|
    (_ & _ & -> & y & s2 & d & c & s_c & Hcond & Hd & Hcopy & Hstore)]].
  - done.
  - apply Data_copy_extends in Hcopy as (Hext' & Hfresh' & Hlive').
    split; [by eapply extends_trans|]. split; [by eapply extends_dom|]. done.
  - apply cond_on_train_objects in Hcond as (Hd2 & Hm2 & _).
    apply Data_copy_extends in Hcopy as ([Hcd Hcm] & Hc & _). simpl in Hcd, Hcm.
    apply cache_store_same in Hstore as [Hsd Hsm].
    assert (datas st' !! a0 = Some (Data.with_placeholder (Some y) d)) as Ha.
    { rewrite Hsd, Hcd; rewrite lookup_insert_eq; eauto. }
    split; [|split; [done | by rewrite Ha]].
    destruct Hext as [Hed Hem]. split.
    + intros x Hx. rewrite Hsd. rewrite Hcd.
      * rewrite lookup_insert_ne; [by rewrite Hd2, Hed|].
        intros <-. apply Hfresh. by apply elem_of_dom.
      * rewrite lookup_insert_ne; [by rewrite Hd2, Hed|].
        intros <-. apply Hfresh. by apply elem_of_dom.
    + intros r Hr. rewrite Hsm, Hcm; [by rewrite Hm2, Hem | by rewrite Hm2, Hem].
Qed.

Variable output_with_activation_y : option Tensor → option string → M (option Tensor).
Hypothesis output_with_activation_y_objects :
  ∀ x act st r st', output_with_activation_y x act st = (r, st') →
    datas st' = datas st ∧ dicts st' = dicts st.

(** A copy layer or an activation layer over two or more sources has as
    input and output a descriptor that did not exist before, and leaves
    every descriptor and dict that did exist as it was: the sources are not
    touched. *)
Theorem activation_layer_keeps_many_sources (activation : option string)
    (sources : list LayerBase.t) (dropout : Qc) (mask : option string)
    (st st' : State) (input_data output : option addr) :
  (2 ≤ length sources)%nat →
  (CopyLayer___init__ sources dropout mask st = (Ok (input_data, output), st') ∨
   ActivationLayer___init__ output_with_activation_y activation sources dropout mask st
     = (Ok (input_data, output), st')) →
  ∃ a, input_data = Some a ∧ output = Some a ∧ (a ∉ dom (datas st)) ∧
       is_Some (datas st' !! a) ∧ extends st st'.
Proof.
  intros Hlen Hrun.
  assert (sources ≠ []) as Hne by (intros ->; simpl in Hlen; lia).
  assert (∀ s s', CopyLayer___init__ sources dropout mask s = (Ok (input_data, output), s') →
            ∃ a, input_data = Some a ∧ output = Some a ∧ (a ∉ dom (datas s)) ∧
                 is_Some (datas s' !! a) ∧ extends s s') as Hcopy.
  { intros s s' Hc. unfold CopyLayer___init__ in Hc.
    apply bind_ok in Hc as (i & s0 & Hin & Hc). apply ret_ok in Hc as [[= <- <-] ->].
    apply _ConcatInputLayer___init___ok in Hin as (_ & _ & [(? & _)|(_ & a & -> & Hconcat)]);
      [done|].
    apply concat_dropout_extends in Hconcat as (? & ? & ?); [|done]. by exists a. }
  destruct Hrun as [Hrun|Hrun]; [by apply Hcopy|].
  unfold ActivationLayer___init__ in Hrun.
  apply bind_ok in Hrun as ([i o] & s1 & Hc & Hrun).
  apply bind_ok in Hrun as (x & s2 & Hx & Hrun).
  apply bind_ok in Hrun as (y & s3 & Hy & Hrun).
  apply bind_ok in Hrun as ([] & s4 & Hset & Hrun).
  apply ret_ok in Hrun as [[= -> ->] ->].
  apply Hcopy in Hc as (a & -> & -> & Hfresh & Hlive & Hext).
  unfold placeholder_of in Hx.
  apply bind_ok in Hx as (a1 & s0 & Ha1 & Hx). apply from_option_ok in Ha1 as [[= <-] ->].
  apply bind_ok in Hx as (d & s0 & Hd & Hx). apply read_data_ok in Hd as [Hd ->].
  apply ret_ok in Hx as [<- ->].
  apply output_with_activation_y_objects in Hy as [Hyd Hym].
  unfold assign_placeholder in Hset.
  apply bind_ok in Hset as (a2 & s0 & Ha2 & Hset). apply from_option_ok in Ha2 as [[= <-] ->].
  apply bind_ok in Hset as (d' & s0 & Hd' & Hset). apply read_data_ok in Hd' as [Hd' ->].
  apply write_data_ok in Hset as ->.
  exists a. split; [done|]. split; [done|]. split; [done|].
  split; [simpl; rewrite lookup_insert_eq; eauto|].
  destruct Hext as [Hed Hem]. split; simpl.
  - intros z Hz. rewrite lookup_insert_ne; [by rewrite Hyd, Hed|].
    intros <-. apply Hfresh. by apply elem_of_dom.
  - intros r Hr. by rewrite Hym, Hem.
Qed.

End ConcatExtends.

Lemma ex_activation_y_objects x act st r st' :
  ex_activation_y x act st = (r, st') → datas st' = datas st ∧ dicts st' = dicts st.
Proof.
  unfold ex_activation_y. destruct x as [x|], act as [f|]; by intros [= <- <-].
Qed.

(** A [tanh] layer over the sources [a] and [b]: its output is a new
    descriptor, and the descriptors of [a] and [b] are as they were. *)
Lemma activation_layer_keeps_many_sources_witness :
  ex_activation_two_run = (Ok (Some 2%nat, Some 2%nat), ex_activation_two_run.2) ∧
  datas ex_activation_two_run.2 !! 0%nat = Some (ex_data "a_output" 5 0 0%nat) ∧
  datas ex_activation_two_run.2 !! 1%nat = Some (ex_data "b_output" 3 1 1%nat).
Proof.
  assert (ex_activation_two_run = (Ok (Some 2%nat, Some 2%nat), ex_activation_two_run.2))
    as Hrun by (vm_compute; reflexivity).
  split; [exact Hrun|].
  destruct (activation_layer_keeps_many_sources (H:=ex_TFUtil) ex_activation_y
              ex_activation_y_objects (Some "tanh") [ex_a; ex_b] 0%Qc None
              (ex_state TrainTrue) ex_activation_two_run.2 (Some 2%nat) (Some 2%nat)
              (le_n 2) (or_intror Hrun)) as (a & _ & _ & _ & _ & Hd & _).
  split; [apply (Hd 0%nat) | apply (Hd 1%nat)]; by eexists.
Defined.

(** * CombineLayer *)

Section CombineSpec.
Context `{!TFUtil}.

Lemma readonly_for_each {A} (l : list A) (body : A → M unit) :
  (∀ x, readonly (body x)) → readonly (for_each l body).
Proof.
  intros Hb st r st' Hrun. eapply for_each_pure; [|exact Hrun].
  intros x s r' s' Hx. by apply Hb in Hx.
Qed.

Lemma combine_check_readonly output sources :
  readonly (CombineLayer__check_same_dense_dim output sources).
Proof.
  unfold CombineLayer__check_same_dense_dim.
  apply readonly_bind; [apply readonly_read_data|]. intros out.
  apply readonly_bind; [apply readonly_stateless, stateless_assert|]. intros _.
  apply readonly_for_each. intros source. readonly_tac.
Qed.

Lemma combine_check_ok output sources u st st' :
  CombineLayer__check_same_dense_dim output sources st = (Ok u, st') →
  st' = st ∧ ∃ out, datas st !! output = Some out ∧ Data.sparse out = false ∧
    Forall (λ source, ∃ o, datas st !! LayerBase.output source = Some o ∧
                           Data.sparse o = false ∧ Data.dim o = Data.dim out) sources.
Proof.
  intros Hrun. pose proof (combine_check_readonly _ _ _ _ _ Hrun) as ->.
  split; [done|]. unfold CombineLayer__check_same_dense_dim in Hrun.
  apply bind_ok in Hrun as (out & s1 & Hout & Hrun). apply read_data_ok in Hout as [Hout ->].
  apply bind_ok in Hrun as ([] & s1 & Hs & Hrun). apply py_assert_ok in Hs as [Hs ->].
  exists out. split; [done|]. split; [by apply negb_true_iff|].
  apply for_each_ok in Hrun.
  2:{ intros x s r' s' Hx. revert Hx. apply (readonly_bind _ _); [apply readonly_read_data|].
      intros o. readonly_tac. }
  eapply Forall_impl; [exact Hrun|]. intros source Hsrc. simpl in Hsrc.
  apply bind_ok in Hsrc as (o & s1 & Ho & Hsrc). apply read_data_ok in Ho as [Ho ->].
  apply bind_ok in Hsrc as ([] & s1 & Hsp & Hsrc). apply py_assert_ok in Hsp as [Hsp ->].
  apply py_assert_ok in Hsrc as [Hdim _]. apply bool_decide_eq_true_1 in Hdim.
  exists o. split; [done|]. split; [by apply negb_true_iff | done].
Qed.

(** The sum of the sources' tensors, from the left. *)
Lemma combine_add_loop_same_axis batch_axis x ps sources st :
  Forall2 (λ source p, ∃ o, datas st !! LayerBase.output source = Some o ∧
             Data.placeholder o = Some p ∧ Data.batch_dim_axis o = batch_axis) sources ps →
  ∃ st', CombineLayer__op_kind_add_loop batch_axis (Some x) sources st
         = (Ok (Some (foldl TAdd x ps)), st') ∧
         datas st' = datas st ∧ dicts st' = dicts st ∧
         length (graph st') = (length (graph st) + length sources)%nat ∧
         adds (λ t, ∃ a b, t = TAdd a b) st st'.
Proof.
  intros Hall. revert x ps st Hall.
  induction sources as [|source sources IH]; intros x ps st Hall.
  { apply Forall2_nil_inv_l in Hall as ->. exists st. simpl.
    split; [done|]. split; [done|]. split; [done|]. split; [lia | apply adds_refl]. }
  apply Forall2_cons_inv_l in Hall as (p & ps' & (o & Ho & Hp & Hax) & Hall & ->).
  simpl. set (s1 := with_graph (graph st ++ [TAdd x p]) st).
  assert (CombineLayer__op_kind_add_step batch_axis (Some x) source st
          = (Ok (Some (TAdd x p)), s1)) as Hstep.
  { unfold CombineLayer__op_kind_add_step.
    rewrite (bind_run _ _ st o st) by by apply read_data_ok.
    rewrite bool_decide_eq_false_2 by (intros ?; done).
    rewrite (bind_run _ _ st (Some p) st) by by rewrite Hp.
    done. }
  rewrite (bind_run _ _ _ _ _ Hstep).
  destruct (IH (TAdd x p) ps' s1) as (st' & Hrun & Hd & Hm & Hlen & Hadds).
  { eapply Forall2_impl; [exact Hall|]. intros s p' (o' & ? & ? & ?). by exists o'. }
  exists st'. split; [done|]. split; [done|]. split; [done|]. split.
  - rewrite Hlen. unfold s1. simpl. rewrite length_app. simpl. lia.
  - eapply adds_trans; [|exact Hadds]. apply adds_build. eauto.
Qed.

(** [_op_kind_add] and [_op_kind_average] check before they build: when
    they return, the output and every source are dense and every source has
    the output's dimension, and no descriptor or dict has changed; when the
    output or a source is sparse, or a source has another dimension, they
    raise in the state they were called in, with nothing built. Over
    sources with tensors in one batch-axis convention, [_op_kind_add]
    returns the sum from the left and has built one addition per further
    source; [_op_kind_average] divides that sum by the number of sources.
    Any other kind is an AttributeError, with nothing built. *)
Theorem combine_op_spec (output : addr) (sources : list LayerBase.t) (st : State) :
  (∀ kind x st', CombineLayer_op kind output sources st = (Ok x, st') →
     (kind = "add" ∨ kind = "average") ∧
     ∃ out, datas st !! output = Some out ∧ Data.sparse out = false ∧
       Forall (λ source, ∃ o, datas st !! LayerBase.output source = Some o ∧
                 Data.sparse o = false ∧ Data.dim o = Data.dim out) sources) ∧
  (∀ kind out, datas st !! output = Some out →
     Forall (λ source, is_Some (datas st !! LayerBase.output source)) sources →
     Data.sparse out = true ∨
     Exists (λ source, ∃ o, datas st !! LayerBase.output source = Some o ∧
               (Data.sparse o = true ∨ Data.dim o ≠ Data.dim out)) sources →
     ∃ e, CombineLayer_op kind output sources st = (Raise e, st)) ∧
  (∀ kind, kind ≠ "add" → kind ≠ "average" →
     CombineLayer_op kind output sources st
     = (Raise (AttributeError ("_op_kind_" +:+ kind)), st)) ∧
  (∀ out src0 rest o0 x ps,
     CombineLayer__check_same_dense_dim output sources st = (Ok tt, st) →
     datas st !! output = Some out → sources = src0 :: rest →
     datas st !! LayerBase.output src0 = Some o0 → Data.placeholder o0 = Some x →
     Forall2 (λ source p, ∃ o, datas st !! LayerBase.output source = Some o ∧
                Data.placeholder o = Some p ∧
                Data.batch_dim_axis o = Data.batch_dim_axis o0) rest ps →
     (∃ st', CombineLayer_op "add" output sources st = (Ok (Some (foldl TAdd x ps)), st') ∧
             length (graph st') = (length (graph st) + length rest)%nat) ∧
     (∃ st', CombineLayer_op "average" output sources st
             = (Ok (Some (TCall "/" [foldl TAdd x ps; TInt (Z.of_nat (length sources))])),
                st'))).
Proof.
  assert (∀ x st', CombineLayer__op_kind_add output sources st = (Ok x, st') →
            ∃ out, datas st !! output = Some out ∧ Data.sparse out = false ∧
              Forall (λ source, ∃ o, datas st !! LayerBase.output source = Some o ∧
                        Data.sparse o = false ∧ Data.dim o = Data.dim out) sources) as Hadd.
  { intros x st' Hrun. unfold CombineLayer__op_kind_add in Hrun.
    apply bind_ok in Hrun as ([] & s1 & Hcheck & _).
    by apply combine_check_ok in Hcheck as (_ & ?). }
  split; [|split; [|split]].
  - intros kind x st' Hrun. unfold CombineLayer_op in Hrun.
    destruct (String.eqb_spec kind "add") as [->|Hk1].
    { split; [by left|]. by eapply Hadd. }
    destruct (String.eqb_spec kind "average") as [->|Hk2]; [|done].
    split; [by right|]. unfold CombineLayer__op_kind_average in Hrun.
    apply bind_ok in Hrun as (x' & s1 & Hrun & _). by eapply Hadd.
  - intros kind out Hout Hlive Hbad. unfold CombineLayer_op.
    assert (∃ e, CombineLayer__op_kind_add output sources st = (Raise e, st)) as [e Hraise].
    { unfold CombineLayer__op_kind_add.
      destruct (CombineLayer__check_same_dense_dim output sources st) as [[[]|e] s1] eqn:E.
      - apply combine_check_ok in E as (-> & out' & Hout' & Hsp & Hall).
        assert (out' = out) as -> by congruence. exfalso.
        destruct Hbad as [Hbad|Hbad]; [congruence|].
        apply Exists_exists in Hbad as (source & Hin & o & Ho & Hbad).
        rewrite Forall_forall in Hall. destruct (Hall source Hin) as (o' & Ho' & ? & ?).
        assert (o' = o) as -> by congruence. destruct Hbad; congruence.
      - pose proof (combine_check_readonly _ _ _ _ _ E) as ->.
        exists e. by rewrite (bind_fail _ _ _ _ _ E). }
    destruct (String.eqb kind "add"); [by exists e|].
    destruct (String.eqb kind "average").
    + exists e. unfold CombineLayer__op_kind_average. by rewrite (bind_fail _ _ _ _ _ Hraise).
    + by eexists.
  - intros kind Hk1 Hk2. unfold CombineLayer_op.
    destruct (String.eqb_spec kind "add"); [done|].
    destruct (String.eqb_spec kind "average"); done.
  - intros out src0 rest o0 x ps Hcheck Hout -> Ho0 Hx Hall.
    destruct (combine_add_loop_same_axis (Data.batch_dim_axis o0) x ps rest st Hall)
      as (st' & Hloop & _ & _ & Hlen & _).
    assert (CombineLayer__op_kind_add output (src0 :: rest) st
            = (Ok (Some (foldl TAdd x ps)), st')) as Hrun.
    { unfold CombineLayer__op_kind_add. rewrite (bind_run _ _ _ _ _ Hcheck). simpl.
      rewrite (bind_run _ _ st src0 st) by done.
      rewrite (bind_run _ _ st o0 st) by by apply read_data_ok.
      by rewrite Hx. }
    split.
    + exists st'. split; [exact Hrun | exact Hlen].
    + eexists. unfold CombineLayer_op. simpl. unfold CombineLayer__op_kind_average.
      rewrite (bind_run _ _ _ _ _ Hrun).
      rewrite (bind_run _ _ st' (foldl TAdd x ps) st') by done.
      reflexivity.
Qed.

End CombineSpec.

Lemma alist_get_set {A} (k : string) (v : A) (d : list (string * A)) :
  alist_get k (alist_set k v d) = Some v.
Proof.
  induction d as [|[k' v'] d IH]; simpl.
  - by rewrite String.eqb_refl.
  - destruct (String.eqb k' k) eqn:E; simpl; [by rewrite String.eqb_refl|]. by rewrite E.
Qed.

Lemma alist_get_set_ne {A} (k k0 : string) (v : A) (d : list (string * A)) :
  k0 ≠ k → alist_get k0 (alist_set k v d) = alist_get k0 d.
Proof.
  intros Hne. induction d as [|[k' v'] d IH]; simpl.
  - destruct (String.eqb_spec k k0); [by subst|done].
  - destruct (String.eqb_spec k' k) as [->|Hk]; simpl.
    + destruct (String.eqb_spec k k0); [by subst|done].
    + by rewrite IH.
Qed.

Lemma alist_set_length {A} (k : string) (v : A) (d : list (string * A)) :
  length (alist_set k v d)
  = (match alist_get k d with Some _ => length d | None => S (length d) end).
Proof.
  induction d as [|[k' v'] d IH]; simpl; [done|].
  destruct (String.eqb k' k); simpl; [done|]. rewrite IH. by destruct (alist_get k d).
Qed.

Section CombineInitSpec.
Context `{!TFUtil}.
Variable new_variable : string → option Z → M Tensor.
Variable param_name : Tensor → string.
Variable output_with_activation_y : option Tensor → option string → M (option Tensor).

(** [CombineLayer.__init__] without sources fails its first assertion and
    with a kind other than "add" and "average" raises an AttributeError, in
    both cases with nothing built or changed. When it returns, the
    parameters of the layer are those it had, with the bias variable entered
    under its name if a bias was asked for: the variable is then found under
    that name, every other name holds what it held, and without bias the
    parameters are unchanged. *)
Theorem combine_init_spec (output : addr) (params : list (string * Tensor))
    (kind : string) (sources : list LayerBase.t) (activation : option string)
    (with_bias : bool) (st : State) :
  let run := CombineLayer___init__ new_variable param_name output_with_activation_y
               output params kind sources activation with_bias st in
  (sources = [] → run = (Raise (AssertionError ""), st)) ∧
  (sources ≠ [] → kind ≠ "add" → kind ≠ "average" →
   run = (Raise (AttributeError ("_op_kind_" +:+ kind)), st)) ∧
  (∀ params' st', run = (Ok params', st') →
     if with_bias then
       ∃ b, param_name b ≠ "" ∧ params' = alist_set (param_name b) b params ∧
            alist_get (param_name b) params' = Some b ∧
            ∀ k, k ≠ param_name b → alist_get k params' = alist_get k params
     else params' = params).
Proof.
  intros run. subst run. unfold CombineLayer___init__. split; [|split].
  - intros ->. done.
  - intros Hne Hk1 Hk2.
    rewrite (bind_run _ _ st tt st)
      by (apply py_assert_ok; split; [by apply bool_decide_eq_true_2 | done]).
    destruct (combine_op_spec output sources st) as (_ & _ & Hattr & _).
    by rewrite (bind_fail _ _ _ _ _ (Hattr kind Hk1 Hk2)).
  - intros params' st' Hrun.
    apply bind_ok in Hrun as ([] & s1 & _ & Hrun).
    apply bind_ok in Hrun as (x & s2 & _ & Hrun).
    apply bind_ok in Hrun as ([x' ps] & s3 & Hbias & Hrun).
    apply bind_ok in Hrun as (y & s4 & _ & Hrun).
    apply bind_ok in Hrun as ([] & s5 & _ & Hrun).
    apply ret_ok in Hrun as [<- _].
    destruct with_bias.
    + apply bind_ok in Hbias as (out & s6 & _ & Hbias).
      apply bind_ok in Hbias as (b & s7 & _ & Hbias).
      apply bind_ok in Hbias as ([ps' b'] & s8 & Hadd & Hbias).
      apply bind_ok in Hbias as (x'' & s9 & _ & Hbias).
      apply ret_ok in Hbias as [[= _ <-] _].
      unfold add_param in Hadd.
      apply bind_ok in Hadd as ([] & s10 & Hname & Hadd).
      apply py_assert_ok in Hname as [Hname _]. apply ret_ok in Hadd as [[= <- <-] _].
      exists b. split.
      { intros E. rewrite E in Hname. done. }
      split; [done|]. split; [apply alist_get_set|].
      intros k Hk. by apply alist_get_set_ne.
    + by apply ret_ok in Hbias as [[= _ <-] _].
Qed.

End CombineInitSpec.

(** * The output a layer declares and the check of its loss *)

Lemma readonly_get_network n : readonly (get_network n).
Proof.
  intros st r st'. unfold get_network. by destruct (networks st !! n); intros [= <- <-].
Qed.

Lemma readonly_default_target_for network target loss :
  readonly (default_target_for network target loss).
Proof.
  unfold default_target_for. destruct (_ && _).
  - apply readonly_bind; [apply readonly_get_network|].
    intros net. apply readonly_stateless, stateless_ret.
  - apply readonly_stateless, stateless_ret.
Qed.

Section LossCheckSpec.
Context `{!TFUtil}.
Variable ndim_dense : Data.t → Z.

(** The descriptor [get_out_data_from_opts] builds from [n_out] is a new
    one of that width; the descriptors there were are as they were. *)
Lemma get_out_data_from_opts_new (network : nat) (name : string) (n_out : option Z)
    (target : option string) (sources : list LayerBase.t) (loss : option LossClass)
    (st st' : State) (a : addr) :
  get_out_data_from_opts network name None n_out target sources loss st = (Ok a, st') →
  (a ∉ dom (datas st)) ∧
  (∀ x, x ≠ a → datas st' !! x = datas st !! x) ∧
  ∃ d n, datas st' !! a = Some d ∧ Data.dim d = Some n ∧
         (∀ n', n_out = Some n' → n = n').
Proof.
  intros Hrun. unfold get_out_data_from_opts in Hrun.
  apply bind_ok in Hrun as (tgt & s1 & Htgt & Hrun).
  apply readonly_default_target_for in Htgt as ->.
  apply bind_ok in Hrun as (n_out' & s2 & Hn & Hrun).
  assert (s2 = st ∧ ∀ n', n_out = Some n' → n_out' = Some n') as [-> Hexp].
  { destruct (_ && _) eqn:Hc.
    - apply andb_true_iff in Hc as [Hc _]. apply andb_true_iff in Hc as [_ Hc].
      apply bool_decide_eq_true_1 in Hc as ->.
      apply bind_ok in Hn as (tv & s3 & Htv & Hn).
      apply _static_get_target_value_unmarked in Htv as ->.
      apply bind_ok in Hn as (ta & s4 & Hta & Hn). apply from_option_ok in Hta as [_ ->].
      apply bind_ok in Hn as (td & s5 & Htd & Hn). apply read_data_ok in Htd as [_ ->].
      destruct loss as [l|].
      + apply get_auto_output_layer_dim_opt_ok in Hn as [-> _]. done.
      + apply ret_ok in Hn as [_ ->]. done.
    - apply ret_ok in Hn as [<- ->]. done. }
  apply bind_ok in Hrun as (ot & s3 & Hot & Hrun).
  apply bind_ok in Hot as ([] & s4 & Hassert & Hot).
  apply py_assert_ok in Hassert as [_ ->].
  destruct n_out' as [n|]; [|done]. apply ret_ok in Hot as [<- ->].
  apply bind_ok in Hrun as (src0 & s5 & Hsrc & Hrun).
  assert (s5 = st) as ->.
  { destruct (head sources); inv_step Hsrc; done. }
  apply bind_ok in Hrun as (ot' & s6 & Hot' & Hrun).
  apply bind_ok in Hot' as ([] & s7 & Hassert & Hot').
  apply py_assert_ok in Hassert as [_ ->]. apply ret_ok in Hot' as [<- ->].
  match type of Hrun with context [Data_init ?kw] => set (out_type := kw) in * end.
  assert (OutType.dim out_type = Some n) as Hkw.
  { unfold out_type. by destruct src0 as [o|]; [destruct (OutType.batch_dim_axis _)|]. }
  pose proof (Data_init_dim out_type _ Hkw) as Hd.
  apply bind_ok in Hrun as (a' & s8 & Ha & Hrun). apply new_data_ok in Ha as [-> ->].
  assert (∀ n', n_out = Some n' → n = n') as Hexp'.
  { intros n' Hn'. apply Hexp in Hn'. congruence. }
  destruct src0 as [o|]; [destruct (matches_dim_pattern o _)|]; inv_step Hrun.
  - apply dict_copy_ok in Hm as (r0 & m & _ & _ & -> & ->).
    apply set_size_placeholder_ok in Hm0 as (d0 & Hd0 & ->). simpl in *.
    rewrite lookup_insert_eq in Hd0. injection Hd0 as <-.
    split; [apply is_fresh|]. split.
    + intros x Hx. by rewrite !lookup_insert_ne by done.
    + eexists _, n. rewrite lookup_insert_eq. done.
  - simpl. split; [apply is_fresh|]. split.
    + intros x Hx. by rewrite lookup_insert_ne by done.
    + eexists _, n. rewrite lookup_insert_eq. done.
  - simpl. split; [apply is_fresh|]. split.
    + intros x Hx. by rewrite lookup_insert_ne by done.
    + eexists _, n. rewrite lookup_insert_eq. done.
Qed.

(** The feature width [get_out_data_from_opts] infers when it is given
    neither [out_type] nor [n_out], from the target [tgt] it works with. *)
Lemma get_out_data_from_opts_inferred_any (network : nat) (name : string)
    (target : option string) (sources : list LayerBase.t) (l : LossClass)
    (st st' : State) (a : addr) :
  get_out_data_from_opts network name None None target sources (Some l) st = (Ok a, st') →
  ∃ tgt ta td n d,
    default_target_for network target (Some l) st = (Ok tgt, st) ∧
    _static_get_target_value tgt network false st = (Ok (Some ta), st) ∧
    datas st !! ta = Some td ∧ Data.dim td = Some n ∧
    datas st' !! a = Some d ∧ Data.dim d = Some (get_auto_output_layer_dim l n).
Proof.
  intros Hrun. unfold get_out_data_from_opts in Hrun.
  apply bind_ok in Hrun as (tgt & s0 & Htgt & Hrun).
  pose proof (readonly_default_target_for _ _ _ _ _ _ Htgt) as ->.
  apply bind_ok in Hrun as (n_out & s1 & Hn & Hrun).
  apply bind_ok in Hrun as (ot & s2 & Hot & Hrun).
  apply bind_ok in Hot as ([] & s3 & Hassert & Hot).
  apply py_assert_ok in Hassert as [Htruthy ->].
  destruct n_out as [n'|]; [|done]. apply ret_ok in Hot as [<- ->].
  rewrite !bool_decide_eq_true_2 in Hn by done.
  destruct (truthy_str tgt) eqn:Htd; [|by apply ret_ok in Hn as [[=] _]].
  simpl "&&" in Hn. cbv iota in Hn.
  apply bind_ok in Hn as (tv & s4 & Htv & Hn).
  pose proof (_static_get_target_value_unmarked _ _ _ _ _ Htv) as ->.
  apply bind_ok in Hn as (ta & s5 & Hta & Hn). apply from_option_ok in Hta as [-> ->].
  apply bind_ok in Hn as (td & s6 & Htd' & Hn). apply read_data_ok in Htd' as [Htd' ->].
  apply get_auto_output_layer_dim_opt_ok in Hn as [-> Hdim].
  destruct (Data.dim td) as [n|] eqn:Hdimtd; [|done]. injection Hdim as ->.
  exists tgt, ta, td, n.
  apply bind_ok in Hrun as (src0 & s7 & Hsrc & Hrun).
  assert (s7 = st) as ->.
  { destruct (head sources); inv_step Hsrc; done. }
  apply bind_ok in Hrun as (ot' & s8 & Hot' & Hrun).
  apply bind_ok in Hot' as ([] & s9 & Hassert & Hot').
  apply py_assert_ok in Hassert as [_ ->]. apply ret_ok in Hot' as [<- ->].
  match type of Hrun with context [Data_init ?kw] => set (out_type := kw) in * end.
  assert (OutType.dim out_type = Some (get_auto_output_layer_dim l n)) as Hkw.
  { unfold out_type. by destruct src0 as [o|]; [destruct (OutType.batch_dim_axis _)|]. }
  pose proof (Data_init_dim out_type _ Hkw) as Hd.
  apply bind_ok in Hrun as (a' & s10 & Ha & Hrun). apply new_data_ok in Ha as [-> ->].
  assert (∃ d, datas st' !! a = Some d ∧ Data.dim d = Some (get_auto_output_layer_dim l n))
    as (d & Hda & Hdd).
  { destruct src0 as [o|]; [destruct (matches_dim_pattern o _)|]; inv_step Hrun.
    - apply dict_copy_ok in Hm as (r0 & m & _ & _ & -> & ->).
      apply set_size_placeholder_ok in Hm0 as (d0 & Hd0 & ->). simpl in *.
      rewrite lookup_insert_eq in Hd0. injection Hd0 as <-.
      eexists. rewrite lookup_insert_eq. done.
    - eexists. simpl. rewrite lookup_insert_eq. done.
    - eexists. simpl. rewrite lookup_insert_eq. done. }
  exists d. done.
Qed.

Lemma Loss__check_init_run (l : LossClass) (ta a : addr) (td d : Data.t) (k n : Z)
    (st : State) :
  datas st !! ta = Some td → datas st !! a = Some d →
  Data.dim td = Some k → Data.dim d = Some n →
  Loss__check_init ndim_dense l ta a st
  = (if bool_decide (ndim_dense td = ndim_dense d) then
       if bool_decide (get_auto_output_layer_dim l k = n) then Ok tt
       else Raise (AssertionError
         "Expected output dim is %i but the output has dim %i. Target: %s, output: %s")
     else Raise (AssertionError "Number of dimensions missmatch. Target: %s, output: %s"),
     st).
Proof.
  intros Hta Ha Hk Hn. unfold Loss__check_init.
  rewrite (bind_run _ _ st td st) by by apply read_data_ok.
  rewrite (bind_run _ _ st d st) by by apply read_data_ok.
  destruct (decide (ndim_dense td = ndim_dense d)) as [Hnd|Hnd].
  - rewrite !(bool_decide_eq_true_2 _ Hnd).
    rewrite (bind_run _ _ st tt st) by done.
    rewrite Hk, Hn. cbn [get_auto_output_layer_dim_opt].
    rewrite (bind_run _ _ st (Some (get_auto_output_layer_dim l k)) st) by done.
    destruct (decide (get_auto_output_layer_dim l k = n)) as [He|He].
    + rewrite (bool_decide_eq_true_2 _ He).
      by rewrite bool_decide_eq_true_2 by congruence.
    + rewrite (bool_decide_eq_false_2 _ He).
      by rewrite bool_decide_eq_false_2 by congruence.
  - rewrite !(bool_decide_eq_false_2 _ Hnd). done.
Qed.

(** The output that [get_out_data_from_opts] declares for a layer with a
    loss, and the check [Loss._check_init] makes when the loss is
    initialised with that output and the target. The target [tgt] the
    width is inferred from is the layer's own target when that is a
    non-empty string, and the network's default target otherwise. When the
    width was inferred, the width the check expects of the output for the
    descriptor [ta] of that target is the one declared, so that only a
    difference in the number of dimensions can fail it. When [n_out] was
    given, the check against a target [ta] of dimension [k] passes only for
    the width that would have been inferred: [get_auto_output_layer_dim]
    of [k]. *)
Theorem loss_check_init_after_out_data (network : nat) (name : string) (n_out : option Z)
    (target : option string) (sources : list LayerBase.t) (l : LossClass)
    (st st' : State) (a : addr) :
  get_out_data_from_opts network name None n_out target sources (Some l) st = (Ok a, st') →
  (∃ tgt,
     default_target_for network target (Some l) st = (Ok tgt, st) ∧
     (truthy_str target = true → tgt = target) ∧
     (truthy_str target = false → ∀ net, networks st !! network = Some net →
        tgt = Some (ExternData.default_target (Network.extern_data net))) ∧
     (n_out = None →
      ∃ ta td d,
        _static_get_target_value tgt network false st = (Ok (Some ta), st) ∧
        datas st' !! ta = Some td ∧ datas st' !! a = Some d ∧
        Loss__check_init ndim_dense l ta a st'
        = (if bool_decide (ndim_dense td = ndim_dense d) then Ok tt
           else Raise (AssertionError
                  "Number of dimensions missmatch. Target: %s, output: %s"), st'))) ∧
  (∀ n ta td k,
     n_out = Some n → datas st !! ta = Some td → Data.dim td = Some k →
     Loss__check_init ndim_dense l ta a st' = (Ok tt, st') →
     n = get_auto_output_layer_dim l k).
Proof.
  intros Hrun.
  destruct (get_out_data_from_opts_new _ _ _ _ _ _ _ _ _ Hrun)
    as (Hfresh & Hframe & d & n & Hd & Hdim & Hexp).
  split.
  - assert (∃ tgt, default_target_for network target (Some l) st = (Ok tgt, st))
      as [tgt Htgt].
    { unfold get_out_data_from_opts in Hrun.
      apply bind_ok in Hrun as (tgt & s0 & Htgt & _).
      pose proof (readonly_default_target_for _ _ _ _ _ _ Htgt) as ->. eauto. }
    exists tgt. split; [exact Htgt|]. split; [|split].
    + intros Ht. unfold default_target_for in Htgt. rewrite Ht in Htgt.
      rewrite andb_false_r in Htgt. by apply ret_ok in Htgt as [<- _].
    + intros Ht net Hnet.
      rewrite (default_target_for_loss _ _ _ _ _ Hnet Ht) in Htgt. congruence.
    + intros ->.
      destruct (get_out_data_from_opts_inferred_any _ _ _ _ _ _ _ _ Hrun)
        as (tgt' & ta & td & k & d' & Htgt' & Htv & Htd & Hk & Hd' & Hdim').
      assert (tgt' = tgt) as -> by congruence.
      assert (d' = d) as -> by congruence.
      assert (ta ≠ a) as Hne.
      { intros ->. apply Hfresh. apply elem_of_dom. eauto. }
      exists ta, td, d. split; [exact Htv|].
      assert (datas st' !! ta = Some td) as Htd' by (by rewrite Hframe).
      split; [exact Htd'|]. split; [exact Hd|].
      rewrite (Loss__check_init_run l ta a td d k _ st' Htd' Hd Hk Hdim').
      by rewrite (bool_decide_eq_true_2 (get_auto_output_layer_dim l k = _)).
  - intros n' ta td k -> Htd Hk Hcheck.
    assert (ta ≠ a) as Hne.
    { intros ->. apply Hfresh. apply elem_of_dom. eauto. }
    assert (datas st' !! ta = Some td) as Htd' by (by rewrite Hframe).
    rewrite (Loss__check_init_run l ta a td d k n st' Htd' Hd Hk Hdim) in Hcheck.
    rewrite <- (Hexp n' eq_refl).
    destruct (bool_decide (ndim_dense td = ndim_dense d)); [|done].
    destruct (decide (get_auto_output_layer_dim l k = n)) as [He|He]; [done|].
    by rewrite (bool_decide_eq_false_2 _ He) in Hcheck.
Qed.

End LossCheckSpec.

(** A layer with the CTC loss over the default target "classes" of
    dimension 5: the inferred output of width 6 passes the check, and an
    output declared with [n_out = 5] does not. A layer with the
    cross-entropy loss and its own target "data", which is not the
    default target: the width is inferred from "data" and the output
    passes the check against it. *)
Lemma loss_check_init_after_out_data_witness :
  ex_inferred_run = (Ok 4%nat, ex_inferred_run.2) ∧
  Loss__check_init ex_ndim_dense CtcLoss 3%nat 4%nat ex_inferred_run.2
  = (Ok tt, ex_inferred_run.2) ∧
  ex_explicit_run = (Ok 4%nat, ex_explicit_run.2) ∧
  Loss__check_init ex_ndim_dense CtcLoss 3%nat 4%nat ex_explicit_run.2
  ≠ (Ok tt, ex_explicit_run.2) ∧
  ex_own_target_run = (Ok 4%nat, ex_own_target_run.2) ∧
  Loss__check_init ex_ndim_dense CrossEntropyLoss 0%nat 4%nat ex_own_target_run.2
  = (Ok tt, ex_own_target_run.2).
Proof.
  assert (ex_inferred_run = (Ok 4%nat, ex_inferred_run.2)) as Hrun
    by (vm_compute; reflexivity).
  assert (ex_explicit_run = (Ok 4%nat, ex_explicit_run.2)) as Hrun'
    by (vm_compute; reflexivity).
  assert (ex_own_target_run = (Ok 4%nat, ex_own_target_run.2)) as Hrun''
    by (vm_compute; reflexivity).
  split; [exact Hrun|]. split; [|split; [exact Hrun'|split; [|split; [exact Hrun''|]]]].
  - destruct (loss_check_init_after_out_data (H:=ex_TFUtil) ex_ndim_dense 0%nat "output"
                None None [] CtcLoss ex_target_state ex_inferred_run.2 4%nat Hrun)
      as [(tgt & _ & _ & Hdef & Hinf) _].
    pose proof (Hdef eq_refl ex_target_network eq_refl) as ->.
    destruct (Hinf eq_refl) as (ta & td & d & Htv & Htd & Hd & Hcheck).
    vm_compute in Htv. injection Htv as <-.
    vm_compute in Htd. injection Htd as <-.
    vm_compute in Hd. injection Hd as <-.
    exact Hcheck.
  - destruct (loss_check_init_after_out_data (H:=ex_TFUtil) ex_ndim_dense 0%nat "output"
                (Some 5) None [] CtcLoss ex_target_state ex_explicit_run.2 4%nat Hrun')
      as [_ Hexp].
    intros Hcheck.
    pose proof (Hexp 5 3%nat _ 5 eq_refl eq_refl eq_refl Hcheck) as Hn.
    discriminate Hn.
  - destruct (loss_check_init_after_out_data (H:=ex_TFUtil) ex_ndim_dense 0%nat "output"
                None (Some "data") [] CrossEntropyLoss ex_target_state
                ex_own_target_run.2 4%nat Hrun'')
      as [(tgt & _ & Hown & _ & Hinf) _].
    pose proof (Hown eq_refl) as ->.
    destruct (Hinf eq_refl) as (ta & td & d & Htv & Htd & Hd & Hcheck).
    vm_compute in Htv. injection Htv as <-.
    vm_compute in Htd. injection Htd as <-.
    vm_compute in Hd. injection Hd as <-.
    exact Hcheck.
Defined.

(** * The output a layer declares is a new descriptor *)

Section OutDataFresh.
Context `{!TFUtil}.

(** [LayerBase.get_out_data_from_opts] makes a descriptor that did not
    exist, without a tensor, and changes no descriptor, dict, network or
    graph node that did. The lengths of the new descriptor are in a dict of
    its own: when it has any, they are the items of the first source's dict,
    in a dict object that did not exist; the first source and its dict are
    as they were. *)
Theorem get_out_data_from_opts_fresh (network : nat) (name : string)
    (out_type : option OutType.t) (n_out : option Z) (target : option string)
    (sources : list LayerBase.t) (loss : option LossClass) (st st' : State) (a : addr) :
  get_out_data_from_opts network name out_type n_out target sources loss st = (Ok a, st') →
  (a ∉ dom (datas st)) ∧ extends st st' ∧
  networks st' = networks st ∧ graph st' = graph st ∧
  ∃ d, datas st' !! a = Some d ∧ Data.placeholder d = None ∧
       match Data.size_placeholder d with
       | None => dicts st' = dicts st
       | Some r' =>
           (r' ∉ dom (dicts st)) ∧
           ∃ src0 o r0 m,
             head sources = Some src0 ∧ datas st !! LayerBase.output src0 = Some o ∧
             Data.size_placeholder o = Some r0 ∧ dicts st !! r0 = Some m ∧
             dicts st' !! r' = Some m
       end.
Proof.
  intros Hrun. unfold get_out_data_from_opts in Hrun.
  apply bind_ok in Hrun as (tgt & s1 & Htgt & Hrun).
  apply readonly_default_target_for in Htgt as ->.
  apply bind_ok in Hrun as (n_out' & s2 & Hn & Hrun).
  assert (s2 = st) as ->.
  { destruct (_ && _).
    - apply bind_ok in Hn as (tv & s3 & Htv & Hn).
      apply _static_get_target_value_unmarked in Htv as ->.
      apply bind_ok in Hn as (ta & s4 & Hta & Hn). apply from_option_ok in Hta as [_ ->].
      apply bind_ok in Hn as (td & s5 & Htd & Hn). apply read_data_ok in Htd as [_ ->].
      destruct loss as [l|].
      + by apply get_auto_output_layer_dim_opt_ok in Hn as [-> _].
      + by apply ret_ok in Hn as [_ ->].
    - by apply ret_ok in Hn as [_ ->]. }
  apply bind_ok in Hrun as (ot & s3 & Hot & Hrun).
  assert (s3 = st) as ->.
  { destruct out_type.
    - by apply ret_ok in Hot as [_ ->].
    - apply bind_ok in Hot as ([] & s4 & Hassert & Hot).
      apply py_assert_ok in Hassert as [_ ->].
      destruct n_out'; [|done]. by apply ret_ok in Hot as [_ ->]. }
  apply bind_ok in Hrun as (src0 & s5 & Hsrc & Hrun).
  assert (s5 = st ∧
          match src0 with
          | Some o => ∃ src, head sources = Some src ∧
                             datas st !! LayerBase.output src = Some o
          | None => True
          end) as [-> Hsrc0].
  { destruct (head sources) as [src|]; inv_step Hsrc; [|done]. split; [done|]. eauto. }
  apply bind_ok in Hrun as (ot' & s6 & Hot' & Hrun).
  assert (s6 = st) as ->.
  { destruct n_out'.
    - apply bind_ok in Hot' as ([] & s7 & Hassert & Hot').
      apply py_assert_ok in Hassert as [_ ->]. by apply ret_ok in Hot' as [_ ->].
    - by apply ret_ok in Hot' as [_ ->]. }
  match type of Hrun with context [Data_init ?kw] => set (kw0 := kw) in * end.
  pose proof (Data_init_placeholder kw0) as Hp.
  pose proof (Data_init_size_placeholder kw0) as Hs.
  apply bind_ok in Hrun as (a' & s8 & Ha & Hrun). apply new_data_ok in Ha as [-> ->].
  assert (∀ x, is_Some (datas st !! x) → fresh (dom (datas st)) ≠ x) as Hne.
  { intros x Hx E. symmetry in E. revert E. by apply fresh_data_ne. }
  assert (∀ r, is_Some (dicts st !! r) → fresh (dom (dicts st)) ≠ r) as Hne'.
  { intros r Hr E. symmetry in E. revert E. by apply fresh_dict_ne. }
  destruct src0 as [o|]; [destruct (matches_dim_pattern o _)|]; inv_step Hrun.
  - apply dict_copy_ok in Hm as (r0 & m & Hr0 & Hm & -> & ->).
    apply set_size_placeholder_ok in Hm0 as (d0 & Hd0 & ->). simpl in *.
    rewrite lookup_insert_eq in Hd0. injection Hd0 as <-.
    destruct Hsrc0 as (src & Hhead & Ho).
    split; [apply is_fresh|]. split.
    { split; simpl.
      - intros x Hx. rewrite !lookup_insert_ne; [done|by apply Hne..].
      - intros r Hr. rewrite lookup_insert_ne; [done|by apply Hne']. }
    split; [done|]. split; [done|].
    eexists. rewrite lookup_insert_eq. split; [done|]. split; [done|]. simpl.
    split; [apply is_fresh|].
    exists src, o, r0, m. rewrite lookup_insert_eq. done.
  - simpl. split; [apply is_fresh|]. split.
    { split; simpl; [|done]. intros x Hx. rewrite lookup_insert_ne; [done|by apply Hne]. }
    split; [done|]. split; [done|].
    eexists. rewrite lookup_insert_eq. split; [done|]. split; [done|]. by rewrite Hs.
  - simpl. split; [apply is_fresh|]. split.
    { split; simpl; [|done]. intros x Hx. rewrite lookup_insert_ne; [done|by apply Hne]. }
    split; [done|]. split; [done|].
    eexists. rewrite lookup_insert_eq. split; [done|]. split; [done|]. by rewrite Hs.
Qed.

End OutDataFresh.

(** The output declared over the layer [a] is the new descriptor 2, whose
    lengths are those of [a] in the new dict 2. *)
Lemma get_out_data_from_opts_fresh_witness :
  ex_declared_run = (Ok 2%nat, ex_declared_run.2) ∧
  ∃ d, datas ex_declared_run.2 !! 2%nat = Some d ∧
       Data.size_placeholder d = Some 2%nat ∧
       dicts ex_declared_run.2 !! 2%nat = Some {[ 0 := TVar 10 ]} ∧
       extends (ex_state TrainTrue) ex_declared_run.2.
Proof.
  assert (ex_declared_run = (Ok 2%nat, ex_declared_run.2)) as Hrun
    by (vm_compute; reflexivity).
  split; [exact Hrun|].
  destruct (get_out_data_from_opts_fresh (H:=ex_TFUtil) 0%nat "hidden" None (Some 7) None
              [ex_a] None (ex_state TrainTrue) ex_declared_run.2 2%nat Hrun)
    as (_ & Hext & _ & _ & d & Hd & _ & Hsize).
  exists d. split; [exact Hd|].
  vm_compute in Hd. injection Hd as <-. cbn [Data.size_placeholder] in *.
  destruct Hsize as (_ & src0 & o & r0 & m & Hhead & Ho & Hr0 & Hm & Hm').
  vm_compute in Hhead. injection Hhead as <-.
  vm_compute in Ho. injection Ho as <-.
  vm_compute in Hr0. injection Hr0 as <-.
  assert (Some m = Some {[ 0 := TVar 10 ]}) as [= ->]
    by (rewrite <- Hm; vm_compute; reflexivity).
  split; [reflexivity|]. split; [exact Hm' | exact Hext].
Defined.

(** * The lengths after a pooling layer *)

Lemma list_to_map_indexed (b : Z → Tensor) (l : list Z) (j : Z) :
  (list_to_map (map (λ i, (i, b i)) l) : gmap Z Tensor) !! j
  = if decide (j ∈ l) then Some (b j) else None.
Proof.
  induction l as [|i l IH].
  - destruct (decide (j ∈ [])) as [Hin|_]; [by apply elem_of_nil in Hin|done].
  - cbn [map list_to_map foldr]. destruct (decide (i = j)) as [->|Hne].
    + rewrite lookup_insert_eq. destruct (decide (j ∈ j :: l)) as [_|Hn]; [done|].
      destruct Hn. by left.
    + rewrite lookup_insert_ne by done. rewrite IH.
      destruct (decide (j ∈ l)) as [Hin|Hin]; destruct (decide (j ∈ i :: l)) as [Hin'|Hin'];
        try done.
      * destruct Hin'. by right.
      * apply elem_of_cons in Hin' as [->|?]; done.
Qed.

Lemma foldl_insert_indexed (g : Z → Tensor) (l : list Z) (m : gmap Z Tensor) (j : Z) :
  foldl (λ acc i, <[i := g i]> acc) m l !! j
  = if decide (j ∈ l) then Some (g j) else m !! j.
Proof.
  revert m. induction l as [|i l IH]; intros m.
  - destruct (decide (j ∈ [])) as [Hin|_]; [by apply elem_of_nil in Hin|done].
  - cbn [foldl]. rewrite IH.
    destruct (decide (j ∈ l)) as [Hin|Hin]; destruct (decide (j ∈ i :: l)) as [Hin'|Hin'];
      try done.
    + destruct Hin'. by right.
    + apply elem_of_cons in Hin' as [->|?]; [|done]. by rewrite lookup_insert_eq.
    + rewrite lookup_insert_ne; [done|]. intros ->. apply Hin'. by left.
Qed.

Section PoolSpec.
Variable get_placeholder_as_batch_major : Data.t → Result Tensor.

Lemma pool_input_length_same (s s' : State) (input_data : addr) (y : Tensor) (i : Z) :
  datas s' = datas s → dicts s' = dicts s →
  pool_input_length s' input_data y i = pool_input_length s input_data y i.
Proof. intros Hd Hm. unfold pool_input_length. by rewrite Hd, Hm. Qed.

Lemma pool_size_item_ok (input_data : addr) (y : Tensor) (i : Z) (st st' : State)
    (item : Z * Tensor) :
  PoolLayer_size_item input_data y i st = (Ok item, st') →
  datas st' = datas st ∧ dicts st' = dicts st ∧
  item = (i, pool_input_length st input_data y i).
Proof.
  unfold PoolLayer_size_item. intros Hrun.
  apply bind_ok in Hrun as (inp & s1 & Hinp & Hrun). apply read_data_ok in Hinp as [Hinp ->].
  apply bind_ok in Hrun as (b & s2 & Hb & Hrun).
  unfold size_contains in Hb.
  apply bind_ok in Hb as (r & s3 & Hr & Hb). apply from_option_ok in Hr as [Hr ->].
  apply bind_ok in Hb as (m & s4 & Hm & Hb). apply read_dict_ok in Hm as [Hm ->].
  apply ret_ok in Hb as [<- ->].
  apply bind_ok in Hrun as (s & s5 & Hs & Hrun). apply ret_ok in Hrun as [<- ->].
  unfold pool_input_length. rewrite Hinp. simpl. rewrite Hr. simpl. rewrite Hm. simpl.
  case_bool_decide as Hin.
  - apply size_getitem_ok in Hs as (r0 & m0 & k & Hr0 & [= <-] & Hm0 & Hk & ->).
    assert (r0 = r) as -> by congruence. assert (m0 = m) as -> by congruence.
    rewrite Hk. done.
  - apply build_ok in Hs as [-> ->].
    assert (m !! i = None) as -> by (by apply eq_None_not_Some). done.
Qed.

Lemma pool_items_ok (input_data : addr) (y : Tensor) (l : list Z) (st st' : State)
    (items : list (Z * Tensor)) :
  map_m (PoolLayer_size_item input_data y) l st = (Ok items, st') →
  datas st' = datas st ∧ dicts st' = dicts st ∧
  items = map (λ i, (i, pool_input_length st input_data y i)) l.
Proof.
  revert st st' items. induction l as [|i l IH]; intros st st' items Hrun; simpl in Hrun.
  - by apply ret_ok in Hrun as [<- ->].
  - apply bind_ok in Hrun as (item & s1 & Hitem & Hrun).
    apply pool_size_item_ok in Hitem as (Hd & Hm & ->).
    apply bind_ok in Hrun as (items' & s2 & Hitems & Hrun).
    apply IH in Hitems as (Hd' & Hm' & ->). apply ret_ok in Hrun as [<- ->].
    split; [congruence|]. split; [congruence|]. simpl. f_equal.
    apply map_ext. intros j. f_equal. by apply pool_input_length_same.
Qed.

Lemma pool_valid_loop_ok (output : addr) (pool_size : list Z) (b : Z → Tensor)
    (l : list Z) (out : Data.t) (r' : addr) (m : gmap Z Tensor) (st st' : State) :
  datas st !! output = Some out → Data.size_placeholder out = Some r' →
  dicts st !! r' = Some m →
  for_each (map (λ i, (i, b i)) l) (PoolLayer_valid_item output pool_size) st
    = (Ok tt, st') →
  datas st' = datas st ∧
  (∀ r, r ≠ r' → dicts st' !! r = dicts st !! r) ∧
  Forall (λ i, is_Some (pool_size !! Z.to_nat i)) l ∧
  dicts st' !! r'
  = Some (foldl (λ acc i, <[i := TAdd (TSub (b i) (TInt (default 0 (pool_size !! Z.to_nat i))))
                                   (TInt 1)]> acc) m l).
Proof.
  revert st st' m. induction l as [|i l IH]; intros st st' m Hout Hr' Hm Hrun; simpl in Hrun.
  - apply ret_ok in Hrun as [_ ->]. done.
  - apply bind_ok in Hrun as ([] & s1 & Hitem & Hrun).
    apply bind_ok in Hitem as (out' & s2 & Ho & Hitem). apply read_data_ok in Ho as [Ho ->].
    assert (out' = out) as -> by congruence.
    apply bind_ok in Hitem as (k & s3 & Hk & Hitem). apply from_option_ok in Hk as [Hk ->].
    apply bind_ok in Hitem as (d & s4 & Hd & Hitem). apply build_ok in Hd as [-> ->].
    apply bind_ok in Hitem as (v & s5 & Hv & Hitem). apply build_ok in Hv as [-> ->].
    apply size_setitem_ok in Hitem as (r0 & m0 & k0 & Hr0 & [= <-] & Hm0 & ->).
    assert (r0 = r') as -> by congruence. simpl in Hm0.
    assert (m0 = m) as -> by congruence.
    eapply IH in Hrun as (Hd' & Hframe & Hall & Hres);
      [| exact Hout | exact Hr' | simpl; apply lookup_insert_eq].
    simpl in *. split; [done|]. split.
    + intros r Hne. rewrite Hframe by done. by rewrite lookup_insert_ne by done.
    + split; [constructor; eauto|]. rewrite Hres. by rewrite Hk.
Qed.

(** A pooling layer that is built gives its output a dict of lengths of its
    own, with one entry for each of the [len(pool_size)] keys from 0 on and
    no other: the length the input has at that key, or the extent of the
    pooled tensor where the input has none; with the padding "VALID", that
    length less the window size plus 1. The strides do not enter the
    lengths. The dicts there were, the input's among them, are as they
    were, and so is every descriptor but the output's. *)
Theorem pool_layer_lengths (super_init : M (addr * addr)) (kwargs : list string)
    (mode : string) (pool_size : list Z) (padding : string)
    (dilation_rate : IntOrList) (strides : option IntOrList)
    (st st' : State) (input_data output : addr) :
  PoolLayer___init__ get_placeholder_as_batch_major super_init kwargs mode pool_size
    padding dilation_rate strides st = (Ok (input_data, output), st') →
  ∃ s0 out y r' m',
    super_init st = (Ok (input_data, output), s0) ∧
    datas st' !! output = Some out ∧ Data.placeholder out = Some y ∧
    Data.size_placeholder out = Some r' ∧
    (r' ∉ dom (dicts s0)) ∧ dicts st' !! r' = Some m' ∧
    (∀ i k, pool_size !! i = Some k →
       let s := pool_input_length s0 input_data y (Z.of_nat i) in
       m' !! Z.of_nat i
       = Some (if String.eqb (upper padding) "VALID"
               then TAdd (TSub s (TInt k)) (TInt 1) else s)) ∧
    (∀ j, ¬ (0 ≤ j < Z.of_nat (length pool_size)) → m' !! j = None) ∧
    (∀ r, is_Some (dicts s0 !! r) → dicts st' !! r = dicts s0 !! r) ∧
    (∀ x, x ≠ output → datas st' !! x = datas s0 !! x).
Proof.
  intros Hrun. unfold PoolLayer___init__ in Hrun.
  do 6 (apply bind_ok in Hrun as ([] & ? & Ha & Hrun); apply py_assert_ok in Ha as [_ ->]).
  apply bind_ok in Hrun as ([i0 o0] & s0 & Hsuper & Hrun).
  apply bind_ok in Hrun as (inp & s1 & Hinp & Hrun). apply read_data_ok in Hinp as [Hinp ->].
  apply bind_ok in Hrun as (x & s2 & Hx & Hrun). apply lift_result_ok in Hx as [_ ->].
  apply bind_ok in Hrun as (x' & s3 & Hx' & Hrun). apply build_ok in Hx' as [-> ->].
  apply bind_ok in Hrun as (y & s4 & Hy & Hrun). apply build_ok in Hy as [-> ->].
  match type of Hrun with context [set_placeholder _ ?t] => set (y := t) in * end.
  apply bind_ok in Hrun as ([] & s5 & Hset & Hrun).
  apply set_placeholder_ok in Hset as (out0 & Hout0 & ->). simpl in Hout0.
  apply bind_ok in Hrun as (items & s6 & Hitems & Hrun).
  apply pool_items_ok in Hitems as (Hd6 & Hm6 & ->).
  apply bind_ok in Hrun as (r' & s7 & Hnew & Hrun). apply new_dict_ok in Hnew as [-> ->].
  apply bind_ok in Hrun as ([] & s8 & Hsz & Hrun).
  apply set_size_placeholder_ok in Hsz as (out1 & Hout1 & ->).
  apply bind_ok in Hrun as ([] & s9 & Hpad & Hrun). apply ret_ok in Hrun as [[= <- <-] ->].
  simpl in Hd6, Hm6, Hout1. rewrite Hd6, lookup_insert_eq in Hout1. injection Hout1 as <-.
  set (r' := fresh (dom (dicts s6))) in *.
  set (n := Z.of_nat (length pool_size)) in *.
  set (b := pool_input_length _ i0 y) in *.
  assert (r' ∉ dom (dicts s0)) as Hfresh.
  { unfold r'. rewrite Hm6. apply is_fresh. }
  assert (∀ i, b i = pool_input_length s0 i0 y i) as Hb.
  { intros i. unfold b, pool_input_length. simpl.
    destruct (decide (i0 = o0)) as [->|Hne].
    - rewrite lookup_insert_eq. simpl. by rewrite Hout0.
    - by rewrite lookup_insert_ne by done. }
  set (m0 := (list_to_map (map (λ i, (i, b i)) (py_range 0 n)) : gmap Z Tensor)) in *.
  set (out := Data.with_size_placeholder (Some r') (Data.with_placeholder (Some y) out0)).
  assert (∀ i k, pool_size !! i = Some k → Z.of_nat i ∈ py_range 0 n) as Hin.
  { intros i k Hk. apply elem_of_seqZ. apply lookup_lt_Some in Hk. unfold n. lia. }
  assert (∀ j, ¬ (0 ≤ j < n) → j ∉ py_range 0 n) as Hout.
  { intros j Hj Hin'. apply elem_of_seqZ in Hin'. lia. }
  destruct (String.eqb (upper padding) "SAME") eqn:Hsame;
    [|destruct (String.eqb (upper padding) "VALID") eqn:Hvalid].
  - apply ret_ok in Hpad as [_ ->].
    assert (String.eqb (upper padding) "VALID" = false) as ->.
    { apply String.eqb_eq in Hsame as ->. done. }
    exists s0, out, y, r', m0. simpl. rewrite Hd6. simpl.
    split; [done|]. split; [by rewrite lookup_insert_eq|]. split; [done|]. split; [done|].
    split; [done|]. split; [by rewrite lookup_insert_eq|].
    split; [|split; [|split]].
    + intros i k Hk. unfold m0. rewrite list_to_map_indexed.
      rewrite decide_True by eauto. by rewrite Hb.
    + intros j Hj. unfold m0. rewrite list_to_map_indexed.
      by rewrite decide_False by auto.
    + intros r Hr. rewrite Hm6. simpl. rewrite lookup_insert_ne; [done|].
      intros <-. apply Hfresh. by apply elem_of_dom.
    + intros x0 Hx0. by rewrite !lookup_insert_ne by done.
  - eapply (pool_valid_loop_ok o0 pool_size b (py_range 0 n) out r' m0) in Hpad
      as (Hd9 & Hframe & Hall & Hres).
    2:{ simpl. rewrite Hd6. simpl. by rewrite lookup_insert_eq. }
    2:{ done. }
    2:{ simpl. by rewrite lookup_insert_eq. }
    exists s0, out, y, r'. eexists. rewrite Hd9. simpl. rewrite Hd6. simpl.
    split; [done|]. split; [by rewrite lookup_insert_eq|]. split; [done|]. split; [done|].
    split; [done|]. split; [exact Hres|].
    split; [|split; [|split]].
    + intros i k Hk. rewrite foldl_insert_indexed.
      rewrite decide_True by eauto. rewrite Nat2Z.id, Hk. simpl. by rewrite Hb.
    + intros j Hj. rewrite foldl_insert_indexed.
      rewrite decide_False by auto. unfold m0. rewrite list_to_map_indexed.
      by rewrite decide_False by auto.
    + intros r Hr. rewrite Hframe.
      * simpl. rewrite Hm6. simpl. rewrite lookup_insert_ne; [done|].
        intros <-. apply Hfresh. by apply elem_of_dom.
      * intros ->. apply Hfresh. by apply elem_of_dom.
    + intros x0 Hx0. by rewrite !lookup_insert_ne by done.
  - by apply py_assert_ok in Hpad as [? _].
Qed.

End PoolSpec.

(** A window of 3 over the time axis of the layer [a], with a stride of 2
    and the padding "valid": the output's length is the input's less
    3 plus 1, in a dict of its own, and the input's dict is as it was. *)
Lemma pool_layer_lengths_witness :
  ex_pool_run = (Ok (0%nat, 2%nat), ex_pool_run.2) ∧
  ∃ out r' m',
    datas ex_pool_run.2 !! 2%nat = Some out ∧ Data.size_placeholder out = Some r' ∧
    dicts ex_pool_run.2 !! r' = Some m' ∧
    m' !! 0 = Some (TAdd (TSub (TVar 10) (TInt 3)) (TInt 1)) ∧
    dicts ex_pool_run.2 !! 0%nat = Some {[ 0 := TVar 10 ]}.
Proof.
  assert (ex_pool_run = (Ok (0%nat, 2%nat), ex_pool_run.2)) as Hrun
    by (vm_compute; reflexivity).
  split; [exact Hrun|].
  destruct (pool_layer_lengths (λ d, ex_get_placeholder d (Some 0)) ex_pool_super_init
              [] "max" [3] "valid" (AnInt 1) (Some (AnInt 2)) (ex_state TrainTrue)
              ex_pool_run.2 0%nat 2%nat Hrun)
    as (s0 & out & y & r' & m' & Hsuper & Hout & _ & Hr' & _ & Hm' & Hlen & _ & Hdicts & _).
  exists out, r', m'. split; [exact Hout|]. split; [exact Hr'|]. split; [exact Hm'|].
  vm_compute in Hsuper. injection Hsuper as <-.
  split.
  - pose proof (Hlen 0%nat 3 eq_refl) as H0. vm_compute in H0. exact H0.
  - etransitivity; [apply (Hdicts 0%nat); vm_compute; eauto|]. vm_compute. reflexivity.
Defined.

(** * Source layers *)

Lemma get_extern_data_unmarked (network : nat) (key : string) :
  readonly (get_extern_data network key false).
Proof.
  unfold get_extern_data.
  apply readonly_bind; [apply readonly_get_network|]. intros net.
  apply readonly_bind; [apply readonly_stateless, stateless_ret|]. intros _.
  apply readonly_stateless, stateless_from_option.
Qed.

Lemma readonly_SourceLayer_get_out_data_from_opts (network : nat) (data_key : option string) :
  readonly (SourceLayer_get_out_data_from_opts network data_key).
Proof.
  unfold SourceLayer_get_out_data_from_opts.
  apply readonly_bind; [apply readonly_get_network|]. intros net.
  apply get_extern_data_unmarked.
Qed.

Lemma get_extern_data_marked (network : nat) (key : string) (st st' : State) (a : addr) :
  get_extern_data network key true st = (Ok a, st') →
  ∃ net, networks st !! network = Some net ∧
         ExternData.data (Network.extern_data net) !! key = Some a ∧
         st' = mark_used network key st.
Proof.
  unfold get_extern_data. intros Hrun.
  apply bind_ok in Hrun as (net & s1 & Hnet & Hrun). apply get_network_ok in Hnet as [Hnet ->].
  apply bind_ok in Hrun as ([] & s2 & Hput & Hrun). apply put_network_ok in Hput as ->.
  apply from_option_ok in Hrun as [Ha ->].
  exists net. split; [done|]. split; [done|]. unfold mark_used. by rewrite Hnet.
Qed.

(** Declaring the output of a source layer and constructing the layer both
    give the descriptor that the network's external data hold under the data
    key (the default input when none is given): the layer's output is that
    very descriptor. Declaring leaves the state as it is, whatever the
    outcome; constructing marks the data key as used and changes nothing
    else. A source layer that is given sources fails its assertion before
    anything is marked. *)
Theorem source_layer_spec (id : nat) (name : string) (network : nat)
    (data_key : option string) (sources : list LayerBase.t) (output : option addr)
    (target : option string) (loss : option LossClass) (L2 : option Number)
    (is_output : option bool) (spatial_smoothing : option Number) (trainable : bool)
    (st : State) :
  (∀ r st', SourceLayer_get_out_data_from_opts network data_key st = (r, st') → st' = st) ∧
  (∀ layer st',
     SourceLayer___init__ id name network data_key sources output target loss L2
       is_output spatial_smoothing trainable st = (Ok layer, st') →
     ∃ net,
       networks st !! network = Some net ∧
       let key := default (ExternData.default_input (Network.extern_data net)) data_key in
       SourceLayer_get_out_data_from_opts network data_key st
         = (Ok (LayerBase.output layer), st) ∧
       ExternData.data (Network.extern_data net) !! key = Some (LayerBase.output layer) ∧
       st' = mark_used network key st) ∧
  (∀ net, networks st !! network = Some net → sources ≠ [] →
     SourceLayer___init__ id name network data_key sources output target loss L2
       is_output spatial_smoothing trainable st
     = (Raise (AssertionError "source layer does not expect sources"), st)).
Proof.
  split; [|split].
  - intros r st'. apply readonly_SourceLayer_get_out_data_from_opts.
  - intros layer st' Hrun. unfold SourceLayer___init__ in Hrun.
    apply bind_ok in Hrun as (net & s1 & Hnet & Hrun).
    apply get_network_ok in Hnet as [Hnet ->].
    apply bind_ok in Hrun as ([] & s2 & Hassert & Hrun).
    apply py_assert_ok in Hassert as [_ ->].
    apply bind_ok in Hrun as (data & s3 & Hdata & Hrun).
    apply get_extern_data_marked in Hdata as (net' & Hnet' & Hkey & ->).
    assert (net' = net) as -> by congruence.
    apply bind_ok in Hrun as (tgt & s4 & Htgt & Hrun).
    apply readonly_default_target_for in Htgt as ->.
    apply bind_ok in Hrun as (o & s5 & Ho & Hrun).
    assert (s5 = mark_used network
                   (match data_key with
                    | Some k => k
                    | None => ExternData.default_input (Network.extern_data net)
                    end) st) as ->.
    { destruct output.
      - by apply ret_ok in Ho as [_ ->].
      - by apply readonly_SourceLayer_get_out_data_from_opts in Ho as ->. }
    apply ret_ok in Hrun as [<- ->]. cbn [LayerBase.output].
    exists net. split; [done|]. cbn zeta.
    assert (default (ExternData.default_input (Network.extern_data net)) data_key
            = match data_key with
              | Some k => k
              | None => ExternData.default_input (Network.extern_data net)
              end) as -> by (by destruct data_key).
    split; [|split; [done|done]].
    unfold SourceLayer_get_out_data_from_opts.
    rewrite (bind_run _ _ st net st) by by apply get_network_ok.
    unfold get_extern_data.
    rewrite (bind_run _ _ st net st) by by apply get_network_ok.
    rewrite (bind_run _ _ st tt st) by done.
    by rewrite Hkey.
  - intros net Hnet Hsrc. unfold SourceLayer___init__.
    rewrite (bind_run _ _ st net st) by by apply get_network_ok.
    by rewrite bool_decide_eq_false_2.
Qed.

(** A source layer for the key "classes" in the example network: its output
    is the descriptor 3 of the external data, and "classes" is marked. *)
Lemma source_layer_witness :
  ∃ layer st',
    SourceLayer___init__ 7 "labels" 0%nat (Some "classes") [] None None None None None
      None true ex_target_state = (Ok layer, st') ∧
    LayerBase.output layer = 3%nat ∧
    st' = mark_used 0%nat "classes" ex_target_state ∧
    SourceLayer_get_out_data_from_opts 0%nat (Some "classes") ex_target_state
    = (Ok 3%nat, ex_target_state).
Proof.
  destruct (SourceLayer___init__ 7 "labels" 0%nat (Some "classes") [] None None None None
              None None true ex_target_state) as [r st'] eqn:Hrun.
  assert (∃ layer, r = Ok layer) as [layer ->]
    by (vm_compute in Hrun; injection Hrun as <- _; eauto).
  exists layer, st'. split; [done|].
  destruct (source_layer_spec 7 "labels" 0%nat (Some "classes") [] None
              None None None None None true ex_target_state) as (_ & Hinit & _).
  destruct (Hinit layer st' Hrun) as (net & Hnet & Hdecl & Hkey & Hst).
  vm_compute in Hnet. injection Hnet as <-.
  assert (Some 3%nat = Some (LayerBase.output layer)) as [= Hout]
    by (rewrite <- Hkey; vm_compute; reflexivity).
  split; [done|]. split; [exact Hst|]. rewrite <- Hout in Hdecl. exact Hdecl.
Defined.

(** * The dict of the cell classes *)

Lemma lower_ascii_idem (c : ascii) : lower_ascii (lower_ascii c) = lower_ascii c.
Proof.
  destruct c as [[] [] [] [] [] [] [] []]; vm_compute; reflexivity.
Qed.

Lemma lower_idem (s : string) : lower (lower s) = lower s.
Proof. induction s as [|c s IH]; simpl; [done|]. by rewrite lower_ascii_idem, IH. Qed.

Lemma lower_upper_ascii (c : ascii) : lower_ascii (upper_ascii c) = lower_ascii c.
Proof.
  destruct c as [[] [] [] [] [] [] [] []]; vm_compute; reflexivity.
Qed.

Lemma lower_upper (s : string) : lower (upper s) = lower s.
Proof. induction s as [|c s IH]; simpl; [done|]. by rewrite lower_upper_ascii, IH. Qed.

Section CellsDict.
Context {C : Type} `{EqDecision C}.

Lemma cells_dict_holds_empty : cells_dict_holds (∅ : gmap string C) [].
Proof.
  split.
  - intros key v Hin. by apply elem_of_nil in Hin.
  - intros n v Hn. by rewrite lookup_empty in Hn.
Qed.

Lemma maybe_add_all_ok (items done_ : list (string * option C)) (d d' : gmap string C) :
  cells_dict_holds d done_ →
  maybe_add_all d items = (Ok tt, d') → cells_dict_holds d' (done_ ++ items).
Proof.
  revert d done_. induction items as [|[key v] items IH]; intros d done_ Hd Hrun.
  - injection Hrun as <-. by rewrite app_nil_r.
  - simpl in Hrun. destruct (maybe_add d key v) as [[[]|e] d1] eqn:Hadd; [|done].
    replace (done_ ++ (key, v) :: items) with ((done_ ++ [(key, v)]) ++ items)
      by (by rewrite <- app_assoc).
    apply (IH d1); [|done]. clear IH Hrun.
    unfold maybe_add in Hadd. destruct v as [v|].
    + case_bool_decide as Hfree; [|done]. injection Hadd as <-.
      destruct Hd as [Hin Hout]. split.
      * intros key' v' [Hk|Hk%list_elem_of_singleton]%elem_of_app.
        -- destruct (decide (cell_name key = cell_name key')) as [E|E].
           ++ rewrite E, lookup_insert_eq. apply Hin in Hk. rewrite <- E in Hk.
              destruct Hfree as [Hf|Hf]; congruence.
           ++ rewrite lookup_insert_ne by done. by apply Hin.
        -- injection Hk as -> ->. by rewrite lookup_insert_eq.
      * intros n v' Hn. destruct (decide (cell_name key = n)) as [<-|E].
        -- rewrite lookup_insert_eq in Hn. injection Hn as <-.
           exists key. split; [|done]. apply elem_of_app. right. by left.
        -- rewrite lookup_insert_ne in Hn by done.
           destruct (Hout _ _ Hn) as (key' & Hk & ->). exists key'.
           split; [|done]. apply elem_of_app. by left.
    + injection Hadd as <-. destruct Hd as [Hin Hout]. split.
      * intros key' v' [Hk|Hk%list_elem_of_singleton]%elem_of_app; [by apply Hin|done].
      * intros n v' Hn. destruct (Hout _ _ Hn) as (key' & Hk & ->). exists key'.
        split; [|done]. apply elem_of_app. by left.
Qed.

(** When [get_rnn_cell_class] has filled its empty dict from the attributes
    of the two modules, every class of cells among them is found under
    every name whose lower-cased form is the lower-cased name of its
    attribute without a "Cell" at the end, that is under that name in any
    case of letters, both from the filled dict and from the dict still
    empty, which the call fills; the classes of two attributes with the
    same such name are one class; and a name that is found is the name of
    such an attribute, whose class is returned. *)
Theorem get_rnn_cell_class_spec (rnn_contrib TFNativeOp : list (string * option C))
    (d : gmap string C) :
  _create_rnn_cells_dict ∅ rnn_contrib TFNativeOp = (Ok tt, d) →
  d ≠ ∅ →
  let items := rnn_contrib ++ TFNativeOp in
  (∀ key v name, (key, Some v) ∈ items → lower name = cell_name key →
     get_rnn_cell_class_in d rnn_contrib TFNativeOp name = (Ok v, d) ∧
     get_rnn_cell_class_in ∅ rnn_contrib TFNativeOp name = (Ok v, d)) ∧
  (∀ key, lower (cell_name key) = cell_name key ∧
          lower (upper (cell_name key)) = cell_name key) ∧
  (∀ key key' v v', (key, Some v) ∈ items → (key', Some v') ∈ items →
     cell_name key = cell_name key' → v = v') ∧
  (∀ name v, get_rnn_cell_class_in d rnn_contrib TFNativeOp name = (Ok v, d) →
     ∃ key, (key, Some v) ∈ items ∧ lower name = cell_name key).
Proof.
  intros Hrun Hne items.
  assert (cells_dict_holds d items) as [Hin Hout].
  { unfold _create_rnn_cells_dict in Hrun.
    destruct (maybe_add_all ∅ rnn_contrib) as [[[]|e] d1] eqn:H1; [|done].
    apply (maybe_add_all_ok _ []) in H1; [|apply cells_dict_holds_empty].
    by apply (maybe_add_all_ok _ _ _ _ H1) in Hrun. }
  assert (∀ name, get_rnn_cell_class_in d rnn_contrib TFNativeOp name
                  = match d !! lower name with
                    | Some v => (Ok v, d)
                    | None => (Raise (KeyError name), d)
                    end) as Hget.
  { intros name. unfold get_rnn_cell_class_in. by rewrite bool_decide_eq_false_2. }
  assert (∀ key, lower (cell_name key) = cell_name key) as Hlow.
  { intros key. unfold cell_name. apply lower_idem. }
  split; [|split; [|split]].
  - intros key v name Hk Hname. pose proof (Hin _ _ Hk) as Hd.
    rewrite Hget, Hname, Hd. split; [done|].
    unfold get_rnn_cell_class_in. rewrite bool_decide_eq_true_2 by done.
    rewrite Hrun, Hname, Hd. done.
  - intros key. by rewrite lower_upper, Hlow.
  - intros key key' v v' Hk Hk' E. apply Hin in Hk, Hk'. congruence.
  - intros name v. rewrite Hget. destruct (d !! lower name) as [v'|] eqn:Hd; [|done].
    intros [= <-]. destruct (Hout _ _ Hd) as (key & Hk & E). eauto.
Qed.

End CellsDict.

(** The cells of the examples: the class of the attribute "BasicLSTMCell"
    is found under "BasicLSTM". *)
Lemma get_rnn_cell_class_witness :
  _create_rnn_cells_dict ∅ ex_rnn_contrib ex_TFNativeOp = (Ok tt, ex_cells_dict) ∧
  ex_cells_dict ≠ ∅ ∧
  lower "BasicLSTM" = cell_name "BasicLSTMCell" ∧
  get_rnn_cell_class_in ex_cells_dict ex_rnn_contrib ex_TFNativeOp "BasicLSTM"
  = (Ok ("BasicLSTMCell", RNNCell), ex_cells_dict) ∧
  get_rnn_cell_class_in ∅ ex_rnn_contrib ex_TFNativeOp "BasicLSTM"
  = (Ok ("BasicLSTMCell", RNNCell), ex_cells_dict).
Proof.
  assert (_create_rnn_cells_dict ∅ ex_rnn_contrib ex_TFNativeOp = (Ok tt, ex_cells_dict))
    as Hrun by (vm_compute; reflexivity).
  assert (ex_cells_dict ≠ ∅) as Hne.
  { intros E.
    assert (ex_cells_dict !! "basiclstm" = Some ("BasicLSTMCell", RNNCell)) as Hd
      by (vm_compute; reflexivity).
    rewrite E in Hd. by rewrite lookup_empty in Hd. }
  assert (lower "BasicLSTM" = cell_name "BasicLSTMCell") as Hname
    by (vm_compute; reflexivity).
  split; [exact Hrun|]. split; [exact Hne|]. split; [exact Hname|].
  destruct (get_rnn_cell_class_spec ex_rnn_contrib ex_TFNativeOp ex_cells_dict Hrun Hne)
    as [Hfound _].
  apply (Hfound "BasicLSTMCell" ("BasicLSTMCell", RNNCell) "BasicLSTM"); [|exact Hname].
  apply elem_of_app. left. apply list_elem_of_here.
Defined.

(** * The 12AX task *)

Lemma last_of_snoc (cls : string) (cs : list ascii) (c : ascii) :
  last_of cls (cs ++ [c])
  = if has_char c cls then Some c else last_of cls cs.
Proof.
  unfold last_of. rewrite filter_app, filter_cons, filter_nil.
  destruct (has_char c cls) eqn:E.
  - destruct (decide _) as [_|Hn]; [|done]. by rewrite last_snoc.
  - destruct (decide _) as [Hn|_]; [done|]. by rewrite app_nil_r.
Qed.

Lemma last_of_in (cls : string) (cs : list ascii) (c : ascii) :
  last_of cls cs = Some c → has_char c cls = true.
Proof.
  unfold last_of. intros Hl.
  assert (c ∈ filter (λ c, has_char c cls = true) cs) as Hin.
  { apply last_Some in Hl as [l' ->]. apply elem_of_app. right. by apply list_elem_of_singleton. }
  by apply list_elem_of_filter in Hin as [? _].
Qed.

Lemma has_char_cases (c : ascii) (s : string) :
  has_char c s = true → Exists (λ c', c = c') (String.list_ascii_of_string s).
Proof.
  induction s as [|c' s IH]; simpl; [done|].
  intros [H%Ascii.eqb_eq | H]%orb_true_iff.
  - by apply Exists_cons_hd.
  - apply Exists_cons_tl. auto.
Qed.

Lemma str_getitem_input_classes (i : Z) :
  ax_valid i →
  ∃ c, str_getitem _input_classes i = Ok c ∧ has_char c _input_classes = true.
Proof.
  unfold ax_valid. intros Hi.
  assert (Exists (λ j, i = j) (seqZ (-9) 18)) as Hex.
  { apply Exists_exists. exists i. split; [|done]. apply elem_of_seqZ. lia. }
  vm_compute in Hex.
  repeat (apply Exists_cons in Hex as [-> | Hex]; [eexists; split; vm_compute; reflexivity|]).
  by apply Exists_nil in Hex.
Qed.

Lemma str_getitem_invalid (s : string) (i : Z) :
  ¬ (- Z.of_nat (String.length s) ≤ i < Z.of_nat (String.length s)) →
  str_getitem s i = Raise (IndexError "string index out of range").
Proof.
  intros Hi. unfold str_getitem. cbv zeta.
  destruct (i <? 0) eqn:E; [apply Z.ltb_lt in E | apply Z.ltb_ge in E].
  - destruct (0 <=? i + _) eqn:E1; [apply Z.leb_le in E1; lia | done].
  - destruct (i <? _) eqn:E2; [apply Z.ltb_lt in E2; lia|].
    by rewrite andb_false_r.
Qed.

Lemma ax_str_snoc (ts : list Z) (t : Z) :
  ax_str (ts ++ [t]) = ax_str ts +:+ String (if t =? 1 then "R"%char else "L"%char) "".
Proof. induction ts as [|t' ts IH]; simpl; [done|]. by rewrite IH. Qed.

Lemma ax_step_valid (cs : list ascii) (ts : list Z) (i : Z) :
  ax_valid i →
  make_output_seq_step (mkAXState (ax_outer cs) (ax_inner cs) (ax_str ts)) i
  = Ok (mkAXState (ax_outer (cs ++ [ax_symbol i])) (ax_inner (cs ++ [ax_symbol i]))
          (ax_str (ts ++ [ax_target cs (ax_symbol i)]))).
Proof.
  intros Hi. destruct (str_getitem_input_classes i Hi) as (c & Hc & Hin).
  unfold make_output_seq_step, ax_symbol. rewrite Hc. cbn [outer_state inner_state output_seq_str].
  rewrite ax_str_snoc. unfold ax_outer, ax_inner. rewrite !last_of_snoc.
  unfold ax_target.
  destruct (last_of "12" cs) as [o|] eqn:Ho.
  - pose proof (has_char_cases _ _ (last_of_in _ _ _ Ho)) as Hoc. vm_compute in Hoc.
    destruct (last_of "ABXY" cs) as [n|] eqn:Hn.
    + pose proof (has_char_cases _ _ (last_of_in _ _ _ Hn)) as Hnc. vm_compute in Hnc.
      apply has_char_cases in Hin. vm_compute in Hin.
      repeat (apply Exists_cons in Hin as [-> | Hin]);
        try (by apply Exists_nil in Hin);
        repeat (apply Exists_cons in Hoc as [-> | Hoc]);
        try (by apply Exists_nil in Hoc);
        repeat (apply Exists_cons in Hnc as [-> | Hnc]);
        try (by apply Exists_nil in Hnc); vm_compute; reflexivity.
    + apply has_char_cases in Hin. vm_compute in Hin.
      repeat (apply Exists_cons in Hin as [-> | Hin]);
        try (by apply Exists_nil in Hin);
        repeat (apply Exists_cons in Hoc as [-> | Hoc]);
        try (by apply Exists_nil in Hoc); vm_compute; reflexivity.
  - destruct (last_of "ABXY" cs) as [n|] eqn:Hn.
    + pose proof (has_char_cases _ _ (last_of_in _ _ _ Hn)) as Hnc. vm_compute in Hnc.
      apply has_char_cases in Hin. vm_compute in Hin.
      repeat (apply Exists_cons in Hin as [-> | Hin]);
        try (by apply Exists_nil in Hin);
        repeat (apply Exists_cons in Hnc as [-> | Hnc]);
        try (by apply Exists_nil in Hnc); vm_compute; reflexivity.
    + apply has_char_cases in Hin. vm_compute in Hin.
      repeat (apply Exists_cons in Hin as [-> | Hin]);
        try (by apply Exists_nil in Hin); vm_compute; reflexivity.
Qed.

Lemma ax_loop_valid (rest : list Z) (cs : list ascii) (ts : list Z) :
  Forall ax_valid rest →
  make_output_seq_loop (mkAXState (ax_outer cs) (ax_inner cs) (ax_str ts)) rest
  = Ok (mkAXState (ax_outer (cs ++ map ax_symbol rest))
          (ax_inner (cs ++ map ax_symbol rest))
          (ax_str (ts ++ ax_targets cs rest))).
Proof.
  revert cs ts. induction rest as [|i rest IH]; intros cs ts Hall; simpl.
  - by rewrite !app_nil_r.
  - apply Forall_cons in Hall as [Hi Hall].
    rewrite (ax_step_valid cs ts i Hi), (IH _ _ Hall).
    by rewrite <- !app_assoc.
Qed.

Lemma ax_loop_invalid (rest : list Z) (st : AXState) :
  ¬ Forall ax_valid rest →
  make_output_seq_loop st rest = Raise (IndexError "string index out of range").
Proof.
  revert st. induction rest as [|i rest IH]; intros st Hn; simpl.
  - destruct Hn. constructor.
  - unfold make_output_seq_step.
    destruct (decide (ax_valid i)) as [Hi|Hi].
    + destruct (str_getitem_input_classes i Hi) as (c & -> & _).
      assert (¬ Forall ax_valid rest) as Hrest.
      { intros Hr. apply Hn. by constructor. }
      destruct (has_char c "12"); [by apply IH|].
      destruct (has_char c "AB"); [by apply IH|].
      destruct (has_char c "XY"); by apply IH.
    + rewrite str_getitem_invalid; [done|]. exact Hi.
Qed.

Lemma ax_target_01 (cs : list ascii) (c : ascii) :
  ax_target cs c = 0 ∨ ax_target cs c = 1.
Proof.
  unfold ax_target.
  repeat match goal with
         | |- context [match ?x with _ => _ end] => destruct x
         end; auto.
Qed.

Lemma ax_targets_01 (rest : list Z) (cs : list ascii) :
  Forall (λ t, t = 0 ∨ t = 1) (ax_targets cs rest).
Proof.
  revert cs. induction rest as [|i rest IH]; intros cs; simpl; constructor;
    [apply ax_target_01 | apply IH].
Qed.

Lemma ax_str_index (ts : list Z) :
  Forall (λ t, t = 0 ∨ t = 1) ts →
  str_map_m (str_index _output_classes) (ax_str ts) = Ok ts.
Proof.
  induction 1 as [|t ts [-> | ->] _ IH]; [done| |].
  - change (str_map_m (str_index _output_classes) (ax_str (0 :: ts)))
      with (match str_map_m (str_index _output_classes) (ax_str ts) with
            | Raise e => Raise e | Ok l => Ok (0 :: l) end).
    by rewrite IH.
  - change (str_map_m (str_index _output_classes) (ax_str (1 :: ts)))
      with (match str_map_m (str_index _output_classes) (ax_str ts) with
            | Raise e => Raise e | Ok l => Ok (1 :: l) end).
    by rewrite IH.
Qed.

Lemma ax_targets_length (rest : list Z) (cs : list ascii) :
  length (ax_targets cs rest) = length rest.
Proof. revert cs. induction rest as [|i rest IH]; intros cs; simpl; [done|]. by rewrite IH. Qed.

Lemma ax_targets_lookup (rest : list Z) (cs : list ascii) (k : nat) (i : Z) :
  rest !! k = Some i →
  ax_targets cs rest !! k
  = Some (ax_target (cs ++ map ax_symbol (take k rest)) (ax_symbol i)).
Proof.
  revert cs k. induction rest as [|j rest IH]; intros cs k Hk; [done|].
  destruct k as [|k]; simpl in *.
  - injection Hk as ->. by rewrite app_nil_r.
  - rewrite (IH _ _ Hk). by rewrite <- app_assoc.
Qed.

Lemma ax_targets_app (a b : list Z) (cs : list ascii) :
  ax_targets cs (a ++ b) = ax_targets cs a ++ ax_targets (cs ++ map ax_symbol a) b.
Proof.
  revert cs. induction a as [|i a IH]; intros cs; simpl.
  - by rewrite app_nil_r.
  - rewrite IH. by rewrite <- app_assoc.
Qed.

Lemma make_output_seq_valid (input_seq : list Z) :
  Forall ax_valid input_seq → make_output_seq input_seq = Ok (ax_targets [] input_seq).
Proof.
  intros Hall. unfold make_output_seq.
  pose proof (ax_loop_valid input_seq [] [] Hall) as Hloop.
  change (ax_outer []) with "" in Hloop at 1.
  change (ax_inner []) with "" in Hloop at 1.
  change (ax_str []) with "" in Hloop at 1.
  rewrite Hloop. cbn [output_seq_str app]. apply ax_str_index, ax_targets_01.
Qed.

#[local] Instance ax_valid_dec (i : Z) : Decision (ax_valid i).
Proof. unfold ax_valid. apply _. Defined.

(** [make_output_seq] on class indices from -9 up to 8 (a negative index
    counts from the last class) returns one target per symbol: 1 (R) at an X
    when the last 1 or 2 before it is a 1 and the last of A, B, X, Y before it
    is an A, and at a Y after a 2 and a B in the same way, else 0 (L). Any
    other index in the input makes it raise an IndexError. A target depends
    on the symbols up to its own only: the targets of a prefix are a prefix
    of the targets. *)
Theorem make_output_seq_spec (input_seq : list Z) :
  (Forall ax_valid input_seq →
   ∃ out, make_output_seq input_seq = Ok out ∧
          length out = length input_seq ∧
          ∀ k i, input_seq !! k = Some i →
                 out !! k = Some (ax_target (map ax_symbol (take k input_seq))
                                    (ax_symbol i))) ∧
  (¬ Forall ax_valid input_seq →
   make_output_seq input_seq = Raise (IndexError "string index out of range")) ∧
  (∀ more out, make_output_seq (input_seq ++ more) = Ok out →
               make_output_seq input_seq = Ok (take (length input_seq) out)).
Proof.
  split; [|split].
  - intros Hall. exists (ax_targets [] input_seq). split; [by apply make_output_seq_valid|].
    split; [apply ax_targets_length|].
    intros k i Hk. by rewrite (ax_targets_lookup _ [] k i Hk).
  - intros Hn. unfold make_output_seq. by rewrite ax_loop_invalid.
  - intros more out Hout.
    destruct (decide (Forall ax_valid (input_seq ++ more))) as [Hall|Hn].
    + rewrite (make_output_seq_valid _ Hall) in Hout. injection Hout as <-.
      apply Forall_app in Hall as [Hall _].
      rewrite (make_output_seq_valid _ Hall), ax_targets_app.
      by rewrite take_app_length' by (symmetry; apply ax_targets_length).
    + unfold make_output_seq in Hout. by rewrite ax_loop_invalid in Hout.
Qed.

(** The sequence 1 A 3 X, B X, 2 B Y, with the last class given as -2 (Y):
    the first X and the Y are targets, the second X is not. *)
Lemma make_output_seq_witness :
  let input_seq := [0; 3; 2; 6; 4; 6; 1; 4; -2] in
  Forall ax_valid input_seq ∧
  ∃ out, make_output_seq input_seq = Ok out ∧ length out = 9%nat ∧
         out !! 3%nat = Some 1 ∧ out !! 5%nat = Some 0 ∧ out !! 8%nat = Some 1.
Proof.
  intros input_seq.
  assert (Forall ax_valid input_seq) as Hall
    by (repeat constructor; unfold ax_valid; lia).
  split; [exact Hall|].
  destruct (make_output_seq_spec input_seq) as [H _].
  destruct (H Hall) as (out & Hout & Hlen & Hk).
  exists out. split; [exact Hout|]. split; [exact Hlen|].
  split; [|split].
  - exact (Hk 3%nat 6 eq_refl).
  - exact (Hk 5%nat 6 eq_refl).
  - exact (Hk 8%nat (-2) eq_refl).
Defined.

(** * The buffer of a generating dataset *)

Lemma seqZ_drop (e : Z) (n k : nat) :
  drop k (seqZ e (Z.of_nat n)) = seqZ (e + Z.of_nat k) (Z.of_nat n - Z.of_nat k).
Proof.
  destruct (decide (k ≤ n)%nat) as [Hk|Hk].
  - replace (Z.of_nat n) with (Z.of_nat k + (Z.of_nat n - Z.of_nat k)) at 1 by lia.
    rewrite seqZ_app by lia.
    rewrite drop_app_length'; [done|]. rewrite length_seqZ. lia.
  - rewrite drop_ge by (rewrite length_seqZ; lia). by rewrite seqZ_nil by lia.
Qed.

Section GeneratingDatasetSpec.
Context {DatasetSeq World : Type}.
Variable seq_idx : DatasetSeq → Z.
Variable num_frames : DatasetSeq → Z.
Variable generate_seq : Z → World → Result DatasetSeq * World.

(** A subclass's [generate_seq] gives the sequence the index it was asked
    for, as [Task12AXDataset.generate_seq] does. *)
Hypothesis generate_seq_idx :
  ∀ i w d w', generate_seq i w = (Ok d, w') → seq_idx d = i.

Lemma consecutive_cons (d : DatasetSeq) (l : list DatasetSeq) (e : Z) :
  map seq_idx (d :: l) = seqZ e (Z.of_nat (length (d :: l))) →
  seq_idx d = e ∧ map seq_idx l = seqZ (Z.succ e) (Z.of_nat (length l)).
Proof.
  intros H. rewrite seqZ_cons in H by (simpl length; lia).
  replace (Z.pred (Z.of_nat (length (d :: l)))) with (Z.of_nat (length l)) in H
    by (simpl length; lia).
  by injection H.
Qed.

Lemma get_seq_loop_consecutive (l : list DatasetSeq) (e i : Z) :
  map seq_idx l = seqZ e (Z.of_nat (length l)) →
  _get_seq_loop seq_idx l i
  = if bool_decide (e ≤ i < e + Z.of_nat (length l)) then l !! Z.to_nat (i - e) else None.
Proof.
  revert e. induction l as [|d l IH]; intros e Hl.
  - simpl. case_bool_decide; [lia|done].
  - apply consecutive_cons in Hl as [Hd Hl].
    simpl _get_seq_loop. rewrite (IH _ Hl). rewrite Hd.
    destruct (e =? i) eqn:E; [apply Z.eqb_eq in E | apply Z.eqb_neq in E].
    + subst i. rewrite bool_decide_eq_true_2 by (simpl length; lia).
      by replace (e - e) with 0 by lia.
    + case_bool_decide as H1; case_bool_decide as H2; simpl length in *; try lia; [|done].
      replace (Z.to_nat (i - e)) with (S (Z.to_nat (i - Z.succ e))) by lia. done.
Qed.

Lemma get_seq_loop_idx (l : list DatasetSeq) (i : Z) (d : DatasetSeq) :
  _get_seq_loop seq_idx l i = Some d → seq_idx d = i ∧ d ∈ l.
Proof.
  induction l as [|d' l IH]; simpl; [done|].
  destruct (seq_idx d' =? i) eqn:E.
  - intros [= ->]. apply Z.eqb_eq in E. split; [done|]. by left.
  - intros H. destruct (IH H). split; [done|]. by right.
Qed.

Lemma cleanup_loop_consecutive (l : list DatasetSeq) (e start : Z) :
  map seq_idx l = seqZ e (Z.of_nat (length l)) → e ≤ start →
  _cleanup_old_seqs_loop seq_idx l start = (length l `min` Z.to_nat (start - e))%nat.
Proof.
  revert e. induction l as [|d l IH]; intros e Hl He; [done|].
  apply consecutive_cons in Hl as [Hd Hl].
  simpl. rewrite Hd.
  destruct (start <=? e) eqn:E; [apply Z.leb_le in E | apply Z.leb_gt in E].
  - replace (start - e) with 0 by lia. done.
  - rewrite (IH _ Hl) by lia.
    replace (Z.to_nat (start - e)) with (S (Z.to_nat (start - Z.succ e))) by lia. done.
Qed.

Lemma generate_seqs_idx (idxs : list Z) (w : World) (ds : list DatasetSeq) (w' : World) :
  generate_seqs generate_seq idxs w = (Ok ds, w') → map seq_idx ds = idxs.
Proof.
  revert w ds w'. induction idxs as [|i idxs IH]; intros w ds w'; simpl.
  - by intros [= <- _].
  - destruct (generate_seq i w) as [[d|e] w1] eqn:E; [|done].
    destruct (generate_seqs generate_seq idxs w1) as [[ds'|e] w2] eqn:E'; [|done].
    intros [= <- _]. simpl. by rewrite (generate_seq_idx _ _ _ _ E), (IH _ _ _ E').
Qed.

Lemma last_consecutive (l : list DatasetSeq) (e : Z) (d : DatasetSeq) :
  map seq_idx l = seqZ e (Z.of_nat (length l)) →
  last l = Some d → seq_idx d = e + Z.of_nat (length l) - 1.
Proof.
  intros Hl Hd. apply last_Some in Hd as [l' ->].
  rewrite length_app in Hl. simpl in Hl.
  replace (Z.of_nat (length l' + 1)) with (Z.of_nat (S (length l'))) in Hl by lia.
  rewrite seqZ_S, map_app in Hl. simpl in Hl.
  apply app_inj_2 in Hl as [_ [= ->]]; [|done].
  rewrite length_app. simpl. lia.
Qed.

(** [_load_seqs start end] refuses a [start] before the one it expects and
    then changes nothing. Otherwise, on a buffer of consecutive sequences
    from the expected start on, and whether or not generating raises: the
    buffer is one of consecutive sequences from [start] on; the sequences
    before [start] are gone; a sequence from [start] on that was in the
    buffer is still the one in it (it is not generated again); and the final
    sequence counts as reached from the first call on whose [end] is not
    below the number of sequences. When the call returns, every sequence
    from [start] up to [end] that the dataset has is in the buffer under its
    index. *)
Theorem load_seqs_spec (self : GeneratingDataset DatasetSeq) (start end_ : Z) (w : World) :
  buffer_consecutive seq_idx self →
  let run := _load_seqs seq_idx num_frames generate_seq self start end_ w in
  let self' := run.1.2 in
  (start < expected_load_seq_start self →
   run = (Raise (AssertionError ""), self, w)) ∧
  (expected_load_seq_start self ≤ start →
   buffer_consecutive seq_idx self' ∧
   expected_load_seq_start self' = start ∧
   _num_seqs self' = _num_seqs self ∧
   reached_final_seq self'
   = (reached_final_seq self || ge_num_seqs end_ (_num_seqs self)) ∧
   (∀ i, i < start → _get_seq seq_idx self' i = None) ∧
   (∀ i d, start ≤ i → _get_seq seq_idx self i = Some d →
           _get_seq seq_idx self' i = Some d) ∧
   (run.1.1 = Ok tt →
    ∀ i, start ≤ i < end_ → ge_num_seqs i (_num_seqs self) = false →
         ∃ d, _get_seq seq_idx self' i = Some d ∧ seq_idx d = i)).
Proof.
  intros Hinv run self'. subst self' run. unfold _load_seqs. split.
  - intros Hlt. by rewrite (proj2 (Z.leb_gt _ _) Hlt).
  - intros Hle. rewrite (proj2 (Z.leb_le _ _) Hle). cbn [negb].
    destruct self as [n ts fin e l]. unfold buffer_consecutive in *.
    cbn [expected_load_seq_start added_data _num_seqs _num_timesteps reached_final_seq] in *.
    (* the buffer after the clean-up *)
    set (self1 := if e <? start then _ else _).
    assert (∃ l1, self1 = mkGeneratingDataset n ts fin start l1 ∧
                  map seq_idx l1 = seqZ start (Z.of_nat (length l1)) ∧
                  (∀ i d, start ≤ i → _get_seq_loop seq_idx l i = Some d →
                          _get_seq_loop seq_idx l1 i = Some d))
      as (l1 & -> & Hl1 & Hkeep).
    { subst self1. destruct (e <? start) eqn:E; [apply Z.ltb_lt in E | apply Z.ltb_ge in E].
      - unfold _cleanup_old_seqs.
        cbn [expected_load_seq_start added_data _num_seqs _num_timesteps reached_final_seq].
        rewrite (cleanup_loop_consecutive l e start Hinv Hle).
        set (k := (length l `min` Z.to_nat (start - e))%nat).
        eexists. split; [reflexivity|].
        assert (map seq_idx (drop k l)
                = seqZ (e + Z.of_nat k) (Z.of_nat (length (drop k l)))) as Hdrop.
        { rewrite <- skipn_map, Hinv.
          rewrite seqZ_drop, length_drop. f_equal. lia. }
        split.
        + destruct (decide (length l ≤ Z.to_nat (start - e))%nat) as [Hk|Hk].
          * rewrite drop_ge by lia. done.
          * rewrite Hdrop. f_equal. lia.
        + intros i d Hi Hd.
          rewrite (get_seq_loop_consecutive l e i Hinv) in Hd.
          case_bool_decide as Hr; [|done].
          rewrite (get_seq_loop_consecutive _ _ i Hdrop).
          rewrite length_drop. rewrite bool_decide_eq_true_2 by lia.
          rewrite lookup_drop. rewrite <- Hd. f_equal. lia.
      - assert (e = start) as -> by lia. eexists. split; [reflexivity|]. split; [done|]. auto. }
    cbn [expected_load_seq_start added_data _num_seqs _num_timesteps reached_final_seq].
    (* where generating starts *)
    set (start2 := match last l1 with Some d => _ | None => _ end).
    assert (start2 = start + Z.of_nat (length l1)) as Hstart2.
    { subst start2. destruct (last l1) as [d|] eqn:Hlast.
      - rewrite (last_consecutive l1 start d Hl1 Hlast). lia.
      - apply last_None in Hlast as ->. simpl. lia. }
    clearbody start2. subst start2.
    set (end2 := match n with Finite n0 => _ | Infinite => end_ end).
    assert (ge_num_seqs end2 n = ge_num_seqs end_ n) as Hge.
    { subst end2. destruct n as [n0|]; [|done]. simpl.
      destruct (n0 <? end_) eqn:E; [|done]. apply Z.ltb_lt in E.
      rewrite Z.leb_refl. symmetry. apply Z.leb_le. lia. }
    assert (∀ i, i < end_ → ge_num_seqs i n = false → i < end2) as Hend2.
    { subst end2. intros i Hi Hn. destruct n as [n0|]; [|done]. simpl in *.
      apply Z.leb_gt in Hn. destruct (n0 <? end_); lia. }
    clearbody end2.
    set (self2 := if ge_num_seqs end2 n then _ else _).
    assert (self2 = mkGeneratingDataset n ts (fin || ge_num_seqs end_ n) start l1) as ->.
    { subst self2. rewrite Hge. destruct (ge_num_seqs end_ n); [|by rewrite orb_false_r].
      by rewrite orb_true_r. }
    destruct (generate_seqs generate_seq _ w) as [[seqs|err] w'] eqn:Hgen;
      unfold _get_seq;
      cbn [fst snd expected_load_seq_start added_data _num_seqs _num_timesteps
           reached_final_seq].
    + apply generate_seqs_idx in Hgen. unfold py_range in Hgen.
      assert (map seq_idx (l1 ++ seqs)
              = seqZ start (Z.of_nat (length (l1 ++ seqs)))) as Hnew.
      { rewrite map_app, Hl1, Hgen, length_app, Nat2Z.inj_add.
        rewrite seqZ_app by lia. f_equal.
        rewrite <- (length_map seq_idx seqs), Hgen, length_seqZ.
        destruct (decide (0 ≤ end2 - (start + Z.of_nat (length l1)))).
        - f_equal. lia.
        - rewrite !seqZ_nil by lia. done. }
      split; [exact Hnew|]. split; [done|]. split; [done|]. split; [done|].
      split; [|split].
      * intros i Hi. rewrite (get_seq_loop_consecutive _ _ i Hnew).
        by rewrite bool_decide_eq_false_2 by lia.
      * intros i d Hi Hd. apply Hkeep in Hd; [|done].
        rewrite (get_seq_loop_consecutive _ _ i Hl1) in Hd.
        case_bool_decide as Hr; [|done].
        rewrite (get_seq_loop_consecutive _ _ i Hnew).
        rewrite bool_decide_eq_true_2 by (rewrite length_app; lia).
        rewrite lookup_app_l; [done|]. lia.
      * intros _ i Hi Hn. specialize (Hend2 i (proj2 Hi) Hn).
        assert (i < start + Z.of_nat (length (l1 ++ seqs))) as Hlen.
        { rewrite length_app, Nat2Z.inj_add.
          rewrite <- (length_map seq_idx seqs), Hgen, length_seqZ. lia. }
        destruct ((l1 ++ seqs) !! Z.to_nat (i - start)) as [d|] eqn:Hd.
        2:{ apply lookup_ge_None in Hd. lia. }
        exists d.
        assert (_get_seq_loop seq_idx (l1 ++ seqs) i = Some d) as Hget.
        { rewrite (get_seq_loop_consecutive _ _ i Hnew).
          by rewrite bool_decide_eq_true_2 by lia. }
        split; [exact Hget|]. by apply get_seq_loop_idx in Hget as [? _].
    + split; [exact Hl1|]. split; [done|]. split; [done|]. split; [done|].
      split; [|split].
      * intros i Hi. rewrite (get_seq_loop_consecutive _ _ i Hl1).
        by rewrite bool_decide_eq_false_2 by lia.
      * intros i d Hi Hd. by apply Hkeep.
      * done.
Qed.

End GeneratingDatasetSpec.

Lemma ex_generate_seq_idx (i : Z) (w : nat) (d : Z * Z) (w' : nat) :
  ex_generate_seq i w = (Ok d, w') → d.1 = i.
Proof. by intros [= <- _]. Qed.

(** A dataset of five sequences with the first three in its buffer is asked
    for the sequences 2 to 6: it then holds 2, 3 and 4. *)
Lemma load_seqs_witness :
  buffer_consecutive fst ex_dataset ∧
  ∀ i, 2 ≤ i < 5 →
       ∃ d, _get_seq fst (_load_seqs fst snd ex_generate_seq ex_dataset 2 7 3%nat).1.2 i
            = Some d ∧ d.1 = i.
Proof.
  assert (buffer_consecutive fst ex_dataset) as Hinv by (vm_compute; reflexivity).
  split; [exact Hinv|].
  destruct (load_seqs_spec fst snd ex_generate_seq ex_generate_seq_idx
              ex_dataset 2 7 3%nat Hinv) as [_ H].
  destruct H as (_ & _ & _ & _ & _ & _ & Hget); [vm_compute; discriminate|].
  intros i Hi. apply Hget; [vm_compute; reflexivity | lia |].
  apply Z.leb_gt. lia.
Defined.

(** * The random input of the 12AX task *)

Lemma str_length_app (s t : string) :
  String.length (s +:+ t) = (String.length s + String.length t)%nat.
Proof. induction s as [|c s IH]; simpl; [done|]. by rewrite IH. Qed.

Lemma all_in_app (cls s t : string) :
  all_in cls (s +:+ t) = all_in cls s && all_in cls t.
Proof.
  induction s as [|c s IH]; simpl; [done|]. rewrite IH. by rewrite andb_assoc.
Qed.

Lemma all_in_substring (cls s : string) (n : nat) :
  all_in cls s = true → all_in cls (String.substring 0 n s) = true.
Proof.
  revert n. induction s as [|c s IH]; intros [|n]; simpl; try done.
  intros [Hc Hs]%andb_true_iff. rewrite Hc. simpl. by apply IH.
Qed.

Lemma str_length_substring (s : string) (n : nat) :
  (n ≤ String.length s)%nat → String.length (String.substring 0 n s) = n.
Proof.
  revert n. induction s as [|c s IH]; intros [|n]; simpl; try done; [lia|].
  intros Hn. rewrite IH; [done|lia].
Qed.

Lemma str_index_in (cls : string) (c : ascii) :
  has_char c cls = true →
  ∃ i, str_index cls c = Ok i ∧ 0 ≤ i < Z.of_nat (String.length cls).
Proof.
  induction cls as [|c' cls IH]; simpl; [done|].
  destruct (Ascii.eqb c' c); simpl.
  - intros _. exists 0. split; [done|lia].
  - intros Hc. destruct (IH Hc) as (i & -> & Hi). exists (i + 1). split; [done|lia].
Qed.

Lemma str_map_index_in (cls s : string) :
  all_in cls s = true →
  ∃ l, str_map_m (str_index cls) s = Ok l ∧ length l = String.length s ∧
       Forall (λ i, 0 ≤ i < Z.of_nat (String.length cls)) l.
Proof.
  induction s as [|c s IH]; simpl.
  - intros _. by exists [].
  - intros [Hc Hs]%andb_true_iff.
    destruct (str_index_in cls c Hc) as (i & -> & Hi).
    destruct (IH Hs) as (l & -> & Hlen & Hall).
    exists (i :: l). split; [done|]. split; [simpl; by rewrite Hlen|]. by constructor.
Qed.

Section RandomSpec.
Variable rnd01 : nat → Qc.
Variable pick : nat → nat.

Lemma choice_in (l : list string) (k : nat) : l ≠ [] → choice pick l k ∈ l.
Proof.
  intros Hl. unfold choice. apply list_elem_of_In, nth_In.
  apply Nat.mod_upper_bound. by destruct l.
Qed.

Lemma choice_all_in (cls : string) (l : list string) (k : nat) :
  Forall (λ s, all_in cls s = true) l → all_in cls (choice pick l k) = true.
Proof.
  intros Hall. destruct l as [|x l].
  { unfold choice. by rewrite nth_overflow by (simpl; lia). }
  eapply Forall_forall in Hall; [exact Hall|]. by apply choice_in.
Qed.

Lemma generate_input_seq_inner_in (fuel : nat) (seq : string) (k : nat)
    (seq' : string) (k' : nat) :
  generate_input_seq_inner rnd01 pick fuel seq k = Some (seq', k') →
  all_in _input_classes seq = true →
  all_in _input_classes seq' = true ∧ (String.length seq ≤ String.length seq')%nat.
Proof.
  revert seq k. induction fuel as [|fuel IH]; intros seq k; simpl; [done|].
  case_bool_decide.
  - intros Hrun Hseq. apply IH in Hrun as [Hin Hlen].
    + split; [done|]. rewrite str_length_app in Hlen. lia.
    + rewrite all_in_app, Hseq. simpl. apply choice_all_in.
      vm_compute. repeat constructor.
  - intros [= <- <-] Hseq. done.
Qed.

Lemma generate_input_seq_loop_in (fuel seq_len : nat) (seq : string) (k : nat)
    (seq' : string) (k' : nat) :
  generate_input_seq_loop rnd01 pick fuel seq_len seq k = Some (seq', k') →
  all_in _input_classes seq = true →
  all_in _input_classes seq' = true ∧ (seq_len ≤ String.length seq')%nat.
Proof.
  revert seq k. induction fuel as [|fuel IH]; intros seq k; simpl; [done|].
  destruct (String.length seq <? seq_len)%nat eqn:Hlen.
  - set (s1 := if bool_decide (rnd01 k < _)%Qc then _ else _).
    assert (all_in _input_classes seq = true → all_in _input_classes s1.1 = true) as H1.
    { intros Hseq. unfold s1. case_bool_decide; [|done]. simpl.
      rewrite all_in_app, Hseq. simpl. apply choice_all_in. vm_compute. repeat constructor. }
    destruct s1 as [seq1 k1]. simpl in H1.
    set (s2 := if bool_decide (rnd01 k1 < _)%Qc then _ else _).
    assert (all_in _input_classes seq1 = true → all_in _input_classes s2.1 = true) as H2.
    { intros Hseq. unfold s2. case_bool_decide; [|done]. simpl.
      rewrite all_in_app, Hseq. simpl. apply choice_all_in. vm_compute. repeat constructor. }
    destruct s2 as [seq2 k2]. simpl in H2.
    destruct (generate_input_seq_inner rnd01 pick fuel seq2 k2) as [[seq3 k3]|] eqn:Hinner;
      [|done].
    intros Hrun Hseq. apply IH in Hrun; [done|].
    by apply (generate_input_seq_inner_in _ _ _ _ _ Hinner), H2, H1.
  - intros [= <- <-] Hseq. apply Nat.ltb_ge in Hlen. done.
Qed.

(** Rounds that each add to the sequence. *)
Lemma generate_input_seq_loop_returns (fuel seq_len : nat) (seq : string) (k : nat) :
  (∀ j, Q2Qc (1 # 2) ≤ rnd01 j ∧ rnd01 j < Q2Qc (9 # 10))%Qc →
  (seq_len ≤ String.length seq + fuel)%nat →
  ∃ seq' k', generate_input_seq_loop rnd01 pick (S fuel) seq_len seq k = Some (seq', k').
Proof.
  intros Hrnd. revert seq k. induction fuel as [|fuel IH]; intros seq k Hfuel.
  - cbn [generate_input_seq_loop].
    destruct (String.length seq <? seq_len)%nat eqn:Hlen; [|eauto].
    apply Nat.ltb_lt in Hlen. lia.
  - cbn [generate_input_seq_loop].
    destruct (String.length seq <? seq_len)%nat eqn:Hlen; [|eauto].
    rewrite bool_decide_eq_false_2 by (apply Qcle_not_lt, Hrnd).
    rewrite bool_decide_eq_true_2 by apply Hrnd.
    cbn [generate_input_seq_inner].
    rewrite bool_decide_eq_false_2 by (apply Qcle_not_lt, Hrnd).
    apply IH. rewrite str_length_app.
    assert (1 ≤ String.length (choice pick ["AX"; "BY"] (S (S k))))%nat; [|lia].
    assert (choice pick ["AX"; "BY"] (S (S k)) ∈ ["AX"; "BY"]) as Hin
      by (by apply choice_in).
    apply elem_of_cons in Hin as [->|Hin]; [simpl; lia|].
    apply list_elem_of_singleton in Hin as ->. simpl. lia.
Qed.

(** Rounds that add nothing. *)
Lemma generate_input_seq_loop_stuck (fuel seq_len : nat) (seq : string) (k : nat) :
  (∀ j, Q2Qc (9 # 10) ≤ rnd01 j)%Qc →
  (String.length seq < seq_len)%nat →
  generate_input_seq_loop rnd01 pick fuel seq_len seq k = None.
Proof.
  intros Hrnd Hlen. revert k. induction fuel as [|fuel IH]; intros k; simpl; [done|].
  rewrite (proj2 (Nat.ltb_lt _ _) Hlen).
  assert (∀ j, ¬ (rnd01 j < Q2Qc (1 # 2))%Qc) as Hhalf.
  { intros j Hj. specialize (Hrnd j).
    assert (Q2Qc (1 # 2) < Q2Qc (9 # 10))%Qc by done.
    eapply Qclt_not_le; [|exact Hrnd]. by eapply Qclt_trans. }
  rewrite bool_decide_eq_false_2 by apply Hhalf.
  rewrite bool_decide_eq_false_2 by (apply Qcle_not_lt, Hrnd).
  destruct fuel as [|fuel']; [done|].
  cbn [generate_input_seq_inner].
  rewrite bool_decide_eq_false_2 by apply Hhalf.
  apply IH.
Qed.

(** Whatever is drawn, an input sequence that [generate_input_seq] returns
    has the length asked for and holds class indices from 0 to 8 only, so
    that [make_output_seq] does not raise on it and gives as many targets.
    While every float drawn is at least 0.5 and below 0.9, each round adds
    two symbols and the sequence is returned after [seq_len] rounds at most.
    While every float drawn is 0.9 or more, no round adds a symbol, and a
    sequence that is to be longer than the first choice made is never
    returned. *)
Theorem generate_input_seq_spec (seq_len k : nat) :
  (∀ fuel r k', generate_input_seq rnd01 pick fuel seq_len k = Some (r, k') →
     ∃ input_seq output_seq,
       r = Ok input_seq ∧ length input_seq = seq_len ∧
       Forall (λ i, 0 ≤ i < 9) input_seq ∧
       make_output_seq input_seq = Ok output_seq ∧ length output_seq = seq_len) ∧
  ((∀ j, Q2Qc (1 # 2) ≤ rnd01 j ∧ rnd01 j < Q2Qc (9 # 10))%Qc →
   ∃ r k', generate_input_seq rnd01 pick (S seq_len) seq_len k = Some (r, k')) ∧
  ((∀ j, Q2Qc (9 # 10) ≤ rnd01 j)%Qc →
   (String.length (choice pick [""; "1"; "2"] k) < seq_len)%nat →
   ∀ fuel, generate_input_seq rnd01 pick fuel seq_len k = None).
Proof.
  split; [|split].
  - intros fuel r k' Hrun. unfold generate_input_seq in Hrun.
    destruct (generate_input_seq_loop _ _ _ _ _ _) as [[seq k1]|] eqn:Hloop; [|done].
    injection Hrun as <- <-.
    apply generate_input_seq_loop_in in Hloop as [Hin Hlen].
    2:{ apply choice_all_in. vm_compute. repeat constructor. }
    destruct (str_map_index_in _input_classes (String.substring 0 seq_len seq))
      as (l & Hl & Hllen & Hall); [by apply all_in_substring|].
    rewrite str_length_substring in Hllen by done.
    assert (Forall ax_valid l) as Hvalid.
    { eapply Forall_impl; [exact Hall|]. intros i Hi. unfold ax_valid.
      cbv beta in Hi. change (Z.of_nat (String.length _input_classes)) with 9 in Hi.
      lia. }
    exists l, (ax_targets [] l). split; [done|]. split; [done|].
    split; [exact Hall|]. split; [by apply make_output_seq_valid|].
    by rewrite ax_targets_length.
  - intros Hrnd. unfold generate_input_seq.
    assert (seq_len ≤ String.length (choice pick [""; "1"; "2"] k) + seq_len)%nat
      as Hfuel by lia.
    destruct (generate_input_seq_loop_returns seq_len seq_len
                (choice pick [""; "1"; "2"] k) (S k) Hrnd Hfuel) as (seq & k' & ->).
    eauto.
  - intros Hrnd Hlen fuel. unfold generate_input_seq.
    by rewrite generate_input_seq_loop_stuck.
Qed.

End RandomSpec.

(** With every float drawn 0.7 and every choice the first item, a sequence
    of 4 symbols is returned: A X A X, and its targets. *)
Lemma generate_input_seq_witness :
  (∀ j : nat, Q2Qc (1 # 2) ≤ Q2Qc (7 # 10) ∧ Q2Qc (7 # 10) < Q2Qc (9 # 10))%Qc ∧
  ∃ k', generate_input_seq (λ _, Q2Qc (7 # 10)) (λ _, 0%nat) 5 4 0 = Some (Ok [3; 6; 3; 6], k') ∧
        ∃ output_seq, make_output_seq [3; 6; 3; 6] = Ok output_seq ∧
                      length output_seq = 4%nat.
Proof.
  assert (∀ j : nat, Q2Qc (1 # 2) ≤ Q2Qc (7 # 10) ∧ Q2Qc (7 # 10) < Q2Qc (9 # 10))%Qc
    as Hrnd by done.
  split; [exact Hrnd|].
  destruct (generate_input_seq_spec (λ _, Q2Qc (7 # 10)) (λ _, 0%nat) 4 0)
    as (Hret & Hterm & _).
  destruct (Hterm Hrnd) as (r & k' & Hrun).
  destruct (Hret _ _ _ Hrun) as (input_seq & output_seq & -> & _ & _ & Hout & Hlen).
  exists k'. vm_compute in Hrun. injection Hrun as <- <-.
  split; [vm_compute; reflexivity|]. eauto.
Defined.

(** * Network descriptions from a configuration *)

Lemma append_times_eq {A} (n : nat) (v : A) (l : list A) :
  append_times n v l = l ++ replicate n v.
Proof.
  unfold append_times. induction n as [|n IH]; simpl.
  - by rewrite app_nil_r.
  - rewrite IH, <- app_assoc. f_equal.
    clear IH. induction n as [|n IH]; simpl; [done|]. by rewrite <- IH.
Qed.

Lemma rename_hidden_length (k : nat) (l : list string) :
  length (rename_hidden k l) = length l.
Proof. revert k. induction l as [|x l IH]; intros k; simpl; [done|]. by rewrite IH. Qed.

Lemma rename_hidden_lookup (k : nat) (l : list string) (i : nat) :
  rename_hidden k l !! i
  = (λ name, if String.eqb name "_" then "hidden_" +:+ str_of_nat (k + i) else name)
    <$> l !! i.
Proof.
  revert k i. induction l as [|x l IH]; intros k i; [done|].
  destruct i as [|i]; simpl.
  - by rewrite Nat.add_0_r.
  - rewrite IH. by replace (S k + i)%nat with (k + S i)%nat by lia.
Qed.

Lemma res_map_lookup {A B} (f : A → Result B) (l : list A) (ys : list B) :
  res_map f l = Ok ys →
  length ys = length l ∧ ∀ i x, l !! i = Some x → ∃ y, ys !! i = Some y ∧ f x = Ok y.
Proof.
  revert ys. induction l as [|x l IH]; intros ys; simpl.
  - intros [= <-]. done.
  - destruct (f x) as [y|] eqn:Hy; [|done].
    destruct (res_map f l) as [ys'|]; [|done]. intros [= <-].
    destruct (IH _ eq_refl) as [Hlen Hlook]. split; [simpl; by rewrite Hlen|].
    intros [|i] x'; simpl; [intros [= <-]; eauto | apply Hlook].
Qed.

Section NetworkDescriptionSpec.
Context {Op : Type}.
Variable strtoact : string → Result Op.
Variable hdf5_dimension : string → string → Z.
Variable py_float : string → Result Qc.

(** A description that [from_config] returns has one entry for each hidden
    size, all of one or more, and one dropout rate more than that, which
    takes a dropout list of the configuration that is no longer. The hidden
    layer [i] has the size [i]; the type given for it, else the one type
    given if there is exactly one, else "forward"; and the name given for it
    unless that is "_" or missing, when it is "hidden_" and the index. The
    number of inputs is not zero. A copy of the description can be made and
    is equal to it. *)
Theorem from_config_spec (config : Config) (desc : LayerNetworkDescription Op) :
  from_config strtoact hdf5_dimension py_float config = Ok desc →
  let hidden_size := config_int_list config "hidden_size" in
  hidden_size ≠ [] ∧
  length (hidden_info desc) = length hidden_size ∧
  length (dropout desc) = S (length hidden_size) ∧
  (length (config_list_dropout config) ≤ S (length hidden_size))%nat ∧
  (∀ i n, hidden_size !! i = Some n →
     ∃ acts, hidden_info desc !! i
             = Some (hidden_type_at (config_list config "hidden_type") i, n, acts,
                     hidden_name_at (config_list config "hidden_name") i)) ∧
  num_inputs desc ≠ 0 ∧
  LayerNetworkDescription_copy desc = Ok desc.
Proof.
  intros Hrun hidden_size. unfold from_config in Hrun. subst hidden_size.
  set (hidden_size := config_int_list config "hidden_size") in *. clearbody hidden_size.
  destruct (num_inputs_outputs_from_config _ _) as [[ni no]|] eqn:Hnum; [|done].
  destruct (0 <? length hidden_size)%nat eqn:Hsize; [|done]. apply Nat.ltb_lt in Hsize.
  set (types := config_list config "hidden_type") in *.
  set (names := config_list config "hidden_name") in *.
  destruct (length types <=? length hidden_size)%nat eqn:Htypes; [|done].
  apply Nat.leb_le in Htypes.
  destruct (length names <=? length hidden_size)%nat eqn:Hnames; [|done].
  apply Nat.leb_le in Hnames.
  cbn [negb] in Hrun.
  set (types' := if bool_decide (length types ≠ _) then _ else types) in *.
  set (names' := rename_hidden 0 _) in *.
  set (actfct' := if (_ <? _)%nat then _ else config_list config "activation") in *.
  set (dropout' := if (_ <? _)%nat then _ else config_list_dropout config) in *.
  destruct (res_map (float_of py_float) dropout') as [drop|] eqn:Hdrop; [|done].
  destruct (res_map _ (seq 0 (length hidden_size))) as [info|] eqn:Hinfo; [|done].
  unfold LayerNetworkDescription___init__ in Hrun.
  case_bool_decide as Hlen; [|done]. injection Hrun as <-.
  cbn [hidden_info dropout num_inputs].
  apply res_map_lookup in Hdrop as [Hdroplen _].
  apply res_map_lookup in Hinfo as [Hinfolen Hinfo]. rewrite length_seq in Hinfolen.
  split; [intros E; rewrite E in Hsize; simpl in Hsize; lia|].
  split; [done|]. split; [congruence|].
  split.
  { assert (length dropout' = S (length hidden_size)) as Hd by congruence.
    destruct (decide (length (config_list_dropout config) ≤ S (length hidden_size))%nat)
      as [|Hgt]; [done|].
    exfalso. unfold dropout' in Hd. rewrite (proj2 (Nat.ltb_ge _ _)) in Hd by lia. lia. }
  split; [|split].
  - intros i n Hn. pose proof (lookup_lt_Some _ _ _ Hn) as Hi.
    destruct (Hinfo i i) as (item & Hitem & Hf).
    { by apply lookup_seq_lt. }
    unfold hidden_info_item in Hf.
    destruct (actfct' !! i) as [act|]; [|done].
    match type of Hf with
    | match ?a with _ => _ end = _ => destruct a as [acts|]; [|done]
    end.
    rewrite Hn in Hf.
    assert (types' !! i = Some (hidden_type_at types i)) as Ht.
    { unfold types', hidden_type_at. case_bool_decide as Hne.
      - rewrite append_times_eq. destruct (types !! i) as [t|] eqn:Hti.
        + by rewrite lookup_app_l by by eapply lookup_lt_Some.
        + apply lookup_ge_None in Hti. rewrite lookup_app_r by done.
          rewrite lookup_replicate_2 by lia. done.
      - destruct (types !! i) as [t|] eqn:Hti; [done|].
        apply lookup_ge_None in Hti. lia. }
    assert (names' !! i = Some (hidden_name_at names i)) as Hnm.
    { unfold names', hidden_name_at. rewrite rename_hidden_lookup. simpl.
      case_bool_decide as Hne.
      - rewrite append_times_eq. destruct (names !! i) as [t|] eqn:Hti.
        + rewrite lookup_app_l by (by eapply lookup_lt_Some). by rewrite Hti.
        + apply lookup_ge_None in Hti. rewrite lookup_app_r by done.
          rewrite lookup_replicate_2 by lia. done.
      - destruct (names !! i) as [t|] eqn:Hti; [done|].
        apply lookup_ge_None in Hti. lia. }
    rewrite Ht, Hnm in Hf. injection Hf as <-. eauto.
  - unfold num_inputs_outputs_from_config in Hnum.
    match type of Hnum with
    | match ?r with _ => _ end = _ => destruct r as [[ni' no']|]; [|done]
    end.
    destruct (ni' =? 0) eqn:Hni; [done|]. apply Z.eqb_neq in Hni.
    simpl in Hnum. destruct (no' =? 0); [done|].
    destruct (_ || _); by injection Hnum as <- <-.
  - unfold LayerNetworkDescription_copy, LayerNetworkDescription___init__. simpl.
    by rewrite bool_decide_eq_true_2.
Qed.

End NetworkDescriptionSpec.

Lemma from_config_witness :
  ∃ desc,
    from_config ex_strtoact (λ _ _, 0) ex_py_float ex_config = Ok desc ∧
    num_outputs desc = 11 ∧
    hidden_info desc
    = [("lstm", 100, OneAct ("tanh", "tanh"), "hidden_0");
       ("lstm", 200, ManyActs [("tanh", "tanh"); ("relu", "relu")], "enc");
       ("lstm", 300, OneAct ("logistic", "logistic"), "hidden_2")] ∧
    length (dropout desc) = 4%nat ∧
    LayerNetworkDescription_copy desc = Ok desc.
Proof.
  destruct (from_config ex_strtoact (λ _ _, 0) ex_py_float ex_config) as [desc|] eqn:Hrun;
    [|vm_compute in Hrun; discriminate Hrun].
  exists desc. split; [done|].
  destruct (from_config_spec ex_strtoact (λ _ _, 0) ex_py_float ex_config desc Hrun)
    as (_ & _ & Hdrop & _ & _ & _ & Hcopy).
  vm_compute in Hrun. injection Hrun as <-.
  split; [reflexivity|]. split; [reflexivity|]. split; [exact Hdrop | exact Hcopy].
Defined.
